(** * Geo: level document, editing history and physics step of the engine

    A shallow embedding of the [GameEngine] component (with the [types] and
    [constants] modules it imports and the mode switch of [App]) and the
    properties of its specification.

    Modelling conventions.
    - A JavaScript number is an exact rational [Q]: the rounding of the
      arithmetic on doubles is not modelled.  [NaN] and the infinities
      only appear where the source produces them on purpose and are written
      out as [option].  Strict equality [===] on numbers is [Qeq_bool], so
      statements about numbers use [==].
    - A value that may be [undefined] is an [option]; a JavaScript object whose
      keys may be absent at run time ([TriggerData], [StartPosData] after a
      shallow merge) has one optional field per key.
    - A [Set<string>] is the list of its elements in insertion order, a [Map]
      an association list in insertion order.
    - A history entry is the value [JSON.parse] yields on the stored text.
    - [Math.random], [Math.cos], [Math.sin], [Math.atan2], [Math.PI] and
      [window.innerWidth] are inputs of the model.
    - Canvas drawing and particles are not part of the state. *)

From Stdlib Require Import ZArith QArith Qround Qabs List String Ascii Bool Lia Lqa.
Import ListNotations.
Open Scope Q_scope.

(** ** JavaScript numbers *)

Definition Qltb (x y : Q) : bool := negb (Qle_bool y x).

(** [Math.round]: the nearest integer, halves going up. *)
Definition Math_round (x : Q) : Q := inject_Z (Qfloor (x + 0.5)).

Definition Math_floor (x : Q) : Q := inject_Z (Qfloor x).

Definition Math_abs (x : Q) : Q := Qabs x.

Definition Math_max (x y : Q) : Q := if Qle_bool x y then y else x.

Definition Math_min (x y : Q) : Q := if Qle_bool x y then x else y.

(** Truncation towards zero, and the remainder operator [a % n], whose result
    takes the sign of the dividend. *)
Definition Qtrunc (x : Q) : Z := Z.quot (Qnum x) (Zpos (Qden x)).

Definition js_rem (a n : Q) : Q := a - n * inject_Z (Qtrunc (a / n)).

(** [v || d] on an optional number: [undefined] and [0] both give [d]. *)
Definition num_or (v : option Q) (d : Q) : Q :=
  match v with
  | Some q => if Qeq_bool q 0 then d else q
  | None => d
  end.

(** Truthiness of an optional boolean and of an optional number. *)
Definition truthy (v : option bool) : bool :=
  match v with Some b => b | None => false end.

Definition truthy_num (v : option Q) : bool :=
  match v with Some q => negb (Qeq_bool q 0) | None => false end.

(** ** Sets of strings, in insertion order *)

Definition set_has (s : list string) (k : string) : bool :=
  existsb (String.eqb k) s.

Definition set_add (s : list string) (k : string) : list string :=
  if set_has s k then s else s ++ [k].

Definition set_delete (s : list string) (k : string) : list string :=
  filter (fun k' => negb (String.eqb k k')) s.

(** [Array.prototype.find] and [findIndex]. *)
Definition js_find {A : Type} (f : A -> bool) (l : list A) : option A := find f l.

Fixpoint findIndex {A : Type} (f : A -> bool) (l : list A) : option nat :=
  match l with
  | [] => None
  | a :: l' => if f a then Some O else option_map S (findIndex f l')
  end.

(** [l[i] = v] for an index inside the array. *)
Fixpoint array_set {A : Type} (l : list A) (i : nat) (v : A) : list A :=
  match l, i with
  | [], _ => []
  | _ :: l', O => v :: l'
  | a :: l', S i' => a :: array_set l' i' v
  end.

(** [l.splice(i, 1)]. *)
Fixpoint splice1 {A : Type} (l : list A) (i : nat) : list A :=
  match l, i with
  | [], _ => []
  | _ :: l', O => l'
  | a :: l', S i' => a :: splice1 l' i'
  end.

(** [l.slice(0, e)]: a negative end counts from the end of the array. *)
Definition slice0 {A : Type} (l : list A) (e : Z) : list A :=
  if (e <? 0)%Z then firstn (Z.to_nat (Z.max (Z.of_nat (List.length l) + e) 0)) l
  else firstn (Z.to_nat e) l.

(** [l[i]] with a numeric index: [undefined] outside the array. *)
Definition array_get {A : Type} (l : list A) (i : Z) : option A :=
  if (i <? 0)%Z then None else nth_error l (Z.to_nat i).

(** [Array.prototype.sort] with a comparator, as a stable insertion sort.
    Every sorting procedure yields this result when the comparator is a
    consistent ordering. *)
Fixpoint sort_insert {A : Type} (cmp : A -> A -> Q) (a : A) (l : list A) : list A :=
  match l with
  | [] => [a]
  | b :: l' => if Qltb (cmp a b) 0 then a :: b :: l' else b :: sort_insert cmp a l'
  end.

Definition js_sort {A : Type} (cmp : A -> A -> Q) (l : list A) : list A :=
  fold_left (fun acc a => sort_insert cmp a acc) l [].

(** A [Map] keyed by strings: [set] replaces the value of a present key in
    place and appends a new key. *)
Fixpoint map_set {A : Type} (m : list (string * A)) (k : string) (v : A) : list (string * A) :=
  match m with
  | [] => [(k, v)]
  | (k', v') :: m' => if String.eqb k k' then (k', v) :: m' else (k', v') :: map_set m' k v
  end.

Fixpoint map_get {A : Type} (m : list (string * A)) (k : string) : option A :=
  match m with
  | [] => None
  | (k', v') :: m' => if String.eqb k k' then Some v' else map_get m' k
  end.

Definition map_of_list {A : Type} (l : list (string * A)) : list (string * A) :=
  fold_left (fun m kv => map_set m (fst kv) (snd kv)) l [].

Definition map_values {A : Type} (m : list (string * A)) : list A := map snd m.

(** ** The [types] module *)

Inductive ObjectType : Type :=
  | DELETE | BLOCK | SPIKE | TOOL | PAD | ORB | DECO | PORTAL | TRIGGER | START_POS.

(** The numeric value of each member of the enum. *)
Definition ObjectType_code (t : ObjectType) : Z :=
  match t with
  | DELETE => 0 | BLOCK => 1 | SPIKE => 2 | TOOL => 3 | PAD => 4
  | ORB => 5 | DECO => 6 | PORTAL => 7 | TRIGGER => 8 | START_POS => 9
  end%Z.

Definition ObjectType_eqb (a b : ObjectType) : bool :=
  (ObjectType_code a =? ObjectType_code b)%Z.

Inductive GameMode : Type :=
  | EDITOR | PLAYTEST | PAUSED | VERIFY | VERIFY_PAUSED | COMPLETE.

Definition GameMode_eqb (a b : GameMode) : bool :=
  match a, b with
  | EDITOR, EDITOR | PLAYTEST, PLAYTEST | PAUSED, PAUSED
  | VERIFY, VERIFY | VERIFY_PAUSED, VERIFY_PAUSED | COMPLETE, COMPLETE => true
  | _, _ => false
  end.

Inductive VehicleMode : Type := CUBE | SHIP.

Definition VehicleMode_eqb (a b : VehicleMode) : bool :=
  match a, b with
  | CUBE, CUBE | SHIP, SHIP => true
  | _, _ => false
  end.

(** [p.vehicle === m] where the vehicle may be [undefined]. *)
Definition vehicle_is (v : option VehicleMode) (m : VehicleMode) : bool :=
  match v with Some v' => VehicleMode_eqb v' m | None => false end.

Inductive TriggerTarget : Type :=
  | T_bgColorTop | T_bgColorBottom | T_groundColor | T_lineColor.

(** [LevelSettings].  A colour is a string; a display colour can become
    [undefined] when a trigger without a colour fires. *)
Record LevelSettings : Type := mkSettings {
  bgColorTop : option string;
  bgColorBottom : option string;
  groundColor : option string;
  lineColor : option string;
  startMode : VehicleMode;
  startReverseGravity : option bool
}.

(** [Partial<LevelSettings>]: [None] is an absent key. *)
Record PartialSettings : Type := mkPartialSettings {
  ps_bgColorTop : option string;
  ps_bgColorBottom : option string;
  ps_groundColor : option string;
  ps_lineColor : option string;
  ps_startMode : option VehicleMode;
  ps_startReverseGravity : option bool
}.

(** [TriggerData] as it exists at run time, every key optional. *)
Record TriggerData : Type := mkTriggerData {
  td_target : option TriggerTarget;
  td_color : option string;
  td_duration : option Q;
  td_touchTrigger : option bool
}.

Record StartPosData : Type := mkStartPosData {
  sp_mode : option VehicleMode;
  sp_reverseGravity : option bool;
  sp_enabled : option bool
}.

Record LevelObject : Type := mkObject {
  o_id : string;
  o_x : Q;
  o_y : Q;
  o_type : ObjectType;
  o_subtype : Z;
  o_rotation : option Q;
  o_triggerData : option TriggerData;
  o_startPosData : option StartPosData
}.

Record Camera : Type := mkCamera { cam_x : Q; cam_y : Q; cam_zoom : Q }.

Definition reduceCamera (c : Camera) : Camera :=
  mkCamera (Qred (cam_x c)) (Qred (cam_y c)) (Qred (cam_zoom c)).

Record Point : Type := mkPoint { pt_x : Q; pt_y : Q }.

(** The [ColorEffect] interface of the engine; [startTime] is a frame count. *)
Record ColorEffect : Type := mkEffect {
  eff_target : option TriggerTarget;
  eff_startColor : option string;
  eff_endColor : option string;
  eff_startTime : Z;
  eff_duration : Q
}.

(** What [JSON.parse] yields on a history entry: a bare array of objects (the
    legacy form), an object with [objects] and [settings], another value, or
    nothing because the text does not parse. *)
Inductive StateJson : Type :=
  | JsonArray (objects : list LevelObject)
  | JsonState (settings : LevelSettings) (objects : list LevelObject)
  | JsonOther
  | JsonInvalid.

(** The argument of [setLevel], of type [any]. *)
Inductive LevelInput : Type :=
  | InArray (objects : list LevelObject)
  | InObject (objects : list LevelObject) (settings : option PartialSettings)
  | InOther.

(** The parts of a mouse event and of a keyboard event the engine reads;
    [ctrlKey] stands for [e.ctrlKey || e.metaKey]. *)
Record MouseEvt : Type := mkMouseEvt {
  clientX : Q;
  clientY : Q;
  shiftKey : bool;
  button : Z
}.

Record KeyEvt : Type := mkKeyEvt {
  code : string;
  k_ctrlKey : bool;
  k_shiftKey : bool;
  k_repeat : bool
}.

(** The [Player] interface of the types module (the field [mirrored] is never written by the engine).  A number is stored in lowest terms, which leaves its value as it is. *)
Record Player : Type := mkPlayer {
  p_x : Q;
  p_y : Q;
  p_w : Q;
  p_h : Q;
  p_vx : Q;
  p_vy : Q;
  p_rotation : Q;
  p_onGround : bool;
  p_dead : bool;
  p_finished : bool;
  p_vehicle : option VehicleMode;
  p_gravityReversed : bool
}.

Definition set_p_x (v : Q) (p : Player) : Player :=
  mkPlayer (Qred v) (p_y p) (p_w p) (p_h p) (p_vx p) (p_vy p) (p_rotation p) (p_onGround
    p) (p_dead p) (p_finished p) (p_vehicle p) (p_gravityReversed p).
Definition set_p_y (v : Q) (p : Player) : Player :=
  mkPlayer (p_x p) (Qred v) (p_w p) (p_h p) (p_vx p) (p_vy p) (p_rotation p) (p_onGround
    p) (p_dead p) (p_finished p) (p_vehicle p) (p_gravityReversed p).
Definition set_p_w (v : Q) (p : Player) : Player :=
  mkPlayer (p_x p) (p_y p) (Qred v) (p_h p) (p_vx p) (p_vy p) (p_rotation p) (p_onGround
    p) (p_dead p) (p_finished p) (p_vehicle p) (p_gravityReversed p).
Definition set_p_h (v : Q) (p : Player) : Player :=
  mkPlayer (p_x p) (p_y p) (p_w p) (Qred v) (p_vx p) (p_vy p) (p_rotation p) (p_onGround
    p) (p_dead p) (p_finished p) (p_vehicle p) (p_gravityReversed p).
Definition set_p_vx (v : Q) (p : Player) : Player :=
  mkPlayer (p_x p) (p_y p) (p_w p) (p_h p) (Qred v) (p_vy p) (p_rotation p) (p_onGround
    p) (p_dead p) (p_finished p) (p_vehicle p) (p_gravityReversed p).
Definition set_p_vy (v : Q) (p : Player) : Player :=
  mkPlayer (p_x p) (p_y p) (p_w p) (p_h p) (p_vx p) (Qred v) (p_rotation p) (p_onGround
    p) (p_dead p) (p_finished p) (p_vehicle p) (p_gravityReversed p).
Definition set_p_rotation (v : Q) (p : Player) : Player :=
  mkPlayer (p_x p) (p_y p) (p_w p) (p_h p) (p_vx p) (p_vy p) (Qred v) (p_onGround p)
    (p_dead p) (p_finished p) (p_vehicle p) (p_gravityReversed p).
Definition set_p_onGround (v : bool) (p : Player) : Player :=
  mkPlayer (p_x p) (p_y p) (p_w p) (p_h p) (p_vx p) (p_vy p) (p_rotation p) v (p_dead p)
    (p_finished p) (p_vehicle p) (p_gravityReversed p).
Definition set_p_dead (v : bool) (p : Player) : Player :=
  mkPlayer (p_x p) (p_y p) (p_w p) (p_h p) (p_vx p) (p_vy p) (p_rotation p) (p_onGround
    p) v (p_finished p) (p_vehicle p) (p_gravityReversed p).
Definition set_p_finished (v : bool) (p : Player) : Player :=
  mkPlayer (p_x p) (p_y p) (p_w p) (p_h p) (p_vx p) (p_vy p) (p_rotation p) (p_onGround
    p) (p_dead p) v (p_vehicle p) (p_gravityReversed p).
Definition set_p_vehicle (v : option VehicleMode) (p : Player) : Player :=
  mkPlayer (p_x p) (p_y p) (p_w p) (p_h p) (p_vx p) (p_vy p) (p_rotation p) (p_onGround
    p) (p_dead p) (p_finished p) v (p_gravityReversed p).
Definition set_p_gravityReversed (v : bool) (p : Player) : Player :=
  mkPlayer (p_x p) (p_y p) (p_w p) (p_h p) (p_vx p) (p_vy p) (p_rotation p) (p_onGround
    p) (p_dead p) (p_finished p) (p_vehicle p) v.

(** The mutable refs of the [GameEngine] component, gathered in one state.  [loopRunning] tells whether the animation frame callback is still scheduled, [keys] lists the key codes held down, [canvasWidth] and [canvasHeight] are the size the resize handler copies from the window, [deathTimers] counts the deferred callbacks of [die] not yet run. *)
Record Engine : Type := mkEngine {
  levelData : list LevelObject;
  levelSettings : LevelSettings;
  displaySettings : LevelSettings;
  selectedObjects : list string;
  isPastedSelection : bool;
  clipboard : list LevelObject;
  trail : list Point;
  deathMarkers : list Point;
  activeEffects : list ColorEffect;
  triggeredIds : list string;
  usedObjectIds : list string;
  history : list StateJson;
  historyIndex : Z;
  player : Player;
  activeFloorY : Q;
  activeCeilingY : Q;
  targetFloorY : Q;
  targetCeilingY : Q;
  camera : Camera;
  prevInputState : bool;
  hasInputUsed : bool;
  boxSelectStart : option Point;
  finishWallX : Q;
  isSuckedIntoWall : bool;
  modeRef : GameMode;
  selectedToolRef : ObjectType * Z;
  frameCount : Z;
  pendingReset : bool;
  lastToolRotation : Q;
  lastDeletePos : option Point;
  loopRunning : bool;
  keys : list string;
  mouseX : Q;
  mouseY : Q;
  mouseIsDown : bool;
  mouseIsRightDown : bool;
  canvasWidth : Q;
  canvasHeight : Q;
  deathTimers : nat
}.

Definition set_levelData (v : list LevelObject) (e : Engine) : Engine :=
  mkEngine v (levelSettings e) (displaySettings e) (selectedObjects e)
    (isPastedSelection e) (clipboard e) (trail e) (deathMarkers e) (activeEffects e)
    (triggeredIds e) (usedObjectIds e) (history e) (historyIndex e) (player e)
    (activeFloorY e) (activeCeilingY e) (targetFloorY e) (targetCeilingY e) (camera e)
    (prevInputState e) (hasInputUsed e) (boxSelectStart e) (finishWallX e)
    (isSuckedIntoWall e) (modeRef e) (selectedToolRef e) (frameCount e) (pendingReset e)
    (lastToolRotation e) (lastDeletePos e) (loopRunning e) (keys e) (mouseX e) (mouseY
    e) (mouseIsDown e) (mouseIsRightDown e) (canvasWidth e) (canvasHeight e)
    (deathTimers e).
Definition set_levelSettings (v : LevelSettings) (e : Engine) : Engine :=
  mkEngine (levelData e) v (displaySettings e) (selectedObjects e) (isPastedSelection e)
    (clipboard e) (trail e) (deathMarkers e) (activeEffects e) (triggeredIds e)
    (usedObjectIds e) (history e) (historyIndex e) (player e) (activeFloorY e)
    (activeCeilingY e) (targetFloorY e) (targetCeilingY e) (camera e) (prevInputState e)
    (hasInputUsed e) (boxSelectStart e) (finishWallX e) (isSuckedIntoWall e) (modeRef e)
    (selectedToolRef e) (frameCount e) (pendingReset e) (lastToolRotation e)
    (lastDeletePos e) (loopRunning e) (keys e) (mouseX e) (mouseY e) (mouseIsDown e)
    (mouseIsRightDown e) (canvasWidth e) (canvasHeight e) (deathTimers e).
Definition set_displaySettings (v : LevelSettings) (e : Engine) : Engine :=
  mkEngine (levelData e) (levelSettings e) v (selectedObjects e) (isPastedSelection e)
    (clipboard e) (trail e) (deathMarkers e) (activeEffects e) (triggeredIds e)
    (usedObjectIds e) (history e) (historyIndex e) (player e) (activeFloorY e)
    (activeCeilingY e) (targetFloorY e) (targetCeilingY e) (camera e) (prevInputState e)
    (hasInputUsed e) (boxSelectStart e) (finishWallX e) (isSuckedIntoWall e) (modeRef e)
    (selectedToolRef e) (frameCount e) (pendingReset e) (lastToolRotation e)
    (lastDeletePos e) (loopRunning e) (keys e) (mouseX e) (mouseY e) (mouseIsDown e)
    (mouseIsRightDown e) (canvasWidth e) (canvasHeight e) (deathTimers e).
Definition set_selectedObjects (v : list string) (e : Engine) : Engine :=
  mkEngine (levelData e) (levelSettings e) (displaySettings e) v (isPastedSelection e)
    (clipboard e) (trail e) (deathMarkers e) (activeEffects e) (triggeredIds e)
    (usedObjectIds e) (history e) (historyIndex e) (player e) (activeFloorY e)
    (activeCeilingY e) (targetFloorY e) (targetCeilingY e) (camera e) (prevInputState e)
    (hasInputUsed e) (boxSelectStart e) (finishWallX e) (isSuckedIntoWall e) (modeRef e)
    (selectedToolRef e) (frameCount e) (pendingReset e) (lastToolRotation e)
    (lastDeletePos e) (loopRunning e) (keys e) (mouseX e) (mouseY e) (mouseIsDown e)
    (mouseIsRightDown e) (canvasWidth e) (canvasHeight e) (deathTimers e).
Definition set_isPastedSelection (v : bool) (e : Engine) : Engine :=
  mkEngine (levelData e) (levelSettings e) (displaySettings e) (selectedObjects e) v
    (clipboard e) (trail e) (deathMarkers e) (activeEffects e) (triggeredIds e)
    (usedObjectIds e) (history e) (historyIndex e) (player e) (activeFloorY e)
    (activeCeilingY e) (targetFloorY e) (targetCeilingY e) (camera e) (prevInputState e)
    (hasInputUsed e) (boxSelectStart e) (finishWallX e) (isSuckedIntoWall e) (modeRef e)
    (selectedToolRef e) (frameCount e) (pendingReset e) (lastToolRotation e)
    (lastDeletePos e) (loopRunning e) (keys e) (mouseX e) (mouseY e) (mouseIsDown e)
    (mouseIsRightDown e) (canvasWidth e) (canvasHeight e) (deathTimers e).
Definition set_clipboard (v : list LevelObject) (e : Engine) : Engine :=
  mkEngine (levelData e) (levelSettings e) (displaySettings e) (selectedObjects e)
    (isPastedSelection e) v (trail e) (deathMarkers e) (activeEffects e) (triggeredIds
    e) (usedObjectIds e) (history e) (historyIndex e) (player e) (activeFloorY e)
    (activeCeilingY e) (targetFloorY e) (targetCeilingY e) (camera e) (prevInputState e)
    (hasInputUsed e) (boxSelectStart e) (finishWallX e) (isSuckedIntoWall e) (modeRef e)
    (selectedToolRef e) (frameCount e) (pendingReset e) (lastToolRotation e)
    (lastDeletePos e) (loopRunning e) (keys e) (mouseX e) (mouseY e) (mouseIsDown e)
    (mouseIsRightDown e) (canvasWidth e) (canvasHeight e) (deathTimers e).
Definition set_trail (v : list Point) (e : Engine) : Engine :=
  mkEngine (levelData e) (levelSettings e) (displaySettings e) (selectedObjects e)
    (isPastedSelection e) (clipboard e) v (deathMarkers e) (activeEffects e)
    (triggeredIds e) (usedObjectIds e) (history e) (historyIndex e) (player e)
    (activeFloorY e) (activeCeilingY e) (targetFloorY e) (targetCeilingY e) (camera e)
    (prevInputState e) (hasInputUsed e) (boxSelectStart e) (finishWallX e)
    (isSuckedIntoWall e) (modeRef e) (selectedToolRef e) (frameCount e) (pendingReset e)
    (lastToolRotation e) (lastDeletePos e) (loopRunning e) (keys e) (mouseX e) (mouseY
    e) (mouseIsDown e) (mouseIsRightDown e) (canvasWidth e) (canvasHeight e)
    (deathTimers e).
Definition set_deathMarkers (v : list Point) (e : Engine) : Engine :=
  mkEngine (levelData e) (levelSettings e) (displaySettings e) (selectedObjects e)
    (isPastedSelection e) (clipboard e) (trail e) v (activeEffects e) (triggeredIds e)
    (usedObjectIds e) (history e) (historyIndex e) (player e) (activeFloorY e)
    (activeCeilingY e) (targetFloorY e) (targetCeilingY e) (camera e) (prevInputState e)
    (hasInputUsed e) (boxSelectStart e) (finishWallX e) (isSuckedIntoWall e) (modeRef e)
    (selectedToolRef e) (frameCount e) (pendingReset e) (lastToolRotation e)
    (lastDeletePos e) (loopRunning e) (keys e) (mouseX e) (mouseY e) (mouseIsDown e)
    (mouseIsRightDown e) (canvasWidth e) (canvasHeight e) (deathTimers e).
Definition set_activeEffects (v : list ColorEffect) (e : Engine) : Engine :=
  mkEngine (levelData e) (levelSettings e) (displaySettings e) (selectedObjects e)
    (isPastedSelection e) (clipboard e) (trail e) (deathMarkers e) v (triggeredIds e)
    (usedObjectIds e) (history e) (historyIndex e) (player e) (activeFloorY e)
    (activeCeilingY e) (targetFloorY e) (targetCeilingY e) (camera e) (prevInputState e)
    (hasInputUsed e) (boxSelectStart e) (finishWallX e) (isSuckedIntoWall e) (modeRef e)
    (selectedToolRef e) (frameCount e) (pendingReset e) (lastToolRotation e)
    (lastDeletePos e) (loopRunning e) (keys e) (mouseX e) (mouseY e) (mouseIsDown e)
    (mouseIsRightDown e) (canvasWidth e) (canvasHeight e) (deathTimers e).
Definition set_triggeredIds (v : list string) (e : Engine) : Engine :=
  mkEngine (levelData e) (levelSettings e) (displaySettings e) (selectedObjects e)
    (isPastedSelection e) (clipboard e) (trail e) (deathMarkers e) (activeEffects e) v
    (usedObjectIds e) (history e) (historyIndex e) (player e) (activeFloorY e)
    (activeCeilingY e) (targetFloorY e) (targetCeilingY e) (camera e) (prevInputState e)
    (hasInputUsed e) (boxSelectStart e) (finishWallX e) (isSuckedIntoWall e) (modeRef e)
    (selectedToolRef e) (frameCount e) (pendingReset e) (lastToolRotation e)
    (lastDeletePos e) (loopRunning e) (keys e) (mouseX e) (mouseY e) (mouseIsDown e)
    (mouseIsRightDown e) (canvasWidth e) (canvasHeight e) (deathTimers e).
Definition set_usedObjectIds (v : list string) (e : Engine) : Engine :=
  mkEngine (levelData e) (levelSettings e) (displaySettings e) (selectedObjects e)
    (isPastedSelection e) (clipboard e) (trail e) (deathMarkers e) (activeEffects e)
    (triggeredIds e) v (history e) (historyIndex e) (player e) (activeFloorY e)
    (activeCeilingY e) (targetFloorY e) (targetCeilingY e) (camera e) (prevInputState e)
    (hasInputUsed e) (boxSelectStart e) (finishWallX e) (isSuckedIntoWall e) (modeRef e)
    (selectedToolRef e) (frameCount e) (pendingReset e) (lastToolRotation e)
    (lastDeletePos e) (loopRunning e) (keys e) (mouseX e) (mouseY e) (mouseIsDown e)
    (mouseIsRightDown e) (canvasWidth e) (canvasHeight e) (deathTimers e).
Definition set_history (v : list StateJson) (e : Engine) : Engine :=
  mkEngine (levelData e) (levelSettings e) (displaySettings e) (selectedObjects e)
    (isPastedSelection e) (clipboard e) (trail e) (deathMarkers e) (activeEffects e)
    (triggeredIds e) (usedObjectIds e) v (historyIndex e) (player e) (activeFloorY e)
    (activeCeilingY e) (targetFloorY e) (targetCeilingY e) (camera e) (prevInputState e)
    (hasInputUsed e) (boxSelectStart e) (finishWallX e) (isSuckedIntoWall e) (modeRef e)
    (selectedToolRef e) (frameCount e) (pendingReset e) (lastToolRotation e)
    (lastDeletePos e) (loopRunning e) (keys e) (mouseX e) (mouseY e) (mouseIsDown e)
    (mouseIsRightDown e) (canvasWidth e) (canvasHeight e) (deathTimers e).
Definition set_historyIndex (v : Z) (e : Engine) : Engine :=
  mkEngine (levelData e) (levelSettings e) (displaySettings e) (selectedObjects e)
    (isPastedSelection e) (clipboard e) (trail e) (deathMarkers e) (activeEffects e)
    (triggeredIds e) (usedObjectIds e) (history e) v (player e) (activeFloorY e)
    (activeCeilingY e) (targetFloorY e) (targetCeilingY e) (camera e) (prevInputState e)
    (hasInputUsed e) (boxSelectStart e) (finishWallX e) (isSuckedIntoWall e) (modeRef e)
    (selectedToolRef e) (frameCount e) (pendingReset e) (lastToolRotation e)
    (lastDeletePos e) (loopRunning e) (keys e) (mouseX e) (mouseY e) (mouseIsDown e)
    (mouseIsRightDown e) (canvasWidth e) (canvasHeight e) (deathTimers e).
Definition set_player (v : Player) (e : Engine) : Engine :=
  mkEngine (levelData e) (levelSettings e) (displaySettings e) (selectedObjects e)
    (isPastedSelection e) (clipboard e) (trail e) (deathMarkers e) (activeEffects e)
    (triggeredIds e) (usedObjectIds e) (history e) (historyIndex e) v (activeFloorY e)
    (activeCeilingY e) (targetFloorY e) (targetCeilingY e) (camera e) (prevInputState e)
    (hasInputUsed e) (boxSelectStart e) (finishWallX e) (isSuckedIntoWall e) (modeRef e)
    (selectedToolRef e) (frameCount e) (pendingReset e) (lastToolRotation e)
    (lastDeletePos e) (loopRunning e) (keys e) (mouseX e) (mouseY e) (mouseIsDown e)
    (mouseIsRightDown e) (canvasWidth e) (canvasHeight e) (deathTimers e).
Definition set_activeFloorY (v : Q) (e : Engine) : Engine :=
  mkEngine (levelData e) (levelSettings e) (displaySettings e) (selectedObjects e)
    (isPastedSelection e) (clipboard e) (trail e) (deathMarkers e) (activeEffects e)
    (triggeredIds e) (usedObjectIds e) (history e) (historyIndex e) (player e) (Qred v)
    (activeCeilingY e) (targetFloorY e) (targetCeilingY e) (camera e) (prevInputState e)
    (hasInputUsed e) (boxSelectStart e) (finishWallX e) (isSuckedIntoWall e) (modeRef e)
    (selectedToolRef e) (frameCount e) (pendingReset e) (lastToolRotation e)
    (lastDeletePos e) (loopRunning e) (keys e) (mouseX e) (mouseY e) (mouseIsDown e)
    (mouseIsRightDown e) (canvasWidth e) (canvasHeight e) (deathTimers e).
Definition set_activeCeilingY (v : Q) (e : Engine) : Engine :=
  mkEngine (levelData e) (levelSettings e) (displaySettings e) (selectedObjects e)
    (isPastedSelection e) (clipboard e) (trail e) (deathMarkers e) (activeEffects e)
    (triggeredIds e) (usedObjectIds e) (history e) (historyIndex e) (player e)
    (activeFloorY e) (Qred v) (targetFloorY e) (targetCeilingY e) (camera e)
    (prevInputState e) (hasInputUsed e) (boxSelectStart e) (finishWallX e)
    (isSuckedIntoWall e) (modeRef e) (selectedToolRef e) (frameCount e) (pendingReset e)
    (lastToolRotation e) (lastDeletePos e) (loopRunning e) (keys e) (mouseX e) (mouseY
    e) (mouseIsDown e) (mouseIsRightDown e) (canvasWidth e) (canvasHeight e)
    (deathTimers e).
Definition set_targetFloorY (v : Q) (e : Engine) : Engine :=
  mkEngine (levelData e) (levelSettings e) (displaySettings e) (selectedObjects e)
    (isPastedSelection e) (clipboard e) (trail e) (deathMarkers e) (activeEffects e)
    (triggeredIds e) (usedObjectIds e) (history e) (historyIndex e) (player e)
    (activeFloorY e) (activeCeilingY e) (Qred v) (targetCeilingY e) (camera e)
    (prevInputState e) (hasInputUsed e) (boxSelectStart e) (finishWallX e)
    (isSuckedIntoWall e) (modeRef e) (selectedToolRef e) (frameCount e) (pendingReset e)
    (lastToolRotation e) (lastDeletePos e) (loopRunning e) (keys e) (mouseX e) (mouseY
    e) (mouseIsDown e) (mouseIsRightDown e) (canvasWidth e) (canvasHeight e)
    (deathTimers e).
Definition set_targetCeilingY (v : Q) (e : Engine) : Engine :=
  mkEngine (levelData e) (levelSettings e) (displaySettings e) (selectedObjects e)
    (isPastedSelection e) (clipboard e) (trail e) (deathMarkers e) (activeEffects e)
    (triggeredIds e) (usedObjectIds e) (history e) (historyIndex e) (player e)
    (activeFloorY e) (activeCeilingY e) (targetFloorY e) (Qred v) (camera e)
    (prevInputState e) (hasInputUsed e) (boxSelectStart e) (finishWallX e)
    (isSuckedIntoWall e) (modeRef e) (selectedToolRef e) (frameCount e) (pendingReset e)
    (lastToolRotation e) (lastDeletePos e) (loopRunning e) (keys e) (mouseX e) (mouseY
    e) (mouseIsDown e) (mouseIsRightDown e) (canvasWidth e) (canvasHeight e)
    (deathTimers e).
Definition set_camera (v : Camera) (e : Engine) : Engine :=
  mkEngine (levelData e) (levelSettings e) (displaySettings e) (selectedObjects e)
    (isPastedSelection e) (clipboard e) (trail e) (deathMarkers e) (activeEffects e)
    (triggeredIds e) (usedObjectIds e) (history e) (historyIndex e) (player e)
    (activeFloorY e) (activeCeilingY e) (targetFloorY e) (targetCeilingY e)
    (reduceCamera v) (prevInputState e) (hasInputUsed e) (boxSelectStart e) (finishWallX
    e) (isSuckedIntoWall e) (modeRef e) (selectedToolRef e) (frameCount e) (pendingReset
    e) (lastToolRotation e) (lastDeletePos e) (loopRunning e) (keys e) (mouseX e)
    (mouseY e) (mouseIsDown e) (mouseIsRightDown e) (canvasWidth e) (canvasHeight e)
    (deathTimers e).
Definition set_prevInputState (v : bool) (e : Engine) : Engine :=
  mkEngine (levelData e) (levelSettings e) (displaySettings e) (selectedObjects e)
    (isPastedSelection e) (clipboard e) (trail e) (deathMarkers e) (activeEffects e)
    (triggeredIds e) (usedObjectIds e) (history e) (historyIndex e) (player e)
    (activeFloorY e) (activeCeilingY e) (targetFloorY e) (targetCeilingY e) (camera e) v
    (hasInputUsed e) (boxSelectStart e) (finishWallX e) (isSuckedIntoWall e) (modeRef e)
    (selectedToolRef e) (frameCount e) (pendingReset e) (lastToolRotation e)
    (lastDeletePos e) (loopRunning e) (keys e) (mouseX e) (mouseY e) (mouseIsDown e)
    (mouseIsRightDown e) (canvasWidth e) (canvasHeight e) (deathTimers e).
Definition set_hasInputUsed (v : bool) (e : Engine) : Engine :=
  mkEngine (levelData e) (levelSettings e) (displaySettings e) (selectedObjects e)
    (isPastedSelection e) (clipboard e) (trail e) (deathMarkers e) (activeEffects e)
    (triggeredIds e) (usedObjectIds e) (history e) (historyIndex e) (player e)
    (activeFloorY e) (activeCeilingY e) (targetFloorY e) (targetCeilingY e) (camera e)
    (prevInputState e) v (boxSelectStart e) (finishWallX e) (isSuckedIntoWall e)
    (modeRef e) (selectedToolRef e) (frameCount e) (pendingReset e) (lastToolRotation e)
    (lastDeletePos e) (loopRunning e) (keys e) (mouseX e) (mouseY e) (mouseIsDown e)
    (mouseIsRightDown e) (canvasWidth e) (canvasHeight e) (deathTimers e).
Definition set_boxSelectStart (v : option Point) (e : Engine) : Engine :=
  mkEngine (levelData e) (levelSettings e) (displaySettings e) (selectedObjects e)
    (isPastedSelection e) (clipboard e) (trail e) (deathMarkers e) (activeEffects e)
    (triggeredIds e) (usedObjectIds e) (history e) (historyIndex e) (player e)
    (activeFloorY e) (activeCeilingY e) (targetFloorY e) (targetCeilingY e) (camera e)
    (prevInputState e) (hasInputUsed e) v (finishWallX e) (isSuckedIntoWall e) (modeRef
    e) (selectedToolRef e) (frameCount e) (pendingReset e) (lastToolRotation e)
    (lastDeletePos e) (loopRunning e) (keys e) (mouseX e) (mouseY e) (mouseIsDown e)
    (mouseIsRightDown e) (canvasWidth e) (canvasHeight e) (deathTimers e).
Definition set_finishWallX (v : Q) (e : Engine) : Engine :=
  mkEngine (levelData e) (levelSettings e) (displaySettings e) (selectedObjects e)
    (isPastedSelection e) (clipboard e) (trail e) (deathMarkers e) (activeEffects e)
    (triggeredIds e) (usedObjectIds e) (history e) (historyIndex e) (player e)
    (activeFloorY e) (activeCeilingY e) (targetFloorY e) (targetCeilingY e) (camera e)
    (prevInputState e) (hasInputUsed e) (boxSelectStart e) (Qred v) (isSuckedIntoWall e)
    (modeRef e) (selectedToolRef e) (frameCount e) (pendingReset e) (lastToolRotation e)
    (lastDeletePos e) (loopRunning e) (keys e) (mouseX e) (mouseY e) (mouseIsDown e)
    (mouseIsRightDown e) (canvasWidth e) (canvasHeight e) (deathTimers e).
Definition set_isSuckedIntoWall (v : bool) (e : Engine) : Engine :=
  mkEngine (levelData e) (levelSettings e) (displaySettings e) (selectedObjects e)
    (isPastedSelection e) (clipboard e) (trail e) (deathMarkers e) (activeEffects e)
    (triggeredIds e) (usedObjectIds e) (history e) (historyIndex e) (player e)
    (activeFloorY e) (activeCeilingY e) (targetFloorY e) (targetCeilingY e) (camera e)
    (prevInputState e) (hasInputUsed e) (boxSelectStart e) (finishWallX e) v (modeRef e)
    (selectedToolRef e) (frameCount e) (pendingReset e) (lastToolRotation e)
    (lastDeletePos e) (loopRunning e) (keys e) (mouseX e) (mouseY e) (mouseIsDown e)
    (mouseIsRightDown e) (canvasWidth e) (canvasHeight e) (deathTimers e).
Definition set_modeRef (v : GameMode) (e : Engine) : Engine :=
  mkEngine (levelData e) (levelSettings e) (displaySettings e) (selectedObjects e)
    (isPastedSelection e) (clipboard e) (trail e) (deathMarkers e) (activeEffects e)
    (triggeredIds e) (usedObjectIds e) (history e) (historyIndex e) (player e)
    (activeFloorY e) (activeCeilingY e) (targetFloorY e) (targetCeilingY e) (camera e)
    (prevInputState e) (hasInputUsed e) (boxSelectStart e) (finishWallX e)
    (isSuckedIntoWall e) v (selectedToolRef e) (frameCount e) (pendingReset e)
    (lastToolRotation e) (lastDeletePos e) (loopRunning e) (keys e) (mouseX e) (mouseY
    e) (mouseIsDown e) (mouseIsRightDown e) (canvasWidth e) (canvasHeight e)
    (deathTimers e).
Definition set_selectedToolRef (v : ObjectType * Z) (e : Engine) : Engine :=
  mkEngine (levelData e) (levelSettings e) (displaySettings e) (selectedObjects e)
    (isPastedSelection e) (clipboard e) (trail e) (deathMarkers e) (activeEffects e)
    (triggeredIds e) (usedObjectIds e) (history e) (historyIndex e) (player e)
    (activeFloorY e) (activeCeilingY e) (targetFloorY e) (targetCeilingY e) (camera e)
    (prevInputState e) (hasInputUsed e) (boxSelectStart e) (finishWallX e)
    (isSuckedIntoWall e) (modeRef e) v (frameCount e) (pendingReset e) (lastToolRotation
    e) (lastDeletePos e) (loopRunning e) (keys e) (mouseX e) (mouseY e) (mouseIsDown e)
    (mouseIsRightDown e) (canvasWidth e) (canvasHeight e) (deathTimers e).
Definition set_frameCount (v : Z) (e : Engine) : Engine :=
  mkEngine (levelData e) (levelSettings e) (displaySettings e) (selectedObjects e)
    (isPastedSelection e) (clipboard e) (trail e) (deathMarkers e) (activeEffects e)
    (triggeredIds e) (usedObjectIds e) (history e) (historyIndex e) (player e)
    (activeFloorY e) (activeCeilingY e) (targetFloorY e) (targetCeilingY e) (camera e)
    (prevInputState e) (hasInputUsed e) (boxSelectStart e) (finishWallX e)
    (isSuckedIntoWall e) (modeRef e) (selectedToolRef e) v (pendingReset e)
    (lastToolRotation e) (lastDeletePos e) (loopRunning e) (keys e) (mouseX e) (mouseY
    e) (mouseIsDown e) (mouseIsRightDown e) (canvasWidth e) (canvasHeight e)
    (deathTimers e).
Definition set_pendingReset (v : bool) (e : Engine) : Engine :=
  mkEngine (levelData e) (levelSettings e) (displaySettings e) (selectedObjects e)
    (isPastedSelection e) (clipboard e) (trail e) (deathMarkers e) (activeEffects e)
    (triggeredIds e) (usedObjectIds e) (history e) (historyIndex e) (player e)
    (activeFloorY e) (activeCeilingY e) (targetFloorY e) (targetCeilingY e) (camera e)
    (prevInputState e) (hasInputUsed e) (boxSelectStart e) (finishWallX e)
    (isSuckedIntoWall e) (modeRef e) (selectedToolRef e) (frameCount e) v
    (lastToolRotation e) (lastDeletePos e) (loopRunning e) (keys e) (mouseX e) (mouseY
    e) (mouseIsDown e) (mouseIsRightDown e) (canvasWidth e) (canvasHeight e)
    (deathTimers e).
Definition set_lastToolRotation (v : Q) (e : Engine) : Engine :=
  mkEngine (levelData e) (levelSettings e) (displaySettings e) (selectedObjects e)
    (isPastedSelection e) (clipboard e) (trail e) (deathMarkers e) (activeEffects e)
    (triggeredIds e) (usedObjectIds e) (history e) (historyIndex e) (player e)
    (activeFloorY e) (activeCeilingY e) (targetFloorY e) (targetCeilingY e) (camera e)
    (prevInputState e) (hasInputUsed e) (boxSelectStart e) (finishWallX e)
    (isSuckedIntoWall e) (modeRef e) (selectedToolRef e) (frameCount e) (pendingReset e)
    (Qred v) (lastDeletePos e) (loopRunning e) (keys e) (mouseX e) (mouseY e)
    (mouseIsDown e) (mouseIsRightDown e) (canvasWidth e) (canvasHeight e) (deathTimers
    e).
Definition set_lastDeletePos (v : option Point) (e : Engine) : Engine :=
  mkEngine (levelData e) (levelSettings e) (displaySettings e) (selectedObjects e)
    (isPastedSelection e) (clipboard e) (trail e) (deathMarkers e) (activeEffects e)
    (triggeredIds e) (usedObjectIds e) (history e) (historyIndex e) (player e)
    (activeFloorY e) (activeCeilingY e) (targetFloorY e) (targetCeilingY e) (camera e)
    (prevInputState e) (hasInputUsed e) (boxSelectStart e) (finishWallX e)
    (isSuckedIntoWall e) (modeRef e) (selectedToolRef e) (frameCount e) (pendingReset e)
    (lastToolRotation e) v (loopRunning e) (keys e) (mouseX e) (mouseY e) (mouseIsDown
    e) (mouseIsRightDown e) (canvasWidth e) (canvasHeight e) (deathTimers e).
Definition set_loopRunning (v : bool) (e : Engine) : Engine :=
  mkEngine (levelData e) (levelSettings e) (displaySettings e) (selectedObjects e)
    (isPastedSelection e) (clipboard e) (trail e) (deathMarkers e) (activeEffects e)
    (triggeredIds e) (usedObjectIds e) (history e) (historyIndex e) (player e)
    (activeFloorY e) (activeCeilingY e) (targetFloorY e) (targetCeilingY e) (camera e)
    (prevInputState e) (hasInputUsed e) (boxSelectStart e) (finishWallX e)
    (isSuckedIntoWall e) (modeRef e) (selectedToolRef e) (frameCount e) (pendingReset e)
    (lastToolRotation e) (lastDeletePos e) v (keys e) (mouseX e) (mouseY e) (mouseIsDown
    e) (mouseIsRightDown e) (canvasWidth e) (canvasHeight e) (deathTimers e).
Definition set_keys (v : list string) (e : Engine) : Engine :=
  mkEngine (levelData e) (levelSettings e) (displaySettings e) (selectedObjects e)
    (isPastedSelection e) (clipboard e) (trail e) (deathMarkers e) (activeEffects e)
    (triggeredIds e) (usedObjectIds e) (history e) (historyIndex e) (player e)
    (activeFloorY e) (activeCeilingY e) (targetFloorY e) (targetCeilingY e) (camera e)
    (prevInputState e) (hasInputUsed e) (boxSelectStart e) (finishWallX e)
    (isSuckedIntoWall e) (modeRef e) (selectedToolRef e) (frameCount e) (pendingReset e)
    (lastToolRotation e) (lastDeletePos e) (loopRunning e) v (mouseX e) (mouseY e)
    (mouseIsDown e) (mouseIsRightDown e) (canvasWidth e) (canvasHeight e) (deathTimers
    e).
Definition set_mouseX (v : Q) (e : Engine) : Engine :=
  mkEngine (levelData e) (levelSettings e) (displaySettings e) (selectedObjects e)
    (isPastedSelection e) (clipboard e) (trail e) (deathMarkers e) (activeEffects e)
    (triggeredIds e) (usedObjectIds e) (history e) (historyIndex e) (player e)
    (activeFloorY e) (activeCeilingY e) (targetFloorY e) (targetCeilingY e) (camera e)
    (prevInputState e) (hasInputUsed e) (boxSelectStart e) (finishWallX e)
    (isSuckedIntoWall e) (modeRef e) (selectedToolRef e) (frameCount e) (pendingReset e)
    (lastToolRotation e) (lastDeletePos e) (loopRunning e) (keys e) (Qred v) (mouseY e)
    (mouseIsDown e) (mouseIsRightDown e) (canvasWidth e) (canvasHeight e) (deathTimers
    e).
Definition set_mouseY (v : Q) (e : Engine) : Engine :=
  mkEngine (levelData e) (levelSettings e) (displaySettings e) (selectedObjects e)
    (isPastedSelection e) (clipboard e) (trail e) (deathMarkers e) (activeEffects e)
    (triggeredIds e) (usedObjectIds e) (history e) (historyIndex e) (player e)
    (activeFloorY e) (activeCeilingY e) (targetFloorY e) (targetCeilingY e) (camera e)
    (prevInputState e) (hasInputUsed e) (boxSelectStart e) (finishWallX e)
    (isSuckedIntoWall e) (modeRef e) (selectedToolRef e) (frameCount e) (pendingReset e)
    (lastToolRotation e) (lastDeletePos e) (loopRunning e) (keys e) (mouseX e) (Qred v)
    (mouseIsDown e) (mouseIsRightDown e) (canvasWidth e) (canvasHeight e) (deathTimers
    e).
Definition set_mouseIsDown (v : bool) (e : Engine) : Engine :=
  mkEngine (levelData e) (levelSettings e) (displaySettings e) (selectedObjects e)
    (isPastedSelection e) (clipboard e) (trail e) (deathMarkers e) (activeEffects e)
    (triggeredIds e) (usedObjectIds e) (history e) (historyIndex e) (player e)
    (activeFloorY e) (activeCeilingY e) (targetFloorY e) (targetCeilingY e) (camera e)
    (prevInputState e) (hasInputUsed e) (boxSelectStart e) (finishWallX e)
    (isSuckedIntoWall e) (modeRef e) (selectedToolRef e) (frameCount e) (pendingReset e)
    (lastToolRotation e) (lastDeletePos e) (loopRunning e) (keys e) (mouseX e) (mouseY
    e) v (mouseIsRightDown e) (canvasWidth e) (canvasHeight e) (deathTimers e).
Definition set_mouseIsRightDown (v : bool) (e : Engine) : Engine :=
  mkEngine (levelData e) (levelSettings e) (displaySettings e) (selectedObjects e)
    (isPastedSelection e) (clipboard e) (trail e) (deathMarkers e) (activeEffects e)
    (triggeredIds e) (usedObjectIds e) (history e) (historyIndex e) (player e)
    (activeFloorY e) (activeCeilingY e) (targetFloorY e) (targetCeilingY e) (camera e)
    (prevInputState e) (hasInputUsed e) (boxSelectStart e) (finishWallX e)
    (isSuckedIntoWall e) (modeRef e) (selectedToolRef e) (frameCount e) (pendingReset e)
    (lastToolRotation e) (lastDeletePos e) (loopRunning e) (keys e) (mouseX e) (mouseY
    e) (mouseIsDown e) v (canvasWidth e) (canvasHeight e) (deathTimers e).
Definition set_canvasWidth (v : Q) (e : Engine) : Engine :=
  mkEngine (levelData e) (levelSettings e) (displaySettings e) (selectedObjects e)
    (isPastedSelection e) (clipboard e) (trail e) (deathMarkers e) (activeEffects e)
    (triggeredIds e) (usedObjectIds e) (history e) (historyIndex e) (player e)
    (activeFloorY e) (activeCeilingY e) (targetFloorY e) (targetCeilingY e) (camera e)
    (prevInputState e) (hasInputUsed e) (boxSelectStart e) (finishWallX e)
    (isSuckedIntoWall e) (modeRef e) (selectedToolRef e) (frameCount e) (pendingReset e)
    (lastToolRotation e) (lastDeletePos e) (loopRunning e) (keys e) (mouseX e) (mouseY
    e) (mouseIsDown e) (mouseIsRightDown e) (Qred v) (canvasHeight e) (deathTimers e).
Definition set_canvasHeight (v : Q) (e : Engine) : Engine :=
  mkEngine (levelData e) (levelSettings e) (displaySettings e) (selectedObjects e)
    (isPastedSelection e) (clipboard e) (trail e) (deathMarkers e) (activeEffects e)
    (triggeredIds e) (usedObjectIds e) (history e) (historyIndex e) (player e)
    (activeFloorY e) (activeCeilingY e) (targetFloorY e) (targetCeilingY e) (camera e)
    (prevInputState e) (hasInputUsed e) (boxSelectStart e) (finishWallX e)
    (isSuckedIntoWall e) (modeRef e) (selectedToolRef e) (frameCount e) (pendingReset e)
    (lastToolRotation e) (lastDeletePos e) (loopRunning e) (keys e) (mouseX e) (mouseY
    e) (mouseIsDown e) (mouseIsRightDown e) (canvasWidth e) (Qred v) (deathTimers e).
Definition set_deathTimers (v : nat) (e : Engine) : Engine :=
  mkEngine (levelData e) (levelSettings e) (displaySettings e) (selectedObjects e)
    (isPastedSelection e) (clipboard e) (trail e) (deathMarkers e) (activeEffects e)
    (triggeredIds e) (usedObjectIds e) (history e) (historyIndex e) (player e)
    (activeFloorY e) (activeCeilingY e) (targetFloorY e) (targetCeilingY e) (camera e)
    (prevInputState e) (hasInputUsed e) (boxSelectStart e) (finishWallX e)
    (isSuckedIntoWall e) (modeRef e) (selectedToolRef e) (frameCount e) (pendingReset e)
    (lastToolRotation e) (lastDeletePos e) (loopRunning e) (keys e) (mouseX e) (mouseY
    e) (mouseIsDown e) (mouseIsRightDown e) (canvasWidth e) (canvasHeight e) v.

Definition set_o_id (v : string) (o : LevelObject) : LevelObject :=
  mkObject v (o_x o) (o_y o) (o_type o) (o_subtype o) (o_rotation o) (o_triggerData o) (o_startPosData o).
Definition set_o_x (v : Q) (o : LevelObject) : LevelObject :=
  mkObject (o_id o) v (o_y o) (o_type o) (o_subtype o) (o_rotation o) (o_triggerData o) (o_startPosData o).
Definition set_o_y (v : Q) (o : LevelObject) : LevelObject :=
  mkObject (o_id o) (o_x o) v (o_type o) (o_subtype o) (o_rotation o) (o_triggerData o) (o_startPosData o).
Definition set_o_rotation (v : option Q) (o : LevelObject) : LevelObject :=
  mkObject (o_id o) (o_x o) (o_y o) (o_type o) (o_subtype o) v (o_triggerData o) (o_startPosData o).
Definition set_o_triggerData (v : option TriggerData) (o : LevelObject) : LevelObject :=
  mkObject (o_id o) (o_x o) (o_y o) (o_type o) (o_subtype o) (o_rotation o) v (o_startPosData o).
Definition set_o_startPosData (v : option StartPosData) (o : LevelObject) : LevelObject :=
  mkObject (o_id o) (o_x o) (o_y o) (o_type o) (o_subtype o) (o_rotation o) (o_triggerData o) v.

(** ** The [constants] module *)

Definition TILE_SIZE : Q := 40.
Definition GRAVITY : Q := 0.95.
Definition JUMP_FORCE : Q := -13.8.
Definition PLAYER_SPEED : Q := 6.4.
Definition TERMINAL_VELOCITY : Q := 18.
Definition FLOOR_LEVEL_GRID : Q := 12.
Definition FLOOR_Y : Q := FLOOR_LEVEL_GRID * TILE_SIZE.
Definition SHIP_GRAVITY : Q := 0.4.
Definition SHIP_THRUST : Q := -0.8.
Definition SHIP_TERMINAL_VELOCITY : Q := 10.
Definition PAD_FORCE_PINK : Q := -10.0.
Definition PAD_FORCE_YELLOW : Q := -16.5.
Definition PAD_FORCE_RED : Q := -22.0.
Definition ORB_FORCE_PINK : Q := -9.0.
Definition ORB_FORCE_YELLOW : Q := -15.0.
Definition ORB_FORCE_RED : Q := -21.0.

Definition DEFAULT_LEVEL_SETTINGS : LevelSettings :=
  {| bgColorTop := Some "#004e92"%string;
     bgColorBottom := Some "#000428"%string;
     groundColor := Some "#000000"%string;
     lineColor := Some "#ffffff"%string;
     startMode := CUBE;
     startReverseGravity := Some false |}.

(** ** Object spreads *)

(** The value of a key after [{ ...x, ...y }], where [a] is the key in [x]
    and [b] the key in [y]. *)
Definition spread {A : Type} (a b : option A) : option A :=
  match b with Some _ => b | None => a end.

(** [{ ...s, ...p }] on level settings. *)
Definition mergeSettings (s : LevelSettings) (p : PartialSettings) : LevelSettings :=
  {| bgColorTop := spread (bgColorTop s) (ps_bgColorTop p);
     bgColorBottom := spread (bgColorBottom s) (ps_bgColorBottom p);
     groundColor := spread (groundColor s) (ps_groundColor p);
     lineColor := spread (lineColor s) (ps_lineColor p);
     startMode := match ps_startMode p with Some m => m | None => startMode s end;
     startReverseGravity := spread (startReverseGravity s) (ps_startReverseGravity p) |}.

(** [{ ...a, ...b }] on trigger data; [a] may be [undefined]. *)
Definition mergeTriggerData (a : option TriggerData) (b : TriggerData) : TriggerData :=
  match a with
  | None => b
  | Some a =>
      {| td_target := spread (td_target a) (td_target b);
         td_color := spread (td_color a) (td_color b);
         td_duration := spread (td_duration a) (td_duration b);
         td_touchTrigger := spread (td_touchTrigger a) (td_touchTrigger b) |}
  end.

Definition mergeStartPosData (a : option StartPosData) (b : StartPosData) : StartPosData :=
  match a with
  | None => b
  | Some a =>
      {| sp_mode := spread (sp_mode a) (sp_mode b);
         sp_reverseGravity := spread (sp_reverseGravity a) (sp_reverseGravity b);
         sp_enabled := spread (sp_enabled a) (sp_enabled b) |}
  end.

(** [settings[target]] and [{ ...settings, [target]: color }]; an
    [undefined] target reads [undefined] and writes no colour channel. *)
Definition getColor (s : LevelSettings) (t : option TriggerTarget) : option string :=
  match t with
  | Some T_bgColorTop => bgColorTop s
  | Some T_bgColorBottom => bgColorBottom s
  | Some T_groundColor => groundColor s
  | Some T_lineColor => lineColor s
  | None => None
  end.

Definition setColor (s : LevelSettings) (t : option TriggerTarget) (c : option string) : LevelSettings :=
  match t with
  | Some T_bgColorTop =>
      mkSettings c (bgColorBottom s) (groundColor s) (lineColor s) (startMode s) (startReverseGravity s)
  | Some T_bgColorBottom =>
      mkSettings (bgColorTop s) c (groundColor s) (lineColor s) (startMode s) (startReverseGravity s)
  | Some T_groundColor =>
      mkSettings (bgColorTop s) (bgColorBottom s) c (lineColor s) (startMode s) (startReverseGravity s)
  | Some T_lineColor =>
      mkSettings (bgColorTop s) (bgColorBottom s) (groundColor s) c (startMode s) (startReverseGravity s)
  | None => s
  end.

(** ** Hexadecimal colours: [parseInt(s, 16)] and [n.toString(16)] *)

Definition hexDigit (c : ascii) : option Z :=
  let n := Z.of_nat (nat_of_ascii c) in
  if ((48 <=? n) && (n <=? 57))%Z then Some (n - 48)%Z
  else if ((97 <=? n) && (n <=? 102))%Z then Some (n - 87)%Z
  else if ((65 <=? n) && (n <=? 70))%Z then Some (n - 55)%Z
  else None.

Definition isWhiteSpace (c : ascii) : bool :=
  let n := nat_of_ascii c in
  existsb (Nat.eqb n) [9; 10; 11; 12; 13; 32; 160]%nat.

Fixpoint trimStart (s : string) : string :=
  match s with
  | String c s' => if isWhiteSpace c then trimStart s' else s
  | EmptyString => s
  end.

(** The digits read so far are [acc]; [None] until a digit has been read. *)
Fixpoint hexPrefix (s : string) (acc : option Z) : option Z :=
  match s with
  | String c s' =>
      match hexDigit c with
      | Some d => hexPrefix s' (Some (match acc with Some a => 16 * a + d | None => d end)%Z)
      | None => acc
      end
  | EmptyString => acc
  end.

Definition strip0x (s : string) : string :=
  match s with
  | String "0" (String "x" s') => s'
  | String "0" (String "X" s') => s'
  | _ => s
  end.

(** [parseInt(s, 16)]; [None] is [NaN]. *)
Definition parseInt16 (s : string) : option Q :=
  let s := trimStart s in
  let '(sign, s) :=
    match s with
    | String "-" s' => ((-1)%Z, s')
    | String "+" s' => (1%Z, s')
    | _ => (1%Z, s)
    end in
  option_map (fun n => inject_Z (sign * n)) (hexPrefix (strip0x s) None).

Definition hexChar (d : Z) : ascii :=
  if (d <? 10)%Z then ascii_of_nat (Z.to_nat (48 + d)) else ascii_of_nat (Z.to_nat (87 + d)).

Fixpoint toHex (fuel : nat) (n : Z) (acc : string) : string :=
  match fuel with
  | O => acc
  | S fuel' =>
      let acc := String (hexChar (n mod 16)) acc in
      if (n / 16 =? 0)%Z then acc else toHex fuel' (n / 16) acc
  end.

(** [n.toString(16)] for an integer [n]. *)
Definition toString16 (n : Z) : string :=
  let digits := toHex (S (Z.to_nat (Z.log2 (Z.abs n)))) (Z.abs n) EmptyString in
  if (n <? 0)%Z then String "-" digits else digits.

(** [s.padStart(2, '0')]. *)
Definition padStart2 (s : string) : string :=
  match s with
  | EmptyString => "00"
  | String c EmptyString => String "0" s
  | _ => s
  end.

(** One channel of the result: [Math.round(c1 + (c2 - c1) * factor)] printed in
    base 16; a [NaN] prints as ["NaN"]. *)
Definition channelString (c1 c2 : option Q) (factor : Q) : string :=
  match c1, c2 with
  | Some r1, Some r2 => padStart2 (toString16 (Qfloor (Math_round (r1 + (r2 - r1) * factor))))
  | _, _ => "NaN"
  end.

(** ** Stand-ins for the trigonometric functions

    Rational approximations, used only to run the model on concrete levels;
    every theorem below holds for arbitrary functions in their place. *)

Definition PI_approx : Q := 3.141592653589793.

Definition cos_approx (x : Q) : Q :=
  1 - x * x / 2 + x * x * x * x / 24 - x * x * x * x * x * x / 720.

Definition sin_approx (x : Q) : Q :=
  x - x * x * x / 6 + x * x * x * x * x / 120 - x * x * x * x * x * x * x / 5040.

Definition atan2_approx (y x : Q) : Q :=
  if Qeq_bool x 0 then 0 else (y / x) / (1 + 0.28 * (y / x) * (y / x)).

Section GameEngine.

#[local] Set Default Proof Using "Type".
#[local] Set Proof Using Clear Unused.

(** [Math.cos], [Math.sin], [Math.atan2] and [Math.PI]. *)
Variable Math_cos : Q -> Q.
Variable Math_sin : Q -> Q.
Variable Math_atan2 : Q -> Q -> Q.
Variable Math_PI : Q.

(** ** Undo and redo history *)

Definition getCurrentState (e : Engine) : StateJson :=
  JsonState (levelSettings e) (levelData e).

Definition addToHistory (e : Engine) : Engine :=
  let h := history e in
  let h :=
    if (historyIndex e <? Z.of_nat (List.length h) - 1)%Z
    then slice0 h (historyIndex e + 1) else h in
  let h := h ++ [getCurrentState e] in
  let i := (Z.of_nat (List.length h) - 1)%Z in
  if (50 <? Z.of_nat (List.length h))%Z
  then set_historyIndex (i - 1) (set_history (tl h) e)
  else set_historyIndex i (set_history h e).

(** [restoreState(history[i])]; an index outside the array reads [undefined],
    on which [JSON.parse] throws like on any other invalid text, and the
    [catch] block leaves the state as it is. *)
Definition restoreState (stateJson : option StateJson) (e : Engine) : Engine :=
  match stateJson with
  | None | Some JsonInvalid => e
  | Some state =>
      let e :=
        match state with
        | JsonArray objects =>
            set_levelSettings DEFAULT_LEVEL_SETTINGS (set_levelData objects e)
        | JsonState settings objects =>
            set_levelSettings settings (set_levelData objects e)
        | _ => e
        end in
      set_isPastedSelection false (set_selectedObjects [] e)
  end.

Definition undo (e : Engine) : Engine :=
  if (0 <? historyIndex e)%Z then
    let e := set_historyIndex (historyIndex e - 1) e in
    restoreState (array_get (history e) (historyIndex e)) e
  else e.

Definition redo (e : Engine) : Engine :=
  if (historyIndex e <? Z.of_nat (List.length (history e)) - 1)%Z then
    let e := set_historyIndex (historyIndex e + 1) e in
    restoreState (array_get (history e) (historyIndex e)) e
  else e.

(** ** Clipboard *)

Definition copySelection (e : Engine) : Engine :=
  match selectedObjects e with
  | [] => e
  | _ => set_clipboard (filter (fun o => set_has (selectedObjects e) (o_id o)) (levelData e)) e
  end.

(** The copies of the clipboard; the [i]-th call of the identifier generator
    yields [gen i]. *)
Fixpoint pasteObjects (gen : nat -> string) (i : nat) (l : list LevelObject) : list LevelObject :=
  match l with
  | [] => []
  | obj :: l' => set_o_id (gen i) obj :: pasteObjects gen (S i) l'
  end.

Definition pasteSelection (gen : nat -> string) (e : Engine) : Engine :=
  match clipboard e with
  | [] => e
  | _ =>
      let newObjs := pasteObjects gen 0 (clipboard e) in
      let newIds := fold_left set_add (map o_id newObjs) [] in
      let e := set_levelData (levelData e ++ newObjs) e in
      let e := set_selectedObjects newIds e in
      let e := set_isPastedSelection true e in
      addToHistory e
  end.

(** ** Moving and deleting the selection *)

Definition adjustDx (idMap : list (string * LevelObject)) (adjustedDx : Q) (id : string) : Q :=
  match map_get idMap id with
  | Some obj =>
      if ObjectType_eqb (o_type obj) START_POS && Qltb (o_x obj + adjustedDx) 0
      then - o_x obj else adjustedDx
  | None => adjustedDx
  end.

Definition moveObject (adjustedDx dy : Q) (obj : LevelObject) : LevelObject :=
  set_o_y (Math_round ((o_y obj + dy) * 100) / 100)
    (set_o_x (Math_round ((o_x obj + adjustedDx) * 100) / 100) obj).

Definition moveOne (adjustedDx dy : Q) (acc : list (string * LevelObject) * bool) (id : string)
  : list (string * LevelObject) * bool :=
  match map_get (fst acc) id with
  | Some obj => (map_set (fst acc) id (moveObject adjustedDx dy obj), true)
  | None => acc
  end.

Definition moveSelectionInternal (dx dy : Q) (e : Engine) : Engine :=
  let newLevelData := levelData e in
  let idMap := map_of_list (map (fun o => (o_id o, o)) newLevelData) in
  let adjustedDx := fold_left (adjustDx idMap) (selectedObjects e) dx in
  let '(idMap, moved) := fold_left (moveOne adjustedDx dy) (selectedObjects e) (idMap, false) in
  if moved then addToHistory (set_levelData (map_values idMap) e) else e.

Definition deleteSelection (e : Engine) : Engine :=
  let e := set_levelData
             (filter (fun o => negb (set_has (selectedObjects e) (o_id o))) (levelData e)) e in
  let e := set_selectedObjects [] e in
  addToHistory e.

Definition deselectAll (e : Engine) : Engine :=
  set_lastToolRotation 0 (set_selectedObjects [] e).

(** ** Colour interpolation *)

Definition hex (color : string) : string :=
  match color with
  | String "#" _ => color
  | _ => "#000000"
  end.

(** [None] is the [TypeError] of calling [startsWith] on [undefined]. *)
Definition interpolateColor (color1 color2 : option string) (factor : Q) : option string :=
  match color1, color2 with
  | Some color1, Some color2 =>
      let c1 := hex color1 in
      let c2 := hex color2 in
      let r1 := parseInt16 (substring 1 2 c1) in
      let g1 := parseInt16 (substring 3 2 c1) in
      let b1 := parseInt16 (substring 5 2 c1) in
      let r2 := parseInt16 (substring 1 2 c2) in
      let g2 := parseInt16 (substring 3 2 c2) in
      let b2 := parseInt16 (substring 5 2 c2) in
      Some (String "#" (channelString r1 r2 factor ++ channelString g1 g2 factor
                          ++ channelString b1 b2 factor))%string
  | _, _ => None
  end.

(** ** Resetting the player *)

Definition isEnabledStartPos (item : LevelObject * Z) : bool :=
  ObjectType_eqb (o_type (fst item)) START_POS
  && match o_startPosData (fst item) with
     | Some d => truthy (sp_enabled d)
     | None => false
     end.

Fixpoint withIndex {A : Type} (i : Z) (l : list A) : list (A * Z) :=
  match l with
  | [] => []
  | a :: l' => (a, i) :: withIndex (i + 1)%Z l'
  end.

(** The comparator of the start positions: left-most first, the most recent
    first among those within 0.01 of each other. *)
Definition compareStartPos (a b : LevelObject * Z) : Q :=
  if Qltb 0.01 (Math_abs (o_x (fst a) - o_x (fst b)))
  then o_x (fst a) - o_x (fst b)
  else inject_Z (snd b - snd a).

Definition startPositions (objs : list LevelObject) : list (LevelObject * Z) :=
  filter isEnabledStartPos (withIndex 0 objs).

Definition bestStartPos (objs : list LevelObject) : option LevelObject :=
  match js_sort compareStartPos (startPositions objs) with
  | item :: _ => Some (fst item)
  | [] => None
  end.

Definition resetPlayerInternal (forVerify : bool) (e : Engine) : Engine :=
  let e := set_selectedObjects [] e in
  let startX := 0 in
  let startY := 11 * TILE_SIZE in
  let startMode := Some (startMode (levelSettings e)) in
  let startGravityReversed := truthy (startReverseGravity (levelSettings e)) in
  let '(startX, startY, startMode, startGravityReversed) :=
    if negb forVerify then
      match bestStartPos (levelData e) with
      | Some best =>
          match o_startPosData best with
          | Some d =>
              (o_x best * TILE_SIZE, o_y best * TILE_SIZE, sp_mode d, truthy (sp_reverseGravity d))
          | None => (startX, startY, startMode, startGravityReversed)
          end
      | None => (startX, startY, startMode, startGravityReversed)
      end
    else (startX, startY, startMode, startGravityReversed) in
  let e := set_player
             {| p_x := startX; p_y := startY; p_w := 36; p_h := 36;
                p_vx := PLAYER_SPEED; p_vy := 0; p_rotation := 0;
                p_onGround := true; p_dead := false; p_finished := false;
                p_vehicle := startMode; p_gravityReversed := startGravityReversed |} e in
  let e := set_deathMarkers [] e in
  let e := set_usedObjectIds [] e in
  let e :=
    if forVerify
    then set_trail [] (set_camera (mkCamera 0 (cam_y (camera e)) (cam_zoom (camera e))) e)
    else set_trail []
           (set_camera (mkCamera (startX - 200) (cam_y (camera e)) (cam_zoom (camera e))) e) in
  let e := set_isSuckedIntoWall false e in
  let e := set_activeFloorY FLOOR_Y e in
  let e := set_targetFloorY FLOOR_Y e in
  let e := set_displaySettings (levelSettings e) e in
  let e := set_activeEffects [] e in
  let e := set_triggeredIds [] e in
  let e := set_frameCount 0%Z e in
  let e :=
    if vehicle_is startMode SHIP then
      if negb forVerify && Qltb startY (FLOOR_Y - 500) then
        set_targetCeilingY (FLOOR_Y - 10 * TILE_SIZE)
          (set_activeCeilingY (FLOOR_Y - 10 * TILE_SIZE) e)
      else
        set_targetCeilingY (FLOOR_Y - 10 * TILE_SIZE)
          (set_activeCeilingY (FLOOR_Y - 10 * TILE_SIZE) e)
    else set_targetCeilingY (-99999) (set_activeCeilingY (-99999) e) in
  let e := set_keys [] e in
  let e := set_mouseIsDown false e in
  let e := set_prevInputState false e in
  let e := set_hasInputUsed false e in
  let maxX := fold_left (fun maxX b => Math_max maxX (o_x b * TILE_SIZE)) (levelData e) 0 in
  let calculatedEnd := Math_max (maxX + 800) (canvasWidth e * 1.5) in
  set_finishWallX calculatedEnd e.

(** ** Hitboxes and collision *)

Record Rect : Type := mkRect { r_x : Q; r_y : Q; r_w : Q; r_h : Q }.

Definition getLocalHitbox (type : ObjectType) (subtype : Z) : Rect :=
  match type with
  | BLOCK => if (subtype =? 3)%Z then mkRect 0 0 40 20 else mkRect 0 0 40 40
  | SPIKE =>
      if (subtype =? 2)%Z then mkRect 16 28 8 12
      else if (subtype =? 3)%Z then mkRect 12 24 16 16
      else mkRect 13 16 14 24
  | PAD => mkRect 5 30 30 10
  | ORB => mkRect 5 5 30 30
  | PORTAL => mkRect 5 (-40) 30 120
  | DECO => mkRect 0 0 40 40
  | TRIGGER => mkRect 0 0 30 30
  | START_POS => mkRect 0 0 40 40
  | _ => mkRect 0 0 40 40
  end.

(** The smallest and the largest projection of a polygon on a direction;
    [None] stands for the initial [Infinity] and [-Infinity]. *)
Definition projMin (nx ny : Q) (poly : list Point) : option Q :=
  fold_left (fun m p =>
               let projected := nx * pt_x p + ny * pt_y p in
               match m with
               | Some v => if Qltb projected v then Some projected else m
               | None => Some projected
               end) poly None.

Definition projMax (nx ny : Q) (poly : list Point) : option Q :=
  fold_left (fun m p =>
               let projected := nx * pt_x p + ny * pt_y p in
               match m with
               | Some v => if Qltb v projected then Some projected else m
               | None => Some projected
               end) poly None.

(** [maxA < minB] with the infinite initial values of an empty polygon. *)
Definition ltInf (a b : option Q) : bool :=
  match a, b with
  | Some a, Some b => Qltb a b
  | _, _ => true
  end.

(** The edges of a polygon: each vertex with its successor, cyclically. *)
Definition edges (polygon : list Point) : list (Point * Point) :=
  match polygon with
  | [] => []
  | p :: rest => combine polygon (rest ++ [p])
  end.

Definition separatedOn (poly1 poly2 : list Point) (edge : Point * Point) : bool :=
  let '(p1, p2) := edge in
  let nx := pt_y p2 - pt_y p1 in
  let ny := pt_x p1 - pt_x p2 in
  let minA := projMin nx ny poly1 in
  let maxA := projMax nx ny poly1 in
  let minB := projMin nx ny poly2 in
  let maxB := projMax nx ny poly2 in
  ltInf maxA minB || ltInf maxB minA.

Definition checkPolygonInteract (poly1 : list Point) (rect2 : Rect) : bool :=
  let poly2 :=
    [ mkPoint (r_x rect2) (r_y rect2);
      mkPoint (r_x rect2 + r_w rect2) (r_y rect2);
      mkPoint (r_x rect2 + r_w rect2) (r_y rect2 + r_h rect2);
      mkPoint (r_x rect2) (r_y rect2 + r_h rect2) ] in
  negb (existsb (separatedOn poly1 poly2) (edges poly1 ++ edges poly2)).

(** The overlap test shared by [checkCollision] and the delete tool: a plain
    rectangle test for an unrotated object, otherwise the hitbox corners turned
    about the tile centre and tested by separating axes. *)
Definition overlapsObject (rect : Rect) (obj : LevelObject) : bool :=
  let hb := getLocalHitbox (o_type obj) (o_subtype obj) in
  let objX := o_x obj * TILE_SIZE in
  let objY := o_y obj * TILE_SIZE in
  if negb (truthy_num (o_rotation obj)) then
    let hbx := objX + r_x hb in
    let hby := objY + r_y hb in
    Qltb (r_x rect) (hbx + r_w hb)
    && Qltb hbx (r_x rect + r_w rect)
    && Qltb (r_y rect) (hby + r_h hb)
    && Qltb hby (r_y rect + r_h rect)
  else
    let angle := num_or (o_rotation obj) 0 * (Math_PI / 180) in
    let rcx := TILE_SIZE / 2 in
    let rcy := TILE_SIZE / 2 in
    let points :=
      [ mkPoint (r_x hb) (r_y hb);
        mkPoint (r_x hb + r_w hb) (r_y hb);
        mkPoint (r_x hb + r_w hb) (r_y hb + r_h hb);
        mkPoint (r_x hb) (r_y hb + r_h hb) ] in
    let worldPoints :=
      map (fun pt =>
             let lx := pt_x pt - rcx in
             let ly := pt_y pt - rcy in
             let rx := lx * Math_cos angle - ly * Math_sin angle in
             let ry := lx * Math_sin angle + ly * Math_cos angle in
             mkPoint (objX + rcx + rx) (objY + rcy + ry)) points in
    checkPolygonInteract worldPoints rect.

Definition checkCollision (p : Player) (obj : LevelObject) : bool :=
  overlapsObject (mkRect (p_x p) (p_y p) (p_w p) (p_h p)) obj.

(** ** Death *)

(** [die]: idempotent; in verify mode the colour effects are dropped, in
    playtest a death marker is left, and a deferred callback is scheduled
    ([deathTimeout] below). *)
Definition die (e : Engine) : Engine :=
  let p := player e in
  if p_dead p then e
  else
    let e := set_player (set_p_dead true p) e in
    let e := if GameMode_eqb (modeRef e) VERIFY then set_activeEffects [] e else e in
    let e :=
      if GameMode_eqb (modeRef e) PLAYTEST
      then set_deathMarkers
             (deathMarkers e ++ [mkPoint (p_x p + p_w p / 2) (p_y p + p_h p / 2)]) e
      else e in
    set_deathTimers (S (deathTimers e)) e.

(** ** The imperative handle: loading, settings, trigger and start position fields *)

Definition setLevel (data : LevelInput) (keepHistory : bool) (e : Engine) : Engine :=
  let e :=
    match data with
    | InArray objects =>
        set_levelSettings DEFAULT_LEVEL_SETTINGS (set_levelData objects e)
    | InObject objects settings =>
        set_levelSettings
          (match settings with
           | Some s => mergeSettings DEFAULT_LEVEL_SETTINGS s
           | None => DEFAULT_LEVEL_SETTINGS
           end)
          (set_levelData objects e)
    | InOther =>
        set_levelSettings DEFAULT_LEVEL_SETTINGS (set_levelData [] e)
    end in
  let e := set_displaySettings (levelSettings e) e in
  let e := set_selectedObjects [] e in
  let e := set_isPastedSelection false e in
  if keepHistory then addToHistory e
  else set_historyIndex 0%Z (set_history [getCurrentState e] e).

Definition getLevel (e : Engine) : LevelSettings * list LevelObject :=
  (levelSettings e, levelData e).

Definition updateSettings (newSettings : PartialSettings) (e : Engine) : Engine :=
  let e := set_levelSettings (mergeSettings (levelSettings e) newSettings) e in
  let e := set_displaySettings (mergeSettings (displaySettings e) newSettings) e in
  addToHistory e.

(** [Array.from(selectedObjects.current)[0]]. *)
Definition firstSelected (e : Engine) : option string := hd_error (selectedObjects e).

(** [o.id === id] where [id] may be [undefined]. *)
Definition hasId (id : option string) (o : LevelObject) : bool :=
  match id with Some id => String.eqb (o_id o) id | None => false end.

Definition updateSelectedTrigger (data : TriggerData) (e : Engine) : Engine :=
  let id := firstSelected e in
  match findIndex (hasId id) (levelData e) with
  | Some objIndex =>
      match nth_error (levelData e) objIndex with
      | Some obj =>
          let e := set_levelData
                     (array_set (levelData e) objIndex
                        (set_o_triggerData (Some (mergeTriggerData (o_triggerData obj) data)) obj)) e in
          addToHistory e
      | None => e
      end
  | None => e
  end.

Definition updateSelectedStartPos (data : StartPosData) (e : Engine) : Engine :=
  let id := firstSelected e in
  match findIndex (hasId id) (levelData e) with
  | Some objIndex =>
      match nth_error (levelData e) objIndex with
      | Some obj =>
          let e := set_levelData
                     (array_set (levelData e) objIndex
                        (set_o_startPosData (Some (mergeStartPosData (o_startPosData obj) data)) obj)) e in
          addToHistory e
      | None => e
      end
  | None => e
  end.

Definition getSelectedObject (e : Engine) : option LevelObject :=
  js_find (hasId (firstSelected e)) (levelData e).

(** ** Rotating the selection *)

(** The new rotation of a singly selected object. *)
Definition newRotation (angle : Q) (relative : bool) (obj : LevelObject) : Q :=
  let newRot := num_or (o_rotation obj) 0 in
  let newRot := if relative then newRot + angle else angle in
  let newRot := js_rem newRot 360 in
  let newRot := if Qltb newRot 0 then newRot + 360 else newRot in
  if ObjectType_eqb (o_type obj) BLOCK then Math_round (newRot / 90) * 90 else newRot.

(** The minimum and the maximum of the centres of the selected objects;
    [None] stands for the initial [Infinity] and [-Infinity]. *)
Definition minOf (l : list Q) : option Q :=
  fold_left (fun m c => match m with
                        | Some v => if Qltb c v then Some c else m
                        | None => Some c
                        end) l None.

Definition maxOf (l : list Q) : option Q :=
  fold_left (fun m c => match m with
                        | Some v => if Qltb v c then Some c else m
                        | None => Some c
                        end) l None.

(** [(min + max) / 2]; with no selected object in the document the source
    computes [NaN], which no object then reads. *)
Definition midpoint (lo hi : option Q) : Q :=
  match lo, hi with
  | Some lo, Some hi => (lo + hi) / 2
  | _, _ => 0
  end.

Definition rotateAround (centerX centerY angle : Q) (obj : LevelObject) : LevelObject :=
  let rad := angle * Math_PI / 180 in
  let cos := Math_cos rad in
  let sin := Math_sin rad in
  let dx := (o_x obj + 0.5) - centerX in
  let dy := (o_y obj + 0.5) - centerY in
  let rDx := dx * cos - dy * sin in
  let rDy := dx * sin + dy * cos in
  let newX := (centerX + rDx) - 0.5 in
  let newY := (centerY + rDy) - 0.5 in
  let newRot := num_or (o_rotation obj) 0 + angle in
  let newRot := js_rem newRot 360 in
  let newRot := if Qltb newRot 0 then newRot + 360 else newRot in
  set_o_rotation (Some newRot)
    (set_o_y (Math_round (newY * 100) / 100)
       (set_o_x (Math_round (newX * 100) / 100) obj)).

Definition rotateSelection (angle : Q) (relative : bool) (e : Engine) : Engine :=
  let ids := selectedObjects e in
  match ids with
  | [] => e
  | [id] =>
      let e :=
        match js_find (fun o => String.eqb (o_id o) id) (levelData e) with
        | Some obj => set_lastToolRotation (newRotation angle relative obj) e
        | None => e
        end in
      let e := set_levelData
                 (map (fun obj => if set_has ids (o_id obj)
                                  then set_o_rotation (Some (newRotation angle relative obj)) obj
                                  else obj) (levelData e)) e in
      addToHistory e
  | _ =>
      let selectedObjs := filter (fun obj => set_has ids (o_id obj)) (levelData e) in
      let cxs := map (fun obj => o_x obj + 0.5) selectedObjs in
      let cys := map (fun obj => o_y obj + 0.5) selectedObjs in
      let centerX := midpoint (minOf cxs) (maxOf cxs) in
      let centerY := midpoint (minOf cys) (maxOf cys) in
      let e := set_levelData
                 (map (fun obj => if set_has ids (o_id obj)
                                  then rotateAround centerX centerY angle obj
                                  else obj) (levelData e)) e in
      addToHistory e
  end.

Definition clearLevel (e : Engine) : Engine :=
  addToHistory (set_selectedObjects [] (set_levelData [] e)).

Definition duplicateSelection (gen : nat -> string) (e : Engine) : Engine :=
  pasteSelection gen (copySelection e).

Definition resetPlayer (forVerify : bool) (e : Engine) : Engine :=
  resetPlayerInternal forVerify e.

(** The effect run once when the component mounts. *)
Definition mountHistory (e : Engine) : Engine :=
  match history e with
  | [] => set_historyIndex 0%Z (set_history [getCurrentState e] e)
  | _ => e
  end.

(** ** Editor clicks: selection, deletion and placement *)

(** The last index whose element satisfies [f]; the delete tool walks the
    objects backwards and stops at the first hit. *)
Fixpoint findLastIndexFrom {A : Type} (f : A -> bool) (i : nat) (l : list A) : option nat :=
  match l with
  | [] => None
  | a :: l' =>
      match findLastIndexFrom f (S i) l' with
      | Some j => Some j
      | None => if f a then Some i else None
      end
  end.

Definition findLastIndex {A : Type} (f : A -> bool) (l : list A) : option nat :=
  findLastIndexFrom f 0 l.

Definition inEditorOrPaused (m : GameMode) : bool :=
  GameMode_eqb m EDITOR || GameMode_eqb m PAUSED.

Definition defaultTriggerData : TriggerData :=
  {| td_target := Some T_bgColorTop; td_color := Some "#ff0000"%string;
     td_duration := Some 0.5; td_touchTrigger := Some false |}.

Definition defaultStartPosData : StartPosData :=
  {| sp_mode := Some CUBE; sp_reverseGravity := Some false; sp_enabled := Some true |}.

(** [newId] is the identifier [Math.random] yields if an object is placed. *)
Definition handleEditorClick (ev : MouseEvt) (isDrag : bool) (newId : string) (e : Engine)
  : Engine :=
  let e := if isPastedSelection e then set_isPastedSelection false e else e in
  let camX := cam_x (camera e) in
  let camY := cam_y (camera e) in
  let zoom := cam_zoom (camera e) in
  let worldX := clientX ev / zoom + camX in
  let worldY := clientY ev / zoom + camY in
  let gridX := Math_floor (worldX / TILE_SIZE) in
  let gridY := Math_floor (worldY / TILE_SIZE) in
  let toolType := fst (selectedToolRef e) in
  if ObjectType_eqb toolType TOOL then
    match boxSelectStart e with
    | Some start =>
        let startX := pt_x start in
        let startY := pt_y start in
        let endX := worldX in
        let endY := worldY in
        let minX := Math_min startX endX in
        let maxX := Math_max startX endX in
        let minY := Math_min startY endY in
        let maxY := Math_max startY endY in
        let sel := if negb (shiftKey ev) then [] else selectedObjects e in
        let sel :=
          if Qltb (Math_abs (endX - startX)) 10 && Qltb (Math_abs (endY - startY)) 10 then
            let clickedObj :=
              js_find (fun o =>
                         Qle_bool (o_x o * TILE_SIZE) worldX
                         && Qltb worldX ((o_x o + 1) * TILE_SIZE)
                         && Qle_bool (o_y o * TILE_SIZE) worldY
                         && Qltb worldY ((o_y o + 1) * TILE_SIZE)) (levelData e) in
            match clickedObj with
            | Some clicked =>
                if set_has sel (o_id clicked) then set_delete sel (o_id clicked)
                else set_add sel (o_id clicked)
            | None => sel
            end
          else
            fold_left (fun sel o =>
                         let ox := o_x o * TILE_SIZE + TILE_SIZE / 2 in
                         let oy := o_y o * TILE_SIZE + TILE_SIZE / 2 in
                         if Qle_bool minX ox && Qle_bool ox maxX
                            && Qle_bool minY oy && Qle_bool oy maxY
                         then set_add sel (o_id o) else sel) (levelData e) sel in
        set_boxSelectStart None (set_selectedObjects sel e)
    | None => e
    end
  else if ObjectType_eqb toolType DELETE then
    if isDrag
       && match lastDeletePos e with
          | Some last => Qeq_bool (pt_x last) gridX && Qeq_bool (pt_y last) gridY
          | None => false
          end
    then e
    else
      let clickRect := mkRect (gridX * TILE_SIZE) (gridY * TILE_SIZE) TILE_SIZE TILE_SIZE in
      match findLastIndex (overlapsObject clickRect) (levelData e) with
      | Some i =>
          let e := set_levelData (splice1 (levelData e) i) e in
          let e := addToHistory e in
          set_lastDeletePos (Some (mkPoint gridX gridY)) e
      | None => e
      end
  else
    let existing :=
      js_find (fun o => Qeq_bool (o_x o) gridX && Qeq_bool (o_y o) gridY) (levelData e) in
    if ObjectType_eqb toolType START_POS && Qltb gridX 0 then e
    else
      if match existing with None => true | Some _ => false end
         || ObjectType_eqb toolType START_POS
      then
        let triggerData :=
          if ObjectType_eqb toolType TRIGGER then Some defaultTriggerData else None in
        let startPosData :=
          if ObjectType_eqb toolType TRIGGER then None
          else if ObjectType_eqb toolType START_POS then Some defaultStartPosData else None in
        let e := set_levelData
                   (levelData e ++
                      [ {| o_id := newId; o_x := gridX; o_y := gridY;
                           o_type := toolType; o_subtype := snd (selectedToolRef e);
                           o_rotation := Some (lastToolRotation e);
                           o_triggerData := triggerData;
                           o_startPosData := startPosData |} ]) e in
        let e := set_selectedObjects (set_add [] newId) e in
        addToHistory e
      else e.

(** ** Mode changes, as [App] performs them *)

(** The effects run after the [mode] and [selectedTool] props change. *)
Definition modeEffects (newMode : GameMode) (e : Engine) : Engine :=
  let e := set_modeRef newMode e in
  let e := set_keys (set_delete (set_delete (keys e) "Space") "ArrowUp") e in
  let e := set_mouseIsDown false e in
  let e := set_prevInputState false e in
  set_hasInputUsed false e.

Definition handleModeChange (newMode : GameMode) (e : Engine) : Engine :=
  let mode := modeRef e in
  let isResumingPlaytest := GameMode_eqb newMode PLAYTEST && GameMode_eqb mode PAUSED in
  let isResumingVerify := GameMode_eqb newMode VERIFY && GameMode_eqb mode VERIFY_PAUSED in
  let e :=
    if GameMode_eqb newMode PLAYTEST then
      if negb isResumingPlaytest then resetPlayer false e else e
    else if GameMode_eqb newMode VERIFY then
      if negb isResumingVerify then resetPlayer true e else e
    else e in
  if GameMode_eqb newMode mode then e else modeEffects newMode e.

Definition onModeChange (newMode : GameMode) (e : Engine) : Engine :=
  handleModeChange newMode e.

(** The restart button of the verify screen. *)
Definition onRestartVerify (e : Engine) : Engine :=
  let e := resetPlayer true e in
  if GameMode_eqb VERIFY (modeRef e) then e else modeEffects VERIFY e.

Definition handleToolSelect (type : ObjectType) (subtype : Z) (e : Engine) : Engine :=
  set_lastToolRotation 0 (set_selectedToolRef (type, subtype) e).

(** The callback [die] defers with [setTimeout]. *)
Definition deathTimeout (e : Engine) : Engine :=
  match deathTimers e with
  | O => e
  | S n =>
      let e := set_deathTimers n e in
      if GameMode_eqb (modeRef e) VERIFY then resetPlayerInternal true e
      else if GameMode_eqb (modeRef e) PLAYTEST then onModeChange EDITOR e
      else if GameMode_eqb (modeRef e) VERIFY_PAUSED then set_pendingReset true e
      else e
  end.

(** ** Keyboard, mouse and window events *)

Definition onKeyDown (ev : KeyEvt) (gen : nat -> string) (e : Engine) : Engine :=
  let e := set_keys (set_add (keys e) (code ev)) e in
  let isCtrl := k_ctrlKey ev in
  let isShift := k_shiftKey ev in
  if inEditorOrPaused (modeRef e) then
    let e :=
      if isCtrl && negb (k_repeat ev) then
        if String.eqb (code ev) "KeyZ" then undo e
        else if String.eqb (code ev) "KeyY" then redo e
        else if String.eqb (code ev) "KeyC" then copySelection e
        else if String.eqb (code ev) "KeyV" then pasteSelection gen e
        else e
      else e in
    match selectedObjects e with
    | [] => e
    | _ =>
        let c := code ev in
        let '(dx, dy) :=
          if String.eqb c "ArrowUp" || String.eqb c "KeyW" then (0, -1)
          else if String.eqb c "ArrowDown" || String.eqb c "KeyS" then (0, 1)
          else if String.eqb c "ArrowLeft" || String.eqb c "KeyA" then (-1, 0)
          else if String.eqb c "ArrowRight" || String.eqb c "KeyD" then (1, 0)
          else (0, 0) in
        if negb (Qeq_bool dx 0) || negb (Qeq_bool dy 0) then
          let amount :=
            if isShift && isCtrl then 5
            else if isShift then 0.5
            else if isCtrl then 0.1
            else 1 in
          moveSelectionInternal (dx * amount) (dy * amount) e
        else e
    end
  else e.

Definition onKeyUp (ev : KeyEvt) (e : Engine) : Engine :=
  set_keys (set_delete (keys e) (code ev)) e.

Definition onMouseDown (ev : MouseEvt) (newId : string) (e : Engine) : Engine :=
  let e := set_mouseIsDown true e in
  let e := set_mouseX (clientX ev) e in
  let e := set_mouseY (clientY ev) e in
  let e := set_lastDeletePos None e in
  if (button ev =? 2)%Z then set_mouseIsRightDown true e
  else if inEditorOrPaused (modeRef e) then
    if ObjectType_eqb (fst (selectedToolRef e)) TOOL then
      let camX := cam_x (camera e) in
      let camY := cam_y (camera e) in
      let zoom := cam_zoom (camera e) in
      set_boxSelectStart (Some (mkPoint (clientX ev / zoom + camX) (clientY ev / zoom + camY))) e
    else handleEditorClick ev false newId e
  else e.

Definition onMouseUp (ev : MouseEvt) (newId : string) (e : Engine) : Engine :=
  let wasDown := mouseIsDown e in
  let e := set_mouseIsDown false e in
  let e := if (button ev =? 2)%Z then set_mouseIsRightDown false e else e in
  if inEditorOrPaused (modeRef e) && (button ev =? 0)%Z && wasDown then
    if ObjectType_eqb (fst (selectedToolRef e)) TOOL then handleEditorClick ev true newId e
    else e
  else e.

Definition onMouseMove (ev : MouseEvt) (newId : string) (e : Engine) : Engine :=
  let dx := clientX ev - mouseX e in
  let dy := clientY ev - mouseY e in
  let e := set_mouseX (clientX ev) e in
  let e := set_mouseY (clientY ev) e in
  let mode := modeRef e in
  if inEditorOrPaused mode || GameMode_eqb mode VERIFY_PAUSED then
    if mouseIsRightDown e then
      let zoom := cam_zoom (camera e) in
      set_camera (mkCamera (cam_x (camera e) - dx / zoom) (cam_y (camera e) - dy / zoom) zoom) e
    else if mouseIsDown e then
      if negb (ObjectType_eqb (fst (selectedToolRef e)) TOOL) && inEditorOrPaused mode
      then handleEditorClick ev true newId e
      else e
    else e
  else e.

Definition onWheel (deltaY : Q) (e : Engine) : Engine :=
  if inEditorOrPaused (modeRef e) then
    let zoomSpeed := 0.001 in
    let newZoom := cam_zoom (camera e) - deltaY * zoomSpeed in
    let newZoom := Math_max 0.5 (Math_min newZoom 2.5) in
    let width := canvasWidth e in
    let height := canvasHeight e in
    let centerX := cam_x (camera e) + (width / 2) / cam_zoom (camera e) in
    let centerY := cam_y (camera e) + (height / 2) / cam_zoom (camera e) in
    set_camera (mkCamera (centerX - (width / 2) / newZoom) (centerY - (height / 2) / newZoom) newZoom) e
  else e.

Definition resize (innerWidth innerHeight : Q) (e : Engine) : Engine :=
  set_canvasHeight innerHeight (set_canvasWidth innerWidth e).

(** ** The physics step *)

(** How a block of statements ends: falling through to what follows
    ([Continue]) or leaving [updatePhysics] ([Return]). *)
Inductive Flow : Type :=
  | Continue (e : Engine)
  | Return (e : Engine).

Definition jump (e : Engine) : Engine :=
  let p := player e in
  let p := if p_gravityReversed p then set_p_vy (- JUMP_FORCE) p else set_p_vy JUMP_FORCE p in
  set_player (set_p_onGround false p) e.

Definition isInputDown (e : Engine) : bool :=
  set_has (keys e) "Space" || set_has (keys e) "ArrowUp" || mouseIsDown e.

(** Gravity, floor and ceiling for the cube. *)
Definition cubePhysics (e : Engine) : Flow :=
  let p := player e in
  let p :=
    if p_gravityReversed p then
      let p := set_p_vy (p_vy p - GRAVITY) p in
      if Qltb (p_vy p) (- TERMINAL_VELOCITY) then set_p_vy (- TERMINAL_VELOCITY) p else p
    else
      let p := set_p_vy (p_vy p + GRAVITY) p in
      if Qltb TERMINAL_VELOCITY (p_vy p) then set_p_vy TERMINAL_VELOCITY p else p in
  let p := set_p_y (p_y p + p_vy p) p in
  let p :=
    if negb (p_onGround p) then set_p_rotation (p_rotation p + (Math_PI / 2) * 0.15) p
    else set_p_rotation (Math_round (p_rotation p / (Math_PI / 2)) * (Math_PI / 2)) p in
  if negb (p_gravityReversed p) then
    if Qle_bool (activeFloorY e) (p_y p + p_h p) then
      let p := set_p_y (activeFloorY e - p_h p) p in
      let p := set_p_vy 0 p in
      let p := set_p_onGround true p in
      Continue (set_player (set_p_rotation 0 p) e)
    else Continue (set_player (set_p_onGround false p) e)
  else
    if Qltb (-90000) (activeCeilingY e) && Qle_bool (p_y p) (activeCeilingY e) then
      let p := set_p_y (activeCeilingY e) p in
      let p := set_p_vy 0 p in
      let p := set_p_onGround true p in
      Continue (set_player (set_p_rotation 0 p) e)
    else
      let p := set_p_onGround false p in
      let e := set_player p e in
      if Qltb (activeFloorY e) (p_y p + p_h p) then Return (die e) else Continue e.

(** Gravity, thrust, floor and ceiling for the ship. *)
Definition shipPhysics (inputDown : bool) (e : Engine) : Engine :=
  let p := player e in
  let p :=
    if p_gravityReversed p then
      let p := set_p_vy (p_vy p - SHIP_GRAVITY) p in
      if inputDown then set_p_vy (p_vy p - SHIP_THRUST) p else p
    else
      let p := set_p_vy (p_vy p + SHIP_GRAVITY) p in
      if inputDown then set_p_vy (p_vy p + SHIP_THRUST) p else p in
  let p := if Qltb SHIP_TERMINAL_VELOCITY (p_vy p) then set_p_vy SHIP_TERMINAL_VELOCITY p else p in
  let p :=
    if Qltb (p_vy p) (- SHIP_TERMINAL_VELOCITY) then set_p_vy (- SHIP_TERMINAL_VELOCITY) p else p in
  let p := set_p_y (p_y p + p_vy p) p in
  let p := set_p_rotation (Math_atan2 (p_vy p) (PLAYER_SPEED * 1.5)) p in
  let ceil := activeCeilingY e in
  let flr := activeFloorY e in
  let p :=
    if Qltb (p_y p) ceil then
      let p := set_p_y ceil p in
      let p := if Qltb (p_vy p) 0 then set_p_vy 0 p else p in
      if p_gravityReversed p then set_p_onGround true p else p
    else if Qltb flr (p_y p + p_h p) then
      let p := set_p_y (flr - p_h p) p in
      let p := if Qltb 0 (p_vy p) then set_p_vy 0 p else p in
      if negb (p_gravityReversed p) then set_p_onGround true p else p
    else set_p_onGround false p in
  set_player p e.

(** A trigger fires: the colour snaps when the duration is zero, otherwise an
    effect starts from the colour now displayed. *)
Definition fireTrigger (obj : LevelObject) (td : TriggerData) (e : Engine) : Engine :=
  let e := set_triggeredIds (set_add (triggeredIds e) (o_id obj)) e in
  let durationFrames := num_or (td_duration td) 0 * 60 in
  if Qeq_bool durationFrames 0 then
    set_displaySettings (setColor (displaySettings e) (td_target td) (td_color td)) e
  else
    set_activeEffects
      (activeEffects e ++
         [ {| eff_target := td_target td;
              eff_startColor := getColor (displaySettings e) (td_target td);
              eff_endColor := td_color td;
              eff_startTime := frameCount e;
              eff_duration := durationFrames |} ]) e.

(** The faces of a slab (block subtype 3): the lower half of the tile when
    the slab is turned by about 180 degrees, the upper half otherwise. *)
Definition slabFaces (obj : LevelObject) : Q * Q :=
  let rot := js_rem (num_or (o_rotation obj) 0) 360 in
  let isBottomSlab := Qltb (Math_abs (rot - 180)) 10 in
  if isBottomSlab then (o_y obj * TILE_SIZE + 20, o_y obj * TILE_SIZE + 40)
  else (o_y obj * TILE_SIZE, o_y obj * TILE_SIZE + 20).

(** The ship against the faces [top] and [bot] of a block. *)
Definition shipBlock (top bot : Q) (e : Engine) : Flow :=
  let p := player e in
  let prevY := p_y p - p_vy p in
  if Qle_bool (prevY + p_h p) (top + 15) && Qle_bool 0 (p_vy p) then
    Continue (set_player (set_p_vy 0 (set_p_y (top - p_h p) p)) e)
  else if Qle_bool (bot - 15) prevY && Qle_bool (p_vy p) 0 then
    Continue (set_player (set_p_vy 0 (set_p_y bot p)) e)
  else Return (die e).

(** The cube against the faces [top] and [bot] of a block: it lands on the
    top face in normal gravity and on the bottom face in reversed gravity,
    and dies otherwise. *)
Definition cubeBlock (top bot : Q) (e : Engine) : Flow :=
  let p := player e in
  let prevY := p_y p - p_vy p in
  if negb (p_gravityReversed p) then
    let wasAbove := Qle_bool (prevY + p_h p) (top + Math_max (Math_abs (p_vy p)) 5) in
    if wasAbove && Qle_bool 0 (p_vy p) then
      let p := set_p_y (top - p_h p) p in
      let p := set_p_vy 0 p in
      let p := set_p_onGround true p in
      Continue (set_player (set_p_rotation 0 p) e)
    else Return (die e)
  else
    let wasBelow := Qle_bool (bot - Math_max (Math_abs (p_vy p)) 5) prevY in
    if wasBelow && Qle_bool (p_vy p) 0 then
      let p := set_p_y bot p in
      let p := set_p_vy 0 p in
      let p := set_p_onGround true p in
      Continue (set_player (set_p_rotation 0 p) e)
    else Return (die e).

Definition collideBlock (obj : LevelObject) (e : Engine) : Flow :=
  let blockTop := o_y obj * TILE_SIZE in
  let blockBottom := (o_y obj + 1) * TILE_SIZE in
  if vehicle_is (p_vehicle (player e)) SHIP then
    if (o_subtype obj =? 3)%Z then shipBlock (fst (slabFaces obj)) (snd (slabFaces obj)) e
    else shipBlock blockTop blockBottom e
  else
    if (o_subtype obj =? 3)%Z then cubeBlock (fst (slabFaces obj)) (snd (slabFaces obj)) e
    else cubeBlock blockTop blockBottom e.

Definition collidePad (obj : LevelObject) (e : Engine) : Engine :=
  if negb (set_has (usedObjectIds e) (o_id obj)) then
    let e := set_usedObjectIds (set_add (usedObjectIds e) (o_id obj)) e in
    let p := player e in
    if (o_subtype obj =? 4)%Z then
      let p := set_p_gravityReversed (negb (p_gravityReversed p)) p in
      let p := set_p_onGround false p in
      let magnitude := 9.0 in
      let p := if p_gravityReversed p then set_p_vy (- magnitude) p else set_p_vy magnitude p in
      set_player p e
    else
      let force := PAD_FORCE_YELLOW in
      let force := if (o_subtype obj =? 1)%Z then PAD_FORCE_PINK else force in
      let force := if (o_subtype obj =? 3)%Z then PAD_FORCE_RED else force in
      let p := if p_gravityReversed p then set_p_vy (- force) p else set_p_vy force p in
      set_player (set_p_onGround false p) e
  else e.

Definition collideOrb (inputDown inputJustPressed : bool) (obj : LevelObject) (e : Engine)
  : Engine :=
  if negb (set_has (usedObjectIds e) (o_id obj)) then
    let p := player e in
    let canActivate :=
      if vehicle_is (p_vehicle p) SHIP then inputJustPressed
      else inputDown && negb (hasInputUsed e) in
    if canActivate then
      let e := set_usedObjectIds (set_add (usedObjectIds e) (o_id obj)) e in
      let e := set_hasInputUsed true e in
      if (o_subtype obj =? 4)%Z then
        let p := set_p_gravityReversed (negb (p_gravityReversed p)) p in
        let p := set_p_onGround false p in
        let magnitude := if vehicle_is (p_vehicle p) SHIP then 4.0 else 8.0 in
        let p := if p_gravityReversed p then set_p_vy (- magnitude) p else set_p_vy magnitude p in
        set_player p e
      else
        let force := ORB_FORCE_YELLOW in
        let force := if (o_subtype obj =? 1)%Z then ORB_FORCE_PINK else force in
        let force := if (o_subtype obj =? 3)%Z then ORB_FORCE_RED else force in
        let p := if p_gravityReversed p then set_p_vy (- force) p else set_p_vy force p in
        set_player (set_p_onGround false p) e
    else e
  else e.

Definition collidePortal (obj : LevelObject) (e : Engine) : Engine :=
  if negb (set_has (usedObjectIds e) (o_id obj)) then
    let e := set_usedObjectIds (set_add (usedObjectIds e) (o_id obj)) e in
    let p := player e in
    let e :=
      if (o_subtype obj =? 1)%Z && negb (vehicle_is (p_vehicle p) CUBE) then
        let p := set_p_vehicle (Some CUBE) p in
        let e := set_targetFloorY FLOOR_Y e in
        let e := set_targetCeilingY (-99999) e in
        set_player
          (set_p_rotation (Math_round (p_rotation p / (Math_PI / 2)) * (Math_PI / 2)) p) e
      else if (o_subtype obj =? 2)%Z then
        let e :=
          if Qle_bool (o_y obj) 6 then
            set_targetCeilingY ((o_y obj - 5) * TILE_SIZE)
              (set_targetFloorY ((o_y obj + 5) * TILE_SIZE) e)
          else
            set_targetCeilingY (FLOOR_Y - 10 * TILE_SIZE) (set_targetFloorY FLOOR_Y e) in
        if negb (vehicle_is (p_vehicle p) SHIP)
        then set_player (set_p_vy 0 (set_p_vehicle (Some SHIP) p)) e
        else e
      else e in
    let p := player e in
    let p :=
      if (o_subtype obj =? 3)%Z then
        if negb (p_gravityReversed p) then set_p_gravityReversed true p else p
      else if (o_subtype obj =? 4)%Z then
        if p_gravityReversed p then set_p_gravityReversed false p else p
      else if (o_subtype obj =? 5)%Z then set_p_gravityReversed (negb (p_gravityReversed p)) p
      else p in
    set_player p e
  else e.

(** The body of the loop over the objects.  [pRight] and [pCx] are computed
    once before the loop. *)
Definition collideObject (inputDown inputJustPressed : bool) (pRight pCx : Q)
    (e : Engine) (obj : LevelObject) : Flow :=
  let p := player e in
  let margin := TILE_SIZE * 2 in
  match (if ObjectType_eqb (o_type obj) TRIGGER then o_triggerData obj else None) with
  | Some td =>
      if negb (set_has (triggeredIds e) (o_id obj)) then
        let activated :=
          if truthy (td_touchTrigger td) then checkCollision p obj
          else
            let triggerCenterX := o_x obj * TILE_SIZE + TILE_SIZE / 2 in
            Qle_bool triggerCenterX pCx && Qltb (pCx - PLAYER_SPEED) triggerCenterX in
        if activated then Continue (fireTrigger obj td e) else Continue e
      else Continue e
  | None =>
      if ObjectType_eqb (o_type obj) DECO || ObjectType_eqb (o_type obj) START_POS
      then Continue e
      else
        let bx := o_x obj * TILE_SIZE in
        if Qltb (pRight + margin) bx || Qltb (bx + TILE_SIZE) (p_x p - margin) then Continue e
        else
          let collision := checkCollision p obj in
          if collision then
            match o_type obj with
            | SPIKE => Return (die e)
            | BLOCK => collideBlock obj e
            | PAD => Continue (collidePad obj e)
            | ORB => Continue (collideOrb inputDown inputJustPressed obj e)
            | PORTAL => Continue (collidePortal obj e)
            | _ => Continue e
            end
          else Continue e
  end.

Fixpoint objectLoop (inputDown inputJustPressed : bool) (pRight pCx : Q)
    (objs : list LevelObject) (e : Engine) : Flow :=
  match objs with
  | [] => Continue e
  | obj :: rest =>
      match collideObject inputDown inputJustPressed pRight pCx e obj with
      | Continue e => objectLoop inputDown inputJustPressed pRight pCx rest e
      | Return e => Return e
      end
  end.

(** What follows the loop: the jump of a grounded cube and the death
    boundaries. *)
Definition afterObjects (inputDown : bool) (e : Engine) : Engine :=
  let e :=
    if vehicle_is (p_vehicle (player e)) CUBE then
      if p_onGround (player e) && inputDown then set_hasInputUsed true (jump e) else e
    else e in
  if negb (p_gravityReversed (player e)) then
    if Qltb (FLOOR_Y + 500) (p_y (player e)) then die e else e
  else
    if Qltb (p_y (player e)) (-2000) then die e else e.

(** The input flags, the horizontal advance and the vehicle physics that
    precede the loop over the objects. *)
Definition beforeObjects (e : Engine) : Flow :=
  let inputDown := isInputDown e in
  let inputJustPressed := inputDown && negb (prevInputState e) in
  let e := set_prevInputState inputDown e in
  let e := if inputJustPressed then set_hasInputUsed false e else e in
  let e := if negb inputDown then set_hasInputUsed false e else e in
  let e := set_player (set_p_x (p_x (player e) + PLAYER_SPEED) (player e)) e in
  let flow :=
    if vehicle_is (p_vehicle (player e)) CUBE then cubePhysics e
    else Continue (shipPhysics inputDown e) in
  match flow with
  | Return e => Return e
  | Continue e =>
      let p := player e in
      if negb (GameMode_eqb (modeRef e) VERIFY) && Qltb (js_rem (p_x p) 5) PLAYER_SPEED then
        let t := trail e ++ [mkPoint (p_x p + p_w p / 2) (p_y p + p_h p / 2)] in
        Continue (set_trail (if (5000 <? List.length t)%nat then tl t else t) e)
      else Continue e
  end.

Definition updatePhysics (e : Engine) : Engine :=
  let p := player e in
  if p_dead p then e
  else if p_finished p && GameMode_eqb (modeRef e) VERIFY then
    if isSuckedIntoWall e then
      let p := set_p_x (p_x p + (finishWallX e + 50 - p_x p) * 0.1) p in
      let p := set_p_w (p_w p * 0.9) p in
      let p := set_p_h (p_h p * 0.9) p in
      let p := set_p_rotation (p_rotation p + 0.5) p in
      let e := set_player p e in
      if Qltb (p_w p) 1 then onModeChange COMPLETE (set_isSuckedIntoWall false e) else e
    else e
  else if GameMode_eqb (modeRef e) VERIFY && Qltb (finishWallX e) (p_x p) then
    set_isSuckedIntoWall true (set_player (set_p_finished true p) e)
  else
    let inputDown := isInputDown e in
    let inputJustPressed := inputDown && negb (prevInputState e) in
    match beforeObjects e with
    | Return e => e
    | Continue e =>
        let p := player e in
        let pRight := p_x p + p_w p in
        let pCx := p_x p + p_w p / 2 in
        match objectLoop inputDown inputJustPressed pRight pCx (levelData e) e with
        | Return e => e
        | Continue e => afterObjects inputDown e
        end
    end.

(** ** The animation frame *)

(** One live effect writes its interpolated colour; [None] when
    [interpolateColor] throws. *)
Definition applyEffect (e : Engine) (eff : ColorEffect) : option Engine :=
  let progress :=
    (inject_Z (frameCount e) - inject_Z (eff_startTime eff)) / eff_duration eff in
  let clampedProgress := Math_min 1 (Math_max 0 progress) in
  match interpolateColor (eff_startColor eff) (eff_endColor eff) clampedProgress with
  | Some newColor =>
      Some (set_displaySettings
              (setColor (displaySettings e) (eff_target eff) (Some newColor)) e)
  | None => None
  end.

(** The [forEach] over the live effects; the flag tells that an exception
    left the loop, with the writes made before it. *)
Fixpoint applyEffects (effs : list ColorEffect) (e : Engine) : Engine * bool :=
  match effs with
  | [] => (e, false)
  | eff :: rest =>
      match applyEffect e eff with
      | Some e => applyEffects rest e
      | None => (e, true)
      end
  end.

Definition isLive (frame : Z) (eff : ColorEffect) : bool :=
  Qltb (inject_Z frame) (inject_Z (eff_startTime eff) + eff_duration eff).

(** The colour logic of a frame played with a live player. *)
Definition gameplayColors (e : Engine) : Engine * bool :=
  let e := set_frameCount (frameCount e + 1)%Z e in
  let e := set_activeEffects (filter (isLive (frameCount e)) (activeEffects e)) e in
  applyEffects (activeEffects e) e.

(** The colour preview of the editor at the centre of the view. *)
Definition previewTrigger (centerX : Q) (simSettings : LevelSettings) (t : LevelObject)
  : option LevelSettings :=
  match o_triggerData t with
  | None => Some simSettings
  | Some td =>
      if truthy (td_touchTrigger td) then Some simSettings
      else
        let triggerX := o_x t * TILE_SIZE + TILE_SIZE / 2 in
        let distance := centerX - triggerX in
        let progress :=
          match td_duration td with
          | Some duration =>
              let fadeLength := duration * 60 * PLAYER_SPEED in
              if Qltb 0 fadeLength then Math_min 1 (Math_max 0 (distance / fadeLength)) else 1
          | None => 1
          end in
        match interpolateColor (getColor simSettings (td_target td)) (td_color td) progress with
        | Some c => Some (setColor simSettings (td_target td) (Some c))
        | None => None
        end
  end.

Fixpoint previewTriggers (centerX : Q) (ts : list LevelObject) (simSettings : LevelSettings)
  : option LevelSettings :=
  match ts with
  | [] => Some simSettings
  | t :: rest =>
      match previewTrigger centerX simSettings t with
      | Some s => previewTriggers centerX rest s
      | None => None
      end
  end.

Definition editorColors (width zoom : Q) (e : Engine) : Engine * bool :=
  let simSettings := levelSettings e in
  let centerX := cam_x (camera e) + (width / zoom) / 2 in
  let relevantTriggers :=
    js_sort (fun a b => o_x a - o_x b)
      (filter (fun o =>
                 ObjectType_eqb (o_type o) TRIGGER
                 && match o_triggerData o with Some _ => true | None => false end
                 && Qltb (o_x o * TILE_SIZE) centerX) (levelData e)) in
  match previewTriggers centerX relevantTriggers simSettings with
  | Some s => (set_displaySettings s e, false)
  | None => (e, true)
  end.

(** The eased floor and ceiling. *)
Definition animateBounds (e : Engine) : Engine :=
  let e := set_activeFloorY (activeFloorY e + (targetFloorY e - activeFloorY e) * 0.1) e in
  let destCeil := targetCeilingY e in
  if Qltb destCeil (-90000) then
    if Qltb (-90000) (activeCeilingY e) then
      let offScreenY := cam_y (camera e) - 1000 in
      if Qltb (activeCeilingY e) (offScreenY + 50) then set_activeCeilingY (-99999) e
      else set_activeCeilingY (activeCeilingY e + (offScreenY - activeCeilingY e) * 0.1) e
    else e
  else
    let e :=
      if Qltb (activeCeilingY e) (-90000) then set_activeCeilingY (cam_y (camera e) - 1000) e
      else e in
    set_activeCeilingY (activeCeilingY e + (destCeil - activeCeilingY e) * 0.1) e.

Definition moveCamera (currentMode : GameMode) (width height zoom : Q) (e : Engine) : Engine :=
  let cam := camera e in
  if GameMode_eqb currentMode EDITOR || GameMode_eqb currentMode PAUSED
     || GameMode_eqb currentMode VERIFY_PAUSED
  then
    let camSpeed := 15 / cam_zoom cam in
    let y := if set_has (keys e) "KeyW" then cam_y cam - camSpeed else cam_y cam in
    let y := if set_has (keys e) "KeyS" then y + camSpeed else y in
    let x := if set_has (keys e) "KeyA" then cam_x cam - camSpeed else cam_x cam in
    let x := if set_has (keys e) "KeyD" then x + camSpeed else x in
    set_camera (mkCamera x y (cam_zoom cam)) e
  else
    let p := player e in
    let targetX := p_x p - (width / zoom) / 3 in
    let visibleHeight := height / zoom in
    let targetY :=
      if vehicle_is (p_vehicle p) SHIP && Qltb (-90000) (targetCeilingY e) then
        let floor := targetFloorY e in
        let ceiling := targetCeilingY e in
        let midY := (floor + ceiling) / 2 in
        midY - visibleHeight * 0.5
      else
        let targetY := p_y p - visibleHeight * 0.55 in
        let maxCamY := FLOOR_Y - visibleHeight + 150 in
        if Qltb maxCamY targetY then maxCamY else targetY in
    let nextCamX := targetX in
    let nextCamX :=
      if GameMode_eqb currentMode VERIFY then
        let maxCamX := finishWallX e - width / zoom + 300 in
        if Qltb maxCamX nextCamX then maxCamX else nextCamX
      else nextCamX in
    set_camera
      (mkCamera (cam_x cam + (nextCamX - cam_x cam) * 0.1)
                (cam_y cam + (targetY - cam_y cam) * 0.1) (cam_zoom cam)) e.

(** The frame callback.  An exception thrown by the colour logic leaves the
    callback before it schedules the next frame. *)
Definition update (e : Engine) : Engine :=
  let currentMode := modeRef e in
  let width := canvasWidth e in
  let height := canvasHeight e in
  let zoom := cam_zoom (camera e) in
  let inPlay := GameMode_eqb currentMode PLAYTEST || GameMode_eqb currentMode VERIFY in
  let e :=
    if inPlay then set_camera (mkCamera (cam_x (camera e)) (cam_y (camera e)) 1.2) e else e in
  let e :=
    if GameMode_eqb currentMode VERIFY && pendingReset e
    then resetPlayerInternal true (set_pendingReset false e) else e in
  let e := animateBounds e in
  let '(e, thrown) :=
    if negb (GameMode_eqb currentMode PAUSED) && negb (GameMode_eqb currentMode VERIFY_PAUSED)
    then
      if GameMode_eqb currentMode EDITOR then editorColors width zoom e
      else if negb (p_dead (player e)) then gameplayColors e
      else (e, false)
    else (e, false) in
  if thrown then set_loopRunning false e
  else
    let e := if inPlay then updatePhysics e else e in
    moveCamera currentMode width height zoom e.

(** ** Operations *)

(** Everything that acts on the engine: the frame callback, the events of
    the canvas and the window, the calls of the imperative handle, the mode
    and tool changes of [App], and the deferred callback of [die]. *)
Inductive Op : Type :=
  | Frame
  | KeyDown (ev : KeyEvt) (gen : nat -> string)
  | KeyUp (ev : KeyEvt)
  | MouseDown (ev : MouseEvt) (newId : string)
  | MouseUp (ev : MouseEvt) (newId : string)
  | MouseMove (ev : MouseEvt) (newId : string)
  | Wheel (deltaY : Q)
  | Resize (innerWidth innerHeight : Q)
  | SetLevel (data : LevelInput) (keepHistory : bool)
  | UpdateSettings (newSettings : PartialSettings)
  | UpdateSelectedTrigger (data : TriggerData)
  | UpdateSelectedStartPos (data : StartPosData)
  | MoveSelection (dx dy : Q)
  | RotateSelection (angle : Q) (relative : bool)
  | DeleteSelection
  | DeselectAll
  | ClearLevel
  | DuplicateSelection (gen : nat -> string)
  | ResetPlayer (forVerify : bool)
  | OpUndo
  | OpRedo
  | ModeChange (newMode : GameMode)
  | RestartVerify
  | ToolSelect (type : ObjectType) (subtype : Z)
  | DeathTimeout.

Definition step (op : Op) (e : Engine) : Engine :=
  match op with
  | Frame => if loopRunning e then update e else e
  | KeyDown ev gen => onKeyDown ev gen e
  | KeyUp ev => onKeyUp ev e
  | MouseDown ev newId => onMouseDown ev newId e
  | MouseUp ev newId => onMouseUp ev newId e
  | MouseMove ev newId => onMouseMove ev newId e
  | Wheel deltaY => onWheel deltaY e
  | Resize w h => resize w h e
  | SetLevel data keepHistory => setLevel data keepHistory e
  | UpdateSettings newSettings => updateSettings newSettings e
  | UpdateSelectedTrigger data => updateSelectedTrigger data e
  | UpdateSelectedStartPos data => updateSelectedStartPos data e
  | MoveSelection dx dy => moveSelectionInternal dx dy e
  | RotateSelection angle relative => rotateSelection angle relative e
  | DeleteSelection => deleteSelection e
  | DeselectAll => deselectAll e
  | ClearLevel => clearLevel e
  | DuplicateSelection gen => duplicateSelection gen e
  | ResetPlayer forVerify => resetPlayer forVerify e
  | OpUndo => undo e
  | OpRedo => redo e
  | ModeChange newMode => handleModeChange newMode e
  | RestartVerify => onRestartVerify e
  | ToolSelect type subtype => handleToolSelect type subtype e
  | DeathTimeout => deathTimeout e
  end.

Definition run (ops : list Op) (e : Engine) : Engine :=
  fold_left (fun e op => step op e) ops e.

(** The refs as the component creates them. *)
Definition createdEngine : Engine :=
  {| levelData := [];
     levelSettings := DEFAULT_LEVEL_SETTINGS;
     displaySettings := DEFAULT_LEVEL_SETTINGS;
     selectedObjects := [];
     isPastedSelection := false;
     clipboard := [];
     trail := [];
     deathMarkers := [];
     activeEffects := [];
     triggeredIds := [];
     usedObjectIds := [];
     history := [];
     historyIndex := (-1)%Z;
     player := {| p_x := 0; p_y := 0; p_w := 36; p_h := 36; p_vx := 0; p_vy := 0;
                  p_rotation := 0; p_onGround := false; p_dead := false;
                  p_finished := false; p_vehicle := Some CUBE;
                  p_gravityReversed := false |};
     activeFloorY := FLOOR_Y;
     activeCeilingY := -99999;
     targetFloorY := FLOOR_Y;
     targetCeilingY := -99999;
     camera := mkCamera 0 0 1.2;
     prevInputState := false;
     hasInputUsed := false;
     boxSelectStart := None;
     finishWallX := 999999;
     isSuckedIntoWall := false;
     modeRef := EDITOR;
     selectedToolRef := (BLOCK, 1%Z);
     frameCount := 0%Z;
     pendingReset := false;
     lastToolRotation := 0;
     lastDeletePos := None;
     loopRunning := true;
     keys := [];
     mouseX := 0;
     mouseY := 0;
     mouseIsDown := false;
     mouseIsRightDown := false;
     canvasWidth := 0;
     canvasHeight := 0;
     deathTimers := O |}.

(** The engine once mounted in a window of the given size: the first history
    entry is recorded and the canvas takes the size of the window. *)
Definition mountedEngine (innerWidth innerHeight : Q) : Engine :=
  resize innerWidth innerHeight (mountHistory createdEngine).

(** The states the engine can reach. *)
Definition reachable (e : Engine) : Prop :=
  exists innerWidth innerHeight ops, e = run ops (mountedEngine innerWidth innerHeight).

(** ** Notions used by the properties *)

(** The document and the history, the part of the state undo and redo are
    about. *)
Definition docHist (e : Engine) : list LevelObject * LevelSettings * list StateJson * Z :=
  (levelData e, levelSettings e, history e, historyIndex e).

(** The history index points at the last entry, and that entry is the
    snapshot of the current document. *)
Definition atTip (e : Engine) : Prop :=
  historyIndex e = (Z.of_nat (List.length (history e)) - 1)%Z
  /\ (1 <= List.length (history e))%nat
  /\ array_get (history e) (historyIndex e) = Some (getCurrentState e).

(** The entries kept by [addToHistory] before it appends: the history up to
    the current index. *)
Definition keptEntries (e : Engine) : list StateJson :=
  if (historyIndex e <? Z.of_nat (List.length (history e)) - 1)%Z
  then slice0 (history e) (historyIndex e + 1) else history e.

(** The operations that walk the history: the undo and redo calls and their
    keyboard shortcuts. *)
Definition isHistoryNav (op : Op) : bool :=
  match op with
  | OpUndo | OpRedo => true
  | KeyDown ev _ =>
      k_ctrlKey ev && negb (k_repeat ev)
      && (String.eqb (code ev) "KeyZ" || String.eqb (code ev) "KeyY")
  | _ => false
  end.

(** The engine result of a block of statements. *)
Definition flowEngine (f : Flow) : Engine :=
  match f with Continue e => e | Return e => e end.

(** How an operation may change the document and the history: not at all, by
    recording one snapshot of a possibly changed document, by resetting the
    history to the current document, or by a sequence of such changes.  With
    [nav] an operation may also move the index and restore the document,
    keeping the entries. *)
Inductive histRel (nav : bool) : Engine -> Engine -> Prop :=
  | hr_same (e e' : Engine) :
      docHist e' = docHist e -> histRel nav e e'
  | hr_snap (e e0 e' : Engine) :
      history e0 = history e -> historyIndex e0 = historyIndex e ->
      docHist e' = docHist (addToHistory e0) -> histRel nav e e'
  | hr_reset (e e' : Engine) :
      history e' = [getCurrentState e'] -> historyIndex e' = 0%Z -> histRel nav e e'
  | hr_nav (e e' : Engine) :
      nav = true -> history e' = history e -> histRel nav e e'
  | hr_trans (e1 e2 e3 : Engine) :
      histRel nav e1 e2 -> histRel nav e2 e3 -> histRel nav e1 e3.

(** The grid cell an editor click falls in, as [handleEditorClick] computes
    it from the mouse event and the camera. *)
Definition clickedCell (ev : MouseEvt) (e : Engine) : Q * Q :=
  (Math_floor ((clientX ev / cam_zoom (camera e) + cam_x (camera e)) / TILE_SIZE),
   Math_floor ((clientY ev / cam_zoom (camera e) + cam_y (camera e)) / TILE_SIZE)).

(** Some object of the document sits exactly on the cell. *)
Definition occupied (e : Engine) (cell : Q * Q) : Prop :=
  exists o, In o (levelData e) /\ o_x o == fst cell /\ o_y o == snd cell.

(** What every editor click does first: a pasted selection stops being
    marked as pasted. *)
Definition clearPasted (e : Engine) : Engine :=
  if isPastedSelection e then set_isPastedSelection false e else e.

(** The object a placement adds for the current tool. *)
Definition placedObject (newId : string) (cell : Q * Q) (e : Engine) : LevelObject :=
  let toolType := fst (selectedToolRef e) in
  {| o_id := newId; o_x := fst cell; o_y := snd cell;
     o_type := toolType; o_subtype := snd (selectedToolRef e);
     o_rotation := Some (lastToolRotation e);
     o_triggerData := if ObjectType_eqb toolType TRIGGER then Some defaultTriggerData else None;
     o_startPosData :=
       if ObjectType_eqb toolType START_POS then Some defaultStartPosData else None |}.

(** The horizontal delta [moveSelectionInternal] applies: the requested one,
    adjusted once per selected object in the order of the selection. *)
Definition clampedDx (dx : Q) (e : Engine) : Q :=
  fold_left (adjustDx (map_of_list (map (fun o => (o_id o, o)) (levelData e))))
    (selectedObjects e) dx.

(** A selected StartPos object of the document. *)
Definition selectedStartPos (e : Engine) (s : LevelObject) : Prop :=
  In s (levelData e) /\ set_has (selectedObjects e) (o_id s) = true /\ o_type s = START_POS.

(** An enabled StartPos object. *)
Definition enabledStartPos (o : LevelObject) : Prop := isEnabledStartPos (o, 0%Z) = true.

(** The enabled StartPos objects lie pairwise at the same x or more than
    0.01 apart, as objects placed on grid cells do. *)
Definition wellSeparated (objs : list LevelObject) : Prop :=
  forall a b, In a objs -> In b objs -> enabledStartPos a -> enabledStartPos b ->
    o_x a == o_x b \/ 0.01 < Qabs (o_x a - o_x b).

(** [a] sorts strictly before [b] under the comparator. *)
Definition sortsBefore {A : Type} (cmp : A -> A -> Q) (a b : A) : Prop :=
  Qltb (cmp a b) 0 = true.

(** Nothing in the list sorts strictly before its head. *)
Definition headFirst {A : Type} (cmp : A -> A -> Q) (l : list A) : Prop :=
  match l with
  | [] => True
  | h :: _ => forall y, In y l -> ~ sortsBefore cmp y h
  end.

(** The step runs the physics: the player is alive and no completion
    animation is under way. *)
Definition physicsRuns (e : Engine) : Prop :=
  p_dead (player e) = false
  /\ p_finished (player e) && GameMode_eqb (modeRef e) VERIFY = false
  /\ GameMode_eqb (modeRef e) VERIFY && Qltb (finishWallX e) (p_x (player e)) = false.

(** The loop over the objects of the step started in [e], run on the
    objects [objs] from the state [e1]; [e0] is the state the loop starts
    in. *)
Definition loopFrom (e e0 : Engine) (objs : list LevelObject) (e1 : Engine) : Flow :=
  objectLoop (isInputDown e) (isInputDown e && negb (prevInputState e))
    (p_x (player e0) + p_w (player e0)) (p_x (player e0) + p_w (player e0) / 2) objs e1.

(** The player overlaps the full block [obj], which lies within the
    horizontal margin the loop looks at. *)
Definition hitsFullBlock (e0 e1 : Engine) (obj : LevelObject) : Prop :=
  o_type obj = BLOCK /\ o_subtype obj <> 3%Z
  /\ Qltb (p_x (player e0) + p_w (player e0) + TILE_SIZE * 2) (o_x obj * TILE_SIZE)
     || Qltb (o_x obj * TILE_SIZE + TILE_SIZE) (p_x (player e1) - TILE_SIZE * 2) = false
  /\ checkCollision (player e1) obj = true.

(** The step started in [e] brings a cube in normal gravity onto the full
    block [obj]: [e0] is the state in which the loop over the objects starts,
    [pre] are the objects before [obj] and [e1] is the state they leave. *)
Definition reachesBlock (e e0 e1 : Engine) (pre post : list LevelObject)
    (obj : LevelObject) : Prop :=
  physicsRuns e
  /\ levelData e = pre ++ obj :: post
  /\ beforeObjects e = Continue e0
  /\ loopFrom e e0 pre e0 = Continue e1
  /\ hitsFullBlock e0 e1 obj
  /\ p_vehicle (player e1) = Some CUBE
  /\ p_gravityReversed (player e1) = false.

(** The approach the source accepts as a landing on the top face: the bottom
    edge of the previous frame was at or above the top of the block plus the
    tolerance, and the player does not move upwards. *)
Definition landsOnTop (p : Player) (obj : LevelObject) : bool :=
  Qle_bool (p_y p - p_vy p + p_h p)
           (o_y obj * TILE_SIZE + Math_max (Math_abs (p_vy p)) 5)
  && Qle_bool 0 (p_vy p).

(** The player rests on the top face of [obj]. *)
Definition restsOn (p : Player) (h : Q) (obj : LevelObject) : Prop :=
  p_y p == o_y obj * TILE_SIZE - h /\ p_vy p == 0
  /\ p_onGround p = true /\ p_rotation p == 0.

(** ** Inputs of the concrete runs *)

(** A left click at the centre of a grid cell, seen by the initial camera
    (zoom 1.2 at the origin). *)
Definition clickAt (gx gy : Q) : MouseEvt :=
  {| clientX := (gx * 40 + 20) * 1.2; clientY := (gy * 40 + 20) * 1.2;
     shiftKey := false; button := 0%Z |}.

Definition noIds : nat -> string := fun _ => "none"%string.

(** A block is placed, moved and turned. *)
Definition editingSession : list Op :=
  [ MouseDown (clickAt 2 3) "a"%string; MouseUp (clickAt 2 3) "a"%string;
    MoveSelection 1 0; RotateSelection 90 true ].

Definition boxFrom : MouseEvt :=
  {| clientX := 0; clientY := 0; shiftKey := false; button := 0%Z |}.

Definition boxTo : MouseEvt :=
  {| clientX := 600; clientY := 600; shiftKey := false; button := 0%Z |}.

Definition startPosA : LevelObject :=
  {| o_id := "A"; o_x := 3; o_y := 11; o_type := START_POS; o_subtype := 1%Z;
     o_rotation := Some 0; o_triggerData := None;
     o_startPosData := Some defaultStartPosData |}.

Definition startPosB : LevelObject :=
  {| o_id := "B"; o_x := 3.0078125; o_y := 11; o_type := START_POS; o_subtype := 1%Z;
     o_rotation := Some 0; o_triggerData := None;
     o_startPosData := Some defaultStartPosData |}.

Definition startPosC : LevelObject :=
  {| o_id := "C"; o_x := 3; o_y := 9; o_type := START_POS; o_subtype := 1%Z;
     o_rotation := Some 0; o_triggerData := None;
     o_startPosData := Some defaultStartPosData |}.

(** A start position above two blocks, a key event for the space bar, and
    the operations that load them and start a playtest. *)
Definition startAbove : LevelObject :=
  {| o_id := "s"; o_x := 0; o_y := 9; o_type := START_POS; o_subtype := 1%Z;
     o_rotation := Some 0; o_triggerData := None;
     o_startPosData := Some defaultStartPosData |}.

Definition blockOne : LevelObject :=
  {| o_id := "b1"; o_x := 1; o_y := 11; o_type := BLOCK; o_subtype := 1%Z;
     o_rotation := Some 0; o_triggerData := None; o_startPosData := None |}.

Definition blockTwo : LevelObject :=
  {| o_id := "b2"; o_x := 2; o_y := 11; o_type := BLOCK; o_subtype := 1%Z;
     o_rotation := Some 0; o_triggerData := None; o_startPosData := None |}.

Definition spaceKey : KeyEvt :=
  {| code := "Space"; k_ctrlKey := false; k_shiftKey := false; k_repeat := false |}.

Definition playBlocks : list Op :=
  [ SetLevel (InArray [startAbove; blockOne; blockTwo]) false; ModeChange PLAYTEST ].

(** A yellow pad whose hitbox starts at x = 95, over the first block. *)
Definition padAhead : LevelObject :=
  {| o_id := "p"; o_x := 2.25; o_y := 10; o_type := PAD; o_subtype := 2%Z;
     o_rotation := Some 0; o_triggerData := None; o_startPosData := None |}.

Definition playPad : list Op :=
  [ SetLevel (InArray [startAbove; blockOne; padAhead]) false; ModeChange PLAYTEST ].

(** The default trigger placed with the editor, then a playtest. *)
Definition playTrigger : list Op :=
  [ ToolSelect TRIGGER 1;
    MouseDown (clickAt 0 10) "t"%string; MouseUp (clickAt 0 10) "t"%string;
    ModeChange PLAYTEST ].

(** A block placed with the editor, which leaves it selected. *)
Definition placeBlock : list Op :=
  [ MouseDown (clickAt 2 3) "a"%string; MouseUp (clickAt 2 3) "a"%string ].

(** A block that carries trigger data, as a level file can hold it. *)
Definition dataBlock : LevelObject :=
  {| o_id := "d"; o_x := 4; o_y := 11; o_type := BLOCK; o_subtype := 1%Z;
     o_rotation := Some 0; o_triggerData := Some defaultTriggerData;
     o_startPosData := None |}.

(** A level with a block is loaded, a trigger is placed with the editor,
    which leaves it selected, its duration is set, and it is duplicated. *)
Definition triggerSession : list Op :=
  [ SetLevel (InArray [ blockOne ]) false; ToolSelect TRIGGER 1;
    MouseDown (clickAt 0 10) "t"%string; MouseUp (clickAt 0 10) "t"%string;
    UpdateSelectedTrigger (mkTriggerData None None (Some 2) None);
    DuplicateSelection (fun _ => "u"%string) ].

(** A trigger and a block under one id, as a level file can hold them, and
    an editing sequence on them: the trigger is selected with a click of the
    select tool and deleted with a click of the delete tool, and then a
    duration is entered in the trigger panel. *)
Definition twinTrigger : LevelObject :=
  {| o_id := "t"; o_x := 0; o_y := 10; o_type := TRIGGER; o_subtype := 1%Z;
     o_rotation := Some 0; o_triggerData := Some defaultTriggerData;
     o_startPosData := None |}.

Definition twinBlock : LevelObject :=
  {| o_id := "t"; o_x := 4; o_y := 11; o_type := BLOCK; o_subtype := 1%Z;
     o_rotation := Some 0; o_triggerData := None; o_startPosData := None |}.

Definition selectTwin : list Op :=
  [ ToolSelect TOOL 0; MouseDown (clickAt 0 10) "x"%string; MouseUp (clickAt 0 10) "x"%string ].

Definition deleteTwin : list Op :=
  [ ToolSelect DELETE 0; MouseDown (clickAt 0 10) "x"%string; MouseUp (clickAt 0 10) "x"%string ].

(** ** Further notions: the history and the document *)

(** The document: the objects and the settings of the level. *)
Definition document (e : Engine) : list LevelObject * LevelSettings :=
  (levelData e, levelSettings e).

(** A history entry that holds a snapshot as [getCurrentState] writes it. *)
Definition isSnapshot (s : StateJson) : bool :=
  match s with JsonState _ _ => true | _ => false end.

(** The history is in step with the document: the index points inside the
    history, at the snapshot of the current document, and every entry is a
    snapshot. *)
Definition inStep (e : Engine) : Prop :=
  (0 <= historyIndex e < Z.of_nat (List.length (history e)))%Z
  /\ array_get (history e) (historyIndex e) = Some (getCurrentState e)
  /\ Forall (fun s => isSnapshot s = true) (history e).

(** An operation leaves the document and the history alone, or records one
    snapshot of a document it may have changed before. *)
Definition oneEdit (e e' : Engine) : Prop :=
  docHist e' = docHist e
  \/ exists e0, history e0 = history e /\ historyIndex e0 = historyIndex e
                /\ docHist e' = docHist (addToHistory e0).

(** A load that starts the history afresh. *)
Definition resetsHistory (op : Op) : bool :=
  match op with SetLevel _ false => true | _ => false end.

(** ** Further notions: the selection *)

(** Every selected identifier is the identifier of an object of the
    document. *)
Definition selectionValid (e : Engine) : Prop :=
  forall id, In id (selectedObjects e) -> In id (map o_id (levelData e)).

(** A mouse event that reaches the delete branch of [handleEditorClick]: a
    press or a move while the delete tool is active. *)
Definition deletesByPoint (op : Op) (e : Engine) : bool :=
  match op with
  | MouseDown _ _ | MouseMove _ _ => ObjectType_eqb (fst (selectedToolRef e)) DELETE
  | _ => false
  end.

(** The objects stay, and the selection stays or is emptied. *)
Definition keepsOrClears (e e' : Engine) : Prop :=
  levelData e' = levelData e
  /\ (selectedObjects e' = selectedObjects e \/ selectedObjects e' = []).

(** Every value of the map carries its key as identifier. *)
Definition keyed (m : list (string * LevelObject)) : Prop :=
  forall k v, In (k, v) m -> o_id v = k.

(** ** Further notions: colours *)

(** The colour string [interpolateColor] builds from three channels. *)
Definition rgb (r g b : Z) : string :=
  String "#" (padStart2 (toString16 r) ++ padStart2 (toString16 g)
                ++ padStart2 (toString16 b))%string.

(** One channel of the interpolation: [Math.round(c1 + (c2 - c1) * factor)]. *)
Definition mix (c1 c2 : Z) (factor : Q) : Z :=
  Qfloor (Math_round (inject_Z c1 + (inject_Z c2 - inject_Z c1) * factor)).

(** A channel survives printing and parsing, as two characters. *)
Definition channelRoundTrips (n : Z) : bool :=
  match parseInt16 (padStart2 (toString16 n)) with
  | Some q => (Qnum q =? n)%Z && (Qden q =? 1)%positive
  | None => false
  end
  && (String.length (padStart2 (toString16 n)) =? 2)%nat.

(** ** Further notions: the player *)

(** The rectangle of the player, which the collision tests read. *)
Definition position (p : Player) : Q * Q * Q * Q := (p_x p, p_y p, p_w p, p_h p).

(** ** Further notions: the run *)

(** What a run has produced so far, and the state of its colours. *)
Definition runState (e : Engine)
  : Player * list Point * list string * list string * list Point :=
  (player e, trail e, triggeredIds e, usedObjectIds e, deathMarkers e).

Definition colourState (e : Engine) : Z * list ColorEffect * LevelSettings :=
  (frameCount e, activeEffects e, displaySettings e).

(** The centre of the player, where [die] leaves its marker. *)
Definition playerCentre (p : Player) : Point :=
  mkPoint (p_x p + p_w p / 2) (p_y p + p_h p / 2).

(** ** Further notions: the camera *)

(** The zoom of the camera lies within the limits of the wheel. *)
Definition zoomInLimits (e : Engine) : Prop :=
  0.5 <= cam_zoom (camera e) /\ cam_zoom (camera e) <= 2.5.

(** ** Further notions: kinds of operations *)

(** The calls of the imperative handle that edit the document or walk the
    history. *)
Definition editorCall (op : Op) : bool :=
  match op with
  | SetLevel _ _ | UpdateSettings _ | UpdateSelectedTrigger _ | UpdateSelectedStartPos _
  | MoveSelection _ _ | RotateSelection _ _ | DeleteSelection | ClearLevel
  | DuplicateSelection _ | OpUndo | OpRedo => true
  | _ => false
  end.

(** The events of the keyboard and of the mouse buttons and pointer. *)
Definition inputEvent (op : Op) : bool :=
  match op with
  | KeyDown _ _ | MouseDown _ _ | MouseUp _ _ | MouseMove _ _ => true
  | _ => false
  end.

(** The width of a player of width [w] after [k] frames in the finish
    wall. *)
Fixpoint shrunkWidth (w : Q) (k : nat) : Q :=
  match k with
  | O => w
  | S k => shrunkWidth w k * 0.9
  end.

(** [n] calls of [updatePhysics]. *)
Definition physicsFrames (n : nat) (e : Engine) : Engine := Nat.iter n updatePhysics e.

(** The player is in the finish wall of a verify run and has shrunk for [k]
    frames from the width [w]. *)
Definition shrinking (w : Q) (k : nat) (e : Engine) : Prop :=
  modeRef e = VERIFY /\ p_dead (player e) = false /\ p_finished (player e) = true
  /\ isSuckedIntoWall e = true /\ p_w (player e) == shrunkWidth w k.

(** ** Further notions: the selection box *)

(** The pointer of a mouse event in the coordinates of the level. *)
Definition worldPoint (ev : MouseEvt) (e : Engine) : Q * Q :=
  (clientX ev / cam_zoom (camera e) + cam_x (camera e),
   clientY ev / cam_zoom (camera e) + cam_y (camera e)).

(** [c] lies between [a] and [b], in either order. *)
Definition between (a b c : Q) : Prop := (a <= c /\ c <= b) \/ (b <= c /\ c <= a).

(** The centre of the tile of an object lies in the box spanned by [start]
    and [w]. *)
Definition centreInBox (start : Point) (w : Q * Q) (o : LevelObject) : Prop :=
  between (pt_x start) (fst w) (o_x o * TILE_SIZE + TILE_SIZE / 2)
  /\ between (pt_y start) (snd w) (o_y o * TILE_SIZE + TILE_SIZE / 2).

(** The tile of an object holds the point [w]. *)
Definition underPointer (w : Q * Q) (o : LevelObject) : bool :=
  Qle_bool (o_x o * TILE_SIZE) (fst w) && Qltb (fst w) ((o_x o + 1) * TILE_SIZE)
  && Qle_bool (o_y o * TILE_SIZE) (snd w) && Qltb (snd w) ((o_y o + 1) * TILE_SIZE).

(** The mouse went less than 10 units from [start] in both directions: a
    click rather than a drag. *)
Definition isClick (start : Point) (w : Q * Q) : Prop :=
  Qabs (fst w - pt_x start) < 10 /\ Qabs (snd w - pt_y start) < 10.

(** ** Further notions: trigger data *)

(** The objects and the history together with the clipboard: all that holds
    level objects. *)
Definition stock (e : Engine)
  : list LevelObject * LevelSettings * list StateJson * Z * list LevelObject :=
  (docHist e, clipboard e).

(** An object carries trigger data only if it is a Trigger. *)
Definition dataOnTrigger (o : LevelObject) : Prop :=
  o_triggerData o <> None -> o_type o = TRIGGER.

(** The objects [restoreState] takes from a history entry. *)
Definition snapshotObjects (s : StateJson) : list LevelObject :=
  match s with
  | JsonArray objects => objects
  | JsonState _ objects => objects
  | _ => []
  end.

(** Only Triggers carry trigger data: in the document, in the clipboard and
    in every entry of the history. *)
Definition triggerDataOnTriggers (e : Engine) : Prop :=
  Forall dataOnTrigger (levelData e)
  /\ Forall dataOnTrigger (clipboard e)
  /\ Forall (fun s => Forall dataOnTrigger (snapshotObjects s)) (history e).

(** The objects [setLevel] takes from its argument. *)
Definition loadedObjects (data : LevelInput) : list LevelObject :=
  match data with
  | InArray objects => objects
  | InObject objects _ => objects
  | InOther => []
  end.

(** What the callers of the handle see to: a level is loaded only from data
    in which only Triggers carry trigger data, and [updateSelectedTrigger] is
    called only while the object it acts on, the one [getSelectedObject]
    returns, is a Trigger. *)
Definition guarded (op : Op) (e : Engine) : Prop :=
  match op with
  | SetLevel data _ => Forall dataOnTrigger (loadedObjects data)
  | UpdateSelectedTrigger _ =>
      forall obj, getSelectedObject e = Some obj -> o_type obj = TRIGGER
  | _ => True
  end.

(** Every operation of a run is guarded in the state it is applied to. *)
Fixpoint guardedRun (ops : list Op) (e : Engine) : Prop :=
  match ops with
  | [] => True
  | op :: rest => guarded op e /\ guardedRun rest (step op e)
  end.

(** ** Importing and exporting a level, as [App] and the overlay perform it *)

(** The value the import dialog parses from its text: an array of objects, an
    object with its keys [objects] and [settings], each present or not, or
    any other value. *)
Inductive ImportData : Type :=
  | ImpArray (objects : list LevelObject)
  | ImpObject (objects : option (list LevelObject)) (settings : option PartialSettings)
  | ImpOther.

(** The settings as an object whose keys are those that are defined. *)
Definition asPartial (s : LevelSettings) : PartialSettings :=
  {| ps_bgColorTop := bgColorTop s;
     ps_bgColorBottom := bgColorBottom s;
     ps_groundColor := groundColor s;
     ps_lineColor := lineColor s;
     ps_startMode := Some (startMode s);
     ps_startReverseGravity := startReverseGravity s |}.

(** The filter of [handleImport]: a StartPos left of x = 0 is dropped. *)
Definition importKeeps (obj : LevelObject) : bool :=
  negb (ObjectType_eqb (o_type obj) START_POS && Qltb (o_x obj) 0).

(** The map of [handleImport]: the rotation of a Trigger is reset and the
    rotation of a Block is snapped to the nearest multiple of 90. *)
Definition sanitizeObject (obj : LevelObject) : LevelObject :=
  let newObj := obj in
  let newObj :=
    if ObjectType_eqb (o_type newObj) TRIGGER then set_o_rotation (Some 0) newObj
    else newObj in
  if ObjectType_eqb (o_type newObj) BLOCK then
    let currentRot := num_or (o_rotation newObj) 0 in
    set_o_rotation (Some (Math_round (currentRot / 90) * 90)) newObj
  else newObj.

Definition sanitizeObjects (objects : list LevelObject) : list LevelObject :=
  map sanitizeObject (filter importKeeps objects).

(** [handleImport]; a value that is neither an array nor an object with
    [objects] imports an empty level ([null], on which the source throws, is
    never passed by the dialog). *)
Definition handleImport (data : ImportData) (e : Engine) : Engine :=
  let objects :=
    match data with
    | ImpArray objects => objects
    | ImpObject (Some objects) _ => objects
    | _ => []
    end in
  let settings :=
    match data with
    | ImpObject _ settings => settings
    | _ => None
    end in
  let sanitizedSettings :=
    match settings with
    | Some s => s
    | None => asPartial DEFAULT_LEVEL_SETTINGS
    end in
  setLevel (InObject (sanitizeObjects objects) (Some sanitizedSettings)) true e.

(** [handleImportSubmit]: the text is parsed ([None] when [JSON.parse]
    throws) and imported when it is an array or has an [objects] key; the flag
    tells that the level was imported and no alert was shown. *)
Definition handleImportSubmit (parsed : option ImportData) (e : Engine) : Engine * bool :=
  match parsed with
  | Some (ImpArray objects) => (handleImport (ImpArray objects) e, true)
  | Some (ImpObject (Some objects) settings) =>
      (handleImport (ImpObject (Some objects) settings) e, true)
  | _ => (e, false)
  end.

(** What the import dialog parses from the text [handleExport] writes: the
    value of [getLevel], whose undefined keys [JSON.stringify] leaves out. *)
Definition exportedLevel (e : Engine) : ImportData :=
  ImpObject (Some (snd (getLevel e))) (Some (asPartial (fst (getLevel e)))).

(** An object the import leaves as it is. *)
Definition importClean (obj : LevelObject) : Prop :=
  (o_type obj = START_POS -> 0 <= o_x obj)
  /\ (o_type obj = TRIGGER -> o_rotation obj = Some 0)
  /\ (o_type obj = BLOCK -> exists k : Z, o_rotation obj = Some (inject_Z k * 90)).

(** Settings whose colours are all defined. *)
Definition completeSettings (s : LevelSettings) : Prop :=
  bgColorTop s <> None /\ bgColorBottom s <> None /\ groundColor s <> None
  /\ lineColor s <> None /\ startReverseGravity s <> None.
(** ** The document and its history under the setters *)

Lemma docHist_set_displaySettings (v : LevelSettings) (e : Engine) :
  docHist (set_displaySettings v e) = docHist e.
Proof. reflexivity. Qed.

Lemma docHist_set_selectedObjects (v : list string) (e : Engine) :
  docHist (set_selectedObjects v e) = docHist e.
Proof. reflexivity. Qed.

Lemma docHist_set_isPastedSelection (v : bool) (e : Engine) :
  docHist (set_isPastedSelection v e) = docHist e.
Proof. reflexivity. Qed.

Lemma docHist_set_clipboard (v : list LevelObject) (e : Engine) :
  docHist (set_clipboard v e) = docHist e.
Proof. reflexivity. Qed.

Lemma docHist_set_trail (v : list Point) (e : Engine) :
  docHist (set_trail v e) = docHist e.
Proof. reflexivity. Qed.

Lemma docHist_set_deathMarkers (v : list Point) (e : Engine) :
  docHist (set_deathMarkers v e) = docHist e.
Proof. reflexivity. Qed.

Lemma docHist_set_activeEffects (v : list ColorEffect) (e : Engine) :
  docHist (set_activeEffects v e) = docHist e.
Proof. reflexivity. Qed.

Lemma docHist_set_triggeredIds (v : list string) (e : Engine) :
  docHist (set_triggeredIds v e) = docHist e.
Proof. reflexivity. Qed.

Lemma docHist_set_usedObjectIds (v : list string) (e : Engine) :
  docHist (set_usedObjectIds v e) = docHist e.
Proof. reflexivity. Qed.

Lemma docHist_set_player (v : Player) (e : Engine) :
  docHist (set_player v e) = docHist e.
Proof. reflexivity. Qed.

Lemma docHist_set_activeFloorY (v : Q) (e : Engine) :
  docHist (set_activeFloorY v e) = docHist e.
Proof. reflexivity. Qed.

Lemma docHist_set_activeCeilingY (v : Q) (e : Engine) :
  docHist (set_activeCeilingY v e) = docHist e.
Proof. reflexivity. Qed.

Lemma docHist_set_targetFloorY (v : Q) (e : Engine) :
  docHist (set_targetFloorY v e) = docHist e.
Proof. reflexivity. Qed.

Lemma docHist_set_targetCeilingY (v : Q) (e : Engine) :
  docHist (set_targetCeilingY v e) = docHist e.
Proof. reflexivity. Qed.

Lemma docHist_set_camera (v : Camera) (e : Engine) :
  docHist (set_camera v e) = docHist e.
Proof. reflexivity. Qed.

Lemma docHist_set_prevInputState (v : bool) (e : Engine) :
  docHist (set_prevInputState v e) = docHist e.
Proof. reflexivity. Qed.

Lemma docHist_set_hasInputUsed (v : bool) (e : Engine) :
  docHist (set_hasInputUsed v e) = docHist e.
Proof. reflexivity. Qed.

Lemma docHist_set_boxSelectStart (v : option Point) (e : Engine) :
  docHist (set_boxSelectStart v e) = docHist e.
Proof. reflexivity. Qed.

Lemma docHist_set_finishWallX (v : Q) (e : Engine) :
  docHist (set_finishWallX v e) = docHist e.
Proof. reflexivity. Qed.

Lemma docHist_set_isSuckedIntoWall (v : bool) (e : Engine) :
  docHist (set_isSuckedIntoWall v e) = docHist e.
Proof. reflexivity. Qed.

Lemma docHist_set_modeRef (v : GameMode) (e : Engine) :
  docHist (set_modeRef v e) = docHist e.
Proof. reflexivity. Qed.

Lemma docHist_set_selectedToolRef (v : ObjectType * Z) (e : Engine) :
  docHist (set_selectedToolRef v e) = docHist e.
Proof. reflexivity. Qed.

Lemma docHist_set_frameCount (v : Z) (e : Engine) :
  docHist (set_frameCount v e) = docHist e.
Proof. reflexivity. Qed.

Lemma docHist_set_pendingReset (v : bool) (e : Engine) :
  docHist (set_pendingReset v e) = docHist e.
Proof. reflexivity. Qed.

Lemma docHist_set_lastToolRotation (v : Q) (e : Engine) :
  docHist (set_lastToolRotation v e) = docHist e.
Proof. reflexivity. Qed.

Lemma docHist_set_lastDeletePos (v : option Point) (e : Engine) :
  docHist (set_lastDeletePos v e) = docHist e.
Proof. reflexivity. Qed.

Lemma docHist_set_loopRunning (v : bool) (e : Engine) :
  docHist (set_loopRunning v e) = docHist e.
Proof. reflexivity. Qed.

Lemma docHist_set_keys (v : list string) (e : Engine) :
  docHist (set_keys v e) = docHist e.
Proof. reflexivity. Qed.

Lemma docHist_set_mouseX (v : Q) (e : Engine) :
  docHist (set_mouseX v e) = docHist e.
Proof. reflexivity. Qed.

Lemma docHist_set_mouseY (v : Q) (e : Engine) :
  docHist (set_mouseY v e) = docHist e.
Proof. reflexivity. Qed.

Lemma docHist_set_mouseIsDown (v : bool) (e : Engine) :
  docHist (set_mouseIsDown v e) = docHist e.
Proof. reflexivity. Qed.

Lemma docHist_set_mouseIsRightDown (v : bool) (e : Engine) :
  docHist (set_mouseIsRightDown v e) = docHist e.
Proof. reflexivity. Qed.

Lemma docHist_set_canvasWidth (v : Q) (e : Engine) :
  docHist (set_canvasWidth v e) = docHist e.
Proof. reflexivity. Qed.

Lemma docHist_set_canvasHeight (v : Q) (e : Engine) :
  docHist (set_canvasHeight v e) = docHist e.
Proof. reflexivity. Qed.

Lemma docHist_set_deathTimers (v : nat) (e : Engine) :
  docHist (set_deathTimers v e) = docHist e.
Proof. reflexivity. Qed.

Create Rewrite HintDb docHist.

#[local] Hint Rewrite
  docHist_set_displaySettings docHist_set_selectedObjects
  docHist_set_isPastedSelection docHist_set_clipboard docHist_set_trail
  docHist_set_deathMarkers docHist_set_activeEffects docHist_set_triggeredIds
  docHist_set_usedObjectIds docHist_set_player docHist_set_activeFloorY
  docHist_set_activeCeilingY docHist_set_targetFloorY docHist_set_targetCeilingY
  docHist_set_camera docHist_set_prevInputState docHist_set_hasInputUsed
  docHist_set_boxSelectStart docHist_set_finishWallX docHist_set_isSuckedIntoWall
  docHist_set_modeRef docHist_set_selectedToolRef docHist_set_frameCount
  docHist_set_pendingReset docHist_set_lastToolRotation docHist_set_lastDeletePos
  docHist_set_loopRunning docHist_set_keys docHist_set_mouseX docHist_set_mouseY
  docHist_set_mouseIsDown docHist_set_mouseIsRightDown docHist_set_canvasWidth
  docHist_set_canvasHeight docHist_set_deathTimers
  : docHist.

(** ** Lists and array indices *)

Lemma slice0_length {A : Type} (l : list A) (k : Z) :
  (List.length (slice0 l k) <= List.length l)%nat.
Proof.
  unfold slice0. destruct (k <? 0)%Z; rewrite length_firstn; apply Nat.le_min_r.
Qed.

Lemma slice0_nonneg {A : Type} (l : list A) (k : Z) :
  (0 <= k)%Z -> slice0 l k = firstn (Z.to_nat k) l.
Proof.
  intros Hk. unfold slice0. destruct (Z.ltb_spec k 0); [lia | reflexivity].
Qed.

Lemma array_get_last {A : Type} (l : list A) (a : A) :
  array_get (l ++ [a]) (Z.of_nat (List.length l)) = Some a.
Proof.
  unfold array_get. destruct (Z.ltb_spec (Z.of_nat (List.length l)) 0); [lia |].
  rewrite Nat2Z.id, nth_error_app2 by lia. now rewrite Nat.sub_diag.
Qed.

Lemma array_get_tl {A : Type} (l : list A) (k : Z) :
  (0 <= k)%Z -> array_get (tl l) k = array_get l (k + 1).
Proof.
  intros Hk. unfold array_get.
  destruct (Z.ltb_spec k 0); [lia |]. destruct (Z.ltb_spec (k + 1) 0); [lia |].
  replace (Z.to_nat (k + 1)) with (S (Z.to_nat k)) by lia.
  destruct l; simpl; [now destruct (Z.to_nat k) | reflexivity].
Qed.

Lemma array_get_app1 {A : Type} (l l' : list A) (k : Z) :
  (0 <= k < Z.of_nat (List.length l))%Z -> array_get (l ++ l') k = array_get l k.
Proof.
  intros Hk. unfold array_get. destruct (Z.ltb_spec k 0); [reflexivity |].
  apply nth_error_app1. lia.
Qed.

(** ** Recording a snapshot *)

Lemma keptEntries_length (e : Engine) :
  (List.length (keptEntries e) <= List.length (history e))%nat.
Proof.
  unfold keptEntries. destruct (_ <? _)%Z; [apply slice0_length | lia].
Qed.

Lemma addToHistory_history (e : Engine) :
  history (addToHistory e) =
  if (50 <? Z.of_nat (List.length (keptEntries e ++ [getCurrentState e])))%Z
  then tl (keptEntries e ++ [getCurrentState e])
  else keptEntries e ++ [getCurrentState e].
Proof.
  unfold addToHistory, keptEntries. now destruct (50 <? _)%Z.
Qed.

Lemma addToHistory_historyIndex (e : Engine) :
  historyIndex (addToHistory e) =
  if (50 <? Z.of_nat (List.length (keptEntries e ++ [getCurrentState e])))%Z
  then (Z.of_nat (List.length (keptEntries e ++ [getCurrentState e])) - 1 - 1)%Z
  else (Z.of_nat (List.length (keptEntries e ++ [getCurrentState e])) - 1)%Z.
Proof.
  unfold addToHistory, keptEntries. now destruct (50 <? _)%Z.
Qed.

Lemma addToHistory_levelData (e : Engine) : levelData (addToHistory e) = levelData e.
Proof. unfold addToHistory. now destruct (50 <? _)%Z. Qed.

Lemma addToHistory_levelSettings (e : Engine) :
  levelSettings (addToHistory e) = levelSettings e.
Proof. unfold addToHistory. now destruct (50 <? _)%Z. Qed.

Lemma addToHistory_selectedObjects (e : Engine) :
  selectedObjects (addToHistory e) = selectedObjects e.
Proof. unfold addToHistory. now destruct (50 <? _)%Z. Qed.

Lemma addToHistory_getCurrentState (e : Engine) :
  getCurrentState (addToHistory e) = getCurrentState e.
Proof.
  unfold getCurrentState. now rewrite addToHistory_levelData, addToHistory_levelSettings.
Qed.

(** A snapshot never lets the history grow beyond 50 entries. *)
Lemma addToHistory_capped (e : Engine) :
  (List.length (history e) <= 50)%nat ->
  (List.length (history (addToHistory e)) <= 50)%nat.
Proof.
  intros H. rewrite addToHistory_history. pose proof (keptEntries_length e) as K.
  destruct (50 <? _)%Z eqn:E.
  - destruct (keptEntries e ++ [getCurrentState e]) eqn:L; simpl; [lia |].
    assert (Hl : List.length (keptEntries e ++ [getCurrentState e]) = S (List.length l))
      by now rewrite L.
    rewrite length_app in Hl. simpl in Hl. lia.
  - apply Z.ltb_ge in E. lia.
Qed.

(** After a snapshot the index is at the last entry, which is the snapshot
    of the current document, whatever the state was before. *)
Lemma addToHistory_atTip (e : Engine) : atTip (addToHistory e).
Proof.
  unfold atTip. rewrite addToHistory_getCurrentState, addToHistory_history,
    addToHistory_historyIndex.
  set (k := keptEntries e). set (c := getCurrentState e).
  destruct (50 <? _)%Z eqn:E.
  - apply Z.ltb_lt in E. rewrite length_app in E. simpl in E.
    destruct k as [| a k']; simpl in E; [lia |].
    simpl tl. rewrite !length_app. simpl List.length.
    split; [lia | split; [lia |]].
    match goal with
    | |- array_get _ ?i = _ => replace i with (Z.of_nat (List.length k')) by lia
    end.
    apply array_get_last.
  - rewrite !length_app. simpl List.length. split; [lia | split; [lia |]].
    match goal with
    | |- array_get _ ?i = _ => replace i with (Z.of_nat (List.length k)) by lia
    end.
    apply array_get_last.
Qed.

Lemma atTip_ext (e e' : Engine) : docHist e' = docHist e -> atTip e -> atTip e'.
Proof.
  unfold docHist, atTip, getCurrentState. intros H. injection H as H1 H2 H3 H4.
  now rewrite H1, H2, H3, H4.
Qed.

Lemma capped_ext (e e' : Engine) :
  docHist e' = docHist e ->
  (List.length (history e) <= 50)%nat -> (List.length (history e') <= 50)%nat.
Proof.
  unfold docHist. intros H. injection H as H1 H2 H3 H4. now rewrite H3.
Qed.

Lemma docHist_history (e e' : Engine) : docHist e' = docHist e -> history e' = history e.
Proof. unfold docHist. intros H. now injection H. Qed.

(** ** The simulation leaves the document and the history alone *)

Ltac break_if :=
  match goal with
  | |- context [if ?c then _ else _] => destruct c
  end.

Ltac frame :=
  repeat first
    [ progress cbn [flowEngine fst]
    | progress autorewrite with docHist
    | break_if ];
  try reflexivity.

Lemma die_docHist (e : Engine) : docHist (die e) = docHist e.
Proof. unfold die. frame. Qed.

#[local] Hint Rewrite die_docHist : docHist.

Lemma jump_docHist (e : Engine) : docHist (jump e) = docHist e.
Proof. unfold jump. frame. Qed.

#[local] Hint Rewrite jump_docHist : docHist.

Lemma cubePhysics_docHist (e : Engine) : docHist (flowEngine (cubePhysics e)) = docHist e.
Proof. unfold cubePhysics. frame. Qed.

Lemma shipPhysics_docHist (b : bool) (e : Engine) : docHist (shipPhysics b e) = docHist e.
Proof. unfold shipPhysics. frame. Qed.

#[local] Hint Rewrite shipPhysics_docHist : docHist.

Lemma fireTrigger_docHist (obj : LevelObject) (td : TriggerData) (e : Engine) :
  docHist (fireTrigger obj td e) = docHist e.
Proof. unfold fireTrigger. frame. Qed.

#[local] Hint Rewrite fireTrigger_docHist : docHist.

Lemma shipBlock_docHist (top bot : Q) (e : Engine) :
  docHist (flowEngine (shipBlock top bot e)) = docHist e.
Proof. unfold shipBlock. frame. Qed.

Lemma cubeBlock_docHist (top bot : Q) (e : Engine) :
  docHist (flowEngine (cubeBlock top bot e)) = docHist e.
Proof. unfold cubeBlock. frame. Qed.

#[local] Hint Rewrite shipBlock_docHist cubeBlock_docHist : docHist.

Lemma collideBlock_docHist (obj : LevelObject) (e : Engine) :
  docHist (flowEngine (collideBlock obj e)) = docHist e.
Proof. unfold collideBlock. frame. Qed.

Lemma collidePad_docHist (obj : LevelObject) (e : Engine) :
  docHist (collidePad obj e) = docHist e.
Proof. unfold collidePad. frame. Qed.

Lemma collideOrb_docHist (a b : bool) (obj : LevelObject) (e : Engine) :
  docHist (collideOrb a b obj e) = docHist e.
Proof. unfold collideOrb. frame. Qed.

Lemma collidePortal_docHist (obj : LevelObject) (e : Engine) :
  docHist (collidePortal obj e) = docHist e.
Proof. unfold collidePortal. frame. Qed.

#[local] Hint Rewrite collideBlock_docHist collidePad_docHist collideOrb_docHist
  collidePortal_docHist : docHist.

Lemma collideObject_docHist (a b : bool) (r c : Q) (e : Engine) (obj : LevelObject) :
  docHist (flowEngine (collideObject a b r c e obj)) = docHist e.
Proof.
  unfold collideObject.
  destruct (if ObjectType_eqb (o_type obj) TRIGGER then o_triggerData obj else None).
  - frame.
  - destruct (o_type obj); frame.
Qed.

Lemma objectLoop_docHist (a b : bool) (r c : Q) (objs : list LevelObject) (e : Engine) :
  docHist (flowEngine (objectLoop a b r c objs e)) = docHist e.
Proof.
  revert e. induction objs as [| obj rest IH]; intros e; simpl; [reflexivity |].
  pose proof (collideObject_docHist a b r c e obj) as H.
  destruct (collideObject a b r c e obj) as [e' | e']; simpl in H.
  - now rewrite IH.
  - exact H.
Qed.

Lemma afterObjects_docHist (b : bool) (e : Engine) : docHist (afterObjects b e) = docHist e.
Proof. unfold afterObjects. frame. Qed.

Lemma beforeObjects_docHist (e : Engine) : docHist (flowEngine (beforeObjects e)) = docHist e.
Proof.
  unfold beforeObjects.
  match goal with
  | |- context [if vehicle_is ?v CUBE then cubePhysics ?x else ?y] =>
      pose proof (cubePhysics_docHist x) as H;
      destruct (vehicle_is v CUBE); [destruct (cubePhysics x); simpl in H |]
  end; frame; rewrite ?H; frame.
Qed.

Lemma resetPlayerInternal_docHist (forVerify : bool) (e : Engine) :
  docHist (resetPlayerInternal forVerify e) = docHist e.
Proof.
  unfold resetPlayerInternal.
  match goal with
  | |- context [match ?s with pair _ _ => _ end] => destruct s as [[[? ?] ?] ?]
  end.
  frame.
Qed.

#[local] Hint Rewrite afterObjects_docHist resetPlayerInternal_docHist : docHist.

Lemma modeEffects_docHist (m : GameMode) (e : Engine) : docHist (modeEffects m e) = docHist e.
Proof. unfold modeEffects. frame. Qed.

#[local] Hint Rewrite modeEffects_docHist : docHist.

Lemma handleModeChange_docHist (m : GameMode) (e : Engine) :
  docHist (handleModeChange m e) = docHist e.
Proof. unfold handleModeChange, resetPlayer. frame. Qed.

#[local] Hint Rewrite handleModeChange_docHist : docHist.

Lemma updatePhysics_docHist (e : Engine) : docHist (updatePhysics e) = docHist e.
Proof.
  unfold updatePhysics, onModeChange.
  destruct (p_dead (player e)); [reflexivity |].
  destruct (p_finished (player e) && GameMode_eqb (modeRef e) VERIFY); [frame |].
  destruct (GameMode_eqb (modeRef e) VERIFY && Qltb (finishWallX e) (p_x (player e)));
    [frame |].
  pose proof (beforeObjects_docHist e) as H1.
  destruct (beforeObjects e) as [e1 | e1]; simpl in H1; [| exact H1].
  match goal with
  | |- context [objectLoop ?a ?b ?r ?c ?l ?x] =>
      pose proof (objectLoop_docHist a b r c l x) as H2;
      destruct (objectLoop a b r c l x) as [e2 | e2]; simpl in H2
  end.
  - now rewrite afterObjects_docHist, H2.
  - now rewrite H2.
Qed.

#[local] Hint Rewrite updatePhysics_docHist : docHist.

Lemma applyEffects_docHist (effs : list ColorEffect) (e : Engine) :
  docHist (fst (applyEffects effs e)) = docHist e.
Proof.
  revert e. induction effs as [| eff rest IH]; intros e; simpl; [reflexivity |].
  unfold applyEffect. destruct (interpolateColor _ _ _); [| reflexivity].
  rewrite IH. frame.
Qed.

Lemma gameplayColors_docHist (e : Engine) : docHist (fst (gameplayColors e)) = docHist e.
Proof. unfold gameplayColors. rewrite applyEffects_docHist. frame. Qed.

Lemma editorColors_docHist (w z : Q) (e : Engine) :
  docHist (fst (editorColors w z e)) = docHist e.
Proof. unfold editorColors. destruct (previewTriggers _ _ _); reflexivity. Qed.

Lemma animateBounds_docHist (e : Engine) : docHist (animateBounds e) = docHist e.
Proof. unfold animateBounds. frame. Qed.

Lemma moveCamera_docHist (m : GameMode) (w h z : Q) (e : Engine) :
  docHist (moveCamera m w h z e) = docHist e.
Proof. unfold moveCamera. frame. Qed.

#[local] Hint Rewrite animateBounds_docHist moveCamera_docHist : docHist.

Lemma update_docHist (e : Engine) : docHist (update e) = docHist e.
Proof.
  unfold update.
  match goal with
  | |- context [match ?s with pair _ _ => _ end] =>
      assert (H : docHist (fst s) = docHist e);
      [| destruct s as [e1 thrown]; simpl in H; destruct thrown; frame; exact H]
  end.
  repeat break_if; rewrite ?editorColors_docHist, ?gameplayColors_docHist; frame.
Qed.

Lemma deathTimeout_docHist (e : Engine) : docHist (deathTimeout e) = docHist e.
Proof. unfold deathTimeout, onModeChange. destruct (deathTimers e); frame. Qed.

Lemma onRestartVerify_docHist (e : Engine) : docHist (onRestartVerify e) = docHist e.
Proof. unfold onRestartVerify, resetPlayer. frame. Qed.

(** ** Every operation, seen from the history *)

Lemma histRel_weaken (nav : bool) (e e' : Engine) : histRel false e e' -> histRel nav e e'.
Proof.
  induction 1.
  - now apply hr_same.
  - now apply hr_snap with e0.
  - now apply hr_reset.
  - discriminate.
  - now apply hr_trans with e2.
Qed.

Lemma histRel_capped (nav : bool) (e e' : Engine) :
  histRel nav e e' ->
  (List.length (history e) <= 50)%nat -> (List.length (history e') <= 50)%nat.
Proof.
  induction 1 as [e e' H | e e0 e' H1 H2 H3 | e e' H1 H2 | e e' _ H | e1 e2 e3 _ IH1 _ IH2];
    intros C.
  - now rewrite (docHist_history _ _ H).
  - rewrite (docHist_history _ _ H3). apply addToHistory_capped. now rewrite H1.
  - rewrite H1. simpl. lia.
  - now rewrite H.
  - auto.
Qed.

Lemma histRel_atTip (e e' : Engine) : histRel false e e' -> atTip e -> atTip e'.
Proof.
  induction 1 as [e e' H | e e0 e' H1 H2 H3 | e e' H1 H2 | e e' H _ | e1 e2 e3 _ IH1 _ IH2];
    intros T.
  - now apply atTip_ext with e.
  - apply atTip_ext with (addToHistory e0); [exact H3 | apply addToHistory_atTip].
  - unfold atTip. rewrite H1, H2. simpl. repeat split. lia.
  - discriminate.
  - auto.
Qed.

(** A snapshot taken after a change that leaves the history alone. *)
Lemma histRel_snapshot (nav : bool) (e e0 : Engine) :
  history e0 = history e -> historyIndex e0 = historyIndex e ->
  histRel nav e (addToHistory e0).
Proof. intros H1 H2. now apply hr_snap with e0. Qed.

Ltac same := apply hr_same; frame.
Ltac snap := apply histRel_snapshot; reflexivity.

Lemma copySelection_histRel (nav : bool) (e : Engine) : histRel nav e (copySelection e).
Proof. unfold copySelection. destruct (selectedObjects e); same. Qed.

Lemma pasteSelection_histRel (nav : bool) (gen : nat -> string) (e : Engine) :
  histRel nav e (pasteSelection gen e).
Proof. unfold pasteSelection. destruct (clipboard e); [same | snap]. Qed.

Lemma moveSelectionInternal_histRel (nav : bool) (dx dy : Q) (e : Engine) :
  histRel nav e (moveSelectionInternal dx dy e).
Proof.
  unfold moveSelectionInternal.
  destruct (fold_left _ _ (_, false)) as [m moved]. destruct moved; [snap | same].
Qed.

Lemma deleteSelection_histRel (nav : bool) (e : Engine) : histRel nav e (deleteSelection e).
Proof. unfold deleteSelection. snap. Qed.

Lemma setLevel_histRel (nav : bool) (data : LevelInput) (keep : bool) (e : Engine) :
  histRel nav e (setLevel data keep e).
Proof.
  unfold setLevel. destruct keep.
  - destruct data; snap.
  - apply hr_reset; reflexivity.
Qed.

Lemma updateSettings_histRel (nav : bool) (s : PartialSettings) (e : Engine) :
  histRel nav e (updateSettings s e).
Proof. unfold updateSettings. snap. Qed.

Lemma updateSelectedTrigger_histRel (nav : bool) (d : TriggerData) (e : Engine) :
  histRel nav e (updateSelectedTrigger d e).
Proof.
  unfold updateSelectedTrigger. destruct (findIndex _ _); [| same].
  destruct (nth_error _ _); [snap | same].
Qed.

Lemma updateSelectedStartPos_histRel (nav : bool) (d : StartPosData) (e : Engine) :
  histRel nav e (updateSelectedStartPos d e).
Proof.
  unfold updateSelectedStartPos. destruct (findIndex _ _); [| same].
  destruct (nth_error _ _); [snap | same].
Qed.

Lemma rotateSelection_histRel (nav : bool) (angle : Q) (relative : bool) (e : Engine) :
  histRel nav e (rotateSelection angle relative e).
Proof.
  unfold rotateSelection. destruct (selectedObjects e) as [| id [| id' rest]]; [same | |].
  - destruct (js_find _ _); snap.
  - snap.
Qed.

Lemma clearLevel_histRel (nav : bool) (e : Engine) : histRel nav e (clearLevel e).
Proof. unfold clearLevel. snap. Qed.

Lemma duplicateSelection_histRel (nav : bool) (gen : nat -> string) (e : Engine) :
  histRel nav e (duplicateSelection gen e).
Proof.
  unfold duplicateSelection. apply hr_trans with (copySelection e).
  - apply copySelection_histRel.
  - apply pasteSelection_histRel.
Qed.

Lemma handleEditorClick_histRel (nav : bool) (ev : MouseEvt) (isDrag : bool) (newId : string)
    (e : Engine) :
  histRel nav e (handleEditorClick ev isDrag newId e).
Proof.
  unfold handleEditorClick.
  set (e1 := if isPastedSelection e then set_isPastedSelection false e else e).
  assert (H1 : docHist e1 = docHist e) by (subst e1; frame).
  apply hr_trans with e1; [now apply hr_same |].
  destruct (ObjectType_eqb (fst (selectedToolRef e1)) TOOL).
  - destruct (boxSelectStart e1); same.
  - destruct (ObjectType_eqb (fst (selectedToolRef e1)) DELETE).
    + destruct (isDrag && _); [same |].
      destruct (findLastIndex _ _); [| same].
      eapply hr_snap; [| | apply docHist_set_lastDeletePos]; reflexivity.
    + destruct (ObjectType_eqb (fst (selectedToolRef e1)) START_POS && _); [same |].
      destruct (_ || _); [snap | same].
Qed.

Lemma undo_history (e : Engine) : history (undo e) = history e.
Proof.
  unfold undo. destruct (0 <? historyIndex e)%Z; [| reflexivity].
  unfold restoreState. destruct (array_get _ _) as [[| | |] |]; reflexivity.
Qed.

Lemma redo_history (e : Engine) : history (redo e) = history e.
Proof.
  unfold redo. destruct (_ <? _)%Z; [| reflexivity].
  unfold restoreState. destruct (array_get _ _) as [[| | |] |]; reflexivity.
Qed.

Lemma onKeyDown_histRel (ev : KeyEvt) (gen : nat -> string) (e : Engine) :
  histRel (isHistoryNav (KeyDown ev gen)) e (onKeyDown ev gen e).
Proof.
  unfold onKeyDown. simpl isHistoryNav.
  set (e1 := set_keys (set_add (keys e) (code ev)) e).
  assert (R1 : forall nav, histRel nav e e1) by (intros nav; subst e1; same).
  destruct (inEditorOrPaused (modeRef e1)); [| apply R1].
  match goal with
  | |- histRel ?n _ (match selectedObjects ?x with _ => _ end) =>
      set (e2 := x); assert (R2 : histRel n e1 e2)
  end.
  { subst e2. destruct (k_ctrlKey ev && negb (k_repeat ev)); [| same].
    destruct (String.eqb (code ev) "KeyZ").
    - apply hr_nav; [reflexivity | apply undo_history].
    - destruct (String.eqb (code ev) "KeyY").
      + apply hr_nav; [reflexivity | apply redo_history].
      + destruct (String.eqb (code ev) "KeyC"); [apply copySelection_histRel |].
        destruct (String.eqb (code ev) "KeyV"); [apply pasteSelection_histRel | same]. }
  apply hr_trans with e1; [apply R1 |]. apply hr_trans with e2; [exact R2 |].
  apply histRel_weaken. clearbody e2.
  destruct (selectedObjects e2); [same |].
  match goal with
  | |- context [match ?s with pair _ _ => _ end] => destruct s as [dx dy]
  end.
  destruct (negb (Qeq_bool dx 0) || negb (Qeq_bool dy 0));
    [apply moveSelectionInternal_histRel | same].
Qed.

Lemma onMouseDown_histRel (nav : bool) (ev : MouseEvt) (newId : string) (e : Engine) :
  histRel nav e (onMouseDown ev newId e).
Proof.
  unfold onMouseDown.
  match goal with
  | |- histRel _ _ (if _ then _ else if _ then if _ then _ else handleEditorClick _ _ _ ?x
                    else _) =>
      apply hr_trans with x; [same |]
  end.
  destruct (button ev =? 2)%Z; [same |].
  destruct (inEditorOrPaused _); [| same].
  destruct (ObjectType_eqb _ TOOL); [same | apply handleEditorClick_histRel].
Qed.

Lemma onMouseUp_histRel (nav : bool) (ev : MouseEvt) (newId : string) (e : Engine) :
  histRel nav e (onMouseUp ev newId e).
Proof.
  unfold onMouseUp.
  match goal with
  | |- histRel _ _ (if _ then if _ then handleEditorClick _ _ _ ?x else _ else _) =>
      apply hr_trans with x; [destruct (button ev =? 2)%Z; same |]
  end.
  destruct (_ && _); [| same].
  destruct (ObjectType_eqb _ TOOL); [apply handleEditorClick_histRel | same].
Qed.

Lemma onMouseMove_histRel (nav : bool) (ev : MouseEvt) (newId : string) (e : Engine) :
  histRel nav e (onMouseMove ev newId e).
Proof.
  unfold onMouseMove.
  match goal with
  | |- context [handleEditorClick _ _ _ ?x] => apply hr_trans with x; [same |]
  end.
  destruct (_ || _); [| same].
  destruct (mouseIsRightDown _); [same |].
  destruct (mouseIsDown _); [| same].
  destruct (_ && _); [apply handleEditorClick_histRel | same].
Qed.

Lemma step_histRel (op : Op) (e : Engine) : histRel (isHistoryNav op) e (step op e).
Proof.
  destruct op; simpl step.
  - destruct (loopRunning e); apply hr_same; [apply update_docHist | reflexivity].
  - apply onKeyDown_histRel.
  - unfold onKeyUp. same.
  - apply onMouseDown_histRel.
  - apply onMouseUp_histRel.
  - apply onMouseMove_histRel.
  - unfold onWheel. same.
  - unfold resize. same.
  - apply setLevel_histRel.
  - apply updateSettings_histRel.
  - apply updateSelectedTrigger_histRel.
  - apply updateSelectedStartPos_histRel.
  - apply moveSelectionInternal_histRel.
  - apply rotateSelection_histRel.
  - apply deleteSelection_histRel.
  - unfold deselectAll. same.
  - apply clearLevel_histRel.
  - apply duplicateSelection_histRel.
  - unfold resetPlayer. same.
  - apply hr_nav; [reflexivity | apply undo_history].
  - apply hr_nav; [reflexivity | apply redo_history].
  - same.
  - apply hr_same. apply onRestartVerify_docHist.
  - unfold handleToolSelect. same.
  - apply hr_same. apply deathTimeout_docHist.
Qed.

Lemma mountedEngine_atTip (w h : Q) : atTip (mountedEngine w h).
Proof. unfold atTip. simpl. repeat split. lia. Qed.

Lemma run_snoc (ops : list Op) (op : Op) (e : Engine) :
  run (ops ++ [op]) e = step op (run ops e).
Proof. unfold run. now rewrite fold_left_app. Qed.

Lemma run_capped (w h : Q) (ops : list Op) :
  (List.length (history (run ops (mountedEngine w h))) <= 50)%nat.
Proof.
  induction ops as [| op ops IH] using rev_ind.
  - simpl. lia.
  - rewrite run_snoc. now apply (histRel_capped _ _ _ (step_histRel op _)).
Qed.

Lemma run_atTip (w h : Q) (ops : list Op) :
  forallb (fun op => negb (isHistoryNav op)) ops = true ->
  atTip (run ops (mountedEngine w h)).
Proof.
  induction ops as [| op ops IH] using rev_ind; intros H.
  - apply mountedEngine_atTip.
  - rewrite forallb_app in H. apply andb_true_iff in H. destruct H as [H1 H2].
    simpl in H2. rewrite andb_true_r in H2. apply negb_true_iff in H2.
    rewrite run_snoc. apply histRel_atTip with (run ops (mountedEngine w h)); [| auto].
    pose proof (step_histRel op (run ops (mountedEngine w h))) as R.
    now rewrite H2 in R.
Qed.

(** ** The selection under the setters *)

Lemma selectedObjects_set_levelData (v : list LevelObject) (e : Engine) :
  selectedObjects (set_levelData v e) = selectedObjects e.
Proof. reflexivity. Qed.

Lemma selectedObjects_set_levelSettings (v : LevelSettings) (e : Engine) :
  selectedObjects (set_levelSettings v e) = selectedObjects e.
Proof. reflexivity. Qed.

Lemma selectedObjects_set_displaySettings (v : LevelSettings) (e : Engine) :
  selectedObjects (set_displaySettings v e) = selectedObjects e.
Proof. reflexivity. Qed.

Lemma selectedObjects_set_isPastedSelection (v : bool) (e : Engine) :
  selectedObjects (set_isPastedSelection v e) = selectedObjects e.
Proof. reflexivity. Qed.

Lemma selectedObjects_set_clipboard (v : list LevelObject) (e : Engine) :
  selectedObjects (set_clipboard v e) = selectedObjects e.
Proof. reflexivity. Qed.

Lemma selectedObjects_set_trail (v : list Point) (e : Engine) :
  selectedObjects (set_trail v e) = selectedObjects e.
Proof. reflexivity. Qed.

Lemma selectedObjects_set_deathMarkers (v : list Point) (e : Engine) :
  selectedObjects (set_deathMarkers v e) = selectedObjects e.
Proof. reflexivity. Qed.

Lemma selectedObjects_set_activeEffects (v : list ColorEffect) (e : Engine) :
  selectedObjects (set_activeEffects v e) = selectedObjects e.
Proof. reflexivity. Qed.

Lemma selectedObjects_set_triggeredIds (v : list string) (e : Engine) :
  selectedObjects (set_triggeredIds v e) = selectedObjects e.
Proof. reflexivity. Qed.

Lemma selectedObjects_set_usedObjectIds (v : list string) (e : Engine) :
  selectedObjects (set_usedObjectIds v e) = selectedObjects e.
Proof. reflexivity. Qed.

Lemma selectedObjects_set_history (v : list StateJson) (e : Engine) :
  selectedObjects (set_history v e) = selectedObjects e.
Proof. reflexivity. Qed.

Lemma selectedObjects_set_historyIndex (v : Z) (e : Engine) :
  selectedObjects (set_historyIndex v e) = selectedObjects e.
Proof. reflexivity. Qed.

Lemma selectedObjects_set_player (v : Player) (e : Engine) :
  selectedObjects (set_player v e) = selectedObjects e.
Proof. reflexivity. Qed.

Lemma selectedObjects_set_activeFloorY (v : Q) (e : Engine) :
  selectedObjects (set_activeFloorY v e) = selectedObjects e.
Proof. reflexivity. Qed.

Lemma selectedObjects_set_activeCeilingY (v : Q) (e : Engine) :
  selectedObjects (set_activeCeilingY v e) = selectedObjects e.
Proof. reflexivity. Qed.

Lemma selectedObjects_set_targetFloorY (v : Q) (e : Engine) :
  selectedObjects (set_targetFloorY v e) = selectedObjects e.
Proof. reflexivity. Qed.

Lemma selectedObjects_set_targetCeilingY (v : Q) (e : Engine) :
  selectedObjects (set_targetCeilingY v e) = selectedObjects e.
Proof. reflexivity. Qed.

Lemma selectedObjects_set_camera (v : Camera) (e : Engine) :
  selectedObjects (set_camera v e) = selectedObjects e.
Proof. reflexivity. Qed.

Lemma selectedObjects_set_prevInputState (v : bool) (e : Engine) :
  selectedObjects (set_prevInputState v e) = selectedObjects e.
Proof. reflexivity. Qed.

Lemma selectedObjects_set_hasInputUsed (v : bool) (e : Engine) :
  selectedObjects (set_hasInputUsed v e) = selectedObjects e.
Proof. reflexivity. Qed.

Lemma selectedObjects_set_boxSelectStart (v : option Point) (e : Engine) :
  selectedObjects (set_boxSelectStart v e) = selectedObjects e.
Proof. reflexivity. Qed.

Lemma selectedObjects_set_finishWallX (v : Q) (e : Engine) :
  selectedObjects (set_finishWallX v e) = selectedObjects e.
Proof. reflexivity. Qed.

Lemma selectedObjects_set_isSuckedIntoWall (v : bool) (e : Engine) :
  selectedObjects (set_isSuckedIntoWall v e) = selectedObjects e.
Proof. reflexivity. Qed.

Lemma selectedObjects_set_modeRef (v : GameMode) (e : Engine) :
  selectedObjects (set_modeRef v e) = selectedObjects e.
Proof. reflexivity. Qed.

Lemma selectedObjects_set_selectedToolRef (v : ObjectType * Z) (e : Engine) :
  selectedObjects (set_selectedToolRef v e) = selectedObjects e.
Proof. reflexivity. Qed.

Lemma selectedObjects_set_frameCount (v : Z) (e : Engine) :
  selectedObjects (set_frameCount v e) = selectedObjects e.
Proof. reflexivity. Qed.

Lemma selectedObjects_set_pendingReset (v : bool) (e : Engine) :
  selectedObjects (set_pendingReset v e) = selectedObjects e.
Proof. reflexivity. Qed.

Lemma selectedObjects_set_lastToolRotation (v : Q) (e : Engine) :
  selectedObjects (set_lastToolRotation v e) = selectedObjects e.
Proof. reflexivity. Qed.

Lemma selectedObjects_set_lastDeletePos (v : option Point) (e : Engine) :
  selectedObjects (set_lastDeletePos v e) = selectedObjects e.
Proof. reflexivity. Qed.

Lemma selectedObjects_set_loopRunning (v : bool) (e : Engine) :
  selectedObjects (set_loopRunning v e) = selectedObjects e.
Proof. reflexivity. Qed.

Lemma selectedObjects_set_keys (v : list string) (e : Engine) :
  selectedObjects (set_keys v e) = selectedObjects e.
Proof. reflexivity. Qed.

Lemma selectedObjects_set_mouseX (v : Q) (e : Engine) :
  selectedObjects (set_mouseX v e) = selectedObjects e.
Proof. reflexivity. Qed.

Lemma selectedObjects_set_mouseY (v : Q) (e : Engine) :
  selectedObjects (set_mouseY v e) = selectedObjects e.
Proof. reflexivity. Qed.

Lemma selectedObjects_set_mouseIsDown (v : bool) (e : Engine) :
  selectedObjects (set_mouseIsDown v e) = selectedObjects e.
Proof. reflexivity. Qed.

Lemma selectedObjects_set_mouseIsRightDown (v : bool) (e : Engine) :
  selectedObjects (set_mouseIsRightDown v e) = selectedObjects e.
Proof. reflexivity. Qed.

Lemma selectedObjects_set_canvasWidth (v : Q) (e : Engine) :
  selectedObjects (set_canvasWidth v e) = selectedObjects e.
Proof. reflexivity. Qed.

Lemma selectedObjects_set_canvasHeight (v : Q) (e : Engine) :
  selectedObjects (set_canvasHeight v e) = selectedObjects e.
Proof. reflexivity. Qed.

Lemma selectedObjects_set_deathTimers (v : nat) (e : Engine) :
  selectedObjects (set_deathTimers v e) = selectedObjects e.
Proof. reflexivity. Qed.

Create Rewrite HintDb selection.

#[local] Hint Rewrite
  selectedObjects_set_levelData selectedObjects_set_levelSettings
  selectedObjects_set_displaySettings selectedObjects_set_isPastedSelection
  selectedObjects_set_clipboard selectedObjects_set_trail
  selectedObjects_set_deathMarkers selectedObjects_set_activeEffects
  selectedObjects_set_triggeredIds selectedObjects_set_usedObjectIds
  selectedObjects_set_history selectedObjects_set_historyIndex
  selectedObjects_set_player selectedObjects_set_activeFloorY
  selectedObjects_set_activeCeilingY selectedObjects_set_targetFloorY
  selectedObjects_set_targetCeilingY selectedObjects_set_camera
  selectedObjects_set_prevInputState selectedObjects_set_hasInputUsed
  selectedObjects_set_boxSelectStart selectedObjects_set_finishWallX
  selectedObjects_set_isSuckedIntoWall selectedObjects_set_modeRef
  selectedObjects_set_selectedToolRef selectedObjects_set_frameCount
  selectedObjects_set_pendingReset selectedObjects_set_lastToolRotation
  selectedObjects_set_lastDeletePos selectedObjects_set_loopRunning
  selectedObjects_set_keys selectedObjects_set_mouseX selectedObjects_set_mouseY
  selectedObjects_set_mouseIsDown selectedObjects_set_mouseIsRightDown
  selectedObjects_set_canvasWidth selectedObjects_set_canvasHeight
  selectedObjects_set_deathTimers
  : selection.

(** ** The zoom limits under the setters *)

Lemma zoomInLimits_set_levelData (v : list LevelObject) (e : Engine) :
  zoomInLimits (set_levelData v e) = zoomInLimits e.
Proof. reflexivity. Qed.

Lemma zoomInLimits_set_levelSettings (v : LevelSettings) (e : Engine) :
  zoomInLimits (set_levelSettings v e) = zoomInLimits e.
Proof. reflexivity. Qed.

Lemma zoomInLimits_set_displaySettings (v : LevelSettings) (e : Engine) :
  zoomInLimits (set_displaySettings v e) = zoomInLimits e.
Proof. reflexivity. Qed.

Lemma zoomInLimits_set_isPastedSelection (v : bool) (e : Engine) :
  zoomInLimits (set_isPastedSelection v e) = zoomInLimits e.
Proof. reflexivity. Qed.

Lemma zoomInLimits_set_clipboard (v : list LevelObject) (e : Engine) :
  zoomInLimits (set_clipboard v e) = zoomInLimits e.
Proof. reflexivity. Qed.

Lemma zoomInLimits_set_trail (v : list Point) (e : Engine) :
  zoomInLimits (set_trail v e) = zoomInLimits e.
Proof. reflexivity. Qed.

Lemma zoomInLimits_set_deathMarkers (v : list Point) (e : Engine) :
  zoomInLimits (set_deathMarkers v e) = zoomInLimits e.
Proof. reflexivity. Qed.

Lemma zoomInLimits_set_activeEffects (v : list ColorEffect) (e : Engine) :
  zoomInLimits (set_activeEffects v e) = zoomInLimits e.
Proof. reflexivity. Qed.

Lemma zoomInLimits_set_triggeredIds (v : list string) (e : Engine) :
  zoomInLimits (set_triggeredIds v e) = zoomInLimits e.
Proof. reflexivity. Qed.

Lemma zoomInLimits_set_usedObjectIds (v : list string) (e : Engine) :
  zoomInLimits (set_usedObjectIds v e) = zoomInLimits e.
Proof. reflexivity. Qed.

Lemma zoomInLimits_set_history (v : list StateJson) (e : Engine) :
  zoomInLimits (set_history v e) = zoomInLimits e.
Proof. reflexivity. Qed.

Lemma zoomInLimits_set_historyIndex (v : Z) (e : Engine) :
  zoomInLimits (set_historyIndex v e) = zoomInLimits e.
Proof. reflexivity. Qed.

Lemma zoomInLimits_set_player (v : Player) (e : Engine) :
  zoomInLimits (set_player v e) = zoomInLimits e.
Proof. reflexivity. Qed.

Lemma zoomInLimits_set_activeFloorY (v : Q) (e : Engine) :
  zoomInLimits (set_activeFloorY v e) = zoomInLimits e.
Proof. reflexivity. Qed.

Lemma zoomInLimits_set_activeCeilingY (v : Q) (e : Engine) :
  zoomInLimits (set_activeCeilingY v e) = zoomInLimits e.
Proof. reflexivity. Qed.

Lemma zoomInLimits_set_targetFloorY (v : Q) (e : Engine) :
  zoomInLimits (set_targetFloorY v e) = zoomInLimits e.
Proof. reflexivity. Qed.

Lemma zoomInLimits_set_targetCeilingY (v : Q) (e : Engine) :
  zoomInLimits (set_targetCeilingY v e) = zoomInLimits e.
Proof. reflexivity. Qed.

Lemma zoomInLimits_set_prevInputState (v : bool) (e : Engine) :
  zoomInLimits (set_prevInputState v e) = zoomInLimits e.
Proof. reflexivity. Qed.

Lemma zoomInLimits_set_hasInputUsed (v : bool) (e : Engine) :
  zoomInLimits (set_hasInputUsed v e) = zoomInLimits e.
Proof. reflexivity. Qed.

Lemma zoomInLimits_set_boxSelectStart (v : option Point) (e : Engine) :
  zoomInLimits (set_boxSelectStart v e) = zoomInLimits e.
Proof. reflexivity. Qed.

Lemma zoomInLimits_set_finishWallX (v : Q) (e : Engine) :
  zoomInLimits (set_finishWallX v e) = zoomInLimits e.
Proof. reflexivity. Qed.

Lemma zoomInLimits_set_isSuckedIntoWall (v : bool) (e : Engine) :
  zoomInLimits (set_isSuckedIntoWall v e) = zoomInLimits e.
Proof. reflexivity. Qed.

Lemma zoomInLimits_set_modeRef (v : GameMode) (e : Engine) :
  zoomInLimits (set_modeRef v e) = zoomInLimits e.
Proof. reflexivity. Qed.

Lemma zoomInLimits_set_selectedToolRef (v : ObjectType * Z) (e : Engine) :
  zoomInLimits (set_selectedToolRef v e) = zoomInLimits e.
Proof. reflexivity. Qed.

Lemma zoomInLimits_set_frameCount (v : Z) (e : Engine) :
  zoomInLimits (set_frameCount v e) = zoomInLimits e.
Proof. reflexivity. Qed.

Lemma zoomInLimits_set_pendingReset (v : bool) (e : Engine) :
  zoomInLimits (set_pendingReset v e) = zoomInLimits e.
Proof. reflexivity. Qed.

Lemma zoomInLimits_set_lastToolRotation (v : Q) (e : Engine) :
  zoomInLimits (set_lastToolRotation v e) = zoomInLimits e.
Proof. reflexivity. Qed.

Lemma zoomInLimits_set_lastDeletePos (v : option Point) (e : Engine) :
  zoomInLimits (set_lastDeletePos v e) = zoomInLimits e.
Proof. reflexivity. Qed.

Lemma zoomInLimits_set_loopRunning (v : bool) (e : Engine) :
  zoomInLimits (set_loopRunning v e) = zoomInLimits e.
Proof. reflexivity. Qed.

Lemma zoomInLimits_set_keys (v : list string) (e : Engine) :
  zoomInLimits (set_keys v e) = zoomInLimits e.
Proof. reflexivity. Qed.

Lemma zoomInLimits_set_mouseX (v : Q) (e : Engine) :
  zoomInLimits (set_mouseX v e) = zoomInLimits e.
Proof. reflexivity. Qed.

Lemma zoomInLimits_set_mouseY (v : Q) (e : Engine) :
  zoomInLimits (set_mouseY v e) = zoomInLimits e.
Proof. reflexivity. Qed.

Lemma zoomInLimits_set_mouseIsDown (v : bool) (e : Engine) :
  zoomInLimits (set_mouseIsDown v e) = zoomInLimits e.
Proof. reflexivity. Qed.

Lemma zoomInLimits_set_mouseIsRightDown (v : bool) (e : Engine) :
  zoomInLimits (set_mouseIsRightDown v e) = zoomInLimits e.
Proof. reflexivity. Qed.

Lemma zoomInLimits_set_canvasWidth (v : Q) (e : Engine) :
  zoomInLimits (set_canvasWidth v e) = zoomInLimits e.
Proof. reflexivity. Qed.

Lemma zoomInLimits_set_canvasHeight (v : Q) (e : Engine) :
  zoomInLimits (set_canvasHeight v e) = zoomInLimits e.
Proof. reflexivity. Qed.

Lemma zoomInLimits_set_deathTimers (v : nat) (e : Engine) :
  zoomInLimits (set_deathTimers v e) = zoomInLimits e.
Proof. reflexivity. Qed.

Lemma zoomInLimits_set_selectedObjects (v : list string) (e : Engine) :
  zoomInLimits (set_selectedObjects v e) = zoomInLimits e.
Proof. reflexivity. Qed.

Create Rewrite HintDb zoom.

#[local] Hint Rewrite
  zoomInLimits_set_levelData zoomInLimits_set_levelSettings
  zoomInLimits_set_displaySettings zoomInLimits_set_isPastedSelection
  zoomInLimits_set_clipboard zoomInLimits_set_trail zoomInLimits_set_deathMarkers
  zoomInLimits_set_activeEffects zoomInLimits_set_triggeredIds
  zoomInLimits_set_usedObjectIds zoomInLimits_set_history zoomInLimits_set_historyIndex
  zoomInLimits_set_player zoomInLimits_set_activeFloorY zoomInLimits_set_activeCeilingY
  zoomInLimits_set_targetFloorY zoomInLimits_set_targetCeilingY
  zoomInLimits_set_prevInputState zoomInLimits_set_hasInputUsed
  zoomInLimits_set_boxSelectStart zoomInLimits_set_finishWallX
  zoomInLimits_set_isSuckedIntoWall zoomInLimits_set_modeRef
  zoomInLimits_set_selectedToolRef zoomInLimits_set_frameCount
  zoomInLimits_set_pendingReset zoomInLimits_set_lastToolRotation
  zoomInLimits_set_lastDeletePos zoomInLimits_set_loopRunning zoomInLimits_set_keys
  zoomInLimits_set_mouseX zoomInLimits_set_mouseY zoomInLimits_set_mouseIsDown
  zoomInLimits_set_mouseIsRightDown zoomInLimits_set_canvasWidth
  zoomInLimits_set_canvasHeight zoomInLimits_set_deathTimers
  zoomInLimits_set_selectedObjects
  : zoom.
(** ** The document, its history and the clipboard under the setters *)

Lemma stock_set_displaySettings (v : LevelSettings) (e : Engine) :
  stock (set_displaySettings v e) = stock e.
Proof. reflexivity. Qed.

Lemma stock_set_selectedObjects (v : list string) (e : Engine) :
  stock (set_selectedObjects v e) = stock e.
Proof. reflexivity. Qed.

Lemma stock_set_isPastedSelection (v : bool) (e : Engine) :
  stock (set_isPastedSelection v e) = stock e.
Proof. reflexivity. Qed.

Lemma stock_set_trail (v : list Point) (e : Engine) :
  stock (set_trail v e) = stock e.
Proof. reflexivity. Qed.

Lemma stock_set_deathMarkers (v : list Point) (e : Engine) :
  stock (set_deathMarkers v e) = stock e.
Proof. reflexivity. Qed.

Lemma stock_set_activeEffects (v : list ColorEffect) (e : Engine) :
  stock (set_activeEffects v e) = stock e.
Proof. reflexivity. Qed.

Lemma stock_set_triggeredIds (v : list string) (e : Engine) :
  stock (set_triggeredIds v e) = stock e.
Proof. reflexivity. Qed.

Lemma stock_set_usedObjectIds (v : list string) (e : Engine) :
  stock (set_usedObjectIds v e) = stock e.
Proof. reflexivity. Qed.

Lemma stock_set_player (v : Player) (e : Engine) :
  stock (set_player v e) = stock e.
Proof. reflexivity. Qed.

Lemma stock_set_activeFloorY (v : Q) (e : Engine) :
  stock (set_activeFloorY v e) = stock e.
Proof. reflexivity. Qed.

Lemma stock_set_activeCeilingY (v : Q) (e : Engine) :
  stock (set_activeCeilingY v e) = stock e.
Proof. reflexivity. Qed.

Lemma stock_set_targetFloorY (v : Q) (e : Engine) :
  stock (set_targetFloorY v e) = stock e.
Proof. reflexivity. Qed.

Lemma stock_set_targetCeilingY (v : Q) (e : Engine) :
  stock (set_targetCeilingY v e) = stock e.
Proof. reflexivity. Qed.

Lemma stock_set_camera (v : Camera) (e : Engine) :
  stock (set_camera v e) = stock e.
Proof. reflexivity. Qed.

Lemma stock_set_prevInputState (v : bool) (e : Engine) :
  stock (set_prevInputState v e) = stock e.
Proof. reflexivity. Qed.

Lemma stock_set_hasInputUsed (v : bool) (e : Engine) :
  stock (set_hasInputUsed v e) = stock e.
Proof. reflexivity. Qed.

Lemma stock_set_boxSelectStart (v : option Point) (e : Engine) :
  stock (set_boxSelectStart v e) = stock e.
Proof. reflexivity. Qed.

Lemma stock_set_finishWallX (v : Q) (e : Engine) :
  stock (set_finishWallX v e) = stock e.
Proof. reflexivity. Qed.

Lemma stock_set_isSuckedIntoWall (v : bool) (e : Engine) :
  stock (set_isSuckedIntoWall v e) = stock e.
Proof. reflexivity. Qed.

Lemma stock_set_modeRef (v : GameMode) (e : Engine) :
  stock (set_modeRef v e) = stock e.
Proof. reflexivity. Qed.

Lemma stock_set_selectedToolRef (v : ObjectType * Z) (e : Engine) :
  stock (set_selectedToolRef v e) = stock e.
Proof. reflexivity. Qed.

Lemma stock_set_frameCount (v : Z) (e : Engine) :
  stock (set_frameCount v e) = stock e.
Proof. reflexivity. Qed.

Lemma stock_set_pendingReset (v : bool) (e : Engine) :
  stock (set_pendingReset v e) = stock e.
Proof. reflexivity. Qed.

Lemma stock_set_lastToolRotation (v : Q) (e : Engine) :
  stock (set_lastToolRotation v e) = stock e.
Proof. reflexivity. Qed.

Lemma stock_set_lastDeletePos (v : option Point) (e : Engine) :
  stock (set_lastDeletePos v e) = stock e.
Proof. reflexivity. Qed.

Lemma stock_set_loopRunning (v : bool) (e : Engine) :
  stock (set_loopRunning v e) = stock e.
Proof. reflexivity. Qed.

Lemma stock_set_keys (v : list string) (e : Engine) :
  stock (set_keys v e) = stock e.
Proof. reflexivity. Qed.

Lemma stock_set_mouseX (v : Q) (e : Engine) :
  stock (set_mouseX v e) = stock e.
Proof. reflexivity. Qed.

Lemma stock_set_mouseY (v : Q) (e : Engine) :
  stock (set_mouseY v e) = stock e.
Proof. reflexivity. Qed.

Lemma stock_set_mouseIsDown (v : bool) (e : Engine) :
  stock (set_mouseIsDown v e) = stock e.
Proof. reflexivity. Qed.

Lemma stock_set_mouseIsRightDown (v : bool) (e : Engine) :
  stock (set_mouseIsRightDown v e) = stock e.
Proof. reflexivity. Qed.

Lemma stock_set_canvasWidth (v : Q) (e : Engine) :
  stock (set_canvasWidth v e) = stock e.
Proof. reflexivity. Qed.

Lemma stock_set_canvasHeight (v : Q) (e : Engine) :
  stock (set_canvasHeight v e) = stock e.
Proof. reflexivity. Qed.

Lemma stock_set_deathTimers (v : nat) (e : Engine) :
  stock (set_deathTimers v e) = stock e.
Proof. reflexivity. Qed.

Create Rewrite HintDb stock.

#[local] Hint Rewrite
  stock_set_displaySettings stock_set_selectedObjects
  stock_set_isPastedSelection stock_set_trail
  stock_set_deathMarkers stock_set_activeEffects stock_set_triggeredIds
  stock_set_usedObjectIds stock_set_player stock_set_activeFloorY
  stock_set_activeCeilingY stock_set_targetFloorY stock_set_targetCeilingY
  stock_set_camera stock_set_prevInputState stock_set_hasInputUsed
  stock_set_boxSelectStart stock_set_finishWallX stock_set_isSuckedIntoWall
  stock_set_modeRef stock_set_selectedToolRef stock_set_frameCount
  stock_set_pendingReset stock_set_lastToolRotation stock_set_lastDeletePos
  stock_set_loopRunning stock_set_keys stock_set_mouseX stock_set_mouseY
  stock_set_mouseIsDown stock_set_mouseIsRightDown stock_set_canvasWidth
  stock_set_canvasHeight stock_set_deathTimers
  : stock.

(** ** The simulation leaves the clipboard alone too *)

Ltac hold :=
  repeat first
    [ progress cbn [flowEngine fst]
    | progress autorewrite with stock
    | break_if ];
  try reflexivity.

Lemma die_stock (e : Engine) : stock (die e) = stock e.
Proof. unfold die. hold. Qed.

#[local] Hint Rewrite die_stock : stock.

Lemma jump_stock (e : Engine) : stock (jump e) = stock e.
Proof. unfold jump. hold. Qed.

#[local] Hint Rewrite jump_stock : stock.

Lemma cubePhysics_stock (e : Engine) : stock (flowEngine (cubePhysics e)) = stock e.
Proof. unfold cubePhysics. hold. Qed.

Lemma shipPhysics_stock (b : bool) (e : Engine) : stock (shipPhysics b e) = stock e.
Proof. unfold shipPhysics. hold. Qed.

#[local] Hint Rewrite shipPhysics_stock : stock.

Lemma fireTrigger_stock (obj : LevelObject) (td : TriggerData) (e : Engine) :
  stock (fireTrigger obj td e) = stock e.
Proof. unfold fireTrigger. hold. Qed.

#[local] Hint Rewrite fireTrigger_stock : stock.

Lemma shipBlock_stock (top bot : Q) (e : Engine) :
  stock (flowEngine (shipBlock top bot e)) = stock e.
Proof. unfold shipBlock. hold. Qed.

Lemma cubeBlock_stock (top bot : Q) (e : Engine) :
  stock (flowEngine (cubeBlock top bot e)) = stock e.
Proof. unfold cubeBlock. hold. Qed.

#[local] Hint Rewrite shipBlock_stock cubeBlock_stock : stock.

Lemma collideBlock_stock (obj : LevelObject) (e : Engine) :
  stock (flowEngine (collideBlock obj e)) = stock e.
Proof. unfold collideBlock. hold. Qed.

Lemma collidePad_stock (obj : LevelObject) (e : Engine) :
  stock (collidePad obj e) = stock e.
Proof. unfold collidePad. hold. Qed.

Lemma collideOrb_stock (a b : bool) (obj : LevelObject) (e : Engine) :
  stock (collideOrb a b obj e) = stock e.
Proof. unfold collideOrb. hold. Qed.

Lemma collidePortal_stock (obj : LevelObject) (e : Engine) :
  stock (collidePortal obj e) = stock e.
Proof. unfold collidePortal. hold. Qed.

#[local] Hint Rewrite collideBlock_stock collidePad_stock collideOrb_stock
  collidePortal_stock : stock.

Lemma collideObject_stock (a b : bool) (r c : Q) (e : Engine) (obj : LevelObject) :
  stock (flowEngine (collideObject a b r c e obj)) = stock e.
Proof.
  unfold collideObject.
  destruct (if ObjectType_eqb (o_type obj) TRIGGER then o_triggerData obj else None).
  - hold.
  - destruct (o_type obj); hold.
Qed.

Lemma objectLoop_stock (a b : bool) (r c : Q) (objs : list LevelObject) (e : Engine) :
  stock (flowEngine (objectLoop a b r c objs e)) = stock e.
Proof.
  revert e. induction objs as [| obj rest IH]; intros e; simpl; [reflexivity |].
  pose proof (collideObject_stock a b r c e obj) as H.
  destruct (collideObject a b r c e obj) as [e' | e']; simpl in H.
  - now rewrite IH.
  - exact H.
Qed.

Lemma afterObjects_stock (b : bool) (e : Engine) : stock (afterObjects b e) = stock e.
Proof. unfold afterObjects. hold. Qed.

Lemma beforeObjects_stock (e : Engine) : stock (flowEngine (beforeObjects e)) = stock e.
Proof.
  unfold beforeObjects.
  match goal with
  | |- context [if vehicle_is ?v CUBE then cubePhysics ?x else ?y] =>
      pose proof (cubePhysics_stock x) as H;
      destruct (vehicle_is v CUBE); [destruct (cubePhysics x); simpl in H |]
  end; hold; rewrite ?H; hold.
Qed.

Lemma resetPlayerInternal_stock (forVerify : bool) (e : Engine) :
  stock (resetPlayerInternal forVerify e) = stock e.
Proof.
  unfold resetPlayerInternal.
  match goal with
  | |- context [match ?s with pair _ _ => _ end] => destruct s as [[[? ?] ?] ?]
  end.
  hold.
Qed.

#[local] Hint Rewrite afterObjects_stock resetPlayerInternal_stock : stock.

Lemma modeEffects_stock (m : GameMode) (e : Engine) : stock (modeEffects m e) = stock e.
Proof. unfold modeEffects. hold. Qed.

#[local] Hint Rewrite modeEffects_stock : stock.

Lemma handleModeChange_stock (m : GameMode) (e : Engine) :
  stock (handleModeChange m e) = stock e.
Proof. unfold handleModeChange, resetPlayer. hold. Qed.

#[local] Hint Rewrite handleModeChange_stock : stock.

Lemma updatePhysics_stock (e : Engine) : stock (updatePhysics e) = stock e.
Proof.
  unfold updatePhysics, onModeChange.
  destruct (p_dead (player e)); [reflexivity |].
  destruct (p_finished (player e) && GameMode_eqb (modeRef e) VERIFY); [hold |].
  destruct (GameMode_eqb (modeRef e) VERIFY && Qltb (finishWallX e) (p_x (player e)));
    [hold |].
  pose proof (beforeObjects_stock e) as H1.
  destruct (beforeObjects e) as [e1 | e1]; simpl in H1; [| exact H1].
  match goal with
  | |- context [objectLoop ?a ?b ?r ?c ?l ?x] =>
      pose proof (objectLoop_stock a b r c l x) as H2;
      destruct (objectLoop a b r c l x) as [e2 | e2]; simpl in H2
  end.
  - now rewrite afterObjects_stock, H2.
  - now rewrite H2.
Qed.

#[local] Hint Rewrite updatePhysics_stock : stock.

Lemma applyEffects_stock (effs : list ColorEffect) (e : Engine) :
  stock (fst (applyEffects effs e)) = stock e.
Proof.
  revert e. induction effs as [| eff rest IH]; intros e; simpl; [reflexivity |].
  unfold applyEffect. destruct (interpolateColor _ _ _); [| reflexivity].
  rewrite IH. hold.
Qed.

Lemma gameplayColors_stock (e : Engine) : stock (fst (gameplayColors e)) = stock e.
Proof. unfold gameplayColors. rewrite applyEffects_stock. hold. Qed.

Lemma editorColors_stock (w z : Q) (e : Engine) :
  stock (fst (editorColors w z e)) = stock e.
Proof. unfold editorColors. destruct (previewTriggers _ _ _); reflexivity. Qed.

Lemma animateBounds_stock (e : Engine) : stock (animateBounds e) = stock e.
Proof. unfold animateBounds. hold. Qed.

Lemma moveCamera_stock (m : GameMode) (w h z : Q) (e : Engine) :
  stock (moveCamera m w h z e) = stock e.
Proof. unfold moveCamera. hold. Qed.

#[local] Hint Rewrite animateBounds_stock moveCamera_stock : stock.

Lemma update_stock (e : Engine) : stock (update e) = stock e.
Proof.
  unfold update.
  match goal with
  | |- context [match ?s with pair _ _ => _ end] =>
      assert (H : stock (fst s) = stock e);
      [| destruct s as [e1 thrown]; simpl in H; destruct thrown; hold; exact H]
  end.
  repeat break_if; rewrite ?editorColors_stock, ?gameplayColors_stock; hold.
Qed.

Lemma deathTimeout_stock (e : Engine) : stock (deathTimeout e) = stock e.
Proof. unfold deathTimeout, onModeChange. destruct (deathTimers e); hold. Qed.

Lemma onRestartVerify_stock (e : Engine) : stock (onRestartVerify e) = stock e.
Proof. unfold onRestartVerify, resetPlayer. hold. Qed.

(** ** Undo, redo and the depth of the history *)

Lemma restoreState_history (s : option StateJson) (e : Engine) :
  history (restoreState s e) = history e.
Proof. unfold restoreState. destruct s as [[| | |] |]; reflexivity. Qed.

Lemma restoreState_historyIndex (s : option StateJson) (e : Engine) :
  historyIndex (restoreState s e) = historyIndex e.
Proof. unfold restoreState. destruct s as [[| | |] |]; reflexivity. Qed.

(** From the tip of the history, undo followed by redo gives the document
    back. *)
Lemma undo_redo_atTip (e : Engine) :
  atTip e ->
  levelData (redo (undo e)) = levelData e
  /\ levelSettings (redo (undo e)) = levelSettings e.
Proof.
  intros (Hi & Hn & Hs). unfold undo.
  destruct (Z.ltb_spec 0 (historyIndex e)) as [Hpos | Hzero].
  - set (e1 := set_historyIndex (historyIndex e - 1) e).
    set (e2 := restoreState (array_get (history e1) (historyIndex e1)) e1).
    assert (H2 : history e2 = history e)
      by (subst e2; now rewrite restoreState_history).
    assert (I2 : historyIndex e2 = (historyIndex e - 1)%Z)
      by (subst e2; now rewrite restoreState_historyIndex).
    unfold redo. rewrite H2, I2.
    destruct (Z.ltb_spec (historyIndex e - 1) (Z.of_nat (List.length (history e)) - 1));
      [| lia].
    replace (historyIndex (set_historyIndex (historyIndex e - 1 + 1) e2))
      with (historyIndex e) by (simpl; lia).
    replace (history (set_historyIndex (historyIndex e - 1 + 1) e2)) with (history e)
      by (simpl; now rewrite H2).
    rewrite Hs. split; reflexivity.
  - assert (historyIndex e = 0%Z) by lia.
    unfold redo. destruct (Z.ltb_spec (historyIndex e) (Z.of_nat (List.length (history e)) - 1));
      [lia | split; reflexivity].
Qed.

(** C2: after any sequence of operations that does not itself walk the
    history (so after any sequence of mutating editing operations, each of
    which ends by recording a snapshot), [undo] followed at once by [redo]
    restores exactly the objects and the settings that were current before
    the undo. *)
Theorem undo_redo_roundtrip (innerWidth innerHeight : Q) (ops : list Op) :
  forallb (fun op => negb (isHistoryNav op)) ops = true ->
  let e := run ops (mountedEngine innerWidth innerHeight) in
  levelData (redo (undo e)) = levelData e
  /\ levelSettings (redo (undo e)) = levelSettings e.
Proof.
  intros H e. apply undo_redo_atTip. now apply run_atTip.
Qed.

(** A snapshot recorded on a full history whose index is at the last entry
    drops the oldest entry and shifts the others down by one. *)
Lemma addToHistory_evicts (e : Engine) :
  List.length (history e) = 50%nat -> historyIndex e = 49%Z ->
  history (addToHistory e) = tl (history e) ++ [getCurrentState e]
  /\ historyIndex (addToHistory e) = 49%Z
  /\ (forall k : Z, (0 <= k < 49)%Z ->
        array_get (history (addToHistory e)) k = array_get (history e) (k + 1)).
Proof.
  intros Hl Hi.
  assert (K : keptEntries e = history e).
  { unfold keptEntries. rewrite Hl, Hi. reflexivity. }
  rewrite addToHistory_history, addToHistory_historyIndex, K, length_app, Hl.
  simpl. destruct (history e) as [| a l] eqn:E; [discriminate |].
  simpl in Hl. simpl. split; [reflexivity | split; [reflexivity |]].
  intros k Hk. rewrite array_get_app1 by lia.
  rewrite <- (array_get_tl (a :: l)) by lia. reflexivity.
Qed.

(** C3: whatever the operations, the history holds at most 50 entries; and
    when a snapshot is recorded on a history of 50 entries with the index at
    the last one, the oldest entry is dropped, the index stays at 49 (the
    entry count minus one, decremented once), and each more recent entry is
    found one position lower, so that the same states remain reachable by
    undo and redo. *)
Theorem history_capped (innerWidth innerHeight : Q) (ops : list Op) :
  let e := run ops (mountedEngine innerWidth innerHeight) in
  (List.length (history e) <= 50)%nat
  /\ (List.length (history e) = 50%nat -> historyIndex e = 49%Z ->
      history (addToHistory e) = tl (history e) ++ [getCurrentState e]
      /\ List.length (history (addToHistory e)) = 50%nat
      /\ historyIndex (addToHistory e) = 49%Z
      /\ (forall k : Z, (0 <= k < 49)%Z ->
            array_get (history (addToHistory e)) k = array_get (history e) (k + 1))).
Proof.
  intros e. split; [apply run_capped |].
  intros Hl Hi. destruct (addToHistory_evicts e Hl Hi) as (H1 & H2 & H3).
  repeat split; auto.
  rewrite H1, length_app. destruct (history e); [discriminate |].
  simpl in *. lia.
Qed.

(** ** Placement *)

Lemma ObjectType_eqb_eq (a b : ObjectType) : ObjectType_eqb a b = true <-> a = b.
Proof.
  unfold ObjectType_eqb. rewrite Z.eqb_eq. split; [| now intros ->].
  destruct a, b; simpl; intros H; try reflexivity; discriminate.
Qed.

Lemma ObjectType_eqb_neq (a b : ObjectType) : ObjectType_eqb a b = false <-> a <> b.
Proof.
  rewrite <- ObjectType_eqb_eq. destruct (ObjectType_eqb a b); split; intros H;
    try reflexivity; try discriminate; now contradiction H.
Qed.

Lemma Qltb_lt (x y : Q) : Qltb x y = true <-> x < y.
Proof.
  unfold Qltb. rewrite negb_true_iff. split.
  - intros H. apply Qnot_le_lt. intros L. apply Qle_bool_iff in L. congruence.
  - intros H. destruct (Qle_bool y x) eqn:E; [| reflexivity].
    apply Qle_bool_iff in E. exfalso. apply (Qlt_not_le _ _ H E).
Qed.

Lemma Qltb_ge (x y : Q) : Qltb x y = false <-> y <= x.
Proof.
  unfold Qltb. rewrite negb_false_iff. apply Qle_bool_iff.
Qed.

Lemma find_occupied (e : Engine) (cell : Q * Q) :
  occupied e cell ->
  js_find (fun o => Qeq_bool (o_x o) (fst cell) && Qeq_bool (o_y o) (snd cell)) (levelData e)
  <> None.
Proof.
  intros (o & Hin & Hx & Hy) Hnone. unfold js_find in Hnone.
  pose proof (find_none _ _ Hnone o Hin) as H. simpl in H.
  apply Qeq_bool_iff in Hx, Hy. rewrite Hx, Hy in H. discriminate.
Qed.

(** C4: with a placement tool (any tool but the selection tool and the delete
    tool), a click on a cell that an object already occupies places nothing
    unless the tool is StartPos: the objects, the selection and the history
    stay as they are (the state is the one before the click, apart from the
    pasted mark every click clears).  A StartPos is placed even on an occupied
    cell, except at a negative grid-x, where the click is likewise ignored. *)
Theorem placement_on_occupied_cell (ev : MouseEvt) (isDrag : bool) (newId : string)
    (e : Engine) :
  let toolType := fst (selectedToolRef e) in
  let cell := clickedCell ev e in
  toolType <> TOOL -> toolType <> DELETE ->
  (toolType <> START_POS -> occupied e cell ->
     handleEditorClick ev isDrag newId e = clearPasted e)
  /\ (toolType = START_POS -> fst cell < 0 ->
        handleEditorClick ev isDrag newId e = clearPasted e)
  /\ (toolType = START_POS -> 0 <= fst cell ->
        levelData (handleEditorClick ev isDrag newId e)
          = levelData e ++ [placedObject newId cell e]
        /\ selectedObjects (handleEditorClick ev isDrag newId e) = [newId]).
Proof.
  intros toolType cell HT HD. subst toolType.
  assert (ET : ObjectType_eqb (fst (selectedToolRef (clearPasted e))) TOOL = false).
  { apply ObjectType_eqb_neq. unfold clearPasted. now destruct (isPastedSelection e). }
  assert (ED : ObjectType_eqb (fst (selectedToolRef (clearPasted e))) DELETE = false).
  { apply ObjectType_eqb_neq. unfold clearPasted. now destruct (isPastedSelection e). }
  assert (Hcell : clickedCell ev (clearPasted e) = cell).
  { unfold clearPasted. now destruct (isPastedSelection e). }
  assert (Hdata : levelData (clearPasted e) = levelData e).
  { unfold clearPasted. now destruct (isPastedSelection e). }
  assert (Htool : selectedToolRef (clearPasted e) = selectedToolRef e).
  { unfold clearPasted. now destruct (isPastedSelection e). }
  assert (Hrot : lastToolRotation (clearPasted e) = lastToolRotation e).
  { unfold clearPasted. now destruct (isPastedSelection e). }
  unfold handleEditorClick. fold (clearPasted e).
  rewrite ET, ED.
  change (Math_floor ((clientX ev / cam_zoom (camera (clearPasted e))
                       + cam_x (camera (clearPasted e))) / TILE_SIZE))
    with (fst (clickedCell ev (clearPasted e))).
  change (Math_floor ((clientY ev / cam_zoom (camera (clearPasted e))
                       + cam_y (camera (clearPasted e))) / TILE_SIZE))
    with (snd (clickedCell ev (clearPasted e))).
  rewrite Hcell, Hdata, Htool, Hrot.
  split; [| split].
  - intros HS Hocc. apply ObjectType_eqb_neq in HS. rewrite HS. simpl.
    pose proof (find_occupied e cell Hocc) as F.
    destruct (js_find _ (levelData e)); [reflexivity | contradiction].
  - intros HS Hneg. rewrite HS. apply Qltb_lt in Hneg. now rewrite Hneg.
  - intros HS Hpos. rewrite HS. apply Qltb_ge in Hpos. rewrite Hpos. simpl.
    rewrite orb_true_r. rewrite addToHistory_levelData, addToHistory_selectedObjects.
    split; [| reflexivity]. simpl. unfold placedObject. now rewrite HS.
Qed.

(** ** Moving the selection *)

Lemma map_get_None {A : Type} (m : list (string * A)) (k : string) :
  map_get m k = None <-> ~ In k (map fst m).
Proof.
  induction m as [| [k' v'] m IH]; simpl; [tauto |].
  destruct (String.eqb_spec k k') as [-> | N].
  - split; [discriminate | intros H; exfalso; apply H; now left].
  - rewrite IH. split; [intros H [E | I]; [now subst | tauto] | tauto].
Qed.

Lemma map_get_In {A : Type} (m : list (string * A)) (k : string) (v : A) :
  NoDup (map fst m) -> (map_get m k = Some v <-> In (k, v) m).
Proof.
  induction m as [| [k' v'] m IH]; simpl; intros ND; [split; [discriminate | tauto] |].
  inversion ND as [| ? ? Hnot ND']; subst.
  destruct (String.eqb_spec k k') as [-> | N].
  - split.
    + intros H. injection H as ->. now left.
    + intros [H | H]; [now injection H as -> |].
      exfalso. apply Hnot. now apply (in_map fst) in H.
  - rewrite (IH ND'). split; [tauto |]. intros [H | H]; [| exact H].
    injection H as -> ->. now contradiction N.
Qed.

Lemma map_set_fresh {A : Type} (m : list (string * A)) (k : string) (v : A) :
  ~ In k (map fst m) -> map_set m k v = m ++ [(k, v)].
Proof.
  induction m as [| [k' v'] m IH]; simpl; intros H; [reflexivity |].
  destruct (String.eqb_spec k k') as [-> | N]; [exfalso; apply H; now left |].
  rewrite IH; [reflexivity | tauto].
Qed.

Lemma map_set_present {A : Type} (m : list (string * A)) (k : string) (v : A) :
  NoDup (map fst m) -> In k (map fst m) ->
  map_set m k v = map (fun kv => if String.eqb k (fst kv) then (fst kv, v) else kv) m.
Proof.
  induction m as [| [k' v'] m IH]; simpl; intros ND H; [contradiction |].
  inversion ND as [| ? ? Hnot ND']; subst.
  destruct (String.eqb_spec k k') as [-> | N].
  - f_equal. symmetry. rewrite <- (map_id m) at 2. apply map_ext_in.
    intros [k2 v2] I. simpl. destruct (String.eqb_spec k' k2) as [<- | _]; [| reflexivity].
    exfalso. apply Hnot. now apply (in_map fst) in I.
  - f_equal. apply IH; [exact ND' |]. destruct H as [H | H]; [now contradiction N | exact H].
Qed.

Lemma map_of_list_acc {A : Type} (l acc : list (string * A)) :
  NoDup (map fst (acc ++ l)) ->
  fold_left (fun m kv => map_set m (fst kv) (snd kv)) l acc = acc ++ l.
Proof.
  revert acc. induction l as [| [k v] l IH]; intros acc ND; simpl.
  - now rewrite app_nil_r.
  - rewrite map_set_fresh.
    + rewrite IH; rewrite <- app_assoc; [reflexivity | exact ND].
    + rewrite map_app in ND. simpl in ND. apply NoDup_remove_2 in ND.
      intros I. apply ND. apply in_or_app. now left.
Qed.

Lemma map_of_list_NoDup {A : Type} (l : list (string * A)) :
  NoDup (map fst l) -> map_of_list l = l.
Proof. intros ND. unfold map_of_list. now rewrite map_of_list_acc. Qed.

Lemma set_has_cons (k k' : string) (s : list string) :
  set_has (k' :: s) k = String.eqb k k' || set_has s k.
Proof. reflexivity. Qed.

Lemma set_has_In (s : list string) (k : string) : set_has s k = true <-> In k s.
Proof.
  unfold set_has. rewrite existsb_exists. split.
  - intros (x & I & E). apply String.eqb_eq in E. now subst.
  - intros I. exists k. split; [exact I | apply String.eqb_refl].
Qed.

Lemma moveObject_id (adj dy : Q) (o : LevelObject) : o_id (moveObject adj dy o) = o_id o.
Proof. reflexivity. Qed.

(** The second loop of [moveSelectionInternal] moves exactly the objects
    whose identifier is selected, each once. *)
Lemma moveOne_fold (adj dy : Q) (sel : list string) (m : list (string * LevelObject))
    (b : bool) :
  NoDup (map fst m) -> NoDup sel ->
  fst (fold_left (moveOne adj dy) sel (m, b))
  = map (fun kv => (fst kv, if set_has sel (fst kv) then moveObject adj dy (snd kv)
                            else snd kv)) m.
Proof.
  revert m b. induction sel as [| id rest IH]; intros m b NDm NDs; simpl fold_left.
  - simpl. rewrite <- (map_id m) at 1. apply map_ext. now intros [k v].
  - inversion NDs as [| ? ? Hnot NDr]; subst.
    unfold moveOne at 2. simpl fst.
    destruct (map_get m id) as [obj |] eqn:G.
    + assert (Hin : In id (map fst m)).
      { apply (map_get_In _ _ _ NDm) in G. now apply (in_map fst) in G. }
      rewrite (map_set_present _ _ _ NDm Hin).
      rewrite IH; [| | exact NDr].
      * rewrite map_map. apply map_ext_in. intros [k v] I. cbn [fst snd].
        rewrite set_has_cons.
        destruct (String.eqb_spec id k) as [<- | N].
        -- cbn [fst snd]. rewrite String.eqb_refl. cbn [orb].
           assert (E : v = obj).
           { apply (map_get_In _ _ _ NDm) in I. congruence. }
           subst v.
           destruct (set_has rest id) eqn:S; [| reflexivity].
           apply set_has_In in S. contradiction.
        -- cbn [fst snd]. destruct (String.eqb_spec k id) as [-> | _]; [now contradiction N |].
           reflexivity.
      * rewrite map_map. simpl.
        rewrite (map_ext _ fst); [exact NDm |].
        intros [k v]. simpl. now destruct (String.eqb id k).
    + rewrite IH by assumption. apply map_ext_in. intros [k v] I. cbn [fst snd].
      rewrite set_has_cons.
      destruct (String.eqb_spec k id) as [-> | _]; [| reflexivity].
      exfalso. apply map_get_None in G. apply G. now apply (in_map fst) in I.
Qed.

Lemma moveOne_fold_unmoved (adj dy : Q) (sel : list string) (m : list (string * LevelObject)) :
  snd (fold_left (moveOne adj dy) sel (m, false)) = false ->
  fst (fold_left (moveOne adj dy) sel (m, false)) = m.
Proof.
  revert m. induction sel as [| id rest IH]; intros m; simpl fold_left; [reflexivity |].
  unfold moveOne at 2 4. simpl fst.
  destruct (map_get m id); [| apply IH].
  intros H. exfalso. revert H. generalize (map_set m id (moveObject adj dy l)).
  clear. induction rest as [| id' rest IH]; intros m'; simpl; [discriminate |].
  unfold moveOne at 2. simpl. destruct (map_get m' id'); apply IH.
Qed.

(** The objects after the move: every selected object is shifted by the
    same pair of deltas. *)
Lemma moveSelectionInternal_levelData (dx dy : Q) (e : Engine) :
  NoDup (map o_id (levelData e)) -> NoDup (selectedObjects e) ->
  levelData (moveSelectionInternal dx dy e)
  = map (fun o => if set_has (selectedObjects e) (o_id o)
                  then moveObject (clampedDx dx e) dy o else o) (levelData e).
Proof.
  intros NDl NDs. unfold moveSelectionInternal. fold (clampedDx dx e).
  set (adj := clampedDx dx e).
  assert (NDm : NoDup (map fst (map (fun o => (o_id o, o)) (levelData e))))
    by now rewrite map_map.
  rewrite (map_of_list_NoDup _ NDm).
  set (m := map (fun o => (o_id o, o)) (levelData e)) in *.
  pose proof (moveOne_fold adj dy (selectedObjects e) m false NDm NDs) as F.
  pose proof (moveOne_fold_unmoved adj dy (selectedObjects e) m) as U.
  destruct (fold_left (moveOne adj dy) (selectedObjects e) (m, false)) as [m' moved].
  simpl in F, U.
  assert (V : map_values m'
              = map (fun o => if set_has (selectedObjects e) (o_id o)
                              then moveObject adj dy o else o) (levelData e)).
  { rewrite F. unfold map_values, m. rewrite !map_map. reflexivity. }
  destruct moved.
  - rewrite addToHistory_levelData. exact V.
  - rewrite <- V, (U eq_refl). unfold map_values, m. rewrite map_map. simpl.
    now rewrite map_id.
Qed.

(** Each adjustment is the larger of the delta so far and the delta that
    takes the StartPos to 0. *)
Lemma adjustDx_ge (m : list (string * LevelObject)) (adj : Q) (id : string) :
  adj <= adjustDx m adj id.
Proof.
  unfold adjustDx. destruct (map_get m id) as [obj |]; [| apply Qle_refl].
  destruct (ObjectType_eqb (o_type obj) START_POS); simpl; [| apply Qle_refl].
  destruct (Qltb (o_x obj + adj) 0) eqn:E; [| apply Qle_refl].
  apply Qltb_lt in E. lra.
Qed.

Lemma adjustDx_startPos (m : list (string * LevelObject)) (adj : Q) (id : string)
    (s : LevelObject) :
  map_get m id = Some s -> o_type s = START_POS -> - o_x s <= adjustDx m adj id.
Proof.
  intros G T. unfold adjustDx. rewrite G, T. simpl.
  destruct (Qltb (o_x s + adj) 0) eqn:E; [apply Qle_refl |].
  apply Qltb_ge in E. lra.
Qed.

Lemma adjustDx_fold_ge (m : list (string * LevelObject)) (sel : list string) (dx : Q) :
  dx <= fold_left (adjustDx m) sel dx.
Proof.
  revert dx. induction sel as [| id rest IH]; intros dx; simpl; [apply Qle_refl |].
  apply Qle_trans with (adjustDx m dx id); [apply adjustDx_ge | apply IH].
Qed.

Lemma adjustDx_fold_startPos (m : list (string * LevelObject)) (sel : list string) (dx : Q)
    (id : string) (s : LevelObject) :
  In id sel -> map_get m id = Some s -> o_type s = START_POS ->
  - o_x s <= fold_left (adjustDx m) sel dx.
Proof.
  revert dx. induction sel as [| id' rest IH]; intros dx I G T; [contradiction |].
  simpl. destruct I as [-> | I].
  - apply Qle_trans with (adjustDx m dx id);
      [now apply adjustDx_startPos | apply adjustDx_fold_ge].
  - now apply IH.
Qed.

(** The final delta is the requested one or the one that takes some selected
    StartPos to 0. *)
Lemma adjustDx_fold_cases (m : list (string * LevelObject)) (sel : list string) (dx : Q) :
  fold_left (adjustDx m) sel dx = dx
  \/ exists id s, In id sel /\ map_get m id = Some s /\ o_type s = START_POS
                  /\ fold_left (adjustDx m) sel dx = - o_x s.
Proof.
  revert dx. induction sel as [| id rest IH]; intros dx; simpl; [now left |].
  destruct (IH (adjustDx m dx id)) as [H | (id' & s & I & G & T & H)].
  - rewrite H. unfold adjustDx. destruct (map_get m id) as [obj |] eqn:G; [| now left].
    destruct (ObjectType_eqb (o_type obj) START_POS) eqn:T; simpl; [| now left].
    destruct (Qltb (o_x obj + dx) 0); [| now left].
    right. exists id, obj. apply ObjectType_eqb_eq in T. auto.
  - right. exists id', s. auto.
Qed.

Lemma Math_round_comp (x y : Q) : x == y -> Math_round x = Math_round y.
Proof. intros H. unfold Math_round. now rewrite H. Qed.

Lemma moveObject_lands_at_zero (dy : Q) (s : LevelObject) :
  o_x (moveObject (- o_x s) dy s) == 0.
Proof.
  unfold moveObject. simpl.
  rewrite (Math_round_comp ((o_x s + - o_x s) * 100) 0) by lra. reflexivity.
Qed.

Lemma map_get_objects (l : list LevelObject) (id : string) (s : LevelObject) :
  NoDup (map o_id l) ->
  (map_get (map_of_list (map (fun o => (o_id o, o)) l)) id = Some s <-> In s l /\ o_id s = id).
Proof.
  intros ND.
  assert (NDm : NoDup (map fst (map (fun o => (o_id o, o)) l))) by now rewrite map_map.
  rewrite (map_of_list_NoDup _ NDm), (map_get_In _ _ _ NDm), in_map_iff. split.
  - intros (o & E & I). injection E as <- <-. auto.
  - intros (I & <-). now exists s.
Qed.

(** C5 (as amended): [moveSelection] computes one horizontal delta for the
    whole batch and shifts every selected object by it; with that delta no
    selected StartPos ends left of x = 0, and when some selected StartPos would
    cross x = 0 under the requested delta, the leftmost selected StartPos
    lands exactly at x = 0.  (Objects carry distinct identifiers.) *)
Theorem move_clamps_whole_batch (dx dy : Q) (e : Engine) :
  NoDup (map o_id (levelData e)) -> NoDup (selectedObjects e) ->
  let adj := clampedDx dx e in
  levelData (moveSelectionInternal dx dy e)
    = map (fun o => if set_has (selectedObjects e) (o_id o)
                    then moveObject adj dy o else o) (levelData e)
  /\ (forall s, selectedStartPos e s -> 0 <= o_x s + adj)
  /\ ((exists s, selectedStartPos e s /\ o_x s + dx < 0) ->
      exists s, selectedStartPos e s
                /\ (forall s', selectedStartPos e s' -> o_x s <= o_x s')
                /\ o_x (moveObject adj dy s) == 0).
Proof.
  intros NDl NDs adj.
  assert (B : forall s, selectedStartPos e s -> - o_x s <= adj).
  { intros s (I & S & T). apply set_has_In in S.
    apply adjustDx_fold_startPos with (id := o_id s); [exact S | | exact T].
    now apply map_get_objects. }
  split; [now apply moveSelectionInternal_levelData |].
  split; [intros s H; specialize (B s H); lra |].
  intros (v & Hv & Hlt). pose proof (B v Hv) as Bv.
  destruct (adjustDx_fold_cases
              (map_of_list (map (fun o => (o_id o, o)) (levelData e)))
              (selectedObjects e) dx) as [E | (id & s & I & G & T & E)];
    fold (clampedDx dx e) in E; fold adj in E.
  - exfalso. rewrite E in Bv. lra.
  - apply map_get_objects in G; [| exact NDl]. destruct G as [Gin Gid].
    assert (Hs : selectedStartPos e s).
    { repeat split; [exact Gin | | exact T]. apply set_has_In. now rewrite Gid. }
    exists s. split; [exact Hs |]. split.
    + intros s' Hs'. specialize (B s' Hs'). rewrite E in B. lra.
    + rewrite E. apply moveObject_lands_at_zero.
Qed.

(** ** The start position chosen by a reset *)

Lemma sort_insert_In {A : Type} (cmp : A -> A -> Q) (a y : A) (l : list A) :
  In y (sort_insert cmp a l) <-> y = a \/ In y l.
Proof.
  induction l as [| b l IH]; simpl; [intuition congruence |].
  destruct (Qltb (cmp a b) 0); simpl; [intuition congruence |].
  rewrite IH. intuition congruence.
Qed.

Lemma js_sort_In {A : Type} (cmp : A -> A -> Q) (y : A) (l : list A) :
  In y (js_sort cmp l) <-> In y l.
Proof.
  unfold js_sort.
  assert (G : forall acc, In y (fold_left (fun acc a => sort_insert cmp a acc) l acc)
                          <-> In y acc \/ In y l).
  { induction l as [| a l IH]; intros acc; simpl; [tauto |].
    rewrite IH, sort_insert_In. intuition congruence. }
  rewrite G. simpl. tauto.
Qed.

Lemma sort_insert_headFirst {A : Type} (cmp : A -> A -> Q) (a : A) (l : list A) :
  ~ sortsBefore cmp a a ->
  (forall y b, In y l -> In b l -> sortsBefore cmp y a -> sortsBefore cmp a b ->
               sortsBefore cmp y b) ->
  headFirst cmp l -> headFirst cmp (sort_insert cmp a l).
Proof.
  intros Irr Tr H. destruct l as [| b l]; simpl.
  - intros y [<- | []]. exact Irr.
  - destruct (Qltb (cmp a b) 0) eqn:E.
    + intros y [<- | I]; [exact Irr |].
      intros Hy. apply (H y I). apply (Tr y b); [exact I | now left | exact Hy | exact E].
    + simpl. intros y [<- | I].
      * apply (H b). now left.
      * apply sort_insert_In in I. destruct I as [-> | I].
        -- unfold sortsBefore. now rewrite E.
        -- apply (H y). now right.
Qed.

Lemma js_sort_headFirst {A : Type} (cmp : A -> A -> Q) (l : list A) :
  (forall a, In a l -> ~ sortsBefore cmp a a) ->
  (forall x y z, In x l -> In y l -> In z l ->
                 sortsBefore cmp x y -> sortsBefore cmp y z -> sortsBefore cmp x z) ->
  headFirst cmp (js_sort cmp l).
Proof.
  intros Irr Tr. unfold js_sort.
  assert (G : forall l' acc,
             (forall y, In y l' -> In y l) -> (forall y, In y acc -> In y l) ->
             headFirst cmp acc ->
             headFirst cmp (fold_left (fun acc a => sort_insert cmp a acc) l' acc)).
  { induction l' as [| a l' IH]; intros acc Hl Ha H; simpl; [exact H |].
    apply IH.
    - intros y I. apply Hl. now right.
    - intros y I. apply sort_insert_In in I. destruct I as [-> | I];
        [apply Hl; now left | now apply Ha].
    - apply sort_insert_headFirst; [apply Irr, Hl; now left | | exact H].
      intros y b Iy Ib. apply Tr; [now apply Ha | apply Hl; now left | now apply Ha]. }
  apply G; [auto | intros y [] | exact I].
Qed.

Lemma withIndex_In {A : Type} (l : list A) (i k : Z) (o : A) :
  In (o, k) (withIndex i l) <->
  exists n : nat, k = (i + Z.of_nat n)%Z /\ nth_error l n = Some o.
Proof.
  revert i. induction l as [| a l IH]; intros i; simpl.
  - split; [tauto | intros ([| n] & _ & H); discriminate].
  - rewrite IH. split.
    + intros [E | (n & -> & H)].
      * injection E as -> ->. exists O. split; [lia | reflexivity].
      * exists (S n). split; [lia | exact H].
    + intros ([| n] & -> & H); simpl in H.
      * left. injection H as ->. f_equal. lia.
      * right. exists n. split; [lia | exact H].
Qed.

Lemma isEnabledStartPos_index (o : LevelObject) (k : Z) :
  isEnabledStartPos (o, k) = true <-> enabledStartPos o.
Proof. reflexivity. Qed.

Lemma startPositions_In (objs : list LevelObject) (o : LevelObject) (k : Z) :
  In (o, k) (startPositions objs) <->
  exists n : nat, k = Z.of_nat n /\ nth_error objs n = Some o /\ enabledStartPos o.
Proof.
  unfold startPositions. rewrite filter_In, withIndex_In, isEnabledStartPos_index. split.
  - intros ((n & -> & H) & E). exists n. auto.
  - intros (n & -> & H & E). split; [exists n; auto | exact E].
Qed.

(** On well separated start positions the comparator is the lexicographic
    order: smaller x first, then larger insertion index first. *)
Lemma compareStartPos_lex (a b : LevelObject * Z) :
  (o_x (fst a) == o_x (fst b) \/ 0.01 < Qabs (o_x (fst a) - o_x (fst b))) ->
  (sortsBefore compareStartPos a b <->
   o_x (fst a) < o_x (fst b) \/ (o_x (fst a) == o_x (fst b) /\ (snd b < snd a)%Z)).
Proof.
  intros Sep. unfold sortsBefore, compareStartPos, Math_abs.
  destruct (Qltb 0.01 (Qabs (o_x (fst a) - o_x (fst b)))) eqn:E.
  - apply Qltb_lt in E. rewrite Qltb_lt. split.
    + intros H. left. lra.
    + intros [H | [H _]]; [lra |]. exfalso. rewrite H in E.
      setoid_replace (o_x (fst b) - o_x (fst b)) with 0 in E by ring.
      simpl in E. lra.
  - apply Qltb_ge in E. destruct Sep as [S | S]; [| lra].
    rewrite Qltb_lt.
    assert (Z : inject_Z (snd b - snd a) < 0 <-> (snd b - snd a < 0)%Z)
      by (unfold Qlt; simpl; lia).
    rewrite Z. split.
    + intros H. right. split; [exact S | lia].
    + intros [H | [_ H]]; [lra | lia].
Qed.

Lemma resetPlayerInternal_player (e : Engine) (best : LevelObject) (d : StartPosData) :
  bestStartPos (levelData e) = Some best -> o_startPosData best = Some d ->
  player (resetPlayerInternal false e)
  = {| p_x := o_x best * TILE_SIZE; p_y := o_y best * TILE_SIZE; p_w := 36; p_h := 36;
       p_vx := PLAYER_SPEED; p_vy := 0; p_rotation := 0;
       p_onGround := true; p_dead := false; p_finished := false;
       p_vehicle := sp_mode d; p_gravityReversed := truthy (sp_reverseGravity d) |}.
Proof.
  intros Hb Hd. unfold resetPlayerInternal. simpl negb. cbv iota.
  change (levelData (set_selectedObjects [] e)) with (levelData e).
  rewrite Hb, Hd. repeat break_if; reflexivity.
Qed.

Lemma sortsBefore_startPos_irrefl (a : LevelObject * Z) : ~ sortsBefore compareStartPos a a.
Proof.
  intros H. apply compareStartPos_lex in H; [| left; reflexivity].
  destruct H as [H | [_ H]]; [lra | lia].
Qed.

Lemma sortsBefore_startPos_trans (objs : list LevelObject) (x y z : LevelObject * Z) :
  wellSeparated objs ->
  In x (startPositions objs) -> In y (startPositions objs) -> In z (startPositions objs) ->
  sortsBefore compareStartPos x y -> sortsBefore compareStartPos y z ->
  sortsBefore compareStartPos x z.
Proof.
  intros W Ix Iy Iz Hxy Hyz.
  assert (Sep : forall a b, In a (startPositions objs) -> In b (startPositions objs) ->
                  o_x (fst a) == o_x (fst b) \/ 0.01 < Qabs (o_x (fst a) - o_x (fst b))).
  { intros [a ka] [b kb] Ia Ib. apply startPositions_In in Ia, Ib.
    destruct Ia as (na & _ & Ha & Ea). destruct Ib as (nb & _ & Hb & Eb).
    apply W; eauto using nth_error_In. }
  apply compareStartPos_lex in Hxy; [| now apply Sep].
  apply compareStartPos_lex in Hyz; [| now apply Sep].
  apply compareStartPos_lex; [now apply Sep |].
  destruct Hxy as [H1 | [H1 K1]], Hyz as [H2 | [H2 K2]].
  - left. lra.
  - left. lra.
  - left. lra.
  - right. split; [lra | lia].
Qed.

(** C7 (as amended): when the enabled StartPos objects lie pairwise at the
    same grid-x or more than 0.01 apart (as objects placed on grid cells do),
    [resetPlayer(false)] spawns the player at the enabled StartPos with the
    smallest grid-x, and among those at that x at the one placed last; in
    particular, of two enabled StartPos at the same x the later one is taken.
    The player starts there with the mode and the gravity of that StartPos. *)
Theorem reset_spawns_leftmost_latest (e : Engine) :
  wellSeparated (levelData e) ->
  (exists o, In o (levelData e) /\ enabledStartPos o) ->
  exists (j : nat) (best : LevelObject) (d : StartPosData),
    nth_error (levelData e) j = Some best
    /\ enabledStartPos best
    /\ o_startPosData best = Some d
    /\ (forall (k : nat) (o : LevelObject),
          nth_error (levelData e) k = Some o -> enabledStartPos o ->
          o_x best < o_x o \/ (o_x best == o_x o /\ (k <= j)%nat))
    /\ player (resetPlayer false e)
       = {| p_x := o_x best * TILE_SIZE; p_y := o_y best * TILE_SIZE; p_w := 36; p_h := 36;
            p_vx := PLAYER_SPEED; p_vy := 0; p_rotation := 0;
            p_onGround := true; p_dead := false; p_finished := false;
            p_vehicle := sp_mode d; p_gravityReversed := truthy (sp_reverseGravity d) |}.
Proof.
  intros W (o0 & I0 & E0).
  set (items := startPositions (levelData e)).
  assert (HF : headFirst compareStartPos (js_sort compareStartPos items)).
  { apply js_sort_headFirst.
    - intros a _. apply sortsBefore_startPos_irrefl.
    - intros x y z. now apply sortsBefore_startPos_trans. }
  destruct (In_nth_error _ _ I0) as (n0 & N0).
  assert (M0 : In (o0, Z.of_nat n0) (js_sort compareStartPos items)).
  { apply js_sort_In. apply startPositions_In. exists n0. auto. }
  destruct (js_sort compareStartPos items) as [| [best kz] rest] eqn:S; [contradiction |].
  assert (Hh : In (best, kz) items).
  { apply (js_sort_In compareStartPos). rewrite S. now left. }
  pose proof Hh as Hh'. apply startPositions_In in Hh'.
  destruct Hh' as (j & -> & Nj & Ej).
  assert (Hd : exists d, o_startPosData best = Some d).
  { unfold enabledStartPos, isEnabledStartPos in Ej. simpl in Ej.
    destruct (o_startPosData best) as [d |]; [now exists d |].
    now rewrite andb_false_r in Ej. }
  destruct Hd as (d & Hd).
  exists j, best, d. repeat split; auto.
  - intros k o Nk Ek.
    assert (Ik : In (o, Z.of_nat k) items)
      by (apply startPositions_In; exists k; auto).
    assert (Nb : ~ sortsBefore compareStartPos (o, Z.of_nat k) (best, Z.of_nat j)).
    { apply (HF (o, Z.of_nat k)). rewrite <- S. now apply js_sort_In. }
    rewrite compareStartPos_lex in Nb.
    + simpl in Nb. destruct (Qlt_le_dec (o_x best) (o_x o)) as [L | L]; [now left |].
      right. destruct (Qlt_le_dec (o_x o) (o_x best)) as [L' | L']; [tauto |].
      assert (Q : o_x o == o_x best) by lra.
      split; [lra |]. destruct (le_lt_dec k j) as [Le | Lt]; [exact Le |].
      exfalso. apply Nb. right. split; [exact Q | lia].
    + simpl. apply W; eauto using nth_error_In.
  - unfold resetPlayer. apply resetPlayerInternal_player; [| exact Hd].
    unfold bestStartPos. fold items. now rewrite S.
Qed.

(** ** Landing on a block *)

(** Reads the fields of a player just written, leaving the numbers alone. *)
Ltac player_fields :=
  cbn [player set_player p_x p_y p_w p_h p_vx p_vy p_rotation p_onGround p_dead p_finished
       p_vehicle p_gravityReversed set_p_x set_p_y set_p_w set_p_h set_p_vx set_p_vy
       set_p_rotation set_p_onGround set_p_dead set_p_finished set_p_vehicle
       set_p_gravityReversed].

Lemma objectLoop_app (a b : bool) (r c : Q) (pre post : list LevelObject) (e : Engine) :
  objectLoop a b r c (pre ++ post) e
  = match objectLoop a b r c pre e with
    | Continue e1 => objectLoop a b r c post e1
    | Return e1 => Return e1
    end.
Proof.
  revert e. induction pre as [| obj pre IH]; intros e; simpl; [reflexivity |].
  destruct (collideObject a b r c e obj); [apply IH | reflexivity].
Qed.

Lemma die_dead (e : Engine) : p_dead (player (die e)) = true.
Proof.
  unfold die. destruct (p_dead (player e)) eqn:D; [exact D |].
  repeat break_if; reflexivity.
Qed.

Lemma die_player (e : Engine) :
  p_y (player (die e)) = p_y (player e) /\ p_vy (player (die e)) = p_vy (player e)
  /\ p_onGround (player (die e)) = p_onGround (player e)
  /\ p_rotation (player (die e)) = p_rotation (player e).
Proof.
  unfold die. destruct (p_dead (player e)); [auto |]. repeat break_if; auto.
Qed.

(** The block branch of the loop body for a cube in normal gravity. *)
Lemma collideObject_fullBlock (a b : bool) (r c : Q) (e0 e1 : Engine) (obj : LevelObject) :
  r = p_x (player e0) + p_w (player e0) ->
  hitsFullBlock e0 e1 obj ->
  p_vehicle (player e1) = Some CUBE -> p_gravityReversed (player e1) = false ->
  collideObject a b r c e1 obj
  = if landsOnTop (player e1) obj
    then Continue
           (set_player
              (set_p_rotation 0
                 (set_p_onGround true
                    (set_p_vy 0
                       (set_p_y (o_y obj * TILE_SIZE - p_h (player e1)) (player e1))))) e1)
    else Return (die e1).
Proof.
  intros -> (T & S & M & C) V G. unfold collideObject.
  rewrite T. simpl ObjectType_eqb. cbv iota. simpl orb. cbv iota.
  rewrite M, C. unfold collideBlock. rewrite V. simpl vehicle_is. cbv iota.
  apply Z.eqb_neq in S. rewrite S. unfold cubeBlock. rewrite G. simpl negb. cbv iota.
  unfold landsOnTop. reflexivity.
Qed.

Lemma afterObjects_noInput (e : Engine) :
  p_y (player (afterObjects false e)) = p_y (player e)
  /\ p_vy (player (afterObjects false e)) = p_vy (player e)
  /\ p_onGround (player (afterObjects false e)) = p_onGround (player e)
  /\ p_rotation (player (afterObjects false e)) = p_rotation (player e).
Proof.
  unfold afterObjects. rewrite andb_false_r.
  repeat break_if; auto using die_player.
Qed.

Lemma afterObjects_jump (e : Engine) :
  p_vehicle (player e) = Some CUBE -> p_onGround (player e) = true ->
  p_gravityReversed (player e) = false ->
  p_y (player (afterObjects true e)) = p_y (player e)
  /\ p_vy (player (afterObjects true e)) == JUMP_FORCE
  /\ p_onGround (player (afterObjects true e)) = false.
Proof.
  intros V O G. unfold afterObjects. rewrite V, O. simpl vehicle_is. simpl andb. cbv iota.
  unfold jump. rewrite G. simpl.
  repeat break_if;
    repeat match goal with
      | |- context [die ?x] =>
          let H := fresh in pose proof (die_player x) as H; simpl in H;
          destruct H as (-> & -> & -> & _)
      end;
    simpl; repeat split; auto; apply Qred_correct.
Qed.

(** C1 (as amended): in a step of the physics, when the loop over the
    objects reaches a full Block that a Cube player in normal gravity
    overlaps, then
    - if the bottom edge of the previous frame (y minus vy, plus height) was at
      or above the top of the block plus max(|vy|, 5) and vy is not negative,
      the block snaps the player to its top face with [onGround] set and
      vertical velocity and rotation 0; when the objects after it leave the
      player alone, the step ends in that state if no jump input is held, and
      with the jump taken from the block (vertical velocity [JUMP_FORCE],
      [onGround] cleared) if one is held;
    - otherwise (an approach from the side or from below) the step ends with
      the player dead. *)
Theorem cube_block_landing (e e0 e1 : Engine) (pre post : list LevelObject)
    (obj : LevelObject) :
  reachesBlock e e0 e1 pre post obj ->
  (landsOnTop (player e1) obj = true ->
   exists e2,
     loopFrom e e0 [obj] e1 = Continue e2
     /\ restsOn (player e2) (p_h (player e1)) obj
     /\ forall e3, loopFrom e e0 post e2 = Continue e3 -> player e3 = player e2 ->
          (isInputDown e = false ->
             restsOn (player (updatePhysics e)) (p_h (player e1)) obj)
          /\ (isInputDown e = true ->
                p_y (player (updatePhysics e)) == o_y obj * TILE_SIZE - p_h (player e1)
                /\ p_vy (player (updatePhysics e)) == JUMP_FORCE
                /\ p_onGround (player (updatePhysics e)) = false))
  /\ (landsOnTop (player e1) obj = false -> p_dead (player (updatePhysics e)) = true).
Proof.
  intros ((D & F & W) & L & B0 & L1 & HB & V & G).
  pose proof (collideObject_fullBlock (isInputDown e)
                (isInputDown e && negb (prevInputState e))
                (p_x (player e0) + p_w (player e0))
                (p_x (player e0) + p_w (player e0) / 2) e0 e1 obj eq_refl HB V G) as CO.
  assert (L0 : levelData e0 = pre ++ obj :: post).
  { pose proof (beforeObjects_docHist e) as H. rewrite B0 in H. simpl in H.
    unfold docHist in H. injection H as H _ _ _. now rewrite H. }
  assert (U : updatePhysics e
              = match loopFrom e e0 (pre ++ obj :: post) e0 with
                | Return e' => e'
                | Continue e' => afterObjects (isInputDown e) e'
                end).
  { unfold updatePhysics. rewrite D, F, W, B0, L0. reflexivity. }
  unfold loopFrom in *. rewrite objectLoop_app, L1 in U. simpl objectLoop in *.
  rewrite CO in *. split.
  - intros LT. rewrite LT in *.
    eexists. split; [reflexivity |]. split.
    { unfold restsOn. player_fields. repeat split; first [reflexivity | apply Qred_correct]. }
    intros e3 L3 P3. rewrite L3 in U. split.
    + intros I. rewrite U, I. unfold restsOn.
      destruct (afterObjects_noInput e3) as (-> & -> & -> & ->). rewrite P3.
      player_fields. repeat split; first [reflexivity | apply Qred_correct].
    + intros I. rewrite U, I.
      destruct (afterObjects_jump e3) as (-> & J & ->); try (rewrite P3; reflexivity).
      * rewrite P3. player_fields. exact V.
      * rewrite P3. player_fields. exact G.
      * rewrite P3. player_fields. split; [apply Qred_correct | split; [exact J | reflexivity]].
  - intros LT. rewrite LT in U. rewrite U. apply die_dead.
Qed.

(** ** The history in every reachable state *)

Lemma inStep_ext (e e' : Engine) : docHist e' = docHist e -> inStep e -> inStep e'.
Proof.
  unfold docHist, inStep, getCurrentState. intros H. injection H as H1 H2 H3 H4.
  now rewrite H1, H2, H3, H4.
Qed.

Lemma Forall_slice0 {A : Type} (P : A -> Prop) (l : list A) (k : Z) :
  Forall P l -> Forall P (slice0 l k).
Proof.
  intros F. unfold slice0.
  destruct (k <? 0)%Z;
    match goal with
    | |- Forall _ (firstn ?n _) =>
        rewrite <- (firstn_skipn n l) in F; apply Forall_app in F; apply F
    end.
Qed.

Lemma Forall_tl {A : Type} (P : A -> Prop) (l : list A) : Forall P l -> Forall P (tl l).
Proof. intros F. destruct l; [exact F | now inversion F]. Qed.

Lemma addToHistory_snapshots (e : Engine) :
  Forall (fun s => isSnapshot s = true) (history e) ->
  Forall (fun s => isSnapshot s = true) (history (addToHistory e)).
Proof.
  intros F. rewrite addToHistory_history.
  assert (K : Forall (fun s => isSnapshot s = true) (keptEntries e ++ [getCurrentState e])).
  { apply Forall_app. split.
    - unfold keptEntries. destruct (_ <? _)%Z; [now apply Forall_slice0 | exact F].
    - repeat constructor. }
  destruct (50 <? _)%Z; [now apply Forall_tl | exact K].
Qed.

Lemma addToHistory_inStep (e : Engine) :
  Forall (fun s => isSnapshot s = true) (history e) -> inStep (addToHistory e).
Proof.
  intros F. destruct (addToHistory_atTip e) as (I & L & S).
  split; [lia | split; [exact S | now apply addToHistory_snapshots]].
Qed.

Lemma histRel_inStep (e e' : Engine) : histRel false e e' -> inStep e -> inStep e'.
Proof.
  induction 1 as [e e' H | e e0 e' H1 H2 H3 | e e' H1 H2 | e e' H _ | e1 e2 e3 _ IH1 _ IH2];
    intros T.
  - now apply inStep_ext with e.
  - apply inStep_ext with (addToHistory e0); [exact H3 |].
    apply addToHistory_inStep. rewrite H1. apply T.
  - unfold inStep. rewrite H1, H2. simpl.
    split; [lia | split; [reflexivity | repeat constructor]].
  - discriminate.
  - auto.
Qed.

(** An entry inside the history, read through its index. *)
Lemma array_get_snapshot (h : list StateJson) (k : Z) :
  Forall (fun s => isSnapshot s = true) h -> (0 <= k < Z.of_nat (List.length h))%Z ->
  exists settings objects, array_get h k = Some (JsonState settings objects).
Proof.
  intros F Hk. unfold array_get. destruct (Z.ltb_spec k 0); [lia |].
  destruct (nth_error h (Z.to_nat k)) as [s |] eqn:E.
  - rewrite Forall_forall in F. specialize (F s (nth_error_In _ _ E)).
    destruct s; try discriminate. now eexists _, _.
  - apply nth_error_None in E. lia.
Qed.

(** Moving the index to an entry inside the history and restoring it. *)
Lemma restore_inStep (e : Engine) (k : Z) :
  Forall (fun s => isSnapshot s = true) (history e) ->
  (0 <= k < Z.of_nat (List.length (history e)))%Z ->
  let e1 := set_historyIndex k e in
  inStep (restoreState (array_get (history e1) (historyIndex e1)) e1)
  /\ selectedObjects (restoreState (array_get (history e1) (historyIndex e1)) e1) = []
  /\ Some (getCurrentState (restoreState (array_get (history e1) (historyIndex e1)) e1))
     = array_get (history e) k.
Proof.
  intros F Hk e1. subst e1. simpl history. simpl historyIndex.
  destruct (array_get_snapshot _ _ F Hk) as (s & o & E). rewrite E.
  unfold inStep. simpl. repeat split; try lia; auto.
Qed.

Lemma undo_inStep (e : Engine) : inStep e -> inStep (undo e).
Proof.
  intros (R & S & F). unfold undo.
  destruct (Z.ltb_spec 0 (historyIndex e)); [| now repeat split].
  apply restore_inStep; [exact F | lia].
Qed.

Lemma redo_inStep (e : Engine) : inStep e -> inStep (redo e).
Proof.
  intros (R & S & F). unfold redo.
  destruct (Z.ltb_spec (historyIndex e) (Z.of_nat (List.length (history e)) - 1));
    [| now repeat split].
  apply restore_inStep; [exact F | lia].
Qed.

Lemma onKeyDown_inStep (ev : KeyEvt) (gen : nat -> string) (e : Engine) :
  inStep e -> inStep (onKeyDown ev gen e).
Proof.
  intros T. unfold onKeyDown.
  set (e1 := set_keys (set_add (keys e) (code ev)) e).
  assert (T1 : inStep e1) by (apply inStep_ext with e; [reflexivity | exact T]).
  destruct (inEditorOrPaused (modeRef e1)); [| exact T1].
  match goal with
  | |- inStep (match selectedObjects ?x with _ => _ end) =>
      set (e2 := x); assert (T2 : inStep e2)
  end.
  { subst e2. destruct (k_ctrlKey ev && negb (k_repeat ev)); [| exact T1].
    destruct (String.eqb (code ev) "KeyZ"); [now apply undo_inStep |].
    destruct (String.eqb (code ev) "KeyY"); [now apply redo_inStep |].
    destruct (String.eqb (code ev) "KeyC");
      [exact (histRel_inStep _ _ (copySelection_histRel false e1) T1) |].
    destruct (String.eqb (code ev) "KeyV");
      [exact (histRel_inStep _ _ (pasteSelection_histRel false gen e1) T1) | exact T1]. }
  clearbody e2. destruct (selectedObjects e2); [exact T2 |].
  match goal with
  | |- context [match ?s with pair _ _ => _ end] => destruct s as [dx dy]
  end.
  destruct (negb (Qeq_bool dx 0) || negb (Qeq_bool dy 0)); [| exact T2].
  exact (histRel_inStep _ _ (moveSelectionInternal_histRel false _ _ e2) T2).
Qed.

Lemma step_inStep (op : Op) (e : Engine) : inStep e -> inStep (step op e).
Proof.
  intros T. pose proof (step_histRel op e) as R.
  destruct op; simpl isHistoryNav in R;
    try exact (histRel_inStep _ _ R T).
  - now apply onKeyDown_inStep.
  - now apply undo_inStep.
  - now apply redo_inStep.
Qed.

Lemma mountedEngine_inStep (w h : Q) : inStep (mountedEngine w h).
Proof. unfold inStep. simpl. split; [lia | split; [reflexivity | repeat constructor]]. Qed.

Lemma run_inStep (w h : Q) (ops : list Op) : inStep (run ops (mountedEngine w h)).
Proof.
  induction ops as [| op ops IH] using rev_ind.
  - apply mountedEngine_inStep.
  - rewrite run_snoc. now apply step_inStep.
Qed.

(** X1: whatever the operations, undo and redo included, the history index
    points inside the history, the entry it points at is the snapshot of the
    current objects and settings, and every entry is such a snapshot. *)
Theorem history_tracks_document (innerWidth innerHeight : Q) (ops : list Op) :
  let e := run ops (mountedEngine innerWidth innerHeight) in
  (0 <= historyIndex e < Z.of_nat (List.length (history e)))%Z
  /\ array_get (history e) (historyIndex e)
     = Some (JsonState (levelSettings e) (levelData e))
  /\ Forall (fun s => isSnapshot s = true) (history e).
Proof. intros e. apply (run_inStep innerWidth innerHeight ops). Qed.

(** What a step back and a step forward in the history restore. *)
Lemma undo_restores (e : Engine) :
  inStep e -> (0 < historyIndex e)%Z ->
  inStep (undo e)
  /\ history (undo e) = history e
  /\ historyIndex (undo e) = (historyIndex e - 1)%Z
  /\ selectedObjects (undo e) = []
  /\ Some (getCurrentState (undo e)) = array_get (history e) (historyIndex e - 1).
Proof.
  intros (R & S & F) P. unfold undo.
  destruct (Z.ltb_spec 0 (historyIndex e)); [| lia].
  destruct (restore_inStep e (historyIndex e - 1) F ltac:(lia)) as (T & Sel & C).
  split; [exact T |]. split; [now rewrite restoreState_history |].
  split; [now rewrite restoreState_historyIndex |]. split; [exact Sel | exact C].
Qed.

Lemma redo_restores (e : Engine) :
  inStep e -> (historyIndex e < Z.of_nat (List.length (history e)) - 1)%Z ->
  inStep (redo e)
  /\ history (redo e) = history e
  /\ historyIndex (redo e) = (historyIndex e + 1)%Z
  /\ selectedObjects (redo e) = []
  /\ Some (getCurrentState (redo e)) = array_get (history e) (historyIndex e + 1).
Proof.
  intros (R & S & F) P. unfold redo.
  destruct (Z.ltb_spec (historyIndex e) (Z.of_nat (List.length (history e)) - 1)); [| lia].
  destruct (restore_inStep e (historyIndex e + 1) F ltac:(lia)) as (T & Sel & C).
  split; [exact T |]. split; [now rewrite restoreState_history |].
  split; [now rewrite restoreState_historyIndex |]. split; [exact Sel | exact C].
Qed.

Lemma getCurrentState_document (e e' : Engine) :
  Some (getCurrentState e') = Some (getCurrentState e) -> document e' = document e.
Proof. unfold getCurrentState, document. intros H. now injection H as -> ->. Qed.

Lemma inStep_round_trips (e : Engine) :
  inStep e ->
  ((0 < historyIndex e)%Z -> document (redo (undo e)) = document e)
  /\ ((historyIndex e < Z.of_nat (List.length (history e)) - 1)%Z ->
      document (undo (redo e)) = document e).
Proof.
  intros T. pose proof T as (R & S & F). split; intros P.
  - destruct (undo_restores e T P) as (Tu & Hu & Iu & _ & _).
    destruct (redo_restores (undo e) Tu ltac:(rewrite Hu, Iu; lia)) as (_ & _ & _ & _ & C).
    apply getCurrentState_document. rewrite C, Hu, Iu, <- S. f_equal. lia.
  - destruct (redo_restores e T P) as (Tr & Hr & Ir & _ & _).
    destruct (undo_restores (redo e) Tr ltac:(rewrite Ir; lia)) as (_ & _ & _ & _ & C).
    apply getCurrentState_document. rewrite C, Hr, Ir, <- S. f_equal. lia.
Qed.

(** X2: in every reachable state, also in the middle of the history, a step
    back followed by a step forward gives the document back when a step back
    is possible, and a step forward followed by a step back gives it back when
    a step forward is possible. *)
Theorem history_walk_round_trips (innerWidth innerHeight : Q) (ops : list Op) :
  let e := run ops (mountedEngine innerWidth innerHeight) in
  ((0 < historyIndex e)%Z -> document (redo (undo e)) = document e)
  /\ ((historyIndex e < Z.of_nat (List.length (history e)) - 1)%Z ->
      document (undo (redo e)) = document e).
Proof. intros e. apply inStep_round_trips, run_inStep. Qed.

(** The entry before the new one, after a snapshot. *)
Lemma keptEntries_firstn (e : Engine) :
  (0 <= historyIndex e < Z.of_nat (List.length (history e)))%Z ->
  keptEntries e = firstn (Z.to_nat (historyIndex e + 1)) (history e).
Proof.
  intros R. unfold keptEntries.
  destruct (Z.ltb_spec (historyIndex e) (Z.of_nat (List.length (history e)) - 1)).
  - apply slice0_nonneg. lia.
  - symmetry. apply firstn_all2. lia.
Qed.

Lemma addToHistory_previous (e : Engine) :
  (0 <= historyIndex e < Z.of_nat (List.length (history e)))%Z ->
  (0 < historyIndex (addToHistory e))%Z
  /\ array_get (history (addToHistory e)) (historyIndex (addToHistory e) - 1)
     = array_get (history e) (historyIndex e).
Proof.
  intros R. rewrite addToHistory_history, addToHistory_historyIndex, (keptEntries_firstn e R).
  set (k := firstn (Z.to_nat (historyIndex e + 1)) (history e)).
  assert (Lk : List.length k = Z.to_nat (historyIndex e + 1))
    by (subst k; rewrite length_firstn; lia).
  assert (Gk : array_get k (historyIndex e) = array_get (history e) (historyIndex e)).
  { unfold array_get. destruct (Z.ltb_spec (historyIndex e) 0); [lia |].
    subst k. rewrite nth_error_firstn.
    destruct (Nat.ltb_spec (Z.to_nat (historyIndex e)) (Z.to_nat (historyIndex e + 1)));
      [reflexivity | lia]. }
  rewrite length_app. simpl List.length.
  destruct (Z.ltb_spec 50 (Z.of_nat (List.length k + 1))).
  - split; [lia |]. rewrite array_get_tl by lia.
    replace (Z.of_nat (List.length k + 1) - 1 - 1 - 1 + 1)%Z with (historyIndex e) by lia.
    rewrite array_get_app1 by lia. exact Gk.
  - split; [lia |].
    replace (Z.of_nat (List.length k + 1) - 1 - 1)%Z with (historyIndex e) by lia.
    rewrite array_get_app1 by lia. exact Gk.
Qed.

(** One step back after a snapshot restores the document the history
    pointed at before. *)
Lemma undo_after_snapshot (e e0 e' : Engine) :
  inStep e -> history e0 = history e -> historyIndex e0 = historyIndex e ->
  docHist e' = docHist (addToHistory e0) ->
  document (undo e') = document e /\ selectedObjects (undo e') = [].
Proof.
  intros (R & S & F) H I D.
  assert (T' : inStep e').
  { apply inStep_ext with (addToHistory e0); [exact D |].
    apply addToHistory_inStep. now rewrite H. }
  destruct (addToHistory_previous e0 ltac:(rewrite H, I; exact R)) as (P & G).
  unfold docHist in D. injection D as _ _ Dh Di.
  destruct (undo_restores e' T' ltac:(rewrite Di; exact P)) as (_ & _ & _ & Sel & C).
  split; [| exact Sel].
  apply getCurrentState_document. rewrite C, Dh, Di, G, H, I. exact S.
Qed.

(** ** One operation, at most one snapshot *)

Lemma oneEdit_after (e e1 e2 : Engine) :
  docHist e1 = docHist e -> oneEdit e1 e2 -> oneEdit e e2.
Proof.
  intros H [S | (e0 & H0 & I0 & D)]; [left; congruence |].
  right. exists e0. unfold docHist in H. injection H as _ _ Hh Hi.
  split; [congruence | split; [congruence | exact D]].
Qed.

Lemma oneEdit_before (e e1 e2 : Engine) :
  oneEdit e e1 -> docHist e2 = docHist e1 -> oneEdit e e2.
Proof.
  intros [S | (e0 & H0 & I0 & D)] H; [left; congruence |].
  right. exists e0. split; [exact H0 | split; [exact I0 | congruence]].
Qed.

Lemma oneEdit_snapshot (e e0 : Engine) :
  history e0 = history e -> historyIndex e0 = historyIndex e -> oneEdit e (addToHistory e0).
Proof. intros H I. right. now exists e0. Qed.

Ltac unchanged := left; frame.
Ltac recorded := apply oneEdit_snapshot; reflexivity.

Lemma pasteSelection_oneEdit (gen : nat -> string) (e : Engine) :
  oneEdit e (pasteSelection gen e).
Proof. unfold pasteSelection. destruct (clipboard e); [unchanged | recorded]. Qed.

Lemma moveSelectionInternal_oneEdit (dx dy : Q) (e : Engine) :
  oneEdit e (moveSelectionInternal dx dy e).
Proof.
  unfold moveSelectionInternal.
  destruct (fold_left _ _ (_, false)) as [m moved]. destruct moved; [recorded | unchanged].
Qed.

Lemma copySelection_docHist (e : Engine) : docHist (copySelection e) = docHist e.
Proof. unfold copySelection. destruct (selectedObjects e); reflexivity. Qed.

Lemma handleEditorClick_oneEdit (ev : MouseEvt) (isDrag : bool) (newId : string)
    (e : Engine) :
  oneEdit e (handleEditorClick ev isDrag newId e).
Proof.
  unfold handleEditorClick.
  set (e1 := if isPastedSelection e then set_isPastedSelection false e else e).
  assert (H1 : docHist e1 = docHist e) by (subst e1; frame).
  apply oneEdit_after with e1; [exact H1 |]. clearbody e1.
  destruct (ObjectType_eqb (fst (selectedToolRef e1)) TOOL).
  - destruct (boxSelectStart e1); unchanged.
  - destruct (ObjectType_eqb (fst (selectedToolRef e1)) DELETE).
    + destruct (isDrag && _); [unchanged |].
      destruct (findLastIndex _ _); [| unchanged].
      eapply oneEdit_before; [| apply docHist_set_lastDeletePos]. recorded.
    + destruct (ObjectType_eqb (fst (selectedToolRef e1)) START_POS && _); [unchanged |].
      destruct (_ || _); [recorded | unchanged].
Qed.

Lemma onKeyDown_oneEdit (ev : KeyEvt) (gen : nat -> string) (e : Engine) :
  isHistoryNav (KeyDown ev gen) = false -> oneEdit e (onKeyDown ev gen e).
Proof.
  simpl isHistoryNav. intros N. unfold onKeyDown.
  set (e1 := set_keys (set_add (keys e) (code ev)) e).
  apply oneEdit_after with e1; [reflexivity |]. clearbody e1.
  destruct (inEditorOrPaused (modeRef e1)); [| unchanged].
  destruct (k_ctrlKey ev && negb (k_repeat ev)) eqn:C; simpl in N.
  - destruct (String.eqb (code ev) "KeyZ"); [discriminate |].
    destruct (String.eqb (code ev) "KeyY"); [discriminate |].
    destruct (String.eqb (code ev) "KeyC") eqn:Kc.
    + apply String.eqb_eq in Kc. rewrite Kc. simpl.
      apply oneEdit_before with e1; [unchanged |].
      destruct (selectedObjects (copySelection e1)); now rewrite copySelection_docHist.
    + destruct (String.eqb (code ev) "KeyV") eqn:Kv.
      * apply String.eqb_eq in Kv. rewrite Kv. simpl.
        destruct (selectedObjects (pasteSelection gen e1)); apply pasteSelection_oneEdit.
      * destruct (selectedObjects e1); [unchanged |].
        match goal with
        | |- context [match ?s with pair _ _ => _ end] => destruct s as [dx dy]
        end.
        destruct (negb (Qeq_bool dx 0) || negb (Qeq_bool dy 0));
          [apply moveSelectionInternal_oneEdit | unchanged].
  - destruct (selectedObjects e1); [unchanged |].
    match goal with
    | |- context [match ?s with pair _ _ => _ end] => destruct s as [dx dy]
    end.
    destruct (negb (Qeq_bool dx 0) || negb (Qeq_bool dy 0));
      [apply moveSelectionInternal_oneEdit | unchanged].
Qed.

Lemma step_oneEdit (op : Op) (e : Engine) :
  isHistoryNav op = false -> resetsHistory op = false -> oneEdit e (step op e).
Proof.
  intros N R. destruct op; simpl step; try discriminate.
  - left. destruct (loopRunning e); [apply update_docHist | reflexivity].
  - now apply onKeyDown_oneEdit.
  - unfold onKeyUp. unchanged.
  - unfold onMouseDown.
    match goal with
    | |- oneEdit _ (if _ then _ else if _ then if _ then _ else handleEditorClick _ _ _ ?x
                    else _) =>
        apply oneEdit_after with x; [frame |]
    end.
    destruct (button ev =? 2)%Z; [unchanged |].
    destruct (inEditorOrPaused _); [| unchanged].
    destruct (ObjectType_eqb _ TOOL); [unchanged | apply handleEditorClick_oneEdit].
  - unfold onMouseUp.
    match goal with
    | |- oneEdit _ (if _ then if _ then handleEditorClick _ _ _ ?x else _ else _) =>
        apply oneEdit_after with x; [destruct (button ev =? 2)%Z; frame |]
    end.
    destruct (_ && _); [| unchanged].
    destruct (ObjectType_eqb _ TOOL); [apply handleEditorClick_oneEdit | unchanged].
  - unfold onMouseMove.
    match goal with
    | |- context [handleEditorClick _ _ _ ?x] => apply oneEdit_after with x; [frame |]
    end.
    destruct (_ || _); [| unchanged].
    destruct (mouseIsRightDown _); [unchanged |].
    destruct (mouseIsDown _); [| unchanged].
    destruct (_ && _); [apply handleEditorClick_oneEdit | unchanged].
  - unfold onWheel. unchanged.
  - unfold resize. unchanged.
  - unfold setLevel. destruct keepHistory; [destruct data; recorded | discriminate].
  - unfold updateSettings. recorded.
  - unfold updateSelectedTrigger. destruct (findIndex _ _); [| unchanged].
    destruct (nth_error _ _); [recorded | unchanged].
  - unfold updateSelectedStartPos. destruct (findIndex _ _); [| unchanged].
    destruct (nth_error _ _); [recorded | unchanged].
  - apply moveSelectionInternal_oneEdit.
  - unfold rotateSelection. destruct (selectedObjects e) as [| id [| id' rest]]; [unchanged | |].
    + destruct (js_find _ _); recorded.
    + recorded.
  - unfold deleteSelection. recorded.
  - unfold deselectAll. unchanged.
  - unfold clearLevel. recorded.
  - unfold duplicateSelection.
    apply oneEdit_after with (copySelection e); [apply copySelection_docHist |].
    apply pasteSelection_oneEdit.
  - unfold resetPlayer. unchanged.
  - unchanged.
  - left. apply onRestartVerify_docHist.
  - unfold handleToolSelect. unchanged.
  - left. apply deathTimeout_docHist.
Qed.

Lemma docHist_document (e e' : Engine) : docHist e' = docHist e -> document e' = document e.
Proof. unfold docHist, document. intros H. injection H as H1 H2 _ _. now rewrite H1, H2. Qed.

(** X3: in every reachable state, an operation that changes the objects or
    the settings of the document, other than undo, redo and a load that starts
    the history afresh, is reverted by one undo: the document is again what it
    was before the operation. *)
Theorem undo_reverts_operation (innerWidth innerHeight : Q) (ops : list Op) (op : Op) :
  isHistoryNav op = false -> resetsHistory op = false ->
  let e := run ops (mountedEngine innerWidth innerHeight) in
  document (step op e) <> document e ->
  document (undo (step op e)) = document e.
Proof.
  intros N R e C.
  destruct (step_oneEdit op e N R) as [S | (e0 & H0 & I0 & D)].
  - elim C. now apply docHist_document.
  - apply (undo_after_snapshot e e0 (step op e)); auto. apply run_inStep.
Qed.

(** X4: a snapshot ends the history: a redo right after it changes nothing,
    whatever the state was; and when the index pointed inside a history that
    is not full, the entries after the index are gone and the entries up to
    it are kept. *)
Theorem snapshot_discards_redo (e : Engine) :
  redo (addToHistory e) = addToHistory e
  /\ ((0 <= historyIndex e < Z.of_nat (List.length (history e)))%Z ->
      (historyIndex e < 49)%Z ->
      history (addToHistory e)
      = firstn (Z.to_nat (historyIndex e + 1)) (history e) ++ [getCurrentState e]).
Proof.
  split.
  - destruct (addToHistory_atTip e) as (I & _ & _). unfold redo.
    destruct (Z.ltb_spec (historyIndex (addToHistory e))
                (Z.of_nat (List.length (history (addToHistory e))) - 1)); [lia | reflexivity].
  - intros R C. rewrite addToHistory_history, (keptEntries_firstn e R).
    rewrite length_app, length_firstn. simpl List.length.
    destruct (Z.ltb_spec 50 (Z.of_nat (Nat.min (Z.to_nat (historyIndex e + 1))
                                          (List.length (history e)) + 1)));
      [lia | reflexivity].
Qed.

(** X5: whenever the document is replaced or objects are removed through
    the handle (a load, a clearing of the level, a deletion of the selection, a
    reset of the player) the selection is empty afterwards; and in every
    reachable state so it is after an undo or a redo that moves in the
    history. *)
Theorem replacement_clears_selection (innerWidth innerHeight : Q) (ops : list Op) :
  let e := run ops (mountedEngine innerWidth innerHeight) in
  (forall data keepHistory, selectedObjects (setLevel data keepHistory e) = [])
  /\ selectedObjects (clearLevel e) = []
  /\ selectedObjects (deleteSelection e) = []
  /\ (forall forVerify, selectedObjects (resetPlayer forVerify e) = [])
  /\ ((0 < historyIndex e)%Z -> selectedObjects (undo e) = [])
  /\ ((historyIndex e < Z.of_nat (List.length (history e)) - 1)%Z ->
      selectedObjects (redo e) = []).
Proof.
  intros e. pose proof (run_inStep innerWidth innerHeight ops) as T. fold e in T.
  split; [| split; [| split; [| split; [| split]]]].
  - intros data keep. unfold setLevel.
    destruct keep; [rewrite addToHistory_selectedObjects |]; destruct data; reflexivity.
  - unfold clearLevel. now rewrite addToHistory_selectedObjects.
  - unfold deleteSelection. now rewrite addToHistory_selectedObjects.
  - intros forVerify. unfold resetPlayer, resetPlayerInternal.
    repeat match goal with
           | |- context [match ?s with pair _ _ => _ end] => destruct s
           end.
    repeat break_if; reflexivity.
  - intros P. apply (undo_restores e T P).
  - intros P. apply (redo_restores e T P).
Qed.

(** ** The simulation and the selection *)

Ltac keep :=
  repeat first
    [ progress cbn [flowEngine fst]
    | progress autorewrite with selection
    | break_if ];
  try reflexivity.

Lemma die_selection (e : Engine) : selectedObjects (die e) = selectedObjects e.
Proof. unfold die. keep. Qed.

#[local] Hint Rewrite die_selection : selection.

Lemma jump_selection (e : Engine) : selectedObjects (jump e) = selectedObjects e.
Proof. unfold jump. keep. Qed.

#[local] Hint Rewrite jump_selection : selection.

Lemma cubePhysics_selection (e : Engine) :
  selectedObjects (flowEngine (cubePhysics e)) = selectedObjects e.
Proof. unfold cubePhysics. keep. Qed.

Lemma shipPhysics_selection (b : bool) (e : Engine) :
  selectedObjects (shipPhysics b e) = selectedObjects e.
Proof. unfold shipPhysics. keep. Qed.

Lemma fireTrigger_selection (obj : LevelObject) (td : TriggerData) (e : Engine) :
  selectedObjects (fireTrigger obj td e) = selectedObjects e.
Proof. unfold fireTrigger. keep. Qed.

#[local] Hint Rewrite shipPhysics_selection fireTrigger_selection : selection.

Lemma shipBlock_selection (top bot : Q) (e : Engine) :
  selectedObjects (flowEngine (shipBlock top bot e)) = selectedObjects e.
Proof. unfold shipBlock. keep. Qed.

Lemma cubeBlock_selection (top bot : Q) (e : Engine) :
  selectedObjects (flowEngine (cubeBlock top bot e)) = selectedObjects e.
Proof. unfold cubeBlock. keep. Qed.

#[local] Hint Rewrite shipBlock_selection cubeBlock_selection : selection.

Lemma collideBlock_selection (obj : LevelObject) (e : Engine) :
  selectedObjects (flowEngine (collideBlock obj e)) = selectedObjects e.
Proof. unfold collideBlock. keep. Qed.

Lemma collidePad_selection (obj : LevelObject) (e : Engine) :
  selectedObjects (collidePad obj e) = selectedObjects e.
Proof. unfold collidePad. keep. Qed.

Lemma collideOrb_selection (a b : bool) (obj : LevelObject) (e : Engine) :
  selectedObjects (collideOrb a b obj e) = selectedObjects e.
Proof. unfold collideOrb. keep. Qed.

Lemma collidePortal_selection (obj : LevelObject) (e : Engine) :
  selectedObjects (collidePortal obj e) = selectedObjects e.
Proof. unfold collidePortal. keep. Qed.

#[local] Hint Rewrite collideBlock_selection collidePad_selection collideOrb_selection
  collidePortal_selection : selection.

Lemma collideObject_selection (a b : bool) (r c : Q) (e : Engine) (obj : LevelObject) :
  selectedObjects (flowEngine (collideObject a b r c e obj)) = selectedObjects e.
Proof.
  unfold collideObject.
  destruct (if ObjectType_eqb (o_type obj) TRIGGER then o_triggerData obj else None).
  - keep.
  - destruct (o_type obj); keep.
Qed.

Lemma objectLoop_selection (a b : bool) (r c : Q) (objs : list LevelObject) (e : Engine) :
  selectedObjects (flowEngine (objectLoop a b r c objs e)) = selectedObjects e.
Proof.
  revert e. induction objs as [| obj rest IH]; intros e; simpl; [reflexivity |].
  pose proof (collideObject_selection a b r c e obj) as H.
  destruct (collideObject a b r c e obj) as [e' | e']; simpl in H.
  - now rewrite IH.
  - exact H.
Qed.

Lemma afterObjects_selection (b : bool) (e : Engine) :
  selectedObjects (afterObjects b e) = selectedObjects e.
Proof. unfold afterObjects. keep. Qed.

Lemma beforeObjects_selection (e : Engine) :
  selectedObjects (flowEngine (beforeObjects e)) = selectedObjects e.
Proof.
  unfold beforeObjects.
  match goal with
  | |- context [if vehicle_is ?v CUBE then cubePhysics ?x else ?y] =>
      pose proof (cubePhysics_selection x) as H;
      destruct (vehicle_is v CUBE); [destruct (cubePhysics x); simpl in H |]
  end; keep; rewrite ?H; keep.
Qed.

Lemma resetPlayerInternal_selection (forVerify : bool) (e : Engine) :
  selectedObjects (resetPlayerInternal forVerify e) = [].
Proof.
  unfold resetPlayerInternal.
  match goal with
  | |- context [match ?s with pair _ _ => _ end] => destruct s as [[[? ?] ?] ?]
  end.
  keep.
Qed.

Lemma modeEffects_selection (m : GameMode) (e : Engine) :
  selectedObjects (modeEffects m e) = selectedObjects e.
Proof. unfold modeEffects. keep. Qed.

#[local] Hint Rewrite afterObjects_selection modeEffects_selection : selection.

Lemma keepsOrClears_refl (e e' : Engine) :
  docHist e' = docHist e -> selectedObjects e' = selectedObjects e -> keepsOrClears e e'.
Proof. intros D S. split; [| now left]. unfold docHist in D. now injection D. Qed.

Lemma keepsOrClears_reset (e e' : Engine) :
  docHist e' = docHist e -> selectedObjects e' = [] -> keepsOrClears e e'.
Proof. intros D S. split; [| now right]. unfold docHist in D. now injection D. Qed.

Lemma keepsOrClears_trans (e1 e2 e3 : Engine) :
  keepsOrClears e1 e2 -> keepsOrClears e2 e3 -> keepsOrClears e1 e3.
Proof.
  intros (L1 & S1) (L2 & S2). split; [congruence |].
  destruct S2 as [S2 | S2]; [| now right]. destruct S1; [left | right]; congruence.
Qed.

Lemma keepsOrClears_valid (e e' : Engine) :
  keepsOrClears e e' -> selectionValid e -> selectionValid e'.
Proof.
  intros (L & [S | S]) V id; rewrite L, S; [apply V | contradiction].
Qed.

Lemma resetPlayerInternal_keepsOrClears (forVerify : bool) (e : Engine) :
  keepsOrClears e (resetPlayerInternal forVerify e).
Proof.
  apply keepsOrClears_reset;
    [apply resetPlayerInternal_docHist | apply resetPlayerInternal_selection].
Qed.

Lemma modeEffects_keepsOrClears (m : GameMode) (e e' : Engine) :
  keepsOrClears e e' -> keepsOrClears e (modeEffects m e').
Proof.
  intros K. apply keepsOrClears_trans with e'; [exact K |].
  apply keepsOrClears_refl; [apply modeEffects_docHist | apply modeEffects_selection].
Qed.

Lemma keepsOrClears_same (e : Engine) : keepsOrClears e e.
Proof. now apply keepsOrClears_refl. Qed.

Lemma handleModeChange_keepsOrClears (m : GameMode) (e : Engine) :
  keepsOrClears e (handleModeChange m e).
Proof.
  unfold handleModeChange, resetPlayer.
  repeat break_if;
    repeat match goal with
           | |- keepsOrClears _ (modeEffects _ _) => apply modeEffects_keepsOrClears
           | |- keepsOrClears _ (resetPlayerInternal _ _) =>
               apply resetPlayerInternal_keepsOrClears
           | |- keepsOrClears ?x ?x => apply keepsOrClears_same
           end.
Qed.

Lemma updatePhysics_keepsOrClears (e : Engine) : keepsOrClears e (updatePhysics e).
Proof.
  unfold updatePhysics, onModeChange.
  destruct (p_dead (player e)); [apply keepsOrClears_same |].
  destruct (p_finished (player e) && GameMode_eqb (modeRef e) VERIFY).
  { repeat break_if; try apply keepsOrClears_same.
    - eapply keepsOrClears_trans; [| apply handleModeChange_keepsOrClears].
      now apply keepsOrClears_refl.
    - now apply keepsOrClears_refl. }
  destruct (GameMode_eqb (modeRef e) VERIFY && Qltb (finishWallX e) (p_x (player e)));
    [now apply keepsOrClears_refl |].
  pose proof (beforeObjects_docHist e) as D1.
  pose proof (beforeObjects_selection e) as S1.
  destruct (beforeObjects e) as [e1 | e1]; simpl in D1, S1;
    [| now apply keepsOrClears_refl].
  match goal with
  | |- context [objectLoop ?a ?b ?r ?c ?l ?x] =>
      pose proof (objectLoop_docHist a b r c l x) as D2;
      pose proof (objectLoop_selection a b r c l x) as S2;
      destruct (objectLoop a b r c l x) as [e2 | e2]; simpl in D2, S2
  end.
  - apply keepsOrClears_refl;
      [now rewrite afterObjects_docHist, D2 | now rewrite afterObjects_selection, S2].
  - apply keepsOrClears_refl; congruence.
Qed.

Lemma applyEffects_selection (effs : list ColorEffect) (e : Engine) :
  selectedObjects (fst (applyEffects effs e)) = selectedObjects e.
Proof.
  revert e. induction effs as [| eff rest IH]; intros e; simpl; [reflexivity |].
  unfold applyEffect. destruct (interpolateColor _ _ _); [| reflexivity].
  rewrite IH. keep.
Qed.

Lemma gameplayColors_selection (e : Engine) :
  selectedObjects (fst (gameplayColors e)) = selectedObjects e.
Proof. unfold gameplayColors. rewrite applyEffects_selection. keep. Qed.

Lemma editorColors_selection (w z : Q) (e : Engine) :
  selectedObjects (fst (editorColors w z e)) = selectedObjects e.
Proof. unfold editorColors. destruct (previewTriggers _ _ _); reflexivity. Qed.

Lemma animateBounds_selection (e : Engine) :
  selectedObjects (animateBounds e) = selectedObjects e.
Proof. unfold animateBounds. keep. Qed.

Lemma moveCamera_selection (m : GameMode) (w h z : Q) (e : Engine) :
  selectedObjects (moveCamera m w h z e) = selectedObjects e.
Proof. unfold moveCamera. keep. Qed.

#[local] Hint Rewrite animateBounds_selection moveCamera_selection : selection.

Lemma update_keepsOrClears (e : Engine) : keepsOrClears e (update e).
Proof.
  unfold update.
  set (e1 := if _ || _ then set_camera _ e else e).
  assert (K1 : keepsOrClears e e1) by (subst e1; break_if; now apply keepsOrClears_refl).
  set (e2 := if _ && pendingReset e1 then _ else e1).
  assert (K2 : keepsOrClears e e2).
  { apply keepsOrClears_trans with e1; [exact K1 |]. subst e2. break_if.
    - eapply keepsOrClears_trans; [| apply resetPlayerInternal_keepsOrClears].
      now apply keepsOrClears_refl.
    - apply keepsOrClears_same. }
  clearbody e2. clear K1. clearbody e1.
  match goal with
  | |- context [match ?s with pair _ _ => _ end] =>
      assert (K3 : keepsOrClears e (fst s));
      [| destruct s as [e3 thrown]; simpl in K3; destruct thrown ]
  end.
  - apply keepsOrClears_trans with e2; [exact K2 |].
    repeat break_if; cbn [fst];
      apply keepsOrClears_refl;
      rewrite ?editorColors_docHist, ?gameplayColors_docHist, ?editorColors_selection,
        ?gameplayColors_selection; keep; frame.
  - eapply keepsOrClears_trans; [exact K3 |]. now apply keepsOrClears_refl.
  - eapply keepsOrClears_trans; [exact K3 |].
    break_if.
    + eapply keepsOrClears_trans; [apply updatePhysics_keepsOrClears |].
      apply keepsOrClears_refl; [frame | keep].
    + apply keepsOrClears_refl; [frame | keep].
Qed.

Lemma deathTimeout_keepsOrClears (e : Engine) : keepsOrClears e (deathTimeout e).
Proof.
  unfold deathTimeout, onModeChange. destruct (deathTimers e); [apply keepsOrClears_same |].
  repeat break_if.
  - eapply keepsOrClears_trans; [| apply resetPlayerInternal_keepsOrClears].
    now apply keepsOrClears_refl.
  - eapply keepsOrClears_trans; [| apply handleModeChange_keepsOrClears].
    now apply keepsOrClears_refl.
  - now apply keepsOrClears_refl.
  - now apply keepsOrClears_refl.
Qed.

Lemma onRestartVerify_keepsOrClears (e : Engine) : keepsOrClears e (onRestartVerify e).
Proof.
  unfold onRestartVerify, resetPlayer. break_if.
  - apply resetPlayerInternal_keepsOrClears.
  - apply modeEffects_keepsOrClears, resetPlayerInternal_keepsOrClears.
Qed.

(** ** The operations and the selection *)

Lemma selectionValid_empty (e : Engine) : selectedObjects e = [] -> selectionValid e.
Proof. intros S id. rewrite S. contradiction. Qed.

Lemma selectionValid_ext (e e' : Engine) :
  levelData e' = levelData e -> selectedObjects e' = selectedObjects e ->
  selectionValid e -> selectionValid e'.
Proof. intros L S V id. rewrite L, S. apply V. Qed.

Lemma addToHistory_valid (e : Engine) : selectionValid e -> selectionValid (addToHistory e).
Proof.
  apply selectionValid_ext; [apply addToHistory_levelData | apply addToHistory_selectedObjects].
Qed.

Lemma set_add_In (s : list string) (k id : string) :
  In id (set_add s k) <-> In id s \/ id = k.
Proof.
  unfold set_add. destruct (set_has s k) eqn:H.
  - apply set_has_In in H. split; [tauto | intros [I | ->]; assumption].
  - rewrite in_app_iff. simpl. intuition.
Qed.

Lemma set_delete_In (s : list string) (k id : string) : In id (set_delete s k) -> In id s.
Proof. unfold set_delete. intros H. now apply filter_In in H. Qed.

Lemma set_add_fold_In (l acc : list string) (id : string) :
  In id (fold_left set_add l acc) <-> In id acc \/ In id l.
Proof.
  revert acc. induction l as [| k l IH]; intros acc; simpl; [tauto |].
  rewrite IH, set_add_In. intuition.
Qed.

Lemma restoreState_valid (s : option StateJson) (e : Engine) :
  selectionValid e -> selectionValid (restoreState s e).
Proof.
  intros V. unfold restoreState.
  destruct s as [[| | |] |]; try exact V; now apply selectionValid_empty.
Qed.

Lemma undo_valid (e : Engine) : selectionValid e -> selectionValid (undo e).
Proof. intros V. unfold undo. break_if; [apply restoreState_valid |]; exact V. Qed.

Lemma redo_valid (e : Engine) : selectionValid e -> selectionValid (redo e).
Proof. intros V. unfold redo. break_if; [apply restoreState_valid |]; exact V. Qed.

Lemma copySelection_valid (e : Engine) : selectionValid e -> selectionValid (copySelection e).
Proof. unfold copySelection. destruct (selectedObjects e) eqn:S; intros V; exact V. Qed.

Lemma pasteObjects_ids (gen : nat -> string) (i : nat) (l : list LevelObject) :
  map o_id (pasteObjects gen i l) = map gen (seq i (List.length l)).
Proof.
  revert i. induction l as [| o l IH]; intros i; simpl; [reflexivity |]. now rewrite IH.
Qed.

Lemma pasteSelection_valid (gen : nat -> string) (e : Engine) :
  selectionValid e -> selectionValid (pasteSelection gen e).
Proof.
  intros V. unfold pasteSelection. destruct (clipboard e) as [| c cs] eqn:C; [exact V |].
  apply addToHistory_valid. intros id. cbn [selectedObjects levelData set_isPastedSelection
    set_selectedObjects set_levelData].
  rewrite set_add_fold_In, map_app, in_app_iff. intros [[] | I]. now right.
Qed.

(** The identifiers of a map built from the objects, and of its values. *)
Lemma map_set_keys {A : Type} (m : list (string * A)) (k k' : string) (v : A) :
  In k' (map fst (map_set m k v)) <-> In k' (map fst m) \/ k' = k.
Proof.
  induction m as [| [k0 v0] m IH]; simpl; [intuition |].
  destruct (String.eqb_spec k k0) as [-> | N]; simpl; [intuition | rewrite IH; intuition].
Qed.

Lemma map_set_entries {A : Type} (m : list (string * A)) (k k' : string) (v v' : A) :
  In (k', v') (map_set m k v) -> In (k', v') m \/ (k' = k /\ v' = v).
Proof.
  induction m as [| [k0 v0] m IH]; simpl.
  - intros [E | []]. injection E as <- <-. now right.
  - destruct (String.eqb_spec k k0) as [-> | N]; simpl.
    + intros [E | I]; [injection E as <- <-; now right | now left; right].
    + intros [E | I]; [now left; left | destruct (IH I); [left; now right | now right]].
Qed.

Lemma map_of_list_objects (objs : list LevelObject) :
  let m := map_of_list (map (fun o => (o_id o, o)) objs) in
  keyed m /\ forall id, In id (map fst m) <-> In id (map o_id objs).
Proof.
  unfold map_of_list.
  assert (G : forall acc,
             keyed acc ->
             let m := fold_left (fun m kv => map_set m (fst kv) (snd kv))
                        (map (fun o => (o_id o, o)) objs) acc in
             keyed m /\ forall id, In id (map fst m)
                                   <-> In id (map fst acc) \/ In id (map o_id objs)).
  { induction objs as [| o objs IH]; intros acc K; simpl; [split; [exact K | tauto] |].
    destruct (IH (map_set acc (o_id o) o)) as (K' & I').
    - intros k v I. destruct (map_set_entries _ _ _ _ _ I) as [I0 | [-> ->]];
        [now apply K | reflexivity].
    - split; [exact K' |]. intros id. rewrite I', map_set_keys. intuition. }
  destruct (G [] ltac:(intros k v [])) as (K & I). split; [exact K |].
  intros id. rewrite I. simpl. tauto.
Qed.

Lemma map_get_Some_In {A : Type} (m : list (string * A)) (k : string) (v : A) :
  map_get m k = Some v -> In k (map fst m).
Proof.
  intros G. destruct (in_dec string_dec k (map fst m)) as [I | N]; [exact I |].
  apply map_get_None in N. congruence.
Qed.

Lemma map_get_Some_entry {A : Type} (m : list (string * A)) (k : string) (v : A) :
  map_get m k = Some v -> In (k, v) m.
Proof.
  induction m as [| [k0 v0] m IH]; simpl; [discriminate |].
  destruct (String.eqb_spec k k0) as [-> | N].
  - intros E. injection E as ->. now left.
  - intros E. right. now apply IH.
Qed.

Lemma moveOne_fold_keys (adj dy : Q) (sel : list string) (m : list (string * LevelObject))
    (b : bool) :
  keyed m ->
  let m' := fst (fold_left (moveOne adj dy) sel (m, b)) in
  keyed m' /\ forall id, In id (map fst m') <-> In id (map fst m).
Proof.
  revert m b. induction sel as [| k sel IH]; intros m b K; simpl fold_left;
    [split; [exact K | tauto] |].
  unfold moveOne at 2. cbn [fst]. destruct (map_get m k) as [obj |] eqn:G.
  - pose proof (K _ _ (map_get_Some_entry _ _ _ G)) as Ko.
    destruct (IH (map_set m k (moveObject adj dy obj)) true) as (K' & I').
    + intros k' v I. destruct (map_set_entries _ _ _ _ _ I) as [I0 | [-> ->]];
        [now apply K | now rewrite moveObject_id].
    + split; [exact K' |]. intros id. rewrite I', map_set_keys.
      pose proof (map_get_Some_In _ _ _ G). intuition congruence.
  - destruct (IH m b K) as (K' & I'). now split.
Qed.

Lemma keyed_ids (m : list (string * LevelObject)) (id : string) :
  keyed m -> (In id (map o_id (map_values m)) <-> In id (map fst m)).
Proof.
  intros K. unfold map_values. rewrite map_map, !in_map_iff. split.
  - intros ([k v] & E & I). exists (k, v). split; [| exact I].
    simpl in *. rewrite <- E. symmetry. now apply K.
  - intros ([k v] & E & I). exists (k, v). split; [| exact I].
    simpl in *. rewrite <- E. now apply K.
Qed.

Lemma moveSelectionInternal_ids (dx dy : Q) (e : Engine) (id : string) :
  In id (map o_id (levelData (moveSelectionInternal dx dy e)))
  <-> In id (map o_id (levelData e)).
Proof.
  unfold moveSelectionInternal.
  destruct (map_of_list_objects (levelData e)) as (K & I).
  set (m := map_of_list (map (fun o => (o_id o, o)) (levelData e))) in *.
  set (adj := fold_left (adjustDx m) (selectedObjects e) dx).
  destruct (moveOne_fold_keys adj dy (selectedObjects e) m false K) as (K' & I').
  destruct (fold_left (moveOne adj dy) (selectedObjects e) (m, false)) as [m' moved].
  cbn [fst] in K', I'. destruct moved; [| tauto].
  rewrite addToHistory_levelData. cbn [levelData set_levelData].
  now rewrite (keyed_ids m' id K'), I', I.
Qed.

Lemma moveSelectionInternal_selection (dx dy : Q) (e : Engine) :
  selectedObjects (moveSelectionInternal dx dy e) = selectedObjects e.
Proof.
  unfold moveSelectionInternal.
  destruct (fold_left _ _ (_, false)) as [m moved]. destruct moved; [| reflexivity].
  now rewrite addToHistory_selectedObjects.
Qed.

Lemma moveSelectionInternal_valid (dx dy : Q) (e : Engine) :
  selectionValid e -> selectionValid (moveSelectionInternal dx dy e).
Proof.
  intros V id. rewrite moveSelectionInternal_selection, moveSelectionInternal_ids. apply V.
Qed.

Lemma array_set_ids (l : list LevelObject) (i : nat) (obj obj' : LevelObject) :
  nth_error l i = Some obj -> o_id obj' = o_id obj ->
  map o_id (array_set l i obj') = map o_id l.
Proof.
  revert i. induction l as [| a l IH]; intros [| i]; simpl; try discriminate.
  - intros E H. injection E as ->. now rewrite H.
  - intros E H. now rewrite IH.
Qed.

Lemma box_select_In (test : LevelObject -> bool) (objs : list LevelObject)
    (sel : list string) (id : string) :
  In id (fold_left (fun sel o => if test o then set_add sel (o_id o) else sel) objs sel) ->
  In id sel \/ In id (map o_id objs).
Proof.
  revert sel. induction objs as [| o objs IH]; intros sel; simpl; [tauto |].
  intros I. apply IH in I. destruct I as [I | I]; [| now right; right].
  destruct (test o); [| now left]. apply set_add_In in I. destruct I as [I | ->]; auto.
Qed.

Lemma handleEditorClick_valid (ev : MouseEvt) (isDrag : bool) (newId : string) (e : Engine) :
  fst (selectedToolRef e) <> DELETE ->
  selectionValid e -> selectionValid (handleEditorClick ev isDrag newId e).
Proof.
  intros T V. unfold handleEditorClick.
  set (e1 := if isPastedSelection e then set_isPastedSelection false e else e).
  assert (V1 : selectionValid e1) by (subst e1; now break_if).
  assert (T1 : fst (selectedToolRef e1) <> DELETE) by (subst e1; now break_if).
  clearbody e1. clear V T.
  destruct (ObjectType_eqb (fst (selectedToolRef e1)) TOOL).
  - destruct (boxSelectStart e1) as [start |]; [| exact V1].
    intros id. cbn [selectedObjects levelData set_boxSelectStart set_selectedObjects].
    set (sel := if negb (shiftKey ev) then [] else selectedObjects e1).
    assert (S : forall i, In i sel -> In i (map o_id (levelData e1)))
      by (subst sel; break_if; [intros i [] | exact V1]).
    clearbody sel. break_if.
    + destruct (js_find _ (levelData e1)) as [clicked |] eqn:F; [| apply S].
      apply find_some in F. destruct F as [F _].
      break_if; intros I.
      * apply S. now apply set_delete_In in I.
      * apply set_add_In in I. destruct I as [I | ->]; [now apply S | now apply in_map].
    + intros I. apply box_select_In in I. destruct I; auto.
  - destruct (ObjectType_eqb (fst (selectedToolRef e1)) DELETE) eqn:D.
    { apply ObjectType_eqb_eq in D. contradiction. }
    break_if; [exact V1 |]. break_if; [| exact V1].
    apply addToHistory_valid. intros id.
    cbn [selectedObjects levelData set_selectedObjects set_levelData].
    rewrite set_add_In, map_app, in_app_iff. intros [[] | ->]. right. now left.
Qed.

Lemma onKeyDown_valid (ev : KeyEvt) (gen : nat -> string) (e : Engine) :
  selectionValid e -> selectionValid (onKeyDown ev gen e).
Proof.
  intros V. unfold onKeyDown.
  set (e1 := set_keys (set_add (keys e) (code ev)) e).
  assert (V1 : selectionValid e1) by exact V. clearbody e1.
  destruct (inEditorOrPaused (modeRef e1)); [| exact V1].
  match goal with
  | |- selectionValid (match selectedObjects ?x with _ => _ end) =>
      set (e2 := x); assert (V2 : selectionValid e2)
  end.
  { subst e2. repeat break_if;
      first [ now apply undo_valid | now apply redo_valid | now apply copySelection_valid
            | now apply pasteSelection_valid | exact V1 ]. }
  clearbody e2. destruct (selectedObjects e2) eqn:S; [exact V2 |].
  match goal with
  | |- context [match ?s with pair _ _ => _ end] => destruct s as [dx dy]
  end.
  break_if; [now apply moveSelectionInternal_valid | exact V2].
Qed.

Lemma rotateSelection_valid (angle : Q) (relative : bool) (e : Engine) :
  selectionValid e -> selectionValid (rotateSelection angle relative e).
Proof.
  intros V. unfold rotateSelection.
  destruct (selectedObjects e) as [| id [| id' rest]] eqn:S; [exact V | |];
    apply addToHistory_valid; intros i;
    cbn [selectedObjects levelData set_levelData].
  - assert (Sel : selectedObjects
                    match js_find (fun o => String.eqb (o_id o) id) (levelData e) with
                    | Some obj => set_lastToolRotation (newRotation angle relative obj) e
                    | None => e
                    end = selectedObjects e) by (destruct (js_find _ _); reflexivity).
    assert (Lev : levelData
                    match js_find (fun o => String.eqb (o_id o) id) (levelData e) with
                    | Some obj => set_lastToolRotation (newRotation angle relative obj) e
                    | None => e
                    end = levelData e) by (destruct (js_find _ _); reflexivity).
    rewrite Sel, Lev, map_map. intros I. apply V in I.
    erewrite map_ext; [exact I |]. intros o. simpl. now break_if.
  - rewrite map_map. intros I. apply V in I.
    erewrite map_ext; [exact I |]. intros o. simpl. now break_if.
Qed.

Lemma updateSelectedTrigger_valid (data : TriggerData) (e : Engine) :
  selectionValid e -> selectionValid (updateSelectedTrigger data e).
Proof.
  intros V. unfold updateSelectedTrigger. destruct (findIndex _ _) as [i |]; [| exact V].
  destruct (nth_error _ _) as [obj |] eqn:N; [| exact V].
  apply addToHistory_valid. intros id. cbn [selectedObjects levelData set_levelData].
  rewrite (array_set_ids _ _ obj) by (exact N || reflexivity). apply V.
Qed.

Lemma updateSelectedStartPos_valid (data : StartPosData) (e : Engine) :
  selectionValid e -> selectionValid (updateSelectedStartPos data e).
Proof.
  intros V. unfold updateSelectedStartPos. destruct (findIndex _ _) as [i |]; [| exact V].
  destruct (nth_error _ _) as [obj |] eqn:N; [| exact V].
  apply addToHistory_valid. intros id. cbn [selectedObjects levelData set_levelData].
  rewrite (array_set_ids _ _ obj) by (exact N || reflexivity). apply V.
Qed.

Lemma setLevel_selection (data : LevelInput) (keep : bool) (e : Engine) :
  selectedObjects (setLevel data keep e) = [].
Proof.
  unfold setLevel. destruct keep; [rewrite addToHistory_selectedObjects |];
    destruct data; reflexivity.
Qed.

Lemma step_valid (op : Op) (e : Engine) :
  deletesByPoint op e = false -> selectionValid e -> selectionValid (step op e).
Proof.
  intros P V. destruct op; simpl step; simpl in P.
  - break_if; [| exact V]. exact (keepsOrClears_valid _ _ (update_keepsOrClears e) V).
  - now apply onKeyDown_valid.
  - exact V.
  - unfold onMouseDown. repeat break_if; try exact V.
    apply handleEditorClick_valid; [| exact V].
    intros T. cbn [selectedToolRef set_lastDeletePos set_mouseY set_mouseX set_mouseIsDown] in T.
    rewrite T in P. discriminate.
  - unfold onMouseUp.
    match goal with
    | |- selectionValid (if _ then if _ then handleEditorClick _ _ _ ?x else _ else _) =>
        assert (V1 : selectionValid x) by (break_if; exact V);
        destruct (_ && _); [| exact V1];
        destruct (ObjectType_eqb (fst (selectedToolRef x)) TOOL) eqn:T; [| exact V1];
        apply handleEditorClick_valid; [| exact V1];
        apply ObjectType_eqb_eq in T; rewrite T; discriminate
    end.
  - unfold onMouseMove. repeat break_if; try exact V.
    apply handleEditorClick_valid; [| exact V].
    intros T. cbn [selectedToolRef set_mouseY set_mouseX] in T. rewrite T in P. discriminate.
  - unfold onWheel. now break_if.
  - exact V.
  - apply selectionValid_empty, setLevel_selection.
  - unfold updateSettings. now apply addToHistory_valid.
  - now apply updateSelectedTrigger_valid.
  - now apply updateSelectedStartPos_valid.
  - now apply moveSelectionInternal_valid.
  - now apply rotateSelection_valid.
  - apply selectionValid_empty. unfold deleteSelection.
    now rewrite addToHistory_selectedObjects.
  - now apply selectionValid_empty.
  - apply selectionValid_empty. unfold clearLevel. now rewrite addToHistory_selectedObjects.
  - unfold duplicateSelection. now apply pasteSelection_valid, copySelection_valid.
  - apply selectionValid_empty, resetPlayerInternal_selection.
  - now apply undo_valid.
  - now apply redo_valid.
  - exact (keepsOrClears_valid _ _ (handleModeChange_keepsOrClears _ e) V).
  - exact (keepsOrClears_valid _ _ (onRestartVerify_keepsOrClears e) V).
  - exact V.
  - exact (keepsOrClears_valid _ _ (deathTimeout_keepsOrClears e) V).
Qed.

(** X6: every operation other than a press or a move of the mouse with the
    delete tool keeps the selection inside the document: when every selected
    identifier belongs to an object of the document before the operation, so
    it does afterwards. *)
Theorem selection_stays_in_document (op : Op) (e : Engine) :
  deletesByPoint op e = false ->
  (forall id, In id (selectedObjects e) -> In id (map o_id (levelData e))) ->
  forall id, In id (selectedObjects (step op e)) -> In id (map o_id (levelData (step op e))).
Proof. exact (step_valid op e). Qed.

(** ** Rotations stay normalised *)

Lemma Qtrunc_bounds (x : Q) : -1 < x - inject_Z (Qtrunc x) /\ x - inject_Z (Qtrunc x) < 1.
Proof.
  destruct x as [p q]. unfold Qtrunc, Qlt, Qminus, Qplus, Qopp, inject_Z. simpl.
  pose proof (Z.quot_rem' p (Zpos q)) as E.
  pose proof (Z.rem_bound_abs p (Zpos q) ltac:(discriminate)) as B.
  set (t := Z.quot p (Zpos q)) in *. set (r := Z.rem p (Zpos q)) in *.
  split; nia.
Qed.

(** The remainder is smaller than the divisor in absolute value. *)
Lemma js_rem_bounds (a n : Q) : 0 < n -> - n < js_rem a n /\ js_rem a n < n.
Proof.
  intros Hn. unfold js_rem.
  destruct (Qtrunc_bounds (a / n)) as [L U].
  set (t := inject_Z (Qtrunc (a / n))) in *.
  assert (E : a == n * (a / n)) by (field; lra).
  split; nra.
Qed.

Lemma Math_round_bounds (x : Q) (lo hi : Z) :
  inject_Z lo - 0.5 <= x -> x < inject_Z hi + 0.5 ->
  exists k : Z, Math_round x = inject_Z k /\ (lo <= k < hi + 1)%Z.
Proof.
  intros L U. unfold Math_round. exists (Qfloor (x + 0.5)). split; [reflexivity |].
  split.
  - rewrite <- (Qfloor_Z lo). apply Qfloor_resp_le. lra.
  - pose proof (Qfloor_le (x + 0.5)) as F.
    assert (H : inject_Z (Qfloor (x + 0.5)) < inject_Z (hi + 1)).
    { rewrite inject_Z_plus. change (inject_Z 1) with 1. lra. }
    rewrite <- Zlt_Qlt in H. exact H.
Qed.

(** The two normalising statements of [rotateSelection]: the remainder by
    360, lifted by 360 when negative. *)
Lemma normalised_angle (a : Q) :
  let r := js_rem a 360 in
  0 <= (if Qltb r 0 then r + 360 else r) /\ (if Qltb r 0 then r + 360 else r) < 360.
Proof.
  intros r. destruct (js_rem_bounds a 360 ltac:(lra)) as [L U]. fold r in L, U.
  destruct (Qltb r 0) eqn:N.
  - apply Qltb_lt in N. split; lra.
  - apply Qltb_ge in N. split; lra.
Qed.

Lemma newRotation_range (angle : Q) (relative : bool) (obj : LevelObject) :
  (o_type obj <> BLOCK ->
   0 <= newRotation angle relative obj /\ newRotation angle relative obj < 360)
  /\ (o_type obj = BLOCK ->
      exists k : Z, (0 <= k <= 4)%Z /\ newRotation angle relative obj = inject_Z k * 90).
Proof.
  unfold newRotation.
  set (a := if relative then num_or (o_rotation obj) 0 + angle else angle).
  destruct (normalised_angle a) as [L U].
  set (r := if Qltb (js_rem a 360) 0 then js_rem a 360 + 360 else js_rem a 360) in *.
  split; intros T.
  - apply ObjectType_eqb_neq in T. rewrite T. now split.
  - rewrite T. simpl ObjectType_eqb. cbv iota.
    destruct (Math_round_bounds (r / 90) 0 4) as (k & E & B).
    + change (inject_Z 0) with 0.
      assert (0 <= r / 90) by (apply Qle_shift_div_l; lra). lra.
    + change (inject_Z 4) with 4. apply Qlt_shift_div_r; lra.
    + exists k. rewrite E. split; [lia | reflexivity].
Qed.

Lemma rotateAround_range (centerX centerY angle : Q) (obj : LevelObject) :
  exists r, o_rotation (rotateAround centerX centerY angle obj) = Some r
            /\ 0 <= r /\ r < 360.
Proof.
  unfold rotateAround. eexists. split; [reflexivity |].
  apply (normalised_angle (num_or (o_rotation obj) 0 + angle)).
Qed.

Lemma rotateAround_id (centerX centerY angle : Q) (obj : LevelObject) :
  o_id (rotateAround centerX centerY angle obj) = o_id obj
  /\ o_type (rotateAround centerX centerY angle obj) = o_type obj.
Proof. split; reflexivity. Qed.

(** The rotations [rotateSelection] stores, in the exact arithmetic of the
    model. *)
Lemma rotateSelection_range (angle : Q) (relative : bool) (e : Engine)
    (obj : LevelObject) :
  In obj (levelData (rotateSelection angle relative e)) ->
  (set_has (selectedObjects e) (o_id obj) = true ->
   exists r, o_rotation obj = Some r
     /\ 0 <= r
     /\ ((o_type obj = BLOCK /\ List.length (selectedObjects e) = 1%nat
          /\ exists k : Z, (0 <= k <= 4)%Z /\ r = inject_Z k * 90)
         \/ ((o_type obj <> BLOCK \/ (1 < List.length (selectedObjects e))%nat) /\ r < 360)))
  /\ (set_has (selectedObjects e) (o_id obj) = false -> In obj (levelData e)).
Proof.
  unfold rotateSelection.
  destruct (selectedObjects e) as [| id [| id' rest]] eqn:S.
  - intros I. split; [discriminate | auto].
  - rewrite addToHistory_levelData. cbn [levelData set_levelData].
    replace (levelData match js_find (fun o => String.eqb (o_id o) id) (levelData e) with
                       | Some o => set_lastToolRotation (newRotation angle relative o) e
                       | None => e
                       end) with (levelData e) by (destruct (js_find _ _); reflexivity).
    intros I. apply in_map_iff in I. destruct I as (o & E & I).
    destruct (set_has [id] (o_id o)) eqn:H; subst obj; cbn [o_id set_o_rotation].
    + split; [intros _ | rewrite H; discriminate].
      eexists. split; [reflexivity |]. cbn [o_type].
      destruct (newRotation_range angle relative o) as (N & B).
      destruct (ObjectType_eqb (o_type o) BLOCK) eqn:T.
      * apply ObjectType_eqb_eq in T. destruct (B T) as (k & Hk & Ek).
        split; [rewrite Ek; change 0 with (inject_Z 0 * 90);
                apply Qmult_le_compat_r; [rewrite <- Zle_Qle; lia | lra] |].
        left. split; [exact T | split; [reflexivity | now exists k]].
      * apply ObjectType_eqb_neq in T. destruct (N T) as (L & U).
        split; [exact L |]. right. split; [now left | exact U].
    + split; [rewrite H; discriminate | intros _; exact I].
  - rewrite addToHistory_levelData. cbn [levelData set_levelData].
    intros I. apply in_map_iff in I. destruct I as (o & E & I).
    set (ids := id :: id' :: rest) in *.
    destruct (set_has ids (o_id o)) eqn:H; subst obj.
    + match goal with
      | |- context [rotateAround ?cx ?cy ?a ?o] =>
          destruct (rotateAround_range cx cy a o) as (r & Er & L & U);
          destruct (rotateAround_id cx cy a o) as (Ei & Et)
      end.
      rewrite Ei, Et, H. split; [intros _ | discriminate].
      exists r. split; [exact Er |]. split; [exact L |].
      right. split; [right; simpl; lia | exact U].
    + rewrite H. split; [discriminate | intros _; exact I].
Qed.

(** X7: after [rotateSelection], whatever the angle, every selected object
    carries a rotation from 0 to 360, both included, and a single selected
    Block one of 0, 90, 180, 270 and 360; the objects that are not selected
    are the objects of before.  The upper bound is stated with 360 included:
    the snap of a Block reaches it, and so does, in the doubles of the source,
    the sum of 360 and a negative remainder too small to show. *)
Theorem rotation_stays_normalised (angle : Q) (relative : bool) (e : Engine)
    (obj : LevelObject) :
  In obj (levelData (rotateSelection angle relative e)) ->
  (set_has (selectedObjects e) (o_id obj) = true ->
   exists r, o_rotation obj = Some r
     /\ 0 <= r /\ r <= 360
     /\ (o_type obj = BLOCK -> List.length (selectedObjects e) = 1%nat ->
         exists k : Z, (0 <= k <= 4)%Z /\ r = inject_Z k * 90))
  /\ (set_has (selectedObjects e) (o_id obj) = false -> In obj (levelData e)).
Proof.
  intros I. destruct (rotateSelection_range angle relative e obj I) as (S & U).
  split; [| exact U]. intros H. destruct (S H) as (r & E & L & C).
  exists r. split; [exact E |]. split; [exact L |].
  destruct C as [(T & N & k & K & ->) | ([T | N] & B)].
  - split; [| intros _ _; now exists k].
    change 360 with (inject_Z 4 * 90). apply Qmult_le_compat_r; [| lra].
    rewrite <- Zle_Qle. lia.
  - split; [lra | intros T'; contradiction].
  - split; [lra | intros _ N'; lia].
Qed.

(** ** Placing with the editor *)

Lemma addToHistory_shape (e : Engine) :
  addToHistory e
  = set_historyIndex (historyIndex (addToHistory e)) (set_history (history (addToHistory e)) e).
Proof. unfold addToHistory. destruct (50 <? _)%Z; reflexivity. Qed.

Lemma clearPasted_fields (e : Engine) :
  isPastedSelection (clearPasted e) = false
  /\ camera (clearPasted e) = camera e
  /\ selectedToolRef (clearPasted e) = selectedToolRef e
  /\ levelData (clearPasted e) = levelData e
  /\ lastToolRotation (clearPasted e) = lastToolRotation e
  /\ lastDeletePos (clearPasted e) = lastDeletePos e.
Proof. unfold clearPasted. destruct (isPastedSelection e) eqn:P; simpl; auto 10. Qed.

Lemma clearPasted_idem (e : Engine) : isPastedSelection e = false -> clearPasted e = e.
Proof. intros P. unfold clearPasted. now rewrite P. Qed.

(** What a click does with a placement tool other than StartPos. *)
Lemma placement_result (ev : MouseEvt) (isDrag : bool) (newId : string) (e : Engine) :
  fst (selectedToolRef e) <> TOOL -> fst (selectedToolRef e) <> DELETE ->
  fst (selectedToolRef e) <> START_POS ->
  handleEditorClick ev isDrag newId e
  = match js_find (fun o => Qeq_bool (o_x o) (fst (clickedCell ev e))
                            && Qeq_bool (o_y o) (snd (clickedCell ev e))) (levelData e) with
    | Some _ => clearPasted e
    | None =>
        addToHistory
          (set_selectedObjects [newId]
             (set_levelData (levelData e ++ [placedObject newId (clickedCell ev e) e])
                (clearPasted e)))
    end.
Proof.
  intros HT HD HS.
  destruct (clearPasted_fields e) as (_ & Hc & Ht & Hl & Hr & _).
  unfold handleEditorClick. fold (clearPasted e).
  unfold clickedCell, placedObject. cbn [fst snd]. rewrite Hc, Ht, Hl, Hr.
  apply ObjectType_eqb_neq in HT, HD, HS. rewrite HT, HD, HS. simpl andb. cbv iota.
  destruct (ObjectType_eqb (fst (selectedToolRef e)) TRIGGER);
    destruct (js_find _ (levelData e)); reflexivity.
Qed.

Lemma find_app_last {A : Type} (f : A -> bool) (l : list A) (a : A) :
  f a = true -> find f (l ++ [a]) <> None.
Proof.
  intros H N. pose proof (find_none f _ N a ltac:(apply in_or_app; right; now left)).
  congruence.
Qed.

(** X8: a click with a placement tool other than StartPos leaves the
    clicked cell occupied, and a further click or drag event that falls in the
    same cell changes nothing: objects placed by dragging do not pile up on a
    cell. *)
Theorem placement_fills_cell_once (ev : MouseEvt) (isDrag : bool) (newId : string)
    (e : Engine) :
  fst (selectedToolRef e) <> TOOL -> fst (selectedToolRef e) <> DELETE ->
  fst (selectedToolRef e) <> START_POS ->
  let e' := handleEditorClick ev isDrag newId e in
  occupied e' (clickedCell ev e)
  /\ forall ev' isDrag' newId',
       clickedCell ev' e = clickedCell ev e -> handleEditorClick ev' isDrag' newId' e' = e'.
Proof.
  intros HT HD HS e'. subst e'. rewrite (placement_result ev isDrag newId e HT HD HS).
  destruct (clearPasted_fields e) as (Hp & Hc & Ht & Hl & Hr & _).
  destruct (js_find _ (levelData e)) as [o |] eqn:F.
  - split.
    + apply find_some in F. destruct F as (I & E). apply andb_true_iff in E.
      destruct E as (Ex & Ey). apply Qeq_bool_iff in Ex, Ey.
      exists o. rewrite Hl. auto.
    + intros ev' d' id' Same. rewrite placement_result by (now rewrite Ht).
      unfold clickedCell. rewrite Hc, Hl. fold (clickedCell ev' e). rewrite Same, F.
      now apply clearPasted_idem.
  - set (obj := placedObject newId (clickedCell ev e) e).
    set (x := set_selectedObjects [newId] (set_levelData (levelData e ++ [obj])
                                             (clearPasted e))).
    assert (O : Qeq_bool (o_x obj) (fst (clickedCell ev e))
                && Qeq_bool (o_y obj) (snd (clickedCell ev e)) = true).
    { apply andb_true_iff. split; apply Qeq_bool_iff; reflexivity. }
    split.
    + exists obj. rewrite addToHistory_levelData. subst x. cbn [levelData set_levelData
        set_selectedObjects]. split; [apply in_or_app; right; now left |].
      split; reflexivity.
    + intros ev' d' id' Same. rewrite (addToHistory_shape x).
      set (a := set_historyIndex _ _).
      assert (Ta : selectedToolRef a = selectedToolRef e) by exact Ht.
      assert (Ca : camera a = camera e) by exact Hc.
      assert (La : levelData a = levelData e ++ [obj]) by reflexivity.
      assert (Pa : isPastedSelection a = false) by exact Hp.
      rewrite placement_result by (now rewrite Ta).
      unfold clickedCell. rewrite Ca, La. fold (clickedCell ev' e). rewrite Same.
      pose proof (find_app_last
                    (fun o => Qeq_bool (o_x o) (fst (clickedCell ev e))
                              && Qeq_bool (o_y o) (snd (clickedCell ev e)))
                    (levelData e) obj O) as N.
      unfold js_find.
      destruct (find _ (levelData e ++ [obj])); [now apply clearPasted_idem | contradiction].
Qed.

(** ** Deleting with the editor *)

Lemma findLastIndexFrom_app {A : Type} (f : A -> bool) (pre post : list A) (a : A) (i : nat) :
  f a = true -> (forall b, In b post -> f b = false) ->
  findLastIndexFrom f i (pre ++ a :: post) = Some (i + List.length pre)%nat.
Proof.
  intros Ha Hp.
  assert (P : forall j, findLastIndexFrom f j post = None).
  { induction post as [| b post IH]; intros j; simpl; [reflexivity |].
    rewrite IH by (intros c I; apply Hp; now right).
    now rewrite (Hp b (or_introl eq_refl)). }
  revert i. induction pre as [| b pre IH]; intros i; simpl.
  - rewrite P, Ha. f_equal. lia.
  - rewrite IH. f_equal. lia.
Qed.

Lemma findLastIndexFrom_None {A : Type} (f : A -> bool) (l : list A) (i : nat) :
  (forall b, In b l -> f b = false) -> findLastIndexFrom f i l = None.
Proof.
  revert i. induction l as [| b l IH]; intros i H; simpl; [reflexivity |].
  rewrite IH by (intros c I; apply H; now right). now rewrite (H b (or_introl eq_refl)).
Qed.

Lemma splice1_app {A : Type} (pre post : list A) (a : A) :
  splice1 (pre ++ a :: post) (List.length pre) = pre ++ post.
Proof. induction pre as [| b pre IH]; simpl; [reflexivity | now rewrite IH]. Qed.

(** X9: a click with the delete tool (one that is not a repeat on the tile
    of the current drag) removes exactly one object, the last object of the
    document that overlaps the clicked tile, and keeps the others in their
    order; when no object overlaps the tile nothing changes.  After a removal
    a drag event that falls on the same tile removes nothing more. *)
Theorem point_delete_removes_topmost (ev : MouseEvt) (newId : string) (e : Engine) :
  fst (selectedToolRef e) = DELETE ->
  let cell := clickedCell ev e in
  let tile := mkRect (fst cell * TILE_SIZE) (snd cell * TILE_SIZE) TILE_SIZE TILE_SIZE in
  let e' := handleEditorClick ev false newId e in
  ((forall o, In o (levelData e) -> overlapsObject tile o = false) -> e' = clearPasted e)
  /\ (forall pre obj post,
        levelData e = pre ++ obj :: post -> overlapsObject tile obj = true ->
        (forall o, In o post -> overlapsObject tile o = false) ->
        levelData e' = pre ++ post
        /\ forall ev' newId',
             clickedCell ev' e = cell -> handleEditorClick ev' true newId' e' = e').
Proof.
  intros HD cell tile e'.
  destruct (clearPasted_fields e) as (Hp & Hc & Ht & Hl & Hr & Hd).
  assert (R : e' = match findLastIndex (overlapsObject tile) (levelData e) with
                   | Some i =>
                       set_lastDeletePos (Some (mkPoint (fst cell) (snd cell)))
                         (addToHistory (set_levelData (splice1 (levelData e) i)
                                          (clearPasted e)))
                   | None => clearPasted e
                   end).
  { subst e' tile cell. unfold handleEditorClick. fold (clearPasted e).
    unfold clickedCell. cbn [fst snd]. rewrite Hc, Ht, Hl, HD. reflexivity. }
  split.
  - intros N. rewrite R. unfold findLastIndex. now rewrite findLastIndexFrom_None.
  - intros pre obj post L O N. rewrite R, L. unfold findLastIndex.
    rewrite findLastIndexFrom_app by assumption. simpl Nat.add. rewrite splice1_app.
    split; [cbn [levelData set_lastDeletePos]; now rewrite addToHistory_levelData |].
    intros ev' id' Same. rewrite addToHistory_shape.
    set (a := set_lastDeletePos _ _).
    unfold handleEditorClick.
    assert (Pa : isPastedSelection a = false) by exact Hp.
    rewrite Pa.
    assert (Ta : selectedToolRef a = selectedToolRef e) by exact Ht.
    assert (Ca : camera a = camera e) by exact Hc.
    rewrite Ta, Ca, HD. cbn [ObjectType_eqb ObjectType_code Z.eqb andb].
    change (lastDeletePos a) with (Some (mkPoint (fst cell) (snd cell))).
    cbn [pt_x pt_y].
    change (Math_floor ((clientX ev' / cam_zoom (camera e) + cam_x (camera e)) / TILE_SIZE))
      with (fst (clickedCell ev' e)).
    change (Math_floor ((clientY ev' / cam_zoom (camera e) + cam_y (camera e)) / TILE_SIZE))
      with (snd (clickedCell ev' e)).
    rewrite Same, !Qeq_bool_refl. reflexivity.
Qed.

(** ** Copy, paste and duplicate *)

Lemma pasteObjects_nth (gen : nat -> string) (i k : nat) (l : list LevelObject)
    (o : LevelObject) :
  nth_error l k = Some o ->
  nth_error (pasteObjects gen i l) k = Some (set_o_id (gen (i + k)%nat) o).
Proof.
  revert i k. induction l as [| a l IH]; intros i [| k]; simpl; try discriminate.
  - intros E. injection E as ->. now rewrite Nat.add_0_r.
  - intros E. rewrite (IH (S i) k E). do 3 f_equal. lia.
Qed.

Lemma pasteObjects_length (gen : nat -> string) (i : nat) (l : list LevelObject) :
  List.length (pasteObjects gen i l) = List.length l.
Proof. revert i. induction l as [| a l IH]; intros i; simpl; [reflexivity | now rewrite IH]. Qed.

(** What [pasteSelection] does with a clipboard that is not empty. *)
Lemma pasteSelection_result (gen : nat -> string) (e : Engine) :
  clipboard e <> [] ->
  levelData (pasteSelection gen e) = levelData e ++ pasteObjects gen 0 (clipboard e)
  /\ (forall id, In id (selectedObjects (pasteSelection gen e))
                 <-> exists i, (i < List.length (clipboard e))%nat /\ id = gen i)
  /\ isPastedSelection (pasteSelection gen e) = true
  /\ clipboard (pasteSelection gen e) = clipboard e.
Proof.
  intros N. unfold pasteSelection. destruct (clipboard e) as [| c cs] eqn:C; [contradiction |].
  rewrite addToHistory_levelData, addToHistory_selectedObjects.
  rewrite (addToHistory_shape (set_isPastedSelection true _)).
  cbn [levelData selectedObjects isPastedSelection clipboard set_historyIndex set_history
       set_isPastedSelection set_selectedObjects set_levelData].
  split; [reflexivity |]. split; [| split; [reflexivity | exact C]].
  intros id. rewrite set_add_fold_In, pasteObjects_ids, in_map_iff.
  split.
  - intros [[] | (i & E & I)]. apply in_seq in I. exists i. split; [lia | now symmetry].
  - intros (i & L & ->). right. exists i. split; [reflexivity |]. apply in_seq. lia.
Qed.

(** X10: [duplicateSelection] appends one copy of every selected object to
    the document, in the order of the document: the copy of the i-th selected
    object is that object under the i-th fresh identifier, at the same
    position, and the copies become the selection, marked as pasted.  When no
    object of the document is selected although the selection is not empty,
    nothing is added; and with an empty selection the clipboard is left as it
    was, so the objects copied last are pasted once more. *)
Theorem duplicate_appends_copies (gen : nat -> string) (e : Engine) :
  let picked := filter (fun o => set_has (selectedObjects e) (o_id o)) (levelData e) in
  let e' := duplicateSelection gen e in
  (selectedObjects e <> [] -> picked <> [] ->
   levelData e' = levelData e ++ pasteObjects gen 0 picked
   /\ List.length (levelData e') = (List.length (levelData e) + List.length picked)%nat
   /\ (forall i o, nth_error picked i = Some o ->
         nth_error (levelData e') (List.length (levelData e) + i) = Some (set_o_id (gen i) o))
   /\ (forall id, In id (selectedObjects e')
                  <-> exists i, (i < List.length picked)%nat /\ id = gen i)
   /\ isPastedSelection e' = true)
  /\ (selectedObjects e <> [] -> picked = [] -> levelData e' = levelData e)
  /\ (selectedObjects e = [] -> e' = pasteSelection gen e).
Proof.
  intros picked e'. subst e'. unfold duplicateSelection.
  split; [| split].
  - intros S P.
    assert (C : copySelection e = set_clipboard picked e).
    { unfold copySelection. destruct (selectedObjects e); [contradiction | reflexivity]. }
    rewrite C.
    destruct (pasteSelection_result gen (set_clipboard picked e) P) as (L & Sel & Pa & _).
    cbn [levelData clipboard set_clipboard] in L, Sel.
    split; [exact L |]. split; [| split; [| split; [exact Sel | exact Pa]]].
    + now rewrite L, length_app, pasteObjects_length.
    + intros i o N. rewrite L, nth_error_app2 by lia.
      replace (List.length (levelData e) + i - List.length (levelData e))%nat with i by lia.
      now rewrite (pasteObjects_nth gen 0 i picked o N).
  - intros S P.
    assert (C : copySelection e = set_clipboard [] e).
    { unfold copySelection. fold picked. rewrite P.
      destruct (selectedObjects e); [contradiction | reflexivity]. }
    rewrite C. reflexivity.
  - intros S. unfold copySelection. now rewrite S.
Qed.

(** ** Colours: printing, parsing and interpolation *)

Lemma channels_round_trip :
  forallb channelRoundTrips (map Z.of_nat (seq 0 256)) = true.
Proof. vm_compute. reflexivity. Qed.

Lemma channel_round_trip (n : Z) :
  (0 <= n <= 255)%Z ->
  parseInt16 (padStart2 (toString16 n)) = Some (inject_Z n)
  /\ String.length (padStart2 (toString16 n)) = 2%nat.
Proof.
  intros R. pose proof channels_round_trip as H. rewrite forallb_forall in H.
  specialize (H n). unfold channelRoundTrips in H.
  assert (I : In n (map Z.of_nat (seq 0 256))).
  { apply in_map_iff. exists (Z.to_nat n). split; [lia |]. apply in_seq. lia. }
  specialize (H I). apply andb_true_iff in H. destruct H as (P & L).
  split; [| now apply Nat.eqb_eq].
  destruct (parseInt16 _) as [[p d] |]; [| discriminate].
  apply andb_true_iff in P. cbn [Qnum Qden] in P. destruct P as (Pn & Pd).
  apply Z.eqb_eq in Pn. apply Pos.eqb_eq in Pd. now subst.
Qed.

(** X11: a colour channel between 0 and 255 printed in base 16 and padded
    to two characters, as [interpolateColor] prints it, is read back by
    [parseInt] as the same number. *)
Theorem hex_channel_round_trip (n : Z) :
  (0 <= n <= 255)%Z ->
  parseInt16 (padStart2 (toString16 n)) = Some (inject_Z n)
  /\ String.length (padStart2 (toString16 n)) = 2%nat.
Proof. exact (channel_round_trip n). Qed.

Lemma two_characters (s : string) :
  String.length s = 2%nat -> exists c1 c2, s = String c1 (String c2 EmptyString).
Proof.
  destruct s as [| c1 [| c2 [| c3 s]]]; try discriminate. intros _. now exists c1, c2.
Qed.

(** The three channels of a colour string are read back. *)
Lemma rgb_channels (r g b : Z) :
  (0 <= r <= 255)%Z -> (0 <= g <= 255)%Z -> (0 <= b <= 255)%Z ->
  hex (rgb r g b) = rgb r g b
  /\ parseInt16 (substring 1 2 (rgb r g b)) = Some (inject_Z r)
  /\ parseInt16 (substring 3 2 (rgb r g b)) = Some (inject_Z g)
  /\ parseInt16 (substring 5 2 (rgb r g b)) = Some (inject_Z b).
Proof.
  intros Hr Hg Hb.
  destruct (channel_round_trip r Hr) as (Pr & Lr).
  destruct (channel_round_trip g Hg) as (Pg & Lg).
  destruct (channel_round_trip b Hb) as (Pb & Lb).
  unfold rgb.
  destruct (two_characters _ Lr) as (r1 & r2 & Er).
  destruct (two_characters _ Lg) as (g1 & g2 & Eg).
  destruct (two_characters _ Lb) as (b1 & b2 & Eb).
  rewrite Er, Eg, Eb in *. cbn [append substring hex]. auto.
Qed.

Lemma Qfloor_unique (x : Q) (k : Z) :
  inject_Z k <= x -> x < inject_Z k + 1 -> Qfloor x = k.
Proof.
  intros L U.
  pose proof (Qfloor_le x) as F1. pose proof (Qlt_floor x) as F2.
  rewrite inject_Z_plus in F2. change (inject_Z 1) with 1 in F2.
  assert (A : inject_Z (Qfloor x) < inject_Z (k + 1)).
  { rewrite inject_Z_plus. change (inject_Z 1) with 1. lra. }
  assert (B : inject_Z k < inject_Z (Qfloor x + 1)).
  { rewrite inject_Z_plus. change (inject_Z 1) with 1. lra. }
  rewrite <- Zlt_Qlt in A, B. lia.
Qed.

Lemma mix_bounds (c1 c2 : Z) (factor : Q) :
  0 <= factor -> factor <= 1 ->
  (Z.min c1 c2 <= mix c1 c2 factor <= Z.max c1 c2)%Z.
Proof.
  intros L U. unfold mix, Math_round. rewrite Qfloor_Z.
  set (x := inject_Z c1 + (inject_Z c2 - inject_Z c1) * factor).
  assert (Lo : inject_Z (Z.min c1 c2) <= x).
  { subst x. destruct (Z.min_spec c1 c2) as [[H ->] | [H ->]].
    - assert (inject_Z c1 <= inject_Z c2) by (rewrite <- Zle_Qle; lia). nra.
    - assert (inject_Z c2 <= inject_Z c1) by (rewrite <- Zle_Qle; lia). nra. }
  assert (Hi : x <= inject_Z (Z.max c1 c2)).
  { subst x. destruct (Z.max_spec c1 c2) as [[H ->] | [H ->]].
    - assert (inject_Z c1 <= inject_Z c2) by (rewrite <- Zle_Qle; lia). nra.
    - assert (inject_Z c2 <= inject_Z c1) by (rewrite <- Zle_Qle; lia). nra. }
  pose proof (Qfloor_le (x + 0.5)) as F1. pose proof (Qlt_floor (x + 0.5)) as F2.
  rewrite inject_Z_plus in F2. change (inject_Z 1) with 1 in F2.
  split.
  - rewrite <- (Qfloor_Z (Z.min c1 c2)). apply Qfloor_resp_le. lra.
  - assert (A : inject_Z (Qfloor (x + 0.5)) < inject_Z (Z.max c1 c2 + 1)).
    { rewrite inject_Z_plus. change (inject_Z 1) with 1. lra. }
    rewrite <- Zlt_Qlt in A. lia.
Qed.

Lemma mix_ends (c1 c2 : Z) (factor : Q) :
  (factor == 0 -> mix c1 c2 factor = c1) /\ (factor == 1 -> mix c1 c2 factor = c2).
Proof.
  unfold mix, Math_round. rewrite Qfloor_Z. split; intros E; apply Qfloor_unique; rewrite E; lra.
Qed.

(** X12: between two colours written as [#rrggbb], [interpolateColor]
    works channel by channel: the result is the colour whose channels are the
    rounded values c1 + (c2 - c1) * factor.  At factor 0 it is the first
    colour, at factor 1 the second, and for a factor between 0 and 1 every
    channel lies between the two channels it is mixed from. *)
Theorem interpolateColor_by_channel (r1 g1 b1 r2 g2 b2 : Z) (factor : Q) :
  (0 <= r1 <= 255)%Z -> (0 <= g1 <= 255)%Z -> (0 <= b1 <= 255)%Z ->
  (0 <= r2 <= 255)%Z -> (0 <= g2 <= 255)%Z -> (0 <= b2 <= 255)%Z ->
  interpolateColor (Some (rgb r1 g1 b1)) (Some (rgb r2 g2 b2)) factor
  = Some (rgb (mix r1 r2 factor) (mix g1 g2 factor) (mix b1 b2 factor))
  /\ (factor == 0 ->
      interpolateColor (Some (rgb r1 g1 b1)) (Some (rgb r2 g2 b2)) factor
      = Some (rgb r1 g1 b1))
  /\ (factor == 1 ->
      interpolateColor (Some (rgb r1 g1 b1)) (Some (rgb r2 g2 b2)) factor
      = Some (rgb r2 g2 b2))
  /\ (0 <= factor -> factor <= 1 ->
      (Z.min r1 r2 <= mix r1 r2 factor <= Z.max r1 r2)%Z
      /\ (Z.min g1 g2 <= mix g1 g2 factor <= Z.max g1 g2)%Z
      /\ (Z.min b1 b2 <= mix b1 b2 factor <= Z.max b1 b2)%Z).
Proof.
  intros R1 G1 B1 R2 G2 B2.
  assert (F : interpolateColor (Some (rgb r1 g1 b1)) (Some (rgb r2 g2 b2)) factor
              = Some (rgb (mix r1 r2 factor) (mix g1 g2 factor) (mix b1 b2 factor))).
  { unfold interpolateColor.
    destruct (rgb_channels r1 g1 b1 R1 G1 B1) as (-> & -> & -> & ->).
    destruct (rgb_channels r2 g2 b2 R2 G2 B2) as (-> & -> & -> & ->).
    reflexivity. }
  split; [exact F |]. split; [| split].
  - intros E. rewrite F.
    now rewrite (proj1 (mix_ends r1 r2 factor) E), (proj1 (mix_ends g1 g2 factor) E),
      (proj1 (mix_ends b1 b2 factor) E).
  - intros E. rewrite F.
    now rewrite (proj2 (mix_ends r1 r2 factor) E), (proj2 (mix_ends g1 g2 factor) E),
      (proj2 (mix_ends b1 b2 factor) E).
  - intros L U. repeat split; now apply mix_bounds.
Qed.

(** ** The horizontal advance *)

Ltac unfold_if := repeat break_if; try reflexivity.

Lemma die_p_x (e : Engine) : p_x (player (die e)) = p_x (player e).
Proof. unfold die. unfold_if. Qed.

Lemma cubePhysics_p_x (e : Engine) :
  p_x (player (flowEngine (cubePhysics e))) = p_x (player e).
Proof. unfold cubePhysics. unfold_if; cbn [flowEngine]; rewrite ?die_p_x; reflexivity. Qed.

Lemma shipPhysics_p_x (b : bool) (e : Engine) :
  p_x (player (shipPhysics b e)) = p_x (player e).
Proof. unfold shipPhysics. unfold_if. Qed.

Lemma beforeObjects_p_x (e : Engine) :
  p_x (player (flowEngine (beforeObjects e))) == p_x (player e) + PLAYER_SPEED.
Proof.
  unfold beforeObjects. cbv zeta.
  match goal with
  | |- context [cubePhysics ?x] => set (x0 := x)
  end.
  assert (H0 : p_x (player x0) == p_x (player e) + PLAYER_SPEED)
    by (subst x0; repeat break_if; apply Qred_correct).
  clearbody x0.
  pose proof (cubePhysics_p_x x0) as H1.
  pose proof (shipPhysics_p_x (isInputDown e) x0) as H2.
  destruct (vehicle_is (p_vehicle (player x0)) CUBE).
  - destruct (cubePhysics x0) as [e1 | e1]; cbn [flowEngine] in H1.
    + break_if; cbn [flowEngine player set_trail]; now rewrite H1.
    + cbn [flowEngine]. now rewrite H1.
  - set (e1 := shipPhysics (isInputDown e) x0) in *. clearbody e1.
    break_if; cbn [flowEngine player set_trail]; now rewrite H2.
Qed.

Lemma collideObject_p_x (a b : bool) (r c : Q) (e : Engine) (obj : LevelObject) :
  p_x (player (flowEngine (collideObject a b r c e obj))) = p_x (player e).
Proof.
  unfold collideObject, fireTrigger, collideBlock, shipBlock, cubeBlock, collidePad,
    collideOrb, collidePortal.
  destruct (if ObjectType_eqb (o_type obj) TRIGGER then o_triggerData obj else None).
  - unfold_if.
  - destruct (o_type obj); unfold_if; cbn [flowEngine]; rewrite ?die_p_x; reflexivity.
Qed.

Lemma objectLoop_p_x (a b : bool) (r c : Q) (objs : list LevelObject) (e : Engine) :
  p_x (player (flowEngine (objectLoop a b r c objs e))) = p_x (player e).
Proof.
  revert e. induction objs as [| obj rest IH]; intros e; simpl; [reflexivity |].
  pose proof (collideObject_p_x a b r c e obj) as H.
  destruct (collideObject a b r c e obj) as [e' | e']; simpl in H.
  - now rewrite IH.
  - exact H.
Qed.

Lemma afterObjects_p_x (b : bool) (e : Engine) :
  p_x (player (afterObjects b e)) = p_x (player e).
Proof. unfold afterObjects, jump. unfold_if; rewrite ?die_p_x; unfold_if. Qed.

(** The advance of a step, in the exact arithmetic of the model. *)
Lemma updatePhysics_p_x (e : Engine) :
  physicsRuns e ->
  p_x (player (updatePhysics e)) == p_x (player e) + PLAYER_SPEED.
Proof.
  intros (D & F & W). unfold updatePhysics. rewrite D, F, W.
  pose proof (beforeObjects_p_x e) as B.
  destruct (beforeObjects e) as [e1 | e1]; cbn [flowEngine] in B; [| exact B].
  match goal with
  | |- context [objectLoop ?a ?b ?r ?c ?l ?x] =>
      pose proof (objectLoop_p_x a b r c l x) as L;
      destruct (objectLoop a b r c l x) as [e2 | e2]; cbn [flowEngine] in L
  end.
  - now rewrite afterObjects_p_x, L.
  - now rewrite L.
Qed.

(** X13: nothing but the constant advance moves the player sideways.  In
    a step of the physics with a live player that is neither finished nor past
    the finish wall of a verify run, the horizontal position after the step is
    determined by the horizontal position before it: two states that agree on
    it agree on it afterwards, whatever their vehicles, gravity, input and
    objects, and whether the player dies in the step; and the step never moves
    the player to the left. *)
Theorem horizontal_motion_independent (e1 e2 : Engine) :
  physicsRuns e1 -> physicsRuns e2 ->
  p_x (player e1) == p_x (player e2) ->
  p_x (player (updatePhysics e1)) == p_x (player (updatePhysics e2))
  /\ p_x (player e1) <= p_x (player (updatePhysics e1)).
Proof.
  intros R1 R2 E. rewrite (updatePhysics_p_x e1 R1), (updatePhysics_p_x e2 R2), E.
  split; [reflexivity |]. unfold PLAYER_SPEED. lra.
Qed.

(** ** Objects that act once *)

Lemma set_has_add (s : list string) (k : string) : set_has (set_add s k) k = true.
Proof.
  unfold set_add. destruct (set_has s k) eqn:H; [exact H |].
  apply set_has_In, in_or_app. right. now left.
Qed.

Lemma checkCollision_position (p p' : Player) (obj : LevelObject) :
  position p' = position p -> checkCollision p' obj = checkCollision p obj.
Proof.
  unfold position, checkCollision. intros H. injection H as -> -> -> ->. reflexivity.
Qed.

Lemma collidePad_used (obj : LevelObject) (e : Engine) :
  set_has (usedObjectIds e) (o_id obj) = true -> collidePad obj e = e.
Proof. intros U. unfold collidePad. now rewrite U. Qed.

Lemma collidePad_marks (obj : LevelObject) (e : Engine) :
  set_has (usedObjectIds (collidePad obj e)) (o_id obj) = true
  /\ position (player (collidePad obj e)) = position (player e).
Proof.
  unfold collidePad. destruct (set_has (usedObjectIds e) (o_id obj)) eqn:U; simpl negb;
    cbv iota; [now split |].
  split; [repeat break_if; apply set_has_add | repeat break_if; reflexivity].
Qed.

Lemma collidePortal_used (obj : LevelObject) (e : Engine) :
  set_has (usedObjectIds e) (o_id obj) = true -> collidePortal obj e = e.
Proof. intros U. unfold collidePortal. now rewrite U. Qed.

Lemma collidePortal_marks (obj : LevelObject) (e : Engine) :
  set_has (usedObjectIds (collidePortal obj e)) (o_id obj) = true
  /\ position (player (collidePortal obj e)) = position (player e).
Proof.
  unfold collidePortal. destruct (set_has (usedObjectIds e) (o_id obj)) eqn:U; simpl negb;
    cbv iota; [now split |].
  split; [repeat break_if; apply set_has_add | repeat break_if; reflexivity].
Qed.

Lemma collideOrb_used (a b : bool) (obj : LevelObject) (e : Engine) :
  set_has (usedObjectIds e) (o_id obj) = true -> collideOrb a b obj e = e.
Proof. intros U. unfold collideOrb. now rewrite U. Qed.

Lemma collideOrb_cases (a b : bool) (obj : LevelObject) (e : Engine) :
  position (player (collideOrb a b obj e)) = position (player e)
  /\ (collideOrb a b obj e = e
      \/ set_has (usedObjectIds (collideOrb a b obj e)) (o_id obj) = true).
Proof.
  unfold collideOrb. destruct (set_has (usedObjectIds e) (o_id obj)) eqn:U; simpl negb;
    cbv iota; [split; [reflexivity | now left] |].
  match goal with
  | |- context [if ?c then _ else e] => destruct c
  end; [| split; [reflexivity | now left]].
  split; [repeat break_if; reflexivity | right; repeat break_if; apply set_has_add].
Qed.

Lemma fireTrigger_marks (obj : LevelObject) (td : TriggerData) (e : Engine) :
  set_has (triggeredIds (fireTrigger obj td e)) (o_id obj) = true.
Proof. unfold fireTrigger. break_if; apply set_has_add. Qed.

(** X14: triggers, pads, orbs and portals act at most once: when the loop
    body has run on such an object (or on a decoration or a start position),
    running it again on the same object in the state it left changes nothing
    more. *)
Theorem objects_act_once (inputDown inputJustPressed : bool) (pRight pCx : Q)
    (e e1 : Engine) (obj : LevelObject) :
  o_type obj <> BLOCK ->
  collideObject inputDown inputJustPressed pRight pCx e obj = Continue e1 ->
  collideObject inputDown inputJustPressed pRight pCx e1 obj = Continue e1.
Proof.
  intros NB. unfold collideObject at 1.
  destruct (if ObjectType_eqb (o_type obj) TRIGGER then o_triggerData obj else None)
    as [td |] eqn:TD.
  - assert (Again : forall x, set_has (triggeredIds x) (o_id obj) = true ->
                              collideObject inputDown inputJustPressed pRight pCx x obj
                              = Continue x).
    { intros x T. unfold collideObject. now rewrite TD, T. }
    destruct (set_has (triggeredIds e) (o_id obj)) eqn:T; simpl negb; cbv iota.
    + intros E. injection E as <-. now apply Again.
    + match goal with
      | |- (if ?c then Continue (fireTrigger _ _ _) else _) = _ -> _ => destruct c eqn:A
      end; intros E; injection E as <-.
      * apply Again, fireTrigger_marks.
      * unfold collideObject. rewrite TD, T. simpl negb. cbv iota. now rewrite A.
  - destruct (ObjectType_eqb (o_type obj) DECO || ObjectType_eqb (o_type obj) START_POS)
      eqn:DS.
    { intros E. injection E as <-. unfold collideObject. now rewrite TD, DS. }
    destruct (Qltb (pRight + TILE_SIZE * 2) (o_x obj * TILE_SIZE)
              || Qltb (o_x obj * TILE_SIZE + TILE_SIZE) (p_x (player e) - TILE_SIZE * 2))
      eqn:M.
    { intros E. injection E as <-. unfold collideObject. now rewrite TD, DS, M. }
    assert (Again : forall x, position (player x) = position (player e) ->
              collideObject inputDown inputJustPressed pRight pCx x obj
              = if checkCollision (player e) obj then
                  match o_type obj with
                  | SPIKE => Return (die x)
                  | BLOCK => collideBlock obj x
                  | PAD => Continue (collidePad obj x)
                  | ORB => Continue (collideOrb inputDown inputJustPressed obj x)
                  | PORTAL => Continue (collidePortal obj x)
                  | _ => Continue x
                  end
                else Continue x).
    { intros x P. unfold collideObject. rewrite TD, DS.
      rewrite (checkCollision_position _ _ obj P).
      unfold position in P. injection P as Px _ _ _. now rewrite Px, M. }
    destruct (checkCollision (player e) obj) eqn:C.
    + destruct (o_type obj) eqn:T; try contradiction; try discriminate;
        intros E; injection E as <-;
        match goal with
        | |- context [collidePad] =>
            destruct (collidePad_marks obj e) as (U & P);
            rewrite (Again _ P); now rewrite (collidePad_used obj _ U)
        | |- context [collidePortal] =>
            destruct (collidePortal_marks obj e) as (U & P);
            rewrite (Again _ P); now rewrite (collidePortal_used obj _ U)
        | |- context [collideOrb] =>
            destruct (collideOrb_cases inputDown inputJustPressed obj e) as (P & [S | U]);
            rewrite (Again _ P);
            [now rewrite S, S | now rewrite (collideOrb_used _ _ obj _ U)]
        | |- _ => rewrite Again by reflexivity; reflexivity
        end.
    + intros E. injection E as <-. rewrite Again by reflexivity. reflexivity.
Qed.

(** ** The reset of the player *)

Lemma Math_max_le (x y : Q) : x <= Math_max x y /\ y <= Math_max x y.
Proof.
  unfold Math_max. destruct (Qle_bool x y) eqn:E.
  - apply Qle_bool_iff in E. split; [exact E | apply Qle_refl].
  - split; [apply Qle_refl |]. apply Qlt_le_weak, Qnot_le_lt. intros L.
    apply Qle_bool_iff in L. congruence.
Qed.

Lemma fold_max_le (f : LevelObject -> Q) (l : list LevelObject) (acc : Q) :
  acc <= fold_left (fun m b => Math_max m (f b)) l acc
  /\ forall b, In b l -> f b <= fold_left (fun m b => Math_max m (f b)) l acc.
Proof.
  revert acc. induction l as [| a l IH]; intros acc; simpl; [split; [apply Qle_refl | tauto] |].
  destruct (IH (Math_max acc (f a))) as (A & B).
  destruct (Math_max_le acc (f a)) as (M1 & M2).
  split; [now apply Qle_trans with (Math_max acc (f a)) |].
  intros b [<- | I]; [now apply Qle_trans with (Math_max acc (f a)) | now apply B].
Qed.

Lemma resetPlayerInternal_finishWallX (forVerify : bool) (e : Engine) :
  finishWallX (resetPlayerInternal forVerify e)
  == Math_max (fold_left (fun m b => Math_max m (o_x b * TILE_SIZE)) (levelData e) 0 + 800)
       (canvasWidth e * 1.5).
Proof.
  unfold resetPlayerInternal.
  match goal with
  | |- context [match ?s with pair _ _ => _ end] => destruct s as [[[? ?] ?] ?]
  end.
  repeat break_if; apply Qred_correct.
Qed.

(** X15: a reset puts the finish wall at least 800 units right of the left
    edge of every object of the level, at least 800 units right of the origin,
    and at least one and a half widths of the canvas right of it. *)
Theorem finish_wall_beyond_level (forVerify : bool) (e : Engine) :
  let wall := finishWallX (resetPlayerInternal forVerify e) in
  (forall obj, In obj (levelData e) -> o_x obj * TILE_SIZE + 800 <= wall)
  /\ 800 <= wall
  /\ canvasWidth e * 1.5 <= wall.
Proof.
  intros wall. subst wall. pose proof (resetPlayerInternal_finishWallX forVerify e) as E.
  destruct (fold_max_le (fun b => o_x b * TILE_SIZE) (levelData e) 0) as (A & B).
  cbv beta in A, B.
  set (m := fold_left _ (levelData e) 0) in *.
  destruct (Math_max_le (m + 800) (canvasWidth e * 1.5)) as (M1 & M2).
  split; [| split; lra].
  intros obj I. specialize (B obj I). lra.
Qed.

Lemma js_sort_nil {A : Type} (cmp : A -> A -> Q) : js_sort cmp [] = [].
Proof. reflexivity. Qed.

Lemma filter_none {A : Type} (f : A -> bool) (l : list A) :
  (forall a, In a l -> f a = false) -> filter f l = [].
Proof.
  induction l as [| a l IH]; intros H; simpl; [reflexivity |].
  rewrite (H a (or_introl eq_refl)). apply IH. intros b I. apply H. now right.
Qed.

Lemma withIndex_fst {A : Type} (i : Z) (l : list A) (p : A * Z) :
  In p (withIndex i l) -> In (fst p) l.
Proof.
  revert i. induction l as [| a l IH]; intros i; simpl; [tauto |].
  intros [<- | I]; [now left | right; now apply (IH (i + 1)%Z)].
Qed.

Lemma bestStartPos_none (objs : list LevelObject) :
  (forall o, In o objs -> ~ enabledStartPos o) -> bestStartPos objs = None.
Proof.
  intros H. unfold bestStartPos, startPositions. rewrite filter_none; [reflexivity |].
  intros [o i] I. apply withIndex_fst in I. specialize (H o I).
  unfold enabledStartPos in H. unfold isEnabledStartPos in *. cbn [fst] in *.
  now destruct (_ && _).
Qed.

(** X16: a reset for a verify run, and a reset for a playtest of a level
    without an enabled StartPos, spawns the player a tile above the floor at
    x = 0, alive and on the ground, with the start mode and the start gravity
    of the level settings; the StartPos objects play no part in a verify
    run. *)
Theorem reset_spawns_at_origin (forVerify : bool) (e : Engine) :
  forVerify = true \/ (forall o, In o (levelData e) -> ~ enabledStartPos o) ->
  player (resetPlayer forVerify e)
  = {| p_x := 0; p_y := 11 * TILE_SIZE; p_w := 36; p_h := 36;
       p_vx := PLAYER_SPEED; p_vy := 0; p_rotation := 0;
       p_onGround := true; p_dead := false; p_finished := false;
       p_vehicle := Some (startMode (levelSettings e));
       p_gravityReversed := truthy (startReverseGravity (levelSettings e)) |}.
Proof.
  intros H. unfold resetPlayer, resetPlayerInternal.
  assert (B : forVerify = true \/ bestStartPos (levelData e) = None)
    by (destruct H; [now left | right; now apply bestStartPos_none]).
  cbn [levelData set_selectedObjects levelSettings].
  destruct B as [-> | ->]; [| destruct forVerify]; cbn [negb]; cbv iota beta;
    repeat break_if; reflexivity.
Qed.

(** ** Frames outside a run, pauses and deaths *)

Lemma animateBounds_runState (e : Engine) :
  runState (animateBounds e) = runState e /\ colourState (animateBounds e) = colourState e.
Proof. unfold animateBounds. repeat break_if; split; reflexivity. Qed.

Lemma moveCamera_runState (m : GameMode) (w h z : Q) (e : Engine) :
  runState (moveCamera m w h z e) = runState e
  /\ colourState (moveCamera m w h z e) = colourState e.
Proof. unfold moveCamera. repeat break_if; split; reflexivity. Qed.

Lemma applyEffects_runState (effs : list ColorEffect) (e : Engine) :
  runState (fst (applyEffects effs e)) = runState e.
Proof.
  revert e. induction effs as [| eff rest IH]; intros e; simpl; [reflexivity |].
  unfold applyEffect. destruct (interpolateColor _ _ _); [| reflexivity]. now rewrite IH.
Qed.

Lemma gameplayColors_runState (e : Engine) : runState (fst (gameplayColors e)) = runState e.
Proof. unfold gameplayColors. now rewrite applyEffects_runState. Qed.

Lemma editorColors_runState (w z : Q) (e : Engine) :
  runState (fst (editorColors w z e)) = runState e.
Proof. unfold editorColors. destruct (previewTriggers _ _ _); reflexivity. Qed.

(** X17: outside the two play modes a frame leaves the player, the trail,
    the fired triggers, the used objects and the death markers as they are;
    and in the two paused modes it also leaves the frame count, the running
    colour effects and the displayed colours as they are. *)
Theorem frames_outside_play (e : Engine) :
  (modeRef e <> PLAYTEST -> modeRef e <> VERIFY -> runState (update e) = runState e)
  /\ (modeRef e = PAUSED \/ modeRef e = VERIFY_PAUSED ->
      colourState (update e) = colourState e).
Proof.
  split.
  - intros NP NV. unfold update.
    pose proof (proj1 (animateBounds_runState e)) as A.
    destruct (modeRef e) eqn:M; try contradiction; cbn [GameMode_eqb orb andb negb];
      cbv iota.
    + pose proof (editorColors_runState (canvasWidth e) (cam_zoom (camera e))
                    (animateBounds e)) as H.
      destruct (editorColors _ _ _) as [e1 thrown]; cbn [fst] in H. destruct thrown.
      * now rewrite <- A, <- H.
      * now rewrite (proj1 (moveCamera_runState _ _ _ _ _)), H.
    + now rewrite (proj1 (moveCamera_runState _ _ _ _ _)).
    + now rewrite (proj1 (moveCamera_runState _ _ _ _ _)).
    + assert (H : runState (fst (if negb (p_dead (player (animateBounds e)))
                                 then gameplayColors (animateBounds e)
                                 else (animateBounds e, false))) = runState e).
      { break_if; [now rewrite gameplayColors_runState | exact A]. }
      destruct (if negb _ then _ else _) as [e1 thrown]; cbn [fst] in H. destruct thrown.
      * exact H.
      * now rewrite (proj1 (moveCamera_runState _ _ _ _ _)).
  - intros [M | M]; unfold update; rewrite M; cbn [GameMode_eqb orb andb negb]; cbv iota;
      rewrite (proj2 (moveCamera_runState _ _ _ _ _)); apply animateBounds_runState.
Qed.

(** X18: pausing a playtest or a verify run and resuming it leaves the run
    where it was: the player, the trail, the fired triggers, the colours and
    the level are those of before the pause, and the mode is the play mode
    again; resuming does not reset the player. *)
Theorem pause_and_resume (e : Engine) :
  (modeRef e = PLAYTEST ->
   let e' := handleModeChange PLAYTEST (handleModeChange PAUSED e) in
   runState e' = runState e /\ colourState e' = colourState e
   /\ document e' = document e /\ modeRef e' = PLAYTEST)
  /\ (modeRef e = VERIFY ->
      let e' := handleModeChange VERIFY (handleModeChange VERIFY_PAUSED e) in
      runState e' = runState e /\ colourState e' = colourState e
      /\ document e' = document e /\ modeRef e' = VERIFY).
Proof.
  split; intros M e'; subst e'.
  - assert (P : handleModeChange PAUSED e = modeEffects PAUSED e)
      by (unfold handleModeChange; rewrite M; reflexivity).
    rewrite P. unfold handleModeChange, modeEffects. cbn. repeat split.
  - assert (P : handleModeChange VERIFY_PAUSED e = modeEffects VERIFY_PAUSED e)
      by (unfold handleModeChange; rewrite M; reflexivity).
    rewrite P. unfold handleModeChange, modeEffects. cbn. repeat split.
Qed.

Lemma die_alive (e : Engine) :
  p_dead (player e) = false ->
  modeRef (die e) = modeRef e
  /\ (exists n, deathTimers (die e) = S n)
  /\ p_dead (player (die e)) = true
  /\ document (die e) = document e
  /\ deathMarkers (die e)
     = if GameMode_eqb (modeRef e) PLAYTEST
       then deathMarkers e ++ [playerCentre (player e)] else deathMarkers e.
Proof.
  intros D. unfold die. rewrite D.
  destruct (modeRef e) eqn:M; repeat (progress (cbn; rewrite ?M)); repeat split;
    now eexists.
Qed.

(** X19: the deferred callback of a death.  In a playtest, a death followed
    by its callback leaves the mode at [EDITOR], with the player dead and one
    more death marker, at the centre of the player.  In a verify run it resets
    the player as for a new verify run: alive at the origin, with no death
    marker, no running colour effect and the colours of the level settings.
    The document is untouched either way. *)
Theorem death_and_its_callback (e : Engine) :
  p_dead (player e) = false ->
  let e' := deathTimeout (die e) in
  document e' = document e
  /\ (modeRef e = PLAYTEST ->
      modeRef e' = EDITOR /\ p_dead (player e') = true
      /\ deathMarkers e' = deathMarkers e ++ [playerCentre (player e)])
  /\ (modeRef e = VERIFY ->
      modeRef e' = VERIFY
      /\ p_dead (player e') = false /\ p_x (player e') = 0
      /\ deathMarkers e' = [] /\ activeEffects e' = []
      /\ displaySettings e' = levelSettings e).
Proof.
  intros D e'. destruct (die_alive e D) as (M & (n & T) & Dd & Doc & Mk).
  split.
  - subst e'. apply docHist_document. rewrite deathTimeout_docHist. apply die_docHist.
  - split; intros Me; subst e'; unfold deathTimeout; rewrite T; cbn [pred];
      cbn [modeRef set_deathTimers]; rewrite M, Me; cbn [GameMode_eqb]; cbv iota.
    + unfold onModeChange, handleModeChange.
      cbn [modeRef set_deathTimers GameMode_eqb andb negb]. rewrite M, Me.
      cbn [GameMode_eqb]. cbv iota. unfold modeEffects.
      cbn [modeRef player deathMarkers set_modeRef set_keys set_mouseIsDown
           set_prevInputState set_hasInputUsed set_deathTimers].
      rewrite Dd, Mk, Me. auto.
    + split.
      * unfold resetPlayerInternal. cbn. repeat break_if; exact (eq_trans M Me).
      * unfold resetPlayerInternal. cbn [negb]. cbv iota beta.
        repeat break_if; cbn; repeat split; unfold document in Doc;
          now injection Doc as _ ->.
Qed.

(** ** The zoom of the camera stays within its limits *)

Ltac keepz :=
  repeat first
    [ progress cbn [flowEngine fst]
    | progress autorewrite with zoom
    | break_if ];
  try reflexivity.

Lemma die_zoom (e : Engine) : zoomInLimits (die e) = zoomInLimits e.
Proof. unfold die. keepz. Qed.

#[local] Hint Rewrite die_zoom : zoom.

Lemma jump_zoom (e : Engine) : zoomInLimits (jump e) = zoomInLimits e.
Proof. unfold jump. keepz. Qed.

#[local] Hint Rewrite jump_zoom : zoom.

Lemma cubePhysics_zoom (e : Engine) :
  zoomInLimits (flowEngine (cubePhysics e)) = zoomInLimits e.
Proof. unfold cubePhysics. keepz. Qed.

Lemma shipPhysics_zoom (b : bool) (e : Engine) :
  zoomInLimits (shipPhysics b e) = zoomInLimits e.
Proof. unfold shipPhysics. keepz. Qed.

Lemma fireTrigger_zoom (obj : LevelObject) (td : TriggerData) (e : Engine) :
  zoomInLimits (fireTrigger obj td e) = zoomInLimits e.
Proof. unfold fireTrigger. keepz. Qed.

#[local] Hint Rewrite shipPhysics_zoom fireTrigger_zoom : zoom.

Lemma shipBlock_zoom (top bot : Q) (e : Engine) :
  zoomInLimits (flowEngine (shipBlock top bot e)) = zoomInLimits e.
Proof. unfold shipBlock. keepz. Qed.

Lemma cubeBlock_zoom (top bot : Q) (e : Engine) :
  zoomInLimits (flowEngine (cubeBlock top bot e)) = zoomInLimits e.
Proof. unfold cubeBlock. keepz. Qed.

#[local] Hint Rewrite shipBlock_zoom cubeBlock_zoom : zoom.

Lemma collideBlock_zoom (obj : LevelObject) (e : Engine) :
  zoomInLimits (flowEngine (collideBlock obj e)) = zoomInLimits e.
Proof. unfold collideBlock. keepz. Qed.

Lemma collidePad_zoom (obj : LevelObject) (e : Engine) :
  zoomInLimits (collidePad obj e) = zoomInLimits e.
Proof. unfold collidePad. keepz. Qed.

Lemma collideOrb_zoom (a b : bool) (obj : LevelObject) (e : Engine) :
  zoomInLimits (collideOrb a b obj e) = zoomInLimits e.
Proof. unfold collideOrb. keepz. Qed.

Lemma collidePortal_zoom (obj : LevelObject) (e : Engine) :
  zoomInLimits (collidePortal obj e) = zoomInLimits e.
Proof. unfold collidePortal. keepz. Qed.

#[local] Hint Rewrite collideBlock_zoom collidePad_zoom collideOrb_zoom
  collidePortal_zoom : zoom.

Lemma collideObject_zoom (a b : bool) (r c : Q) (e : Engine) (obj : LevelObject) :
  zoomInLimits (flowEngine (collideObject a b r c e obj)) = zoomInLimits e.
Proof.
  unfold collideObject.
  destruct (if ObjectType_eqb (o_type obj) TRIGGER then o_triggerData obj else None).
  - keepz.
  - destruct (o_type obj); keepz.
Qed.

Lemma objectLoop_zoom (a b : bool) (r c : Q) (objs : list LevelObject) (e : Engine) :
  zoomInLimits (flowEngine (objectLoop a b r c objs e)) = zoomInLimits e.
Proof.
  revert e. induction objs as [| obj rest IH]; intros e; simpl; [reflexivity |].
  pose proof (collideObject_zoom a b r c e obj) as H.
  destruct (collideObject a b r c e obj) as [e' | e']; simpl in H.
  - now rewrite IH.
  - exact H.
Qed.

Lemma afterObjects_zoom (b : bool) (e : Engine) :
  zoomInLimits (afterObjects b e) = zoomInLimits e.
Proof. unfold afterObjects. keepz. Qed.

Lemma beforeObjects_zoom (e : Engine) :
  zoomInLimits (flowEngine (beforeObjects e)) = zoomInLimits e.
Proof.
  unfold beforeObjects.
  match goal with
  | |- context [if vehicle_is ?v CUBE then cubePhysics ?x else ?y] =>
      pose proof (cubePhysics_zoom x) as H;
      destruct (vehicle_is v CUBE); [destruct (cubePhysics x); simpl in H |]
  end; keepz; rewrite ?H; keepz.
Qed.

Lemma modeEffects_zoom (m : GameMode) (e : Engine) :
  zoomInLimits (modeEffects m e) = zoomInLimits e.
Proof. unfold modeEffects. keepz. Qed.

#[local] Hint Rewrite afterObjects_zoom modeEffects_zoom : zoom.

Lemma applyEffects_zoom (effs : list ColorEffect) (e : Engine) :
  zoomInLimits (fst (applyEffects effs e)) = zoomInLimits e.
Proof.
  revert e. induction effs as [| eff rest IH]; intros e; simpl; [reflexivity |].
  unfold applyEffect. destruct (interpolateColor _ _ _); [| reflexivity].
  rewrite IH. keepz.
Qed.

Lemma gameplayColors_zoom (e : Engine) :
  zoomInLimits (fst (gameplayColors e)) = zoomInLimits e.
Proof. unfold gameplayColors. rewrite applyEffects_zoom. keepz. Qed.

Lemma editorColors_zoom (w z : Q) (e : Engine) :
  zoomInLimits (fst (editorColors w z e)) = zoomInLimits e.
Proof. unfold editorColors. destruct (previewTriggers _ _ _); reflexivity. Qed.

Lemma animateBounds_zoom (e : Engine) :
  zoomInLimits (animateBounds e) = zoomInLimits e.
Proof. unfold animateBounds. keepz. Qed.

#[local] Hint Rewrite animateBounds_zoom : zoom.

Ltac break_match :=
  match goal with
  | |- context [match ?x with _ => _ end] => destruct x
  end.

Ltac keepz_all :=
  repeat first
    [ progress cbn [flowEngine fst]
    | progress autorewrite with zoom
    | break_match ];
  try reflexivity; try assumption.

Lemma zoomInLimits_set_zoom (x y z : Q) (e : Engine) :
  0.5 <= z -> z <= 2.5 -> zoomInLimits (set_camera (mkCamera x y z) e).
Proof.
  intros L U. unfold zoomInLimits. cbn [camera set_camera reduceCamera cam_zoom].
  rewrite Qred_correct. now split.
Qed.

Lemma zoomInLimits_keep_zoom (x y : Q) (e e' : Engine) :
  zoomInLimits e' = zoomInLimits e -> zoomInLimits e ->
  zoomInLimits (set_camera (mkCamera x y (cam_zoom (camera e'))) e').
Proof.
  intros E Z. rewrite <- E in Z. destruct Z as (L & U). now apply zoomInLimits_set_zoom.
Qed.

Lemma addToHistory_zoom (e : Engine) : zoomInLimits (addToHistory e) = zoomInLimits e.
Proof. unfold addToHistory. now destruct (50 <? _)%Z. Qed.

#[local] Hint Rewrite addToHistory_zoom : zoom.

Lemma resetPlayerInternal_zoom (forVerify : bool) (e : Engine) :
  zoomInLimits e -> zoomInLimits (resetPlayerInternal forVerify e).
Proof.
  intros Z. unfold resetPlayerInternal.
  match goal with
  | |- context [match ?s with pair _ _ => _ end] => destruct s as [[[? ?] ?] ?]
  end.
  repeat first [ progress autorewrite with zoom | break_if ];
    (apply (zoomInLimits_keep_zoom _ _ e); [keepz | exact Z]).
Qed.

Lemma handleModeChange_zoom (m : GameMode) (e : Engine) :
  zoomInLimits e -> zoomInLimits (handleModeChange m e).
Proof.
  intros Z. unfold handleModeChange, resetPlayer.
  repeat first [ progress autorewrite with zoom | break_if ];
    first [ exact Z | now apply resetPlayerInternal_zoom ].
Qed.

Lemma updatePhysics_zoom (e : Engine) : zoomInLimits e -> zoomInLimits (updatePhysics e).
Proof.
  intros Z. unfold updatePhysics, onModeChange.
  destruct (p_dead (player e)); [exact Z |].
  destruct (p_finished (player e) && GameMode_eqb (modeRef e) VERIFY).
  { repeat break_if; try exact Z; try apply handleModeChange_zoom;
      autorewrite with zoom; exact Z. }
  destruct (GameMode_eqb (modeRef e) VERIFY && Qltb (finishWallX e) (p_x (player e)));
    [now keepz |].
  pose proof (beforeObjects_zoom e) as Z1.
  destruct (beforeObjects e) as [e1 | e1]; cbn [flowEngine] in Z1; cbv iota;
    [| now rewrite Z1].
  match goal with
  | |- context [objectLoop ?a ?b ?r ?c ?l ?x] =>
      pose proof (objectLoop_zoom a b r c l x) as Z2;
      destruct (objectLoop a b r c l x) as [e2 | e2]; cbn [flowEngine] in Z2; cbv iota
  end.
  - now rewrite afterObjects_zoom, Z2, Z1.
  - now rewrite Z2, Z1.
Qed.

Lemma moveCamera_zoom (m : GameMode) (w h z : Q) (e : Engine) :
  zoomInLimits e -> zoomInLimits (moveCamera m w h z e).
Proof.
  intros Z. unfold moveCamera. cbv zeta.
  repeat break_if; now apply (zoomInLimits_keep_zoom _ _ e).
Qed.

Lemma update_zoom (e : Engine) : zoomInLimits e -> zoomInLimits (update e).
Proof.
  intros Z. unfold update.
  set (e1 := if _ || _ then set_camera _ e else e).
  assert (Z1 : zoomInLimits e1).
  { subst e1. break_if; [| exact Z]. apply zoomInLimits_set_zoom; lra. }
  set (e2 := if _ && pendingReset e1 then _ else e1).
  assert (Z2 : zoomInLimits e2).
  { subst e2. break_if; [| exact Z1]. apply resetPlayerInternal_zoom. now keepz. }
  clearbody e2. clear Z1. clearbody e1.
  match goal with
  | |- context [match ?s with pair _ _ => _ end] =>
      assert (Z3 : zoomInLimits (fst s));
      [| destruct s as [e3 thrown]; cbn [fst] in Z3; destruct thrown ]
  end.
  - repeat break_if; cbn [fst];
      rewrite ?editorColors_zoom, ?gameplayColors_zoom; now keepz.
  - now keepz.
  - apply moveCamera_zoom. break_if; [now apply updatePhysics_zoom | exact Z3].
Qed.

Lemma restoreState_zoom (s : option StateJson) (e : Engine) :
  zoomInLimits (restoreState s e) = zoomInLimits e.
Proof. unfold restoreState. destruct s as [[| | |] |]; reflexivity. Qed.

#[local] Hint Rewrite restoreState_zoom : zoom.

Lemma moveSelectionInternal_zoom (dx dy : Q) (e : Engine) :
  zoomInLimits (moveSelectionInternal dx dy e) = zoomInLimits e.
Proof.
  unfold moveSelectionInternal.
  destruct (fold_left _ _ (_, false)) as [m moved]. destruct moved; keepz.
Qed.

Lemma handleEditorClick_zoom (ev : MouseEvt) (isDrag : bool) (newId : string) (e : Engine) :
  zoomInLimits (handleEditorClick ev isDrag newId e) = zoomInLimits e.
Proof.
  unfold handleEditorClick.
  set (e1 := if isPastedSelection e then set_isPastedSelection false e else e).
  assert (Z1 : zoomInLimits e1 = zoomInLimits e) by (subst e1; now break_if).
  rewrite <- Z1. clearbody e1.
  destruct (ObjectType_eqb (fst (selectedToolRef e1)) TOOL).
  - destruct (boxSelectStart e1); keepz.
  - destruct (ObjectType_eqb (fst (selectedToolRef e1)) DELETE).
    + destruct (isDrag && _); [reflexivity |]. destruct (findLastIndex _ _); keepz.
    + destruct (ObjectType_eqb (fst (selectedToolRef e1)) START_POS && _); [reflexivity |].
      destruct (_ || _); keepz.
Qed.

#[local] Hint Rewrite moveSelectionInternal_zoom handleEditorClick_zoom : zoom.

Lemma onKeyDown_zoom (ev : KeyEvt) (gen : nat -> string) (e : Engine) :
  zoomInLimits (onKeyDown ev gen e) = zoomInLimits e.
Proof.
  unfold onKeyDown, undo, redo, copySelection, pasteSelection.
  set (e1 := set_keys (set_add (keys e) (code ev)) e).
  assert (Z1 : zoomInLimits e1 = zoomInLimits e) by reflexivity.
  rewrite <- Z1. clearbody e1.
  destruct (inEditorOrPaused (modeRef e1)); [| reflexivity].
  match goal with
  | |- zoomInLimits (match selectedObjects ?x with _ => _ end) = _ =>
      set (e2 := x); assert (Z2 : zoomInLimits e2 = zoomInLimits e1)
  end.
  { subst e2. keepz_all. }
  rewrite <- Z2. clearbody e2. destruct (selectedObjects e2); [reflexivity |].
  match goal with
  | |- context [match ?s with pair _ _ => _ end] => destruct s as [dx dy]
  end.
  break_if; keepz.
Qed.

Lemma Math_min_le (x y : Q) : Math_min x y <= x /\ Math_min x y <= y.
Proof.
  unfold Math_min. destruct (Qle_bool x y) eqn:E.
  - apply Qle_bool_iff in E. split; [apply Qle_refl | exact E].
  - split; [| apply Qle_refl]. apply Qlt_le_weak, Qnot_le_lt. intros L.
    apply Qle_bool_iff in L. congruence.
Qed.

Lemma Math_max_lub (x y z : Q) : x <= z -> y <= z -> Math_max x y <= z.
Proof. intros X Y. unfold Math_max. now break_if. Qed.

Lemma onWheel_zoom (deltaY : Q) (e : Engine) : zoomInLimits e -> zoomInLimits (onWheel deltaY e).
Proof.
  intros Z. unfold onWheel. break_if; [| exact Z]. apply zoomInLimits_set_zoom.
  - apply (Math_max_le 0.5).
  - apply Math_max_lub; [lra | apply Math_min_le].
Qed.

Lemma step_zoom (op : Op) (e : Engine) : zoomInLimits e -> zoomInLimits (step op e).
Proof.
  intros Z. destruct op; simpl step.
  - break_if; [now apply update_zoom | exact Z].
  - now rewrite onKeyDown_zoom.
  - exact Z.
  - unfold onMouseDown. now keepz.
  - unfold onMouseUp. now keepz.
  - unfold onMouseMove. cbv zeta.
    repeat first [ progress autorewrite with zoom | break_if ]; try exact Z.
    apply (zoomInLimits_keep_zoom _ _ e); [keepz | exact Z].
  - now apply onWheel_zoom.
  - exact Z.
  - unfold setLevel. destruct keepHistory, data; now keepz.
  - unfold updateSettings. now keepz.
  - unfold updateSelectedTrigger. now keepz_all.
  - unfold updateSelectedStartPos. now keepz_all.
  - now rewrite moveSelectionInternal_zoom.
  - unfold rotateSelection. now keepz_all.
  - unfold deleteSelection. now keepz.
  - exact Z.
  - unfold clearLevel. now keepz.
  - unfold duplicateSelection, pasteSelection, copySelection. now keepz_all.
  - now apply resetPlayerInternal_zoom.
  - unfold undo. now keepz.
  - unfold redo. now keepz.
  - now apply handleModeChange_zoom.
  - unfold onRestartVerify, resetPlayer. break_if; autorewrite with zoom;
      now apply resetPlayerInternal_zoom.
  - exact Z.
  - unfold deathTimeout, onModeChange. destruct (deathTimers e); [exact Z |].
    repeat break_if; autorewrite with zoom;
      first [ exact Z | apply resetPlayerInternal_zoom | apply handleModeChange_zoom ];
      now keepz.
Qed.

(** X20: whatever the operations, the zoom of the camera stays between 0.5
    and 2.5, the limits of the mouse wheel; in particular it is never zero
    where the editor divides by it. *)
Theorem zoom_stays_in_limits (innerWidth innerHeight : Q) (ops : list Op) :
  let e := run ops (mountedEngine innerWidth innerHeight) in
  0.5 <= cam_zoom (camera e) /\ cam_zoom (camera e) <= 2.5.
Proof.
  intros e. subst e. induction ops as [| op ops IH] using rev_ind.
  - simpl. split; lra.
  - rewrite run_snoc. now apply step_zoom.
Qed.

(** ** Importing and exporting *)

Lemma sanitizeObject_fields (o : LevelObject) :
  o_id (sanitizeObject o) = o_id o /\ o_x (sanitizeObject o) = o_x o
  /\ o_y (sanitizeObject o) = o_y o /\ o_type (sanitizeObject o) = o_type o
  /\ o_subtype (sanitizeObject o) = o_subtype o
  /\ o_triggerData (sanitizeObject o) = o_triggerData o
  /\ o_startPosData (sanitizeObject o) = o_startPosData o.
Proof. unfold sanitizeObject. repeat break_if; repeat split. Qed.

Lemma sanitizeObject_clean (o : LevelObject) :
  importKeeps o = true -> importClean (sanitizeObject o).
Proof.
  intros K. destruct (sanitizeObject_fields o) as (_ & Ex & _ & Et & _).
  unfold importClean. rewrite Ex, Et. unfold importKeeps in K.
  split; [| split]; intros T; rewrite T in K.
  - simpl in K. apply negb_true_iff in K. now apply Qltb_ge in K.
  - unfold sanitizeObject. rewrite T. destruct o; cbn in *. subst. reflexivity.
  - unfold sanitizeObject. rewrite T. destruct o; cbn in *. subst. cbn.
    unfold Math_round. now eexists.
Qed.

Lemma snap_fixed (k : Z) :
  Math_round (num_or (Some (inject_Z k * 90)) 0 / 90) * 90 = inject_Z k * 90.
Proof.
  unfold num_or. destruct (Qeq_bool (inject_Z k * 90) 0) eqn:E.
  - apply Qeq_bool_iff in E.
    assert (K : k = 0%Z).
    { unfold Qeq, inject_Z in E. simpl in E. lia. }
    subst k. reflexivity.
  - unfold Math_round. rewrite (Qfloor_unique _ k); [reflexivity | |];
      assert (H : inject_Z k * 90 / 90 == inject_Z k) by (field; lra); rewrite H; lra.
Qed.

Lemma clean_fixed (o : LevelObject) :
  importClean o -> importKeeps o = true /\ sanitizeObject o = o.
Proof.
  intros (S & T & B). split.
  - unfold importKeeps. destruct (ObjectType_eqb (o_type o) START_POS) eqn:E; [| reflexivity].
    apply ObjectType_eqb_eq in E. specialize (S E). simpl.
    apply negb_true_iff. now apply Qltb_ge.
  - unfold sanitizeObject. destruct o as [id x y t st rot td sp]. cbn in *.
    destruct t; cbn; try reflexivity.
    + destruct (B eq_refl) as (k & ->). cbn [o_rotation].
      rewrite snap_fixed. reflexivity.
    + now rewrite (T eq_refl).
Qed.

Lemma sanitizeObjects_clean (objs : list LevelObject) :
  Forall importClean (sanitizeObjects objs).
Proof.
  unfold sanitizeObjects. apply Forall_forall. intros o I.
  apply in_map_iff in I. destruct I as (o0 & <- & I0). apply filter_In in I0.
  now apply sanitizeObject_clean.
Qed.

Lemma sanitizeObjects_fixed (objs : list LevelObject) :
  Forall importClean objs -> sanitizeObjects objs = objs.
Proof.
  unfold sanitizeObjects. induction 1 as [| o objs C _ IH]; [reflexivity |].
  destruct (clean_fixed o C) as (K & S). simpl. rewrite K. simpl. now rewrite S, IH.
Qed.

Lemma handleImport_levelData (data : ImportData) (e : Engine) :
  levelData (handleImport data e)
  = sanitizeObjects match data with
                    | ImpArray objects => objects
                    | ImpObject (Some objects) _ => objects
                    | _ => []
                    end.
Proof. unfold handleImport, setLevel. now rewrite addToHistory_levelData. Qed.

(** X22: whatever is imported, the level that results holds no StartPos
    left of x = 0, only unrotated Triggers and only Blocks turned by a
    multiple of 90; every object of it is an object of the data with at most
    its rotation changed; data that already has these properties is taken as
    it is; and the selection is empty afterwards. *)
Theorem import_is_sanitised (data : ImportData) (e : Engine) :
  let objects := match data with
                 | ImpArray objects => objects
                 | ImpObject (Some objects) _ => objects
                 | _ => []
                 end in
  let e' := handleImport data e in
  (forall o', In o' (levelData e') ->
     (o_type o' = START_POS -> 0 <= o_x o')
     /\ (o_type o' = TRIGGER -> o_rotation o' = Some 0)
     /\ (o_type o' = BLOCK -> exists k : Z, o_rotation o' = Some (inject_Z k * 90))
     /\ exists o, In o objects /\ o_id o' = o_id o /\ o_x o' = o_x o /\ o_y o' = o_y o
                  /\ o_type o' = o_type o /\ o_subtype o' = o_subtype o
                  /\ o_triggerData o' = o_triggerData o
                  /\ o_startPosData o' = o_startPosData o)
  /\ (Forall importClean objects -> levelData e' = objects)
  /\ selectedObjects e' = [].
Proof.
  intros objects e'. subst e'. rewrite handleImport_levelData. fold objects.
  split; [| split].
  - intros o' I. pose proof (sanitizeObjects_clean objects) as C.
    rewrite Forall_forall in C. destruct (C o' I) as (S & T & B).
    split; [exact S | split; [exact T | split; [exact B |]]].
    unfold sanitizeObjects in I. apply in_map_iff in I. destruct I as (o & <- & I0).
    apply filter_In in I0. exists o. split; [apply I0 | apply sanitizeObject_fields].
  - apply sanitizeObjects_fixed.
  - unfold handleImport. apply setLevel_selection.
Qed.

Lemma mergeSettings_complete (s : LevelSettings) :
  completeSettings s -> mergeSettings DEFAULT_LEVEL_SETTINGS (asPartial s) = s.
Proof.
  intros (A & B & C & D & E). destruct s as [a b c d m g]. cbn in *.
  unfold mergeSettings, asPartial, spread. cbn.
  destruct a, b, c, d, g; try contradiction; reflexivity.
Qed.

(** X23: exporting a level and importing the exported text gives the same
    document, objects and settings, whatever the state it is imported into,
    provided the level holds nothing the import would change (no StartPos left
    of x = 0, unrotated Triggers, Blocks turned by multiples of 90) and every
    colour of its settings is defined. *)
Theorem export_import_round_trip (e e0 : Engine) :
  Forall importClean (levelData e) -> completeSettings (levelSettings e) ->
  document (handleImport (exportedLevel e) e0) = document e.
Proof.
  intros C S. unfold document. rewrite handleImport_levelData.
  unfold exportedLevel, getLevel. cbn [fst snd].
  rewrite (sanitizeObjects_fixed _ C). f_equal.
  unfold handleImport, setLevel. rewrite addToHistory_levelSettings.
  cbn [levelSettings set_isPastedSelection set_selectedObjects set_displaySettings
       set_levelSettings]. now apply mergeSettings_complete.
Qed.

(** X24: in every reachable state an import can be taken back: one undo
    after it restores the document of before the import. *)
Theorem import_can_be_undone (innerWidth innerHeight : Q) (ops : list Op)
    (data : ImportData) :
  let e := run ops (mountedEngine innerWidth innerHeight) in
  document (undo (handleImport data e)) = document e.
Proof.
  intros e. unfold handleImport, setLevel.
  match goal with
  | |- document (undo (addToHistory ?x)) = _ =>
      apply (undo_after_snapshot e x (addToHistory x))
  end; try reflexivity. apply run_inStep.
Qed.

(** ** Playing leaves the level alone *)

Lemma docHist_parts (e e' : Engine) :
  docHist e' = docHist e ->
  document e' = document e /\ history e' = history e /\ historyIndex e' = historyIndex e.
Proof. unfold docHist, document. intros H. injection H as -> -> -> ->. auto. Qed.

Lemma onKeyDown_playing (ev : KeyEvt) (gen : nat -> string) (e : Engine) :
  inEditorOrPaused (modeRef e) = false -> docHist (onKeyDown ev gen e) = docHist e.
Proof. intros M. unfold onKeyDown. cbn [modeRef set_keys]. rewrite M. now frame. Qed.

Lemma onMouseDown_playing (ev : MouseEvt) (newId : string) (e : Engine) :
  inEditorOrPaused (modeRef e) = false -> docHist (onMouseDown ev newId e) = docHist e.
Proof.
  intros M. unfold onMouseDown.
  cbn [modeRef set_mouseIsDown set_mouseX set_mouseY set_lastDeletePos]. rewrite M. now frame.
Qed.

Lemma onMouseUp_playing (ev : MouseEvt) (newId : string) (e : Engine) :
  inEditorOrPaused (modeRef e) = false -> docHist (onMouseUp ev newId e) = docHist e.
Proof.
  intros M. unfold onMouseUp. destruct (button ev =? 2)%Z;
    cbn [modeRef set_mouseIsDown set_mouseIsRightDown]; rewrite M; cbn [andb]; now frame.
Qed.

Lemma onMouseMove_playing (ev : MouseEvt) (newId : string) (e : Engine) :
  inEditorOrPaused (modeRef e) = false -> docHist (onMouseMove ev newId e) = docHist e.
Proof.
  intros M. unfold onMouseMove. cbn [modeRef set_mouseX set_mouseY mouseIsRightDown mouseIsDown
    selectedToolRef camera]. rewrite M. rewrite andb_false_r. cbn [orb]. now frame.
Qed.

(** X25: playing never edits.  A frame, a mode change, a reset, a restart,
    the callback of a death, a tool choice, a resize, the wheel and a released
    key leave the objects, the settings, the history and the history index as
    they are in every mode; so do a pressed key and every mouse event unless
    the mode is the editor or the paused playtest. *)
Theorem play_keeps_document (op : Op) (e : Engine) :
  editorCall op = false ->
  (inputEvent op = true -> inEditorOrPaused (modeRef e) = false) ->
  document (step op e) = document e
  /\ history (step op e) = history e
  /\ historyIndex (step op e) = historyIndex e.
Proof.
  intros C I. apply docHist_parts.
  destruct op; try discriminate C; cbn [step].
  - destruct (loopRunning e); [apply update_docHist | reflexivity].
  - now apply onKeyDown_playing, I.
  - unfold onKeyUp. now frame.
  - now apply onMouseDown_playing, I.
  - now apply onMouseUp_playing, I.
  - now apply onMouseMove_playing, I.
  - unfold onWheel. now frame.
  - unfold resize. now frame.
  - unfold deselectAll. now frame.
  - apply resetPlayerInternal_docHist.
  - apply handleModeChange_docHist.
  - apply onRestartVerify_docHist.
  - unfold handleToolSelect. now frame.
  - apply deathTimeout_docHist.
Qed.

(** X26: a level loaded without [keepHistory], as [App] loads the saved one
    at start, becomes the only entry of the history: the index is 0, and undo
    and redo change nothing after it. *)
Theorem load_resets_history (data : LevelInput) (e : Engine) :
  let e' := setLevel data false e in
  history e' = [ JsonState (levelSettings e') (levelData e') ]
  /\ historyIndex e' = 0%Z
  /\ undo e' = e' /\ redo e' = e'
  /\ selectedObjects e' = [].
Proof.
  cbv zeta. unfold setLevel. cbv iota.
  repeat match goal with |- _ /\ _ => split end;
    destruct data as [objects | objects [s |] |]; reflexivity.
Qed.

(** ** The end of a verify run *)

Lemma enter_wall (e : Engine) :
  modeRef e = VERIFY -> p_dead (player e) = false -> p_finished (player e) = false ->
  finishWallX e < p_x (player e) ->
  shrinking (p_w (player e)) 0 (updatePhysics e).
Proof.
  intros M D F W. apply Qltb_lt in W. unfold updatePhysics. rewrite D, F, M, W. cbn.
  unfold shrinking. cbn. rewrite M. repeat split; assumption.
Qed.

Lemma shrink_step (w : Q) (k : nat) (e : Engine) :
  shrinking w k e -> 1 <= shrunkWidth w (S k) -> shrinking w (S k) (updatePhysics e).
Proof.
  intros (M & D & F & S & W) L. cbn [shrunkWidth] in L.
  assert (N : Qltb (Qred (p_w (player e) * 0.9)) 1 = false).
  { apply Qltb_ge. rewrite Qred_correct, W. exact L. }
  unfold updatePhysics. rewrite D, F, M, S. cbn -[Qred Qltb Qmult Qplus Qminus]. rewrite N.
  unfold shrinking. cbn -[Qred Qltb Qmult Qplus Qminus]. rewrite M, D, F, S.
  repeat match goal with |- _ /\ _ => split end; try reflexivity.
  rewrite Qred_correct, W. reflexivity.
Qed.

Lemma shrink_last (w : Q) (k : nat) (e : Engine) :
  shrinking w k e -> shrunkWidth w (S k) < 1 -> modeRef (updatePhysics e) = COMPLETE.
Proof.
  intros (M & D & F & S & W) L. cbn [shrunkWidth] in L.
  assert (N : Qltb (Qred (p_w (player e) * 0.9)) 1 = true).
  { apply Qltb_lt. rewrite Qred_correct, W. exact L. }
  unfold updatePhysics. rewrite D, F, M, S. cbn -[Qred Qltb Qmult Qplus Qminus]. rewrite N.
  unfold onModeChange, handleModeChange. cbn -[Qred Qltb Qmult Qplus Qminus].
  rewrite M. reflexivity.
Qed.

Lemma shrunkWidth_earlier (w : Q) (n k : nat) :
  (k <= n)%nat -> 1 <= shrunkWidth w n -> 1 <= shrunkWidth w k.
Proof.
  induction 1 as [| n _ IH]; [auto |]. intros L. apply IH. cbn [shrunkWidth] in L. lra.
Qed.

Lemma shrinking_frames (n k : nat) (e : Engine) :
  modeRef e = VERIFY -> p_dead (player e) = false -> p_finished (player e) = false ->
  finishWallX e < p_x (player e) ->
  1 <= shrunkWidth (p_w (player e)) n -> (k <= n)%nat ->
  shrinking (p_w (player e)) k (physicsFrames (S k) e).
Proof.
  intros M D F W L. induction k as [| k IH]; intros K.
  - now apply enter_wall.
  - change (physicsFrames (S (S k)) e) with (updatePhysics (physicsFrames (S k) e)).
    apply shrink_step; [apply IH; lia |]. now apply (shrunkWidth_earlier _ n).
Qed.

(** X27: a verify run ends.  Once the live player is past the finish wall,
    the first frame of the physics takes it into the wall and every later one
    shrinks it by a tenth; while the width is at least 1 the run stays in
    verify mode with a live player, and the frame that takes the width below 1
    reports the level complete.  With the width 36 of every player this is the
    frame 36. *)
Theorem verify_run_completes (n : nat) (e : Engine) :
  modeRef e = VERIFY -> p_dead (player e) = false -> p_finished (player e) = false ->
  finishWallX e < p_x (player e) ->
  1 <= shrunkWidth (p_w (player e)) n -> shrunkWidth (p_w (player e)) (S n) < 1 ->
  (forall k, (k <= S n)%nat ->
     modeRef (physicsFrames k e) = VERIFY /\ p_dead (player (physicsFrames k e)) = false)
  /\ (forall k, (1 <= k <= S n)%nat ->
        p_w (player (physicsFrames k e)) == shrunkWidth (p_w (player e)) (k - 1))
  /\ modeRef (physicsFrames (S (S n)) e) = COMPLETE.
Proof.
  intros M D F W L H. split; [| split].
  - intros [| k] K; [now split |].
    destruct (shrinking_frames n k e M D F W L ltac:(lia)) as (M' & D' & _). now split.
  - intros [| k] K; [lia |]. replace (S k - 1)%nat with k by lia.
    apply (shrinking_frames n k e M D F W L ltac:(lia)).
  - change (physicsFrames (S (S n)) e) with (updatePhysics (physicsFrames (S n) e)).
    apply (shrink_last (p_w (player e)) n); [| exact H].
    now apply (shrinking_frames n n e).
Qed.

(** ** The selection box *)

Lemma set_delete_iff (s : list string) (k id : string) :
  In id (set_delete s k) <-> In id s /\ id <> k.
Proof.
  unfold set_delete. rewrite filter_In, negb_true_iff, String.eqb_neq.
  split; intros (I & N); (split; [exact I | congruence]).
Qed.

Lemma box_fold_iff (test : LevelObject -> bool) (objs : list LevelObject)
    (sel : list string) (id : string) :
  In id (fold_left (fun sel o => if test o then set_add sel (o_id o) else sel) objs sel)
  <-> In id sel \/ exists o, In o objs /\ o_id o = id /\ test o = true.
Proof.
  revert sel. induction objs as [| o objs IH]; intros sel; simpl.
  - split; [auto | intros [I | (o & [] & _)]; exact I].
  - rewrite IH. destruct (test o) eqn:T.
    + rewrite set_add_In. split.
      * intros [[I | ->] | (o' & I & E & T')]; eauto 6.
      * intros [I | (o' & [-> | I] & E & T')]; eauto 6.
    + split.
      * intros [I | (o' & I & E & T')]; eauto 6.
      * intros [I | (o' & [-> | I] & E & T')]; [auto | congruence | eauto 6].
Qed.

Lemma between_test (a b c : Q) :
  Qle_bool (Math_min a b) c && Qle_bool c (Math_max a b) = true <-> between a b c.
Proof.
  rewrite andb_true_iff, !Qle_bool_iff. unfold between, Math_min, Math_max.
  destruct (Qle_bool a b) eqn:E.
  - apply Qle_bool_iff in E. split; [auto | intros [H | H]; split; lra].
  - assert (b < a) by (apply Qltb_lt; unfold Qltb; now rewrite E).
    split; [auto | intros [H' | H']; split; lra].
Qed.

Lemma box_test (start : Point) (w : Q * Q) (o : LevelObject) :
  Qle_bool (Math_min (pt_x start) (fst w)) (o_x o * TILE_SIZE + TILE_SIZE / 2)
  && Qle_bool (o_x o * TILE_SIZE + TILE_SIZE / 2) (Math_max (pt_x start) (fst w))
  && Qle_bool (Math_min (pt_y start) (snd w)) (o_y o * TILE_SIZE + TILE_SIZE / 2)
  && Qle_bool (o_y o * TILE_SIZE + TILE_SIZE / 2) (Math_max (pt_y start) (snd w)) = true
  <-> centreInBox start w o.
Proof.
  unfold centreInBox. rewrite <- !between_test, <- andb_assoc. now rewrite andb_true_iff.
Qed.

Lemma click_test (start : Point) (w : Q * Q) :
  Qltb (Math_abs (fst w - pt_x start)) 10 && Qltb (Math_abs (snd w - pt_y start)) 10 = true
  <-> isClick start w.
Proof. unfold isClick, Math_abs. now rewrite andb_true_iff, !Qltb_lt. Qed.

(** X28: releasing the mouse with the select tool.  The document is left
    alone and the box is closed.  After a drag the selection holds exactly the
    objects whose tile centre lies in the box, together with the earlier
    selection when shift is held.  After a click (less than 10 units in both
    directions) the first object of the document whose tile holds the pointer
    is toggled, and with no object there the selection is emptied, or kept
    when shift is held. *)
Theorem box_selection (ev : MouseEvt) (isDrag : bool) (newId : string) (e : Engine)
    (start : Point) :
  fst (selectedToolRef e) = TOOL -> boxSelectStart e = Some start ->
  let w := worldPoint ev e in
  let kept := if shiftKey ev then selectedObjects e else [] in
  let e' := handleEditorClick ev isDrag newId e in
  document e' = document e /\ history e' = history e /\ boxSelectStart e' = None
  /\ (~ isClick start w ->
      forall id, In id (selectedObjects e')
                 <-> In id kept \/ exists o, In o (levelData e) /\ o_id o = id
                                             /\ centreInBox start w o)
  /\ (isClick start w ->
      (js_find (underPointer w) (levelData e) = None -> selectedObjects e' = kept)
      /\ (forall o, js_find (underPointer w) (levelData e) = Some o ->
            (In (o_id o) kept ->
             forall id, In id (selectedObjects e') <-> In id kept /\ id <> o_id o)
            /\ (~ In (o_id o) kept -> selectedObjects e' = kept ++ [ o_id o ]))).
Proof.
  intros T B w kept e'.
  assert (E : e' = set_boxSelectStart None
                     (set_selectedObjects
                        (if Qltb (Math_abs (fst w - pt_x start)) 10
                            && Qltb (Math_abs (snd w - pt_y start)) 10
                         then match js_find (underPointer w) (levelData e) with
                              | Some clicked =>
                                  if set_has kept (o_id clicked)
                                  then set_delete kept (o_id clicked)
                                  else set_add kept (o_id clicked)
                              | None => kept
                              end
                         else fold_left
                                (fun sel o =>
                                   if Qle_bool (Math_min (pt_x start) (fst w))
                                        (o_x o * TILE_SIZE + TILE_SIZE / 2)
                                      && Qle_bool (o_x o * TILE_SIZE + TILE_SIZE / 2)
                                           (Math_max (pt_x start) (fst w))
                                      && Qle_bool (Math_min (pt_y start) (snd w))
                                           (o_y o * TILE_SIZE + TILE_SIZE / 2)
                                      && Qle_bool (o_y o * TILE_SIZE + TILE_SIZE / 2)
                                           (Math_max (pt_y start) (snd w))
                                   then set_add sel (o_id o) else sel)
                                (levelData e) kept)
                        (clearPasted e))).
  { subst e' kept w. unfold handleEditorClick, clearPasted, worldPoint, underPointer.
    destruct (isPastedSelection e);
      cbn [selectedToolRef set_isPastedSelection camera boxSelectStart levelData
           selectedObjects fst snd];
      rewrite T, B; cbn [ObjectType_eqb ObjectType_code Z.eqb]; cbv iota;
      destruct (shiftKey ev); reflexivity. }
  rewrite E. clear E e'.
  assert (D : forall s, levelData (set_boxSelectStart None (set_selectedObjects s (clearPasted e)))
                        = levelData e)
    by (intros s; unfold clearPasted; now destruct (isPastedSelection e)).
  split; [| split; [| split; [| split]]].
  - unfold document, clearPasted. now destruct (isPastedSelection e).
  - unfold clearPasted. now destruct (isPastedSelection e).
  - reflexivity.
  - intros N id. cbn [selectedObjects set_boxSelectStart set_selectedObjects].
    destruct (Qltb (Math_abs (fst w - pt_x start)) 10
              && Qltb (Math_abs (snd w - pt_y start)) 10) eqn:C.
    + apply click_test in C. contradiction.
    + rewrite box_fold_iff. split.
      * intros [I | (o & I & Ei & Tt)]; [now left |]. right. exists o.
        split; [exact I | split; [exact Ei | now apply box_test]].
      * intros [I | (o & I & Ei & Tt)]; [now left |]. right. exists o.
        split; [exact I | split; [exact Ei | now apply box_test]].
  - intros C. apply click_test in C.
    cbn [selectedObjects set_boxSelectStart set_selectedObjects]. rewrite C. split.
    + now intros ->.
    + intros o ->. split.
      * intros I id. apply set_has_In in I. rewrite I. apply set_delete_iff.
      * intros N. destruct (set_has kept (o_id o)) eqn:H.
        -- apply set_has_In in H. contradiction.
        -- unfold set_add. now rewrite H.
Qed.

(** ** The data of the selected trigger and start position *)

Lemma findIndex_none {A : Type} (f : A -> bool) (l : list A) :
  (forall a, In a l -> f a = false) -> findIndex f l = None.
Proof.
  induction l as [| a l IH]; intros H; simpl; [reflexivity |].
  rewrite (H a (or_introl eq_refl)), IH; [reflexivity |]. intros b I. apply H. now right.
Qed.

Lemma findIndex_first {A : Type} (f : A -> bool) (pre post : list A) (a : A) :
  (forall b, In b pre -> f b = false) -> f a = true ->
  findIndex f (pre ++ a :: post) = Some (List.length pre).
Proof.
  intros H T. induction pre as [| b pre IH]; simpl; [now rewrite T |].
  rewrite (H b (or_introl eq_refl)), IH; [reflexivity |]. intros c I. apply H. now right.
Qed.

Lemma nth_error_middle {A : Type} (pre post : list A) (a : A) :
  nth_error (pre ++ a :: post) (List.length pre) = Some a.
Proof. induction pre as [| b pre IH]; simpl; auto. Qed.

Lemma array_set_middle {A : Type} (pre post : list A) (a v : A) :
  array_set (pre ++ a :: post) (List.length pre) v = pre ++ v :: post.
Proof. induction pre as [| b pre IH]; simpl; [reflexivity | now rewrite IH]. Qed.

Lemma hasId_none (id : option string) (l : list LevelObject) :
  (forall o, In o l -> Some (o_id o) <> id) -> forall o, In o l -> hasId id o = false.
Proof.
  intros H o I. destruct id as [id |]; [| reflexivity]. simpl.
  apply String.eqb_neq. intros E. apply (H o I). now rewrite E.
Qed.

(** X29: [updateSelectedTrigger] and [updateSelectedStartPos] act on the
    first object of the document that carries the first selected id.  With
    nothing selected, or with no object of that id, they change nothing and
    record no snapshot.  Otherwise that one object gets the given data merged
    over its own, every other object, the settings and the selection stay as
    they are, and one snapshot is recorded. *)
Theorem selected_object_gets_data (tdata : TriggerData) (sdata : StartPosData) (e : Engine) :
  ((forall o, In o (levelData e) -> Some (o_id o) <> firstSelected e) ->
   updateSelectedTrigger tdata e = e /\ updateSelectedStartPos sdata e = e)
  /\ (forall pre obj post,
        levelData e = pre ++ obj :: post ->
        firstSelected e = Some (o_id obj) ->
        (forall o, In o pre -> o_id o <> o_id obj) ->
        let t := updateSelectedTrigger tdata e in
        let s := updateSelectedStartPos sdata e in
        levelData t
        = pre ++ set_o_triggerData (Some (mergeTriggerData (o_triggerData obj) tdata)) obj
              :: post
        /\ levelData s
           = pre ++ set_o_startPosData (Some (mergeStartPosData (o_startPosData obj) sdata)) obj
                 :: post
        /\ levelSettings t = levelSettings e /\ levelSettings s = levelSettings e
        /\ selectedObjects t = selectedObjects e /\ selectedObjects s = selectedObjects e
        /\ array_get (history t) (historyIndex t) = Some (getCurrentState t)
        /\ array_get (history s) (historyIndex s) = Some (getCurrentState s)).
Proof.
  split.
  - intros N. unfold updateSelectedTrigger, updateSelectedStartPos.
    rewrite (findIndex_none _ _ (hasId_none _ _ N)). now split.
  - intros pre obj post L F N t s. subst t s.
    assert (I : findIndex (hasId (firstSelected e)) (levelData e) = Some (List.length pre)).
    { rewrite L, F. apply findIndex_first.
      - intros b B. simpl. apply String.eqb_neq. now apply N.
      - simpl. apply String.eqb_refl. }
    unfold updateSelectedTrigger, updateSelectedStartPos. rewrite I, L, nth_error_middle.
    rewrite !array_set_middle, !addToHistory_levelData, !addToHistory_levelSettings,
      !addToHistory_selectedObjects.
    repeat match goal with |- _ /\ _ => split end; try reflexivity.
    + match goal with
      | |- array_get (history (addToHistory ?x)) _ = _ =>
          destruct (addToHistory_atTip x) as (_ & _ & H); exact H
      end.
    + match goal with
      | |- array_get (history (addToHistory ?x)) _ = _ =>
          destruct (addToHistory_atTip x) as (_ & _ & H); exact H
      end.
Qed.

(** ** Gravity, the floor and the ceiling *)



Ltac to_order :=
  repeat match goal with
    | H : Qltb _ _ = true |- _ => apply Qltb_lt in H
    | H : Qltb _ _ = false |- _ => apply Qltb_ge in H
    | H : Qle_bool _ _ = true |- _ => apply Qle_bool_iff in H
    | H : Qle_bool ?x ?y = false |- _ =>
        assert (y < x) by (apply Qltb_lt; unfold Qltb; now rewrite H); clear H
    end.





(** ** The mouse wheel *)

(** X21: in the editor and while a playtest is paused, the mouse wheel
    leaves the zoom between 0.5 and 2.5 whatever it was before; turning it
    down (a delta that is not negative) never zooms in and turning it up never
    zooms out, for a zoom within the limits; and it changes neither the
    document nor the selection.  In the other modes the wheel does nothing. *)
Theorem wheel_zoom_is_clamped (deltaY : Q) (e : Engine) :
  (inEditorOrPaused (modeRef e) = true ->
   let e' := onWheel deltaY e in
   0.5 <= cam_zoom (camera e') /\ cam_zoom (camera e') <= 2.5
   /\ (0 <= deltaY -> 0.5 <= cam_zoom (camera e) ->
       cam_zoom (camera e') <= cam_zoom (camera e))
   /\ (deltaY <= 0 -> cam_zoom (camera e) <= 2.5 ->
       cam_zoom (camera e) <= cam_zoom (camera e'))
   /\ document e' = document e /\ selectedObjects e' = selectedObjects e)
  /\ (inEditorOrPaused (modeRef e) = false -> onWheel deltaY e = e).
Proof.
  split; intros M; [intros e'; subst e' |]; unfold onWheel; rewrite M; [| reflexivity].
  unfold document.
  cbn [camera set_camera reduceCamera cam_zoom cam_x cam_y levelData levelSettings
       selectedObjects].
  rewrite !Qred_correct. unfold Math_max, Math_min.
  destruct (Qle_bool (cam_zoom (camera e) - deltaY * 0.001) 2.5) eqn:E1.
  - destruct (Qle_bool 0.5 (cam_zoom (camera e) - deltaY * 0.001)) eqn:E2;
      to_order; repeat match goal with |- _ /\ _ => split end;
      intros; try reflexivity; lra.
  - change (Qle_bool 0.5 2.5) with true. cbv iota.
    to_order; repeat match goal with |- _ /\ _ => split end;
      intros; try reflexivity; lra.
Qed.

(** ** C10: trigger data stays on Triggers *)

Lemma triggerData_ext (e e' : Engine) :
  stock e' = stock e -> triggerDataOnTriggers e -> triggerDataOnTriggers e'.
Proof.
  unfold stock, docHist, triggerDataOnTriggers. intros H.
  injection H as H1 _ H3 _ H5. now rewrite H1, H3, H5.
Qed.

Lemma triggerData_fields (e e' : Engine) :
  levelData e' = levelData e -> clipboard e' = clipboard e -> history e' = history e ->
  triggerDataOnTriggers e -> triggerDataOnTriggers e'.
Proof. unfold triggerDataOnTriggers. now intros -> -> ->. Qed.

Lemma addToHistory_clipboard (e : Engine) : clipboard (addToHistory e) = clipboard e.
Proof. unfold addToHistory. cbv zeta. repeat break_if; reflexivity. Qed.

Lemma addToHistory_triggerData (e : Engine) :
  Forall dataOnTrigger (levelData e) -> Forall dataOnTrigger (clipboard e) ->
  Forall (fun s => Forall dataOnTrigger (snapshotObjects s)) (history e) ->
  triggerDataOnTriggers (addToHistory e).
Proof.
  intros L C H. split; [| split].
  - now rewrite addToHistory_levelData.
  - now rewrite addToHistory_clipboard.
  - rewrite addToHistory_history.
    assert (K : Forall (fun s => Forall dataOnTrigger (snapshotObjects s))
                  (keptEntries e ++ [getCurrentState e])).
    { apply Forall_app. split.
      - unfold keptEntries. destruct (_ <? _)%Z; [now apply Forall_slice0 | exact H].
      - constructor; [exact L | constructor]. }
    destruct (50 <? _)%Z; [now apply Forall_tl | exact K].
Qed.

(** A snapshot after a change of the objects alone. *)
Lemma snapshot_triggerData (e e0 : Engine) :
  triggerDataOnTriggers e -> Forall dataOnTrigger (levelData e0) ->
  clipboard e0 = clipboard e -> history e0 = history e ->
  triggerDataOnTriggers (addToHistory e0).
Proof.
  intros (_ & C & H) L Ec Eh. apply addToHistory_triggerData; [exact L | |];
    [now rewrite Ec | now rewrite Eh].
Qed.

Lemma dataOnTrigger_same (o o' : LevelObject) :
  o_type o' = o_type o -> o_triggerData o' = o_triggerData o ->
  dataOnTrigger o -> dataOnTrigger o'.
Proof. unfold dataOnTrigger. intros -> ->. auto. Qed.

Lemma Forall_splice1 {A : Type} (P : A -> Prop) (l : list A) (i : nat) :
  Forall P l -> Forall P (splice1 l i).
Proof.
  revert i. induction l as [| a l IH]; intros [| i] F; simpl; try exact F;
    inversion F; subst; auto.
Qed.

Lemma Forall_array_set {A : Type} (P : A -> Prop) (l : list A) (i : nat) (v : A) :
  Forall P l -> P v -> Forall P (array_set l i v).
Proof.
  revert i. induction l as [| a l IH]; intros [| i] F V; simpl; try exact F;
    inversion F; subst; auto.
Qed.

Lemma findIndex_find {A : Type} (f : A -> bool) (l : list A) (i : nat) (a : A) :
  findIndex f l = Some i -> nth_error l i = Some a -> find f l = Some a.
Proof.
  revert i. induction l as [| b l IH]; intros i; simpl; [discriminate |].
  destruct (f b).
  - intros [= <-]. simpl. now intros [= ->].
  - destruct (findIndex f l) as [j |]; [| discriminate].
    intros [= <-]. simpl. now apply IH.
Qed.

Lemma array_get_In {A : Type} (l : list A) (i : Z) (a : A) :
  array_get l i = Some a -> In a l.
Proof. unfold array_get. destruct (i <? 0)%Z; [discriminate | apply nth_error_In]. Qed.

(** *** History walks *)

Lemma restoreState_triggerData (s : option StateJson) (e : Engine) :
  triggerDataOnTriggers e ->
  (forall st, s = Some st -> Forall dataOnTrigger (snapshotObjects st)) ->
  triggerDataOnTriggers (restoreState s e).
Proof.
  intros (L & C & H) S. destruct s as [[objects | settings objects | |] |]; simpl;
    try (split; [exact L | split; [exact C | exact H]]);
    (split; [exact (S _ eq_refl) | split; [exact C | exact H]]).
Qed.

Lemma undo_triggerData (e : Engine) : triggerDataOnTriggers e -> triggerDataOnTriggers (undo e).
Proof.
  intros I. unfold undo. destruct (0 <? historyIndex e)%Z; [| exact I].
  apply restoreState_triggerData.
  - now apply triggerData_fields with e.
  - intros st G. apply array_get_In in G. destruct I as (_ & _ & H).
    rewrite Forall_forall in H. now apply H.
Qed.

Lemma redo_triggerData (e : Engine) : triggerDataOnTriggers e -> triggerDataOnTriggers (redo e).
Proof.
  intros I. unfold redo. destruct (_ <? _)%Z; [| exact I].
  apply restoreState_triggerData.
  - now apply triggerData_fields with e.
  - intros st G. apply array_get_In in G. destruct I as (_ & _ & H).
    rewrite Forall_forall in H. now apply H.
Qed.

(** *** The clipboard *)

Lemma Forall_filter {A : Type} (P : A -> Prop) (f : A -> bool) (l : list A) :
  Forall P l -> Forall P (filter f l).
Proof.
  rewrite !Forall_forall. intros H a I. apply filter_In in I. now apply H.
Qed.

Lemma copySelection_triggerData (e : Engine) :
  triggerDataOnTriggers e -> triggerDataOnTriggers (copySelection e).
Proof.
  intros (L & C & H). unfold copySelection. destruct (selectedObjects e); [now repeat split |].
  split; [exact L | split; [| exact H]]. now apply Forall_filter.
Qed.

Lemma pasteObjects_triggerData (gen : nat -> string) (i : nat) (l : list LevelObject) :
  Forall dataOnTrigger l -> Forall dataOnTrigger (pasteObjects gen i l).
Proof.
  revert i. induction l as [| o l IH]; intros i F; simpl; [constructor |].
  inversion F; subst. constructor; [| now apply IH].
  now apply dataOnTrigger_same with o.
Qed.

Lemma pasteSelection_triggerData (gen : nat -> string) (e : Engine) :
  triggerDataOnTriggers e -> triggerDataOnTriggers (pasteSelection gen e).
Proof.
  intros I. unfold pasteSelection. destruct (clipboard e) eqn:C; [exact I |].
  rewrite <- C. apply snapshot_triggerData with e; [exact I | | reflexivity | reflexivity].
  cbn [levelData set_isPastedSelection set_selectedObjects set_levelData].
  destruct I as (L & K & _). apply Forall_app. split; [exact L |].
  now apply pasteObjects_triggerData.
Qed.

(** *** Moving, turning and deleting *)

Lemma map_set_values {A : Type} (P : A -> Prop) (m : list (string * A)) (k : string) (v : A) :
  Forall P (map snd m) -> P v -> Forall P (map snd (map_set m k v)).
Proof.
  induction m as [| [k' v'] m IH]; intros F V; simpl; [now constructor |].
  inversion F; subst. destruct (String.eqb k k'); simpl; constructor; auto.
Qed.

Lemma map_get_values {A : Type} (P : A -> Prop) (m : list (string * A)) (k : string) (v : A) :
  Forall P (map snd m) -> map_get m k = Some v -> P v.
Proof.
  induction m as [| [k' v'] m IH]; intros F; simpl; [discriminate |].
  inversion F; subst. destruct (String.eqb k k'); [now intros [= <-] | now apply IH].
Qed.

Lemma map_of_list_values {A : Type} (P : A -> Prop) (l : list (string * A)) :
  Forall P (map snd l) -> Forall P (map snd (map_of_list l)).
Proof.
  unfold map_of_list.
  assert (G : forall acc, Forall P (map snd acc) -> Forall P (map snd l) ->
                Forall P (map snd (fold_left (fun m kv => map_set m (fst kv) (snd kv)) l acc))).
  { induction l as [| [k v] l IH]; intros acc Fa Fl; simpl; [exact Fa |].
    inversion Fl; subst. apply IH; [| assumption]. now apply map_set_values. }
  intros F. apply G; [constructor | exact F].
Qed.

Lemma moveOne_values (adj dy : Q) (ids : list string) (acc : list (string * LevelObject) * bool) :
  Forall dataOnTrigger (map snd (fst acc)) ->
  Forall dataOnTrigger (map snd (fst (fold_left (moveOne adj dy) ids acc))).
Proof.
  revert acc. induction ids as [| id ids IH]; intros acc F; simpl; [exact F |].
  apply IH. unfold moveOne. destruct (map_get (fst acc) id) as [obj |] eqn:G; [| exact F].
  cbn [fst]. apply map_set_values; [exact F |].
  apply dataOnTrigger_same with obj; [reflexivity | reflexivity |].
  now apply (map_get_values dataOnTrigger (fst acc) id).
Qed.

Lemma moveSelectionInternal_triggerData (dx dy : Q) (e : Engine) :
  triggerDataOnTriggers e -> triggerDataOnTriggers (moveSelectionInternal dx dy e).
Proof.
  intros I. unfold moveSelectionInternal. cbv zeta.
  match goal with
  | |- context [fold_left (moveOne ?a ?d) ?ids ?acc] =>
      pose proof (moveOne_values a d ids acc) as V;
      destruct (fold_left (moveOne a d) ids acc) as [idMap moved]
  end.
  destruct moved; [| exact I].
  apply snapshot_triggerData with e; [exact I | | reflexivity | reflexivity].
  cbn [levelData set_levelData]. unfold map_values. apply V. cbn [fst].
  apply map_of_list_values. rewrite map_map. cbn [snd]. rewrite map_id. apply I.
Qed.

Lemma Forall_map_same (f : LevelObject -> LevelObject) (l : list LevelObject) :
  (forall o, dataOnTrigger o -> dataOnTrigger (f o)) ->
  Forall dataOnTrigger l -> Forall dataOnTrigger (map f l).
Proof. intros H F. apply Forall_map. revert F. apply Forall_impl. exact H. Qed.

Lemma rotateSelection_triggerData (angle : Q) (relative : bool) (e : Engine) :
  triggerDataOnTriggers e -> triggerDataOnTriggers (rotateSelection angle relative e).
Proof.
  intros I. unfold rotateSelection.
  destruct (selectedObjects e) as [| id [| id' rest]]; [exact I | |].
  - match goal with
    | |- context [match js_find ?f ?l with Some _ => _ | None => e end] =>
        destruct (js_find f l)
    end;
      (apply snapshot_triggerData with e; [exact I | | reflexivity | reflexivity];
       cbn [levelData set_levelData set_lastToolRotation];
       apply Forall_map_same; [| apply I];
       intros o D; destruct (set_has _ _); [| exact D];
       now apply dataOnTrigger_same with o).
  - apply snapshot_triggerData with e; [exact I | | reflexivity | reflexivity].
    cbn [levelData set_levelData]. apply Forall_map_same; [| apply I].
    intros o D. destruct (set_has _ _); [| exact D].
    now apply dataOnTrigger_same with o.
Qed.

Lemma deleteSelection_triggerData (e : Engine) :
  triggerDataOnTriggers e -> triggerDataOnTriggers (deleteSelection e).
Proof.
  intros I. unfold deleteSelection.
  apply snapshot_triggerData with e; [exact I | | reflexivity | reflexivity].
  cbn [levelData set_levelData set_selectedObjects]. apply Forall_filter, I.
Qed.

Lemma clearLevel_triggerData (e : Engine) :
  triggerDataOnTriggers e -> triggerDataOnTriggers (clearLevel e).
Proof.
  intros I. unfold clearLevel.
  apply snapshot_triggerData with e; [exact I | constructor | reflexivity | reflexivity].
Qed.

(** *** Settings and the data of the selected object *)

Lemma updateSettings_triggerData (s : PartialSettings) (e : Engine) :
  triggerDataOnTriggers e -> triggerDataOnTriggers (updateSettings s e).
Proof.
  intros I. unfold updateSettings.
  apply snapshot_triggerData with e; [exact I | apply I | reflexivity | reflexivity].
Qed.

Lemma updateSelectedStartPos_triggerData (d : StartPosData) (e : Engine) :
  triggerDataOnTriggers e -> triggerDataOnTriggers (updateSelectedStartPos d e).
Proof.
  intros I. unfold updateSelectedStartPos.
  destruct (findIndex _ _) as [i |]; [| exact I].
  destruct (nth_error (levelData e) i) as [obj |] eqn:N; [| exact I].
  apply snapshot_triggerData with e; [exact I | | reflexivity | reflexivity].
  cbn [levelData set_levelData]. apply Forall_array_set; [apply I |].
  apply dataOnTrigger_same with obj; [reflexivity | reflexivity |].
  destruct I as (L & _). rewrite Forall_forall in L. apply L. now apply nth_error_In with i.
Qed.

Lemma updateSelectedTrigger_triggerData (d : TriggerData) (e : Engine) :
  triggerDataOnTriggers e ->
  (forall obj, getSelectedObject e = Some obj -> o_type obj = TRIGGER) ->
  triggerDataOnTriggers (updateSelectedTrigger d e).
Proof.
  intros I G. unfold updateSelectedTrigger.
  destruct (findIndex _ _) as [i |] eqn:F; [| exact I].
  destruct (nth_error (levelData e) i) as [obj |] eqn:N; [| exact I].
  apply snapshot_triggerData with e; [exact I | | reflexivity | reflexivity].
  cbn [levelData set_levelData]. apply Forall_array_set; [apply I |].
  intros _. cbn [o_type set_o_triggerData]. apply G.
  unfold getSelectedObject, js_find. now apply findIndex_find with i.
Qed.

Lemma setLevel_triggerData (data : LevelInput) (keepHistory : bool) (e : Engine) :
  triggerDataOnTriggers e -> Forall dataOnTrigger (loadedObjects data) ->
  triggerDataOnTriggers (setLevel data keepHistory e).
Proof.
  intros I G. unfold setLevel. cbv zeta.
  assert (L : forall s : option PartialSettings, True) by auto.
  destruct keepHistory.
  - apply snapshot_triggerData with e; [exact I | | |];
      destruct data as [objects | objects [s |] |]; try reflexivity; exact G.
  - destruct I as (_ & C & _).
    destruct data as [objects | objects [s |] |];
      (split; [exact G | split; [exact C | constructor; [exact G | constructor]]]).
Qed.

(** *** Clicks and keys *)

Lemma handleEditorClick_triggerData (ev : MouseEvt) (isDrag : bool) (newId : string)
    (e : Engine) :
  triggerDataOnTriggers e -> triggerDataOnTriggers (handleEditorClick ev isDrag newId e).
Proof.
  intros I0. unfold handleEditorClick.
  set (e1 := if isPastedSelection e then set_isPastedSelection false e else e).
  assert (I : triggerDataOnTriggers e1)
    by (apply triggerData_ext with e; [subst e1; hold | exact I0]).
  clearbody e1. clear I0.
  destruct (ObjectType_eqb (fst (selectedToolRef e1)) TOOL).
  - destruct (boxSelectStart e1); [| exact I].
    apply triggerData_ext with e1; [hold | exact I].
  - destruct (ObjectType_eqb (fst (selectedToolRef e1)) DELETE).
    + destruct (isDrag && _); [exact I |].
      destruct (findLastIndex _ _); [| exact I].
      match goal with
      | |- triggerDataOnTriggers (set_lastDeletePos ?p ?x) =>
          apply triggerData_ext with x; [reflexivity |]
      end.
      apply snapshot_triggerData with e1; [exact I | | reflexivity | reflexivity].
      cbn [levelData set_levelData]. apply Forall_splice1, I.
    + destruct (ObjectType_eqb (fst (selectedToolRef e1)) START_POS && _); [exact I |].
      destruct (_ || _); [| exact I].
      apply snapshot_triggerData with e1; [exact I | | reflexivity | reflexivity].
      cbn [levelData set_levelData set_selectedObjects].
      apply Forall_app. split; [apply I |]. constructor; [| constructor].
      unfold dataOnTrigger. cbn [o_triggerData o_type].
      destruct (ObjectType_eqb (fst (selectedToolRef e1)) TRIGGER) eqn:T.
      * intros _. now apply ObjectType_eqb_eq.
      * intros N. now contradiction N.
Qed.

Lemma onKeyDown_triggerData (ev : KeyEvt) (gen : nat -> string) (e : Engine) :
  triggerDataOnTriggers e -> triggerDataOnTriggers (onKeyDown ev gen e).
Proof.
  intros I0. unfold onKeyDown.
  set (e1 := set_keys (set_add (keys e) (code ev)) e).
  assert (I1 : triggerDataOnTriggers e1) by (apply triggerData_ext with e; [reflexivity | exact I0]).
  clearbody e1. clear I0.
  destruct (inEditorOrPaused (modeRef e1)); [| exact I1].
  match goal with
  | |- triggerDataOnTriggers (match selectedObjects ?x with _ => _ end) =>
      set (e2 := x); assert (I2 : triggerDataOnTriggers e2)
  end.
  { subst e2. destruct (k_ctrlKey ev && negb (k_repeat ev)); [| exact I1].
    destruct (String.eqb (code ev) "KeyZ"); [now apply undo_triggerData |].
    destruct (String.eqb (code ev) "KeyY"); [now apply redo_triggerData |].
    destruct (String.eqb (code ev) "KeyC"); [now apply copySelection_triggerData |].
    destruct (String.eqb (code ev) "KeyV"); [now apply pasteSelection_triggerData | exact I1]. }
  clearbody e2.
  destruct (selectedObjects e2); [exact I2 |].
  match goal with
  | |- context [match ?s with pair _ _ => _ end] => destruct s as [dx dy]
  end.
  destruct (negb (Qeq_bool dx 0) || negb (Qeq_bool dy 0));
    [now apply moveSelectionInternal_triggerData | exact I2].
Qed.

Lemma onMouseDown_triggerData (ev : MouseEvt) (newId : string) (e : Engine) :
  triggerDataOnTriggers e -> triggerDataOnTriggers (onMouseDown ev newId e).
Proof.
  intros I0. unfold onMouseDown.
  match goal with
  | |- triggerDataOnTriggers
         (if _ then _ else if _ then if _ then _ else handleEditorClick _ _ _ ?x else _) =>
      assert (I : triggerDataOnTriggers x)
        by (apply triggerData_ext with e; [reflexivity | exact I0]);
      set (e1 := x) in *; clearbody e1
  end.
  destruct (button ev =? 2)%Z; [apply triggerData_ext with e1; [reflexivity | exact I] |].
  destruct (inEditorOrPaused _); [| exact I].
  destruct (ObjectType_eqb _ TOOL);
    [apply triggerData_ext with e1; [reflexivity | exact I]
    | now apply handleEditorClick_triggerData].
Qed.

Lemma onMouseUp_triggerData (ev : MouseEvt) (newId : string) (e : Engine) :
  triggerDataOnTriggers e -> triggerDataOnTriggers (onMouseUp ev newId e).
Proof.
  intros I0. unfold onMouseUp.
  match goal with
  | |- triggerDataOnTriggers
         (if _ then if _ then handleEditorClick _ _ _ ?x else _ else _) =>
      assert (I : triggerDataOnTriggers x)
        by (apply triggerData_ext with e;
            [destruct (button ev =? 2)%Z; reflexivity | exact I0]);
      set (e1 := x) in *; clearbody e1
  end.
  destruct (_ && _); [| exact I].
  destruct (ObjectType_eqb _ TOOL); [now apply handleEditorClick_triggerData | exact I].
Qed.

Lemma onMouseMove_triggerData (ev : MouseEvt) (newId : string) (e : Engine) :
  triggerDataOnTriggers e -> triggerDataOnTriggers (onMouseMove ev newId e).
Proof.
  intros I0. unfold onMouseMove.
  match goal with
  | |- context [handleEditorClick _ _ _ ?x] =>
      assert (I : triggerDataOnTriggers x)
        by (apply triggerData_ext with e; [reflexivity | exact I0]);
      set (e1 := x) in *; clearbody e1
  end.
  destruct (_ || _); [| exact I].
  destruct (mouseIsRightDown _); [apply triggerData_ext with e1; [reflexivity | exact I] |].
  destruct (mouseIsDown _); [| exact I].
  destruct (_ && _); [now apply handleEditorClick_triggerData | exact I].
Qed.

(** *** Every guarded operation *)

Lemma step_triggerData (op : Op) (e : Engine) :
  triggerDataOnTriggers e -> guarded op e -> triggerDataOnTriggers (step op e).
Proof.
  intros I G. destruct op; cbn [step guarded] in *.
  - destruct (loopRunning e); [| exact I].
    apply triggerData_ext with e; [apply update_stock | exact I].
  - now apply onKeyDown_triggerData.
  - apply triggerData_ext with e; [reflexivity | exact I].
  - now apply onMouseDown_triggerData.
  - now apply onMouseUp_triggerData.
  - now apply onMouseMove_triggerData.
  - apply triggerData_ext with e; [unfold onWheel; hold | exact I].
  - apply triggerData_ext with e; [reflexivity | exact I].
  - now apply setLevel_triggerData.
  - now apply updateSettings_triggerData.
  - now apply updateSelectedTrigger_triggerData.
  - now apply updateSelectedStartPos_triggerData.
  - now apply moveSelectionInternal_triggerData.
  - now apply rotateSelection_triggerData.
  - now apply deleteSelection_triggerData.
  - apply triggerData_ext with e; [reflexivity | exact I].
  - now apply clearLevel_triggerData.
  - unfold duplicateSelection.
    now apply pasteSelection_triggerData, copySelection_triggerData.
  - apply triggerData_ext with e; [apply resetPlayerInternal_stock | exact I].
  - now apply undo_triggerData.
  - now apply redo_triggerData.
  - apply triggerData_ext with e; [apply handleModeChange_stock | exact I].
  - apply triggerData_ext with e; [apply onRestartVerify_stock | exact I].
  - apply triggerData_ext with e; [reflexivity | exact I].
  - apply triggerData_ext with e; [apply deathTimeout_stock | exact I].
Qed.

Lemma run_triggerData (ops : list Op) (e : Engine) :
  triggerDataOnTriggers e -> guardedRun ops e -> triggerDataOnTriggers (run ops e).
Proof.
  revert e. induction ops as [| op ops IH]; intros e I G; [exact I |].
  destruct G as (G1 & G2). change (run (op :: ops) e) with (run ops (step op e)).
  apply IH; [now apply step_triggerData | exact G2].
Qed.

Lemma mountedEngine_triggerData (w h : Q) : triggerDataOnTriggers (mountedEngine w h).
Proof. repeat constructor. Qed.

(** C10: in every state reached from the mounted engine by guarded
    operations (a level is loaded only from data in which only Triggers carry
    trigger data, and [updateSelectedTrigger] is called only while the object
    it acts on is a Trigger) only Triggers carry trigger data, in the
    document, in the clipboard and in every history entry.
    [updateSelectedTrigger] merges its data into the first object of the
    document that carries the first selected id, whatever its type; called on
    a Trigger it leaves the property in place. *)
Theorem trigger_data_only_on_triggers (innerWidth innerHeight : Q) (ops : list Op) :
  guardedRun ops (mountedEngine innerWidth innerHeight) ->
  let e := run ops (mountedEngine innerWidth innerHeight) in
  (forall o, In o (levelData e) -> o_triggerData o <> None -> o_type o = TRIGGER)
  /\ (forall o, In o (clipboard e) -> o_triggerData o <> None -> o_type o = TRIGGER)
  /\ (forall s o, In s (history e) -> In o (snapshotObjects s) ->
        o_triggerData o <> None -> o_type o = TRIGGER)
  /\ (forall data pre obj post,
        levelData e = pre ++ obj :: post ->
        firstSelected e = Some (o_id obj) ->
        (forall o, In o pre -> o_id o <> o_id obj) ->
        levelData (updateSelectedTrigger data e)
        = pre ++ set_o_triggerData (Some (mergeTriggerData (o_triggerData obj) data)) obj
              :: post)
  /\ (forall data,
        (forall obj, getSelectedObject e = Some obj -> o_type obj = TRIGGER) ->
        forall o, In o (levelData (updateSelectedTrigger data e)) ->
                  o_triggerData o <> None -> o_type o = TRIGGER).
Proof.
  intros G e.
  assert (I : triggerDataOnTriggers e)
    by (apply run_triggerData; [apply mountedEngine_triggerData | exact G]).
  split; [| split; [| split; [| split]]].
  - destruct I as (L & _). rewrite Forall_forall in L. exact L.
  - destruct I as (_ & C & _). rewrite Forall_forall in C. exact C.
  - destruct I as (_ & _ & H). rewrite Forall_forall in H. intros s o Is Io.
    specialize (H s Is). rewrite Forall_forall in H. now apply H.
  - intros data pre obj post L F N.
    assert (X : findIndex (hasId (firstSelected e)) (levelData e) = Some (List.length pre)).
    { rewrite L, F. apply findIndex_first.
      - intros b B. simpl. apply String.eqb_neq. now apply N.
      - simpl. apply String.eqb_refl. }
    unfold updateSelectedTrigger. rewrite X, L, nth_error_middle.
    now rewrite addToHistory_levelData, array_set_middle.
  - intros data S.
    destruct (updateSelectedTrigger_triggerData data e I S) as (L & _).
    rewrite Forall_forall in L. exact L.
Qed.

End GameEngine.

(** * Concrete runs

    The model run on concrete levels, with the rational stand-ins for the
    trigonometric functions and for pi.  No run below turns a group of objects
    or meets a turned object, and none of the results is the angle of the cube
    in the air, so the stand-ins do not enter what is stated. *)

(** The engine mounted in a window of 800 by 600 after the operations
    [ops]. *)
Abbreviation runEngine ops :=
  (run cos_approx sin_approx atan2_approx PI_approx ops (mountedEngine 800 600)).

(** ** C2 and C3: the history *)

Lemma undo_redo_roundtrip_witness :
  forallb (fun op => negb (isHistoryNav op)) editingSession = true
  /\ List.length (levelData (runEngine editingSession)) = 1%nat
  /\ levelData (redo (undo (runEngine editingSession))) = levelData (runEngine editingSession)
  /\ levelSettings (redo (undo (runEngine editingSession)))
     = levelSettings (runEngine editingSession).
Proof.
  split; [reflexivity |]. split; [vm_compute; reflexivity |].
  apply (undo_redo_roundtrip cos_approx sin_approx atan2_approx PI_approx 800 600
           editingSession).
  reflexivity.
Defined.

(** Forty-nine snapshots after the initial one fill the history. *)
Abbreviation fullHistory := (runEngine (repeat ClearLevel 49)).

Lemma history_capped_witness :
  List.length (history fullHistory) = 50%nat
  /\ historyIndex fullHistory = 49%Z
  /\ history (addToHistory fullHistory)
     = tl (history fullHistory) ++ [getCurrentState fullHistory]
  /\ List.length (history (addToHistory fullHistory)) = 50%nat
  /\ historyIndex (addToHistory fullHistory) = 49%Z
  /\ (forall k : Z, (0 <= k < 49)%Z ->
        array_get (history (addToHistory fullHistory)) k
        = array_get (history fullHistory) (k + 1)).
Proof.
  assert (Hl : List.length (history fullHistory) = 50%nat) by (vm_compute; reflexivity).
  assert (Hi : historyIndex fullHistory = 49%Z) by (vm_compute; reflexivity).
  split; [exact Hl |]. split; [exact Hi |].
  exact (proj2 (history_capped cos_approx sin_approx atan2_approx PI_approx 800 600
                  (repeat ClearLevel 49)) Hl Hi).
Defined.

(** ** C4: a click on an occupied cell *)

(** A block sits on cell (1, 1) and the spike tool is active. *)
Abbreviation blockPlaced :=
  (runEngine [ MouseDown (clickAt 1 1) "a"%string; MouseUp (clickAt 1 1) "a"%string;
               ToolSelect SPIKE 1 ]).

Lemma placement_on_occupied_cell_witness :
  occupied blockPlaced (clickedCell (clickAt 1 1) blockPlaced)
  /\ handleEditorClick cos_approx sin_approx PI_approx (clickAt 1 1) false "b"%string
       blockPlaced
     = clearPasted blockPlaced.
Proof.
  assert (O : occupied blockPlaced (clickedCell (clickAt 1 1) blockPlaced)).
  { exists (mkObject "a" 1 1 BLOCK 1 (Some 0) None None).
    split; [vm_compute; left; reflexivity | split; vm_compute; reflexivity]. }
  split; [exact O |].
  assert (T : fst (selectedToolRef blockPlaced) <> TOOL) by (vm_compute; discriminate).
  assert (D : fst (selectedToolRef blockPlaced) <> DELETE) by (vm_compute; discriminate).
  assert (S : fst (selectedToolRef blockPlaced) <> START_POS) by (vm_compute; discriminate).
  exact (proj1 (placement_on_occupied_cell cos_approx sin_approx PI_approx (clickAt 1 1)
                  false "b"%string blockPlaced T D) S O).
Defined.

(** ** C5: two start positions moved together *)

(** Two start positions are placed at x = 3 and x = 1 and selected with a
    box. *)
Abbreviation twoStartPositions :=
  (runEngine [ ToolSelect START_POS 1;
               MouseDown (clickAt 3 5) "a"%string; MouseUp (clickAt 3 5) "a"%string;
               MouseDown (clickAt 1 5) "b"%string; MouseUp (clickAt 1 5) "b"%string;
               ToolSelect TOOL 0;
               MouseDown boxFrom "x"%string; MouseUp boxTo "x"%string ]).

(** The StartPos [a] at x = 3 would cross x = 0 under the delta -5, and it
    lands at x = 2, not at x = 0. *)
Lemma move_two_start_positions :
  map (fun o => (o_id o, o_type o, Qred (o_x o))) (levelData twoStartPositions)
  = [ ("a"%string, START_POS, 3); ("b"%string, START_POS, 1) ]
  /\ selectedObjects twoStartPositions = [ "a"%string; "b"%string ]
  /\ map (fun o => (o_id o, o_type o, Qred (o_x o)))
       (levelData (moveSelectionInternal (-5) 0 twoStartPositions))
     = [ ("a"%string, START_POS, 2); ("b"%string, START_POS, 0) ].
Proof. vm_compute. repeat split. Qed.

Ltac distinct := vm_compute; repeat constructor; simpl; intuition discriminate.

Lemma move_clamps_whole_batch_witness :
  levelData (moveSelectionInternal (-5) 0 twoStartPositions)
    = map (fun o => if set_has (selectedObjects twoStartPositions) (o_id o)
                    then moveObject (clampedDx (-5) twoStartPositions) 0 o else o)
        (levelData twoStartPositions)
  /\ (forall s, selectedStartPos twoStartPositions s ->
        0 <= o_x s + clampedDx (-5) twoStartPositions)
  /\ ((exists s, selectedStartPos twoStartPositions s /\ o_x s + -5 < 0) ->
      exists s, selectedStartPos twoStartPositions s
                /\ (forall s', selectedStartPos twoStartPositions s' -> o_x s <= o_x s')
                /\ o_x (moveObject (clampedDx (-5) twoStartPositions) 0 s) == 0).
Proof.
  apply (move_clamps_whole_batch (-5) 0 twoStartPositions); distinct.
Defined.

(** ** C6: a single block turned to 330 degrees *)

(** The slider of the editor turns the selected block to 330 degrees (an
    absolute angle): the stored rotation is 360, outside [0, 360). *)
Lemma block_rotation_reaches_360 :
  map (fun o => (o_type o, o_rotation o))
    (levelData
       (runEngine [ MouseDown (clickAt 2 3) "a"%string; MouseUp (clickAt 2 3) "a"%string;
                    RotateSelection 330 false ]))
  = [ (BLOCK, Some 360) ].
Proof. vm_compute. reflexivity. Qed.

(** ** C7: start positions closer than 0.01 *)

(** [A] lies left of [B], by less than 0.01, and the reset spawns the player
    at [B], the one placed later. *)
Lemma reset_prefers_later_within_tolerance :
  levelData (runEngine [ SetLevel (InArray [startPosA; startPosB]) false ])
  = [ startPosA; startPosB ]
  /\ o_x startPosA < o_x startPosB
  /\ p_x (player (resetPlayer false
                    (runEngine [ SetLevel (InArray [startPosA; startPosB]) false ])))
     == o_x startPosB * TILE_SIZE.
Proof. repeat split. Qed.

(** Two start positions on the same cell column: the later one wins. *)
Abbreviation sameColumn := (runEngine [ SetLevel (InArray [startPosA; startPosC]) false ]).

Lemma reset_spawns_leftmost_latest_witness :
  exists (j : nat) (best : LevelObject) (d : StartPosData),
    nth_error (levelData sameColumn) j = Some best
    /\ enabledStartPos best
    /\ o_startPosData best = Some d
    /\ (forall (k : nat) (o : LevelObject),
          nth_error (levelData sameColumn) k = Some o -> enabledStartPos o ->
          o_x best < o_x o \/ (o_x best == o_x o /\ (k <= j)%nat))
    /\ player (resetPlayer false sameColumn)
       = {| p_x := o_x best * TILE_SIZE; p_y := o_y best * TILE_SIZE; p_w := 36; p_h := 36;
            p_vx := PLAYER_SPEED; p_vy := 0; p_rotation := 0;
            p_onGround := true; p_dead := false; p_finished := false;
            p_vehicle := sp_mode d; p_gravityReversed := truthy (sp_reverseGravity d) |}.
Proof.
  apply (reset_spawns_leftmost_latest sameColumn).
  - intros a b Ia Ib _ _. vm_compute in Ia, Ib.
    destruct Ia as [<- | [<- | []]], Ib as [<- | [<- | []]]; left; reflexivity.
  - exists startPosA. split; [vm_compute; left; reflexivity | reflexivity].
Defined.

(** ** C8: a colour trigger over its full duration *)

(** The default trigger (target [bgColorTop], colour #ff0000, 0.5 seconds)
    fires in the first frame of the playtest, with the background at
    #004e92.  Thirty frames later the effect has been dropped without a last
    write: the background stays at the colour of progress 29/30. *)
Lemma trigger_color_after_full_duration :
  activeEffects (runEngine (playTrigger ++ [Frame]))
  = [ {| eff_target := Some T_bgColorTop; eff_startColor := Some "#004e92"%string;
         eff_endColor := Some "#ff0000"%string; eff_startTime := 1; eff_duration := 0.5 * 60 |} ]
  /\ frameCount (runEngine (playTrigger ++ [Frame])) = 1%Z
  /\ bgColorTop (displaySettings (runEngine (playTrigger ++ [Frame])))
     = Some "#004e92"%string
  /\ frameCount (runEngine (playTrigger ++ repeat Frame 31)) = 31%Z
  /\ p_dead (player (runEngine (playTrigger ++ repeat Frame 31))) = false
  /\ activeEffects (runEngine (playTrigger ++ repeat Frame 31)) = []
  /\ bgColorTop (displaySettings (runEngine (playTrigger ++ repeat Frame 31)))
     = Some "#f70305"%string
  /\ bgColorTop (displaySettings (runEngine (playTrigger ++ repeat Frame 100)))
     = Some "#f70305"%string.
Proof. vm_compute. repeat split. Qed.

(** ** C9: a point deletion of a selected object *)

(** A block is placed, which selects it, and deleted with the delete tool:
    the document is empty and the selection still holds the id. *)
Lemma point_delete_keeps_selection :
  selectedObjects (runEngine placeBlock) = [ "a"%string ]
  /\ map o_id (levelData (runEngine placeBlock)) = [ "a"%string ]
  /\ levelData (runEngine (placeBlock ++ [ ToolSelect DELETE 0;
                                           MouseDown (clickAt 2 3) "x"%string ])) = []
  /\ selectedObjects (runEngine (placeBlock ++ [ ToolSelect DELETE 0;
                                                 MouseDown (clickAt 2 3) "x"%string ]))
     = [ "a"%string ].
Proof. vm_compute. repeat split. Qed.

(** ** C10: trigger data on Triggers only *)

(** A level file whose block carries trigger data is imported as it is.
    And in a level imported with a trigger and a block under one id, the
    trigger is selected, which is what the engine reports, and then deleted
    with the delete tool, which leaves the selection as it was: the update of
    the selected trigger then lands on the block. *)
Abbreviation twinsImported :=
  (handleImport (ImpArray [ twinTrigger; twinBlock ]) (runEngine [])).

Lemma trigger_data_on_block :
  map (fun o => (o_type o, o_triggerData o))
    (levelData (handleImport (ImpArray [ dataBlock ]) (runEngine [])))
  = [ (BLOCK, Some defaultTriggerData) ]
  /\ option_map o_type
       (getSelectedObject
          (run cos_approx sin_approx atan2_approx PI_approx selectTwin twinsImported))
     = Some TRIGGER
  /\ selectedObjects
       (run cos_approx sin_approx atan2_approx PI_approx (selectTwin ++ deleteTwin)
          twinsImported)
     = [ "t"%string ]
  /\ map (fun o => (o_type o, o_triggerData o))
       (levelData
          (run cos_approx sin_approx atan2_approx PI_approx
             (selectTwin ++ deleteTwin
              ++ [ UpdateSelectedTrigger (mkTriggerData None None (Some 2) None) ])
             twinsImported))
     = [ (BLOCK, Some (mkTriggerData None None (Some 2) None)) ].
Proof.
  split; [vm_compute; reflexivity |]. split; [vm_compute; reflexivity |].
  split; vm_compute; reflexivity.
Qed.

(** In the session the trigger keeps its data through the update and the
    duplication, and the block never gets any. *)
Lemma trigger_data_only_on_triggers_witness :
  guardedRun cos_approx sin_approx atan2_approx PI_approx triggerSession
    (mountedEngine 800 600)
  /\ map (fun o => (o_type o, o_triggerData o)) (levelData (runEngine triggerSession))
     = [ (BLOCK, None);
         (TRIGGER, Some (mkTriggerData (Some T_bgColorTop) (Some "#ff0000"%string)
                           (Some 2) (Some false)));
         (TRIGGER, Some (mkTriggerData (Some T_bgColorTop) (Some "#ff0000"%string)
                           (Some 2) (Some false))) ]
  /\ (forall o, In o (levelData (runEngine triggerSession)) ->
        o_triggerData o <> None -> o_type o = TRIGGER).
Proof.
  assert (G : guardedRun cos_approx sin_approx atan2_approx PI_approx triggerSession
                (mountedEngine 800 600)).
  { unfold triggerSession. cbn [guardedRun guarded].
    split; [apply Forall_cons; [intros N; now contradiction N | apply Forall_nil] |].
    split; [exact I |]. split; [exact I |]. split; [exact I |].
    split; [| split; exact I].
    intros obj H. vm_compute in H. injection H as <-. reflexivity. }
  split; [exact G |]. split; [vm_compute; reflexivity |].
  exact (proj1 (trigger_data_only_on_triggers cos_approx sin_approx atan2_approx PI_approx
                  800 600 triggerSession G)).
Defined.

(** ** C1: a cube lands on a block *)

(** A playtest starts above the blocks; after nine frames the cube is about
    to reach the first block, at x = 57.6, y = 402.75 and vy = 8.55. *)
Abbreviation approach := (runEngine (playBlocks ++ repeat Frame 9)).

(** The same state with the space bar pressed. *)
Abbreviation approachHeld :=
  (runEngine (playBlocks ++ repeat Frame 9 ++ [ KeyDown spaceKey noIds ])).

(** The state of a step when the loop over the objects starts. *)
Abbreviation started e := (flowEngine (beforeObjects atan2_approx PI_approx e)).

Abbreviation physicsStep e := (updatePhysics cos_approx sin_approx atan2_approx PI_approx e).

(** Nine frames of the playtest with the pad. *)
Abbreviation approachPad := (runEngine (playPad ++ repeat Frame 9)).

(** Settles a conjunction of closed equations by evaluation. *)
Ltac evaluate :=
  repeat match goal with |- _ /\ _ => split end;
  vm_compute; first [reflexivity | discriminate].

(** The step that lands the cube on the block does not always end at rest.
    With the jump input held it ends with the jump taken: [onGround] is
    cleared and the vertical velocity is [JUMP_FORCE].  Without input, a pad
    met after the block launches the cube in the same step. *)
Lemma landing_overridden_in_step :
  (reachesBlock cos_approx sin_approx atan2_approx PI_approx approachHeld
     (started approachHeld) (started approachHeld) [ startAbove ] [ blockTwo ] blockOne
   /\ landsOnTop (player (started approachHeld)) blockOne = true
   /\ p_dead (player (physicsStep approachHeld)) = false
   /\ p_y (player (physicsStep approachHeld)) == o_y blockOne * TILE_SIZE - 36
   /\ p_onGround (player (physicsStep approachHeld)) = false
   /\ p_vy (player (physicsStep approachHeld)) == JUMP_FORCE)
  /\ (reachesBlock cos_approx sin_approx atan2_approx PI_approx approachPad
        (started approachPad) (started approachPad) [ startAbove ] [ padAhead ] blockOne
      /\ landsOnTop (player (started approachPad)) blockOne = true
      /\ isInputDown approachPad = false
      /\ p_dead (player (physicsStep approachPad)) = false
      /\ p_y (player (physicsStep approachPad)) == o_y blockOne * TILE_SIZE - 36
      /\ p_onGround (player (physicsStep approachPad)) = false
      /\ p_vy (player (physicsStep approachPad)) == PAD_FORCE_YELLOW).
Proof.
  split; (split; [unfold reachesBlock, physicsRuns, hitsFullBlock |]); evaluate.
Qed.

(** Without input, and with a second block behind the first, the cube comes
    to rest on the block. *)
Lemma cube_block_landing_witness :
  reachesBlock cos_approx sin_approx atan2_approx PI_approx approach
    (started approach) (started approach) [ startAbove ] [ blockTwo ] blockOne
  /\ landsOnTop (player (started approach)) blockOne = true
  /\ isInputDown approach = false
  /\ restsOn (player (physicsStep approach)) (p_h (player (started approach))) blockOne.
Proof.
  assert (R : reachesBlock cos_approx sin_approx atan2_approx PI_approx approach
                (started approach) (started approach) [ startAbove ] [ blockTwo ] blockOne).
  { unfold reachesBlock, physicsRuns, hitsFullBlock. evaluate. }
  assert (T : landsOnTop (player (started approach)) blockOne = true)
    by (vm_compute; reflexivity).
  assert (I : isInputDown approach = false) by (vm_compute; reflexivity).
  split; [exact R |]. split; [exact T |]. split; [exact I |].
  destruct (proj1 (cube_block_landing cos_approx sin_approx atan2_approx PI_approx
                     approach (started approach) (started approach)
                     [ startAbove ] [ blockTwo ] blockOne R) T)
    as (e2 & L2 & _ & K).
  assert (E : e2 = flowEngine (loopFrom cos_approx sin_approx PI_approx approach
                                 (started approach) [ blockOne ] (started approach))).
  { rewrite L2. reflexivity. }
  apply (proj1 (K (flowEngine (loopFrom cos_approx sin_approx PI_approx approach
                                 (started approach) [ blockTwo ] e2))
                  ltac:(rewrite E; vm_compute; reflexivity)
                  ltac:(rewrite E; vm_compute; reflexivity))).
  exact I.
Defined.

(** ** Further runs: the history *)

Lemma history_walk_round_trips_witness :
  (0 < historyIndex (runEngine editingSession))%Z
  /\ document (redo (undo (runEngine editingSession))) = document (runEngine editingSession).
Proof.
  assert (I : (0 < historyIndex (runEngine editingSession))%Z) by (vm_compute; reflexivity).
  split; [exact I |].
  exact (proj1 (history_walk_round_trips cos_approx sin_approx atan2_approx PI_approx
                  800 600 editingSession) I).
Defined.

(** A block is placed and then moved by one cell; the undo takes the move
    back. *)
Lemma undo_reverts_operation_witness :
  isHistoryNav (MoveSelection 1 0) = false
  /\ resetsHistory (MoveSelection 1 0) = false
  /\ document (step cos_approx sin_approx atan2_approx PI_approx (MoveSelection 1 0)
                 (runEngine placeBlock))
     <> document (runEngine placeBlock)
  /\ document (undo (step cos_approx sin_approx atan2_approx PI_approx (MoveSelection 1 0)
                       (runEngine placeBlock)))
     = document (runEngine placeBlock).
Proof.
  assert (C : document (step cos_approx sin_approx atan2_approx PI_approx (MoveSelection 1 0)
                          (runEngine placeBlock))
              <> document (runEngine placeBlock)).
  { intros H. apply (f_equal (fun d => map o_x (fst d))) in H. vm_compute in H.
    discriminate H. }
  split; [reflexivity |]. split; [reflexivity |]. split; [exact C |].
  exact (undo_reverts_operation cos_approx sin_approx atan2_approx PI_approx 800 600
           placeBlock (MoveSelection 1 0) eq_refl eq_refl C).
Defined.

Lemma snapshot_discards_redo_witness :
  ((0 <= historyIndex (undo (runEngine editingSession))
    < Z.of_nat (List.length (history (undo (runEngine editingSession)))))%Z)
  /\ (historyIndex (undo (runEngine editingSession)) < 49)%Z
  /\ List.length (history (undo (runEngine editingSession))) = 4%nat
  /\ history (addToHistory (undo (runEngine editingSession)))
     = firstn 3 (history (undo (runEngine editingSession)))
       ++ [getCurrentState (undo (runEngine editingSession))].
Proof.
  assert (R : (0 <= historyIndex (undo (runEngine editingSession))
               < Z.of_nat (List.length (history (undo (runEngine editingSession)))))%Z)
    by (vm_compute; split; [discriminate | reflexivity]).
  assert (L : (historyIndex (undo (runEngine editingSession)) < 49)%Z)
    by (vm_compute; reflexivity).
  split; [exact R |]. split; [exact L |]. split; [vm_compute; reflexivity |].
  exact (proj2 (snapshot_discards_redo (undo (runEngine editingSession))) R L).
Defined.

Lemma replacement_clears_selection_witness :
  selectedObjects (runEngine placeBlock) = [ "a"%string ]
  /\ (0 < historyIndex (runEngine placeBlock))%Z
  /\ selectedObjects (undo (runEngine placeBlock)) = []
  /\ selectedObjects (clearLevel (runEngine placeBlock)) = [].
Proof.
  assert (I : (0 < historyIndex (runEngine placeBlock))%Z) by (vm_compute; reflexivity).
  split; [vm_compute; reflexivity |]. split; [exact I |].
  destruct (replacement_clears_selection cos_approx sin_approx atan2_approx PI_approx
              800 600 placeBlock) as (_ & C & _ & _ & U & _).
  split; [exact (U I) | exact C].
Defined.

(** ** Further runs: the selection *)

Lemma selection_stays_in_document_witness :
  deletesByPoint DeleteSelection (runEngine placeBlock) = false
  /\ (forall id, In id (selectedObjects (runEngine placeBlock)) ->
        In id (map o_id (levelData (runEngine placeBlock))))
  /\ (forall id,
        In id (selectedObjects (step cos_approx sin_approx atan2_approx PI_approx
                                  DeleteSelection (runEngine placeBlock))) ->
        In id (map o_id (levelData (step cos_approx sin_approx atan2_approx PI_approx
                                      DeleteSelection (runEngine placeBlock))))).
Proof.
  assert (V : forall id, In id (selectedObjects (runEngine placeBlock)) ->
                In id (map o_id (levelData (runEngine placeBlock)))).
  { intros id I. vm_compute in I. vm_compute. exact I. }
  split; [reflexivity |]. split; [exact V |].
  exact (selection_stays_in_document cos_approx sin_approx atan2_approx PI_approx
           DeleteSelection (runEngine placeBlock) eq_refl V).
Defined.

(** The slider of the editor set to 330 on one selected block. *)
Lemma rotation_stays_normalised_witness :
  In (mkObject "a" 2 3 BLOCK 1 (Some 360) None None)
     (levelData (rotateSelection cos_approx sin_approx PI_approx 330 false
                   (runEngine placeBlock)))
  /\ set_has (selectedObjects (runEngine placeBlock)) "a" = true
  /\ exists r,
       o_rotation (mkObject "a" 2 3 BLOCK 1 (Some 360) None None) = Some r
       /\ 0 <= r /\ r <= 360.
Proof.
  assert (I : In (mkObject "a" 2 3 BLOCK 1 (Some 360) None None)
                (levelData (rotateSelection cos_approx sin_approx PI_approx 330 false
                              (runEngine placeBlock))))
    by (vm_compute; left; reflexivity).
  assert (S : set_has (selectedObjects (runEngine placeBlock)) "a" = true)
    by (vm_compute; reflexivity).
  split; [exact I |]. split; [exact S |].
  destruct (proj1 (rotation_stays_normalised cos_approx sin_approx PI_approx 330 false
                     (runEngine placeBlock) _ I) S) as (r & E & L & U & _).
  exists r. split; [exact E | split; [exact L | exact U]].
Defined.

(** ** Further runs: clicks *)

Abbreviation spikeTool := (runEngine [ ToolSelect SPIKE 1 ]).

Lemma placement_fills_cell_once_witness :
  fst (selectedToolRef spikeTool) <> TOOL
  /\ fst (selectedToolRef spikeTool) <> DELETE
  /\ fst (selectedToolRef spikeTool) <> START_POS
  /\ occupied (handleEditorClick cos_approx sin_approx PI_approx (clickAt 1 1) false
                 "a"%string spikeTool)
       (clickedCell (clickAt 1 1) spikeTool)
  /\ handleEditorClick cos_approx sin_approx PI_approx (clickAt 1 1) true "b"%string
       (handleEditorClick cos_approx sin_approx PI_approx (clickAt 1 1) false
          "a"%string spikeTool)
     = handleEditorClick cos_approx sin_approx PI_approx (clickAt 1 1) false
         "a"%string spikeTool.
Proof.
  assert (T : fst (selectedToolRef spikeTool) <> TOOL) by (vm_compute; discriminate).
  assert (D : fst (selectedToolRef spikeTool) <> DELETE) by (vm_compute; discriminate).
  assert (S : fst (selectedToolRef spikeTool) <> START_POS) by (vm_compute; discriminate).
  split; [exact T |]. split; [exact D |]. split; [exact S |].
  destruct (placement_fills_cell_once cos_approx sin_approx PI_approx (clickAt 1 1) false
              "a"%string spikeTool T D S) as (O & K).
  split; [exact O |]. exact (K (clickAt 1 1) true "b"%string eq_refl).
Defined.

Abbreviation deleteTool := (runEngine (placeBlock ++ [ ToolSelect DELETE 1 ])).

Lemma point_delete_removes_topmost_witness :
  fst (selectedToolRef deleteTool) = DELETE
  /\ levelData deleteTool = [ mkObject "a" 2 3 BLOCK 1 (Some 0) None None ]
  /\ levelData (handleEditorClick cos_approx sin_approx PI_approx (clickAt 2 3) false
                  "x"%string deleteTool) = [].
Proof.
  assert (T : fst (selectedToolRef deleteTool) = DELETE) by (vm_compute; reflexivity).
  assert (L : levelData deleteTool = [] ++ mkObject "a" 2 3 BLOCK 1 (Some 0) None None :: [])
    by (vm_compute; reflexivity).
  split; [exact T |]. split; [exact L |].
  refine (proj1 (proj2 (point_delete_removes_topmost cos_approx sin_approx PI_approx
                          (clickAt 2 3) "x"%string deleteTool T)
                   [] _ [] L _ _)).
  - vm_compute; reflexivity.
  - intros o [].
Defined.

Abbreviation blockSelected := (runEngine placeBlock).

Lemma duplicate_appends_copies_witness :
  selectedObjects blockSelected <> []
  /\ filter (fun o => set_has (selectedObjects blockSelected) (o_id o))
       (levelData blockSelected) <> []
  /\ List.length (levelData (duplicateSelection (fun _ => "b"%string) blockSelected)) = 2%nat
  /\ nth_error (levelData (duplicateSelection (fun _ => "b"%string) blockSelected)) 1
     = Some (mkObject "b" 2 3 BLOCK 1 (Some 0) None None).
Proof.
  assert (S : selectedObjects blockSelected <> []) by (vm_compute; discriminate).
  assert (P : filter (fun o => set_has (selectedObjects blockSelected) (o_id o))
                (levelData blockSelected) <> []) by (vm_compute; discriminate).
  split; [exact S |]. split; [exact P |].
  destruct (proj1 (duplicate_appends_copies (fun _ => "b"%string) blockSelected) S P)
    as (_ & N & C & _).
  split; [exact N |].
  exact (C 0%nat (mkObject "a" 2 3 BLOCK 1 (Some 0) None None) ltac:(vm_compute; reflexivity)).
Defined.

(** ** Further runs: colours *)

Lemma hex_channel_round_trip_witness :
  (0 <= 10 <= 255)%Z
  /\ parseInt16 (padStart2 (toString16 10)) = Some (inject_Z 10)
  /\ String.length (padStart2 (toString16 10)) = 2%nat.
Proof. split; [lia | apply (hex_channel_round_trip 10); lia]. Defined.

(** Half way from the default top colour of the background to red. *)
Lemma interpolateColor_by_channel_witness :
  ((0 <= 0 <= 255) /\ (0 <= 78 <= 255) /\ (0 <= 146 <= 255)
   /\ (0 <= 255 <= 255) /\ (0 <= 0 <= 255) /\ (0 <= 0 <= 255))%Z
  /\ 0 <= 0.5 /\ 0.5 <= 1
  /\ interpolateColor (Some (rgb 0 78 146)) (Some (rgb 255 0 0)) 0.5
     = Some (rgb (mix 0 255 0.5) (mix 78 0 0.5) (mix 146 0 0.5))
  /\ (Z.min 0 255 <= mix 0 255 0.5 <= Z.max 0 255)%Z.
Proof.
  split; [lia |]. split; [lra |]. split; [lra |].
  destruct (interpolateColor_by_channel 0 78 146 255 0 0 0.5
              ltac:(lia) ltac:(lia) ltac:(lia) ltac:(lia) ltac:(lia) ltac:(lia))
    as (E & _ & _ & B).
  split; [exact E |]. exact (proj1 (B ltac:(lra) ltac:(lra))).
Defined.

(** ** Further runs: the physics *)

(** The same playtest nine frames in, without input and with the space bar
    held. *)
Lemma horizontal_motion_independent_witness :
  physicsRuns approach /\ physicsRuns approachHeld
  /\ p_x (player approach) == p_x (player approachHeld)
  /\ p_x (player (physicsStep approach)) == p_x (player (physicsStep approachHeld))
  /\ p_x (player approach) <= p_x (player (physicsStep approach)).
Proof.
  assert (R1 : physicsRuns approach) by (unfold physicsRuns; evaluate).
  assert (R2 : physicsRuns approachHeld) by (unfold physicsRuns; evaluate).
  assert (E : p_x (player approach) == p_x (player approachHeld))
    by (vm_compute; reflexivity).
  split; [exact R1 |]. split; [exact R2 |]. split; [exact E |].
  exact (horizontal_motion_independent cos_approx sin_approx atan2_approx PI_approx
           approach approachHeld R1 R2 E).
Defined.

(** The pad over the first block, met by the falling cube. *)
Abbreviation meetPad e :=
  (collideObject cos_approx sin_approx PI_approx false false
     (p_x (player (started approachPad)) + p_w (player (started approachPad)))
     (p_x (player (started approachPad)) + p_w (player (started approachPad)) / 2)
     e padAhead).

Lemma objects_act_once_witness :
  o_type padAhead <> BLOCK
  /\ meetPad (started approachPad) = Continue (flowEngine (meetPad (started approachPad)))
  /\ usedObjectIds (flowEngine (meetPad (started approachPad))) = [ "p"%string ]
  /\ meetPad (flowEngine (meetPad (started approachPad)))
     = Continue (flowEngine (meetPad (started approachPad))).
Proof.
  assert (T : o_type padAhead <> BLOCK) by (vm_compute; discriminate).
  assert (C : meetPad (started approachPad)
              = Continue (flowEngine (meetPad (started approachPad))))
    by (vm_compute; reflexivity).
  split; [exact T |]. split; [exact C |]. split; [vm_compute; reflexivity |].
  exact (objects_act_once cos_approx sin_approx PI_approx false false _ _ _ _ padAhead T C).
Defined.

(** ** Further runs: resets, modes and the camera *)

Lemma reset_spawns_at_origin_witness :
  (true = true \/ (forall o, In o (levelData sameColumn) -> ~ enabledStartPos o))
  /\ levelData sameColumn = [ startPosA; startPosC ]
  /\ p_x (player (resetPlayer true sameColumn)) = 0
  /\ p_y (player (resetPlayer true sameColumn)) = 11 * TILE_SIZE.
Proof.
  split; [left; reflexivity |]. split; [vm_compute; reflexivity |].
  pose proof (reset_spawns_at_origin true sameColumn (or_introl eq_refl)) as R.
  split; [exact (f_equal p_x R) | exact (f_equal p_y R)].
Defined.

Lemma frames_outside_play_witness :
  modeRef blockSelected <> PLAYTEST /\ modeRef blockSelected <> VERIFY
  /\ runState (update cos_approx sin_approx atan2_approx PI_approx blockSelected)
     = runState blockSelected.
Proof.
  assert (P : modeRef blockSelected <> PLAYTEST) by (vm_compute; discriminate).
  assert (V : modeRef blockSelected <> VERIFY) by (vm_compute; discriminate).
  split; [exact P |]. split; [exact V |].
  exact (proj1 (frames_outside_play cos_approx sin_approx atan2_approx PI_approx
                  blockSelected) P V).
Defined.

Lemma pause_and_resume_witness :
  modeRef approach = PLAYTEST
  /\ runState (handleModeChange PLAYTEST (handleModeChange PAUSED approach))
     = runState approach
  /\ modeRef (handleModeChange PLAYTEST (handleModeChange PAUSED approach)) = PLAYTEST.
Proof.
  assert (M : modeRef approach = PLAYTEST) by (vm_compute; reflexivity).
  split; [exact M |].
  destruct (proj1 (pause_and_resume approach) M) as (R & _ & _ & P).
  split; [exact R | exact P].
Defined.

Lemma death_and_its_callback_witness :
  p_dead (player approach) = false
  /\ modeRef approach = PLAYTEST
  /\ document (deathTimeout (die approach)) = document approach
  /\ modeRef (deathTimeout (die approach)) = EDITOR
  /\ deathMarkers (deathTimeout (die approach))
     = deathMarkers approach ++ [ playerCentre (player approach) ].
Proof.
  assert (A : p_dead (player approach) = false) by (vm_compute; reflexivity).
  assert (M : modeRef approach = PLAYTEST) by (vm_compute; reflexivity).
  split; [exact A |]. split; [exact M |].
  destruct (death_and_its_callback approach A) as (D & P & _).
  split; [exact D |]. destruct (P M) as (E & _ & K). split; [exact E | exact K].
Defined.

Lemma wheel_zoom_is_clamped_witness :
  inEditorOrPaused (modeRef blockSelected) = true
  /\ 0 <= 100 /\ 0.5 <= cam_zoom (camera blockSelected)
  /\ cam_zoom (camera (onWheel 100 blockSelected)) <= cam_zoom (camera blockSelected)
  /\ 0.5 <= cam_zoom (camera (onWheel 100 blockSelected)).
Proof.
  assert (M : inEditorOrPaused (modeRef blockSelected) = true) by (vm_compute; reflexivity).
  assert (Z : 0.5 <= cam_zoom (camera blockSelected)) by (vm_compute; discriminate).
  split; [exact M |]. split; [lra |]. split; [exact Z |].
  destruct (proj1 (wheel_zoom_is_clamped 100 blockSelected) M) as (L & _ & D & _).
  split; [apply D; [lra | exact Z] | exact L].
Defined.

(** ** Further runs: import and export *)

Abbreviation padLevel := (runEngine [ SetLevel (InArray [startAbove; blockOne; padAhead]) false ]).

Lemma import_is_sanitised_witness :
  Forall importClean [startAbove; blockOne; padAhead]
  /\ levelData (handleImport (ImpArray [startAbove; blockOne; padAhead]) blockSelected)
     = [startAbove; blockOne; padAhead].
Proof.
  assert (C : Forall importClean [startAbove; blockOne; padAhead]).
  { repeat constructor; try discriminate; try (intros _; vm_compute; discriminate).
    intros _. exists 0%Z. reflexivity. }
  split; [exact C |].
  exact (proj1 (proj2 (import_is_sanitised (ImpArray [startAbove; blockOne; padAhead])
                         blockSelected)) C).
Defined.

Lemma export_import_round_trip_witness :
  Forall importClean (levelData padLevel)
  /\ completeSettings (levelSettings padLevel)
  /\ document (handleImport (exportedLevel padLevel) blockSelected) = document padLevel.
Proof.
  assert (C : Forall importClean (levelData padLevel)).
  { change (levelData padLevel) with [startAbove; blockOne; padAhead].
    repeat constructor; try discriminate; try (intros _; vm_compute; discriminate).
    intros _. exists 0%Z. reflexivity. }
  assert (S : completeSettings (levelSettings padLevel)).
  { unfold completeSettings. vm_compute. repeat split; discriminate. }
  split; [exact C |]. split; [exact S |].
  exact (export_import_round_trip padLevel blockSelected C S).
Defined.

(** ** Further runs: playing, loading and finishing *)

(** A click in the middle of a playtest. *)
Lemma play_keeps_document_witness :
  editorCall (MouseDown (clickAt 1 1) "z"%string) = false
  /\ inEditorOrPaused (modeRef approach) = false
  /\ document (step cos_approx sin_approx atan2_approx PI_approx
                 (MouseDown (clickAt 1 1) "z"%string) approach)
     = document approach.
Proof.
  assert (M : inEditorOrPaused (modeRef approach) = false) by (vm_compute; reflexivity).
  split; [reflexivity |]. split; [exact M |].
  exact (proj1 (play_keeps_document cos_approx sin_approx atan2_approx PI_approx
                  (MouseDown (clickAt 1 1) "z"%string) approach eq_refl (fun _ => M))).
Defined.

(** A verify run of the empty level in a window of 400 by 300, 126 frames
    in: the player has just passed the finish wall at x = 800. *)
Abbreviation pastWall := (runEngine (Resize 400 300 :: ModeChange VERIFY :: repeat Frame 126)).

Lemma verify_run_completes_witness :
  modeRef pastWall = VERIFY
  /\ p_dead (player pastWall) = false
  /\ p_finished (player pastWall) = false
  /\ finishWallX pastWall < p_x (player pastWall)
  /\ 1 <= shrunkWidth (p_w (player pastWall)) 34
  /\ shrunkWidth (p_w (player pastWall)) 35 < 1
  /\ modeRef (physicsFrames cos_approx sin_approx atan2_approx PI_approx 35 pastWall) = VERIFY
  /\ modeRef (physicsFrames cos_approx sin_approx atan2_approx PI_approx 36 pastWall)
     = COMPLETE.
Proof.
  assert (M : modeRef pastWall = VERIFY) by (vm_compute; reflexivity).
  assert (D : p_dead (player pastWall) = false) by (vm_compute; reflexivity).
  assert (F : p_finished (player pastWall) = false) by (vm_compute; reflexivity).
  assert (W : finishWallX pastWall < p_x (player pastWall)) by (vm_compute; reflexivity).
  assert (P : p_w (player pastWall) = 36) by (vm_compute; reflexivity).
  assert (L : 1 <= shrunkWidth (p_w (player pastWall)) 34)
    by (rewrite P; vm_compute; discriminate).
  assert (H : shrunkWidth (p_w (player pastWall)) 35 < 1)
    by (rewrite P; vm_compute; reflexivity).
  split; [exact M |]. split; [exact D |]. split; [exact F |]. split; [exact W |].
  split; [exact L |]. split; [exact H |].
  destruct (verify_run_completes cos_approx sin_approx atan2_approx PI_approx 34 pastWall
              M D F W L H) as (K & _ & C).
  split; [exact (proj1 (K 35%nat (le_n 35))) | exact C].
Defined.

(** ** Further runs: the selection box and the data of the selection *)

(** Two blocks, the select tool, and a press at the corner of the view. *)
Abbreviation boxOpen :=
  (runEngine [ SetLevel (InArray [ blockOne; blockTwo ]) false; ToolSelect TOOL 1;
               MouseDown boxFrom "x"%string ]).

Lemma box_selection_witness :
  fst (selectedToolRef boxOpen) = TOOL
  /\ boxSelectStart boxOpen = Some (mkPoint (0 # 12) (0 # 12))
  /\ ~ isClick (mkPoint (0 # 12) (0 # 12)) (worldPoint boxTo boxOpen)
  /\ (In "b1"%string (selectedObjects (handleEditorClick cos_approx sin_approx PI_approx
                                         boxTo true "x"%string boxOpen))
      <-> In "b1"%string (if shiftKey boxTo then selectedObjects boxOpen else [])
          \/ exists o, In o (levelData boxOpen) /\ o_id o = "b1"%string
                       /\ centreInBox (mkPoint (0 # 12) (0 # 12)) (worldPoint boxTo boxOpen) o).
Proof.
  assert (T : fst (selectedToolRef boxOpen) = TOOL) by (vm_compute; reflexivity).
  assert (B : boxSelectStart boxOpen = Some (mkPoint (0 # 12) (0 # 12))) by (vm_compute; reflexivity).
  assert (N : ~ isClick (mkPoint (0 # 12) (0 # 12)) (worldPoint boxTo boxOpen)).
  { intros (C & _). vm_compute in C. discriminate C. }
  split; [exact T |]. split; [exact B |]. split; [exact N |].
  destruct (box_selection cos_approx sin_approx PI_approx boxTo true "x"%string boxOpen
              (mkPoint (0 # 12) (0 # 12)) T B) as (_ & _ & _ & S & _).
  exact (S N "b1"%string).
Defined.

Abbreviation triggerPlaced :=
  (runEngine [ ToolSelect TRIGGER 1;
               MouseDown (clickAt 0 10) "t"%string; MouseUp (clickAt 0 10) "t"%string ]).

Lemma selected_object_gets_data_witness :
  levelData triggerPlaced
  = [] ++ mkObject "t" 0 10 TRIGGER 1 (Some 0) (Some defaultTriggerData) None :: []
  /\ firstSelected triggerPlaced = Some "t"%string
  /\ map o_triggerData
       (levelData (updateSelectedTrigger
                     {| td_target := None; td_color := None; td_duration := Some 2;
                        td_touchTrigger := None |} triggerPlaced))
     = [ Some {| td_target := Some T_bgColorTop; td_color := Some "#ff0000"%string;
                 td_duration := Some 2; td_touchTrigger := Some false |} ].
Proof.
  assert (L : levelData triggerPlaced
              = [] ++ mkObject "t" 0 10 TRIGGER 1 (Some 0) (Some defaultTriggerData) None :: [])
    by (vm_compute; reflexivity).
  assert (F : firstSelected triggerPlaced = Some "t"%string) by (vm_compute; reflexivity).
  split; [exact L |]. split; [exact F |].
  destruct (proj2 (selected_object_gets_data
                     {| td_target := None; td_color := None; td_duration := Some 2;
                        td_touchTrigger := None |}
                     {| sp_mode := None; sp_reverseGravity := None; sp_enabled := None |}
                     triggerPlaced)
              [] _ [] L F ltac:(intros o []))
    as (D & _).
  cbv zeta in D. rewrite D. reflexivity.
Defined.

(** ** Further runs: gravity *)

